(** * EINSim post-processing scripts: a shallow embedding and its properties

    The development follows the Python sources of the repository:

    - [script/utils/utils.py]  (module [Utils] below): the line parser with
      named metadata keys, the run identity, [combine_observation],
      [combine_runs], [get_output_string] and the streaming reducer
      [parse_files_incremental];
    - [script/utils.py]        (module [Legacy]): the positional line parser,
      [parse_all_files] and the older [parse_files_incremental];
    - [script/ein/ein.py]      (module [Ein]): the likelihood [callback] and its
      bounded set of best models.

    Python values are embedded as follows.  Integers are [Z], text is
    [string] (one [ascii] per character), a dictionary keyed by integers or
    by text is a [gmap], an exception is a constructor of [exn] and a
    function that may raise returns a [res].  A name that is read while it
    is not bound is the exception Python raises for it, so that a function is
    translated statement by statement, including the statements that fail.
    Text written to standard output is not part of the model, except for
    the per-file warning of the streaming reducer.  A quotient of two
    integers computed in floating point is kept as the exact rational that
    Python rounds.

    Text is ASCII text, one [ascii] per character: [PyStr.int] reads the
    ASCII digits, signs and white space that [int] accepts and refuses every
    other character (the digits and spaces of other scripts, which [int]
    accepts in decoded text, are outside the model).  CPython 3.11 limits
    the text of an integer to 4300 digits.  In [get_output_string] of
    [script/utils/utils.py], which writes the combined counters, the limit
    is part of the translation ([PyStr.str]).  Elsewhere the translation
    uses the decimal text [PyStr.str_int], which is what [str] returns for
    an integer within the limit; a statement that says [combine_runs]
    builds the identities of a record assumes that the integers of the
    metadata are within the limit ([LimitSpec.identity_within_limit]). *)

From Stdlib Require Import ZArith QArith String Ascii List Lia Sorted.
From Stdlib Require Import DecimalString DecimalZ DecimalFacts DecimalPos.
From stdpp Require Import gmap strings list fin_maps.

Local Open Scope string_scope.
Local Open Scope Z_scope.

(** ** Exceptions and results *)

Inductive exn : Type :=
| AssertionError (msg : string)
| NameError (name : string)
| UnboundLocalError (name : string)
| TypeError
| ValueError
| KeyError
| IndexError
| ZeroDivisionError
| OverflowError
| JSONDecodeError
| KeyboardInterrupt.

Inductive res (A : Type) : Type :=
| Ok (a : A)
| Raise (e : exn).
Arguments Ok {A} a.
Arguments Raise {A} e.

Definition bind {A B : Type} (m : res A) (k : A -> res B) : res B :=
  match m with
  | Ok a => k a
  | Raise e => Raise e
  end.

Notation "x <- m ;; k" := (bind m (fun x => k))
  (at level 100, m at next level, right associativity).
Notation "m ;;; k" := (bind m (fun _ => k))
  (at level 100, right associativity).

(** [assert cond, msg] *)
Definition py_assert (cond : bool) (msg : string) : res unit :=
  if cond then Ok tt else Raise (AssertionError msg).

(** Iteration of a loop body that may raise, in list order. *)
Fixpoint foldM {A S : Type} (body : S -> A -> res S) (s : S) (l : list A) : res S :=
  match l with
  | [] => Ok s
  | a :: l' => s' <- body s a ;; foldM body s' l'
  end.

Fixpoint mapM {A B : Type} (f : A -> res B) (l : list A) : res (list B) :=
  match l with
  | [] => Ok []
  | a :: l' => b <- f a ;; bs <- mapM f l' ;; Ok (b :: bs)
  end.

Definition is_ok {A : Type} (m : res A) : bool :=
  match m with Ok _ => true | Raise _ => false end.

Definition some {A : Type} (m : res A) : res (option A) :=
  a <- m ;; Ok (Some a).

(** ** Python text operations *)

Module PyStr.

(** [s[:n]] and [s[n:]] for a non-negative literal [n]. *)
Fixpoint take (n : nat) (s : string) : string :=
  match n, s with
  | S n', String c s' => String c (take n' s')
  | _, _ => ""
  end.

Fixpoint drop (n : nat) (s : string) : string :=
  match n, s with
  | S n', String _ s' => drop n' s'
  | _, _ => s
  end.

(** [s[:-1]] *)
Fixpoint drop_last (s : string) : string :=
  match s with
  | String c (String _ _ as s') => String c (drop_last s')
  | _ => ""
  end.

(** [s.startswith(p)] *)
Fixpoint startswith (p s : string) : bool :=
  match p, s with
  | "", _ => true
  | String a p', String b s' => Ascii.eqb a b && startswith p' s'
  | _, _ => false
  end.

(** [p in s] for text [p] *)
Fixpoint contains (p s : string) : bool :=
  startswith p s ||
  match s with
  | "" => false
  | String _ s' => contains p s'
  end.

(** [c in s] for a one-character text [c] *)
Fixpoint has_char (c : ascii) (s : string) : bool :=
  match s with
  | "" => false
  | String a s' => Ascii.eqb a c || has_char c s'
  end.

(** [s.split(sep)] for a one-character separator: every occurrence splits,
    empty pieces are kept, the result is never empty. *)
Fixpoint split (sep : ascii) (s : string) : list string :=
  match s with
  | "" => [""]
  | String c s' =>
      if Ascii.eqb c sep then "" :: split sep s'
      else match split sep s' with
           | p :: ps => String c p :: ps
           | [] => [String c ""]
           end
  end.

(** [s.split(sep, 1)]: only the first occurrence splits. *)
Fixpoint split1 (sep : ascii) (s : string) : list string :=
  match s with
  | "" => [""]
  | String c s' =>
      if Ascii.eqb c sep then [""; s']
      else match split1 sep s' with
           | p :: ps => String c p :: ps
           | [] => [String c ""]
           end
  end.

(** [sep.join(l)] *)
Fixpoint join (sep : string) (l : list string) : string :=
  match l with
  | [] => ""
  | [s] => s
  | s :: l' => s ++ sep ++ join sep l'
  end.

(** The characters [str.isspace] accepts below 128: tab, line feed, vertical
    tab, form feed, carriage return, the four separators 28..31 and space. *)
Definition isspace (c : ascii) : bool :=
  let n := nat_of_ascii c in
  ((9 <=? n)%nat && (n <=? 13)%nat) || ((28 <=? n)%nat && (n <=? 32)%nat).

Fixpoint lstrip (s : string) : string :=
  match s with
  | String c s' => if isspace c then lstrip s' else s
  | "" => ""
  end.

Definition rstrip (s : string) : string := String.rev (lstrip (String.rev s)).

(** [s.strip()] *)
Definition strip (s : string) : string := rstrip (lstrip s).

(** The decimal text of an integer: what [str(z)] returns when it returns. *)
Definition str_int (z : Z) : string := NilZero.string_of_int (Z.to_int z).

(** CPython, since 3.11, by default refuses to convert an integer of more
    than 4300 decimal digits to text ([sys.get_int_max_str_digits()]; the
    sign does not count): [str(z)] then raises [ValueError]. *)
Definition max_str_digits : Z := 4300.

Definition within_limit (z : Z) : bool := Z.abs z <? 10 ^ max_str_digits.

(** [str(z)] for an integer, under that setting. *)
Definition str (z : Z) : res string :=
  if within_limit z then Ok (str_int z) else Raise ValueError.

Definition isdigit (c : ascii) : bool :=
  let n := nat_of_ascii c in (48 <=? n)%nat && (n <=? 57)%nat.

(** The digits of an integer literal: a non-empty run of decimal digits in
    which single underscores may separate digits.  [prev] tells whether the
    previous character was a digit. *)
Fixpoint digits_ok (prev : bool) (s : string) : bool :=
  match s with
  | "" => prev
  | String c s' =>
      if isdigit c then digits_ok true s'
      else if Ascii.eqb c "_" then prev && digits_ok false s'
      else false
  end.

Fixpoint remove_underscores (s : string) : string :=
  match s with
  | "" => ""
  | String c s' =>
      if Ascii.eqb c "_" then remove_underscores s' else String c (remove_underscores s')
  end.

Definition int_digits (s : string) : res Z :=
  if digits_ok false s then
    match NilEmpty.uint_of_string (remove_underscores s) with
    | Some u => Ok (Z.of_uint u)
    | None => Raise ValueError
    end
  else Raise ValueError.

(** The white space [int] skips around a number: tab, line feed, vertical
    tab, form feed, carriage return and space.  The separators 28..31, which
    [str.strip] removes, are not among them. *)
Definition isspace_int (c : ascii) : bool :=
  let n := nat_of_ascii c in
  ((9 <=? n)%nat && (n <=? 13)%nat) || (n =? 32)%nat.

Fixpoint lstrip_int (s : string) : string :=
  match s with
  | String c s' => if isspace_int c then lstrip_int s' else s
  | "" => ""
  end.

Definition strip_int (s : string) : string :=
  String.rev (lstrip_int (String.rev (lstrip_int s))).

(** [int(s)] in base ten: surrounding white space, an optional sign, digits.
    The number may have any length: the limit of [max_str_digits] digits,
    which CPython 3.11 also applies to the text [int] reads, is not part of
    this definition. *)
Definition int (s : string) : res Z :=
  match strip_int s with
  | String "+" ds => int_digits ds
  | String "-" ds => z <- int_digits ds ;; Ok (- z)
  | ds => int_digits ds
  end.

End PyStr.

(** A metadata value that is either an integer or text: the text fields of a
    run hold the integer [-1] when the key is absent from the line. *)
Inductive pyval : Type :=
| VInt (z : Z)
| VStr (s : string).

Global Instance pyval_eq_dec : EqDecision pyval.
Proof. solve_decision. Defined.

(** [str(v)] *)
Definition py_str (v : pyval) : string :=
  match v with
  | VInt z => PyStr.str_int z
  | VStr s => s
  end.

(** [a + b] on these values: integers add, texts concatenate, a text and an
    integer raise [TypeError]. *)
Definition py_add (a b : pyval) : res pyval :=
  match a, b with
  | VInt x, VInt y => Ok (VInt (x + y))
  | VStr s, VStr t => Ok (VStr (s ++ t))
  | _, _ => Raise TypeError
  end.

(** [x in l] for a list of texts *)
Definition str_in (x : string) (l : list string) : bool :=
  existsb (String.eqb x) l.

(** ** Histograms of the number of errors per burst

    The loop that folds the triples [n_errs:re_count:ue_count] into the raw,
    repair-event and uncorrectable-event histograms, and the two rates
    computed from them, are written with the same text in
    [parse_einsim_output_line] and [combine_observation] of
    [script/utils/utils.py] and in [parse_all_files] and
    [parse_files_incremental] of [script/utils.py].  The text reads the names
    [bcl], [bl] and [ps]; what reading them gives depends on the function the
    text stands in, so the embedding takes the outcome of each read as an
    argument. *)

Module Hist.

Record hists : Type := mk_hists {
  raw_histogram : gmap Z (Z * Z);
  re_histogram : gmap Z Z;
  ue_histogram : gmap Z Z
}.

Definition empty : hists := mk_hists ∅ ∅ ∅.

(** [if n not in h: h[n] = [0, 0]] then [h[n][0] += re; h[n][1] += ue] *)
Definition add_raw (h : gmap Z (Z * Z)) (n re ue : Z) : gmap Z (Z * Z) :=
  let cur := default (0, 0) (h !! n) in
  <[n := (fst cur + re, snd cur + ue)]> h.

(** [if n not in h: h[n] = 0] then [h[n] += c] *)
Definition add_count (h : gmap Z Z) (n c : Z) : gmap Z Z :=
  <[n := default 0 (h !! n) + c]> h.

Definition msg_bcl : string :=
  "Cannot have more errors in a burst_codeword than there are bits".
Definition msg_bl : string :=
  "Cannot have more errors in a burst than there are bits".

(** The body of [for n_errs, re_count, ue_count in ...]. *)
Definition accumulate (bcl bl : res Z) (h : hists) (t : Z * Z * Z) : res hists :=
  let n_errs := fst (fst t) in
  let re_count := snd (fst t) in
  let ue_count := snd t in
  let raw := add_raw (raw_histogram h) n_errs re_count ue_count in
  re <- (if 0 <? re_count then
           b <- bcl ;;
           py_assert (n_errs <=? b) msg_bcl ;;;
           Ok (add_count (re_histogram h) n_errs re_count)
         else Ok (re_histogram h)) ;;
  ue <- (if 0 <? ue_count then
           b <- bl ;;
           py_assert (n_errs <=? b) msg_bl ;;;
           Ok (add_count (ue_histogram h) n_errs ue_count)
         else Ok (ue_histogram h)) ;;
  Ok (mk_hists raw re ue).

(** [sum([n_errs * count for n_errs, count in h.items()])] *)
Definition weighted_sum (h : gmap Z Z) : Z :=
  map_fold (fun n c acc => n * c + acc) 0 h.

(** [sum(h.values())] *)
Definition total (h : gmap Z Z) : Z :=
  map_fold (fun _ c acc => c + acc) 0 h.

(** [float(z)]: an integer that rounds beyond the largest double raises. *)
Definition float_of_int (z : Z) : res Q :=
  if Z.abs z <? 2 ^ 1024 - 2 ^ 970 then Ok (inject_Z z) else Raise OverflowError.

(** [num / den] for an integer [num] and a float [den] *)
Definition truediv (num : Z) (den : Q) : res Q :=
  n <- float_of_int num ;;
  if Qeq_bool den 0 then Raise ZeroDivisionError else Ok (n / den)%Q.

(** [rber_calculated]: guarded by [if re_histogram:], sentinel [-1.0]. *)
Definition rber_calculated (bcl ps : res Z) (re : gmap Z Z) : res Q :=
  if bool_decide (re = ∅) then Ok (inject_Z (-1))
  else
    let num := weighted_sum re in
    b <- bcl ;;
    p <- ps ;;
    den <- float_of_int ((b - p) * total re) ;;
    truediv num den.

(** [uber_calculated]: no guard. *)
Definition uber_calculated (bl : res Z) (ue : gmap Z Z) : res Q :=
  let num := weighted_sum ue in
  b <- bl ;;
  den <- float_of_int (b * total ue) ;;
  truediv num den.

(** One lazily converted entry [map(int, entry.split(':'))], unpacked into
    three names: every piece is converted, and there must be three. *)
Definition unpack_triple (pieces : list string) : res (Z * Z * Z) :=
  zs <- mapM PyStr.int pieces ;;
  match zs with
  | [a; b; c] => Ok (a, b, c)
  | _ => Raise ValueError
  end.

(** [[map(int, entry.split(':')) for entry in raw_data.split(' ') if ':' in entry]] *)
Definition lazy_entries (raw_data : string) : list (list string) :=
  map (PyStr.split ":") (filter (fun e => PyStr.has_char ":" e = true) (PyStr.split " " raw_data)).

End Hist.

(** ** [script/utils/utils.py] *)

(** [json.loads] belongs to the Python library: the decoded type and the
    decoder are an interface. *)
Class PyJson : Type := {
  json : Type;
  json_loads : string -> option json
}.

Module Utils.

Definition OBS_N_ERRORS_PER_BURST : string := "N_ERRORS_PER_BURST".
Definition OBS_PER_BIT_ERROR_COUNT : string := "PER_BIT_ERROR_COUNT".
Definition OBSERVABLES : list string :=
  [OBS_N_ERRORS_PER_BURST; OBS_PER_BIT_ERROR_COUNT].

(** The indices of the metadata list. *)
Definition MI_UID : Z := 0.
Definition MI_NW : Z := 1.
Definition MI_BL : Z := 2.
Definition MI_BCL : Z := 3.
Definition MI_PS : Z := 4.
Definition MI_EM : Z := 5.
Definition MI_CD : Z := 6.
Definition MI_DP : Z := 7.
Definition MI_CDP : Z := 8.
Definition MI_OBS : Z := 9.
Definition MI_MAX : Z := 10.

(** The ten-element metadata list.  The first five elements are integers
    ([int(...)] or [-1]); the last five are the text of the line or the
    integer [-1]. *)
Record metadata : Type := mk_metadata {
  md_uid : Z;
  md_nw : Z;
  md_bl : Z;
  md_bcl : Z;
  md_ps : Z;
  md_em : pyval;
  md_cd : pyval;
  md_dp : pyval;
  md_cdp : pyval;
  md_obs : pyval
}.

(** The value stored under one observable. *)
Inductive observation : Type :=
| ObsNErrors (rber uber : Q) (re_data ue_data : gmap Z Z) (raw_data : gmap Z (Z * Z))
| ObsPerBit (hist_databurst hist_codeburst : list Z).

(** The dictionary built for a parsed line and for a combined run. *)
Record run : Type := mk_run {
  run_metadata : metadata;
  experiment_id : option Z;
  uid : string;
  uid_ignoring_fields : string;
  observations : gmap string observation
}.

(** [run_uid += ' key:' + str(v) if 'key' not in fields_to_combine else ' key:-1'] *)
Definition uid_part (key : string) (v : string) (fields_to_combine : list string) : string :=
  if negb (str_in key fields_to_combine) then " " ++ key ++ ":" ++ v
  else " " ++ key ++ ":-1".

Definition run_uid_from_metadata_ignoring_fields
    (m : metadata) (fields_to_combine : list string) : string :=
  let run_uid := "[DATA]" in
  let run_uid := run_uid ++ uid_part "uid" (PyStr.str_int (md_uid m)) fields_to_combine in
  let run_uid := run_uid ++ uid_part "nw" (PyStr.str_int (md_nw m)) fields_to_combine in
  let run_uid := run_uid ++ uid_part "bl" (PyStr.str_int (md_bl m)) fields_to_combine in
  let run_uid := run_uid ++ uid_part "bcl" (PyStr.str_int (md_bcl m)) fields_to_combine in
  let run_uid := run_uid ++ uid_part "ps" (PyStr.str_int (md_ps m)) fields_to_combine in
  let run_uid := run_uid ++ uid_part "em" (py_str (md_em m)) fields_to_combine in
  let run_uid := run_uid ++ uid_part "cd" (py_str (md_cd m)) fields_to_combine in
  let run_uid := run_uid ++ uid_part "dp" (py_str (md_dp m)) fields_to_combine in
  let run_uid := run_uid ++ uid_part "cdp" (py_str (md_cdp m)) fields_to_combine in
  let run_uid := run_uid ++ uid_part "obs" (py_str (md_obs m)) fields_to_combine in
  run_uid.

Definition run_uid_from_metadata (m : metadata) : string :=
  run_uid_from_metadata_ignoring_fields m [].

(** [dict(pairs)]: every element must have two items; a later key wins. *)
Definition py_dict (pairs : list (list string)) : res (gmap string string) :=
  foldM (fun d kv =>
           match kv with
           | [k; v] => Ok (<[k := v]> d)
           | _ => Raise ValueError
           end) ∅ pairs.

(** [-1 if key not in d else int(d[key])] *)
Definition meta_int (d : gmap string string) (key : string) : res Z :=
  match d !! key with
  | None => Ok (-1)
  | Some v => PyStr.int v
  end.

(** [-1 if key not in d else d[key]] *)
Definition meta_str (d : gmap string string) (key : string) : pyval :=
  match d !! key with
  | None => VInt (-1)
  | Some v => VStr v
  end.

(** Reading [experiment_id] inside [parse_einsim_output_line]: the function
    assigns the name ([experiment_id += 1]) and declares it neither [global]
    nor [nonlocal], so the name is local and is read before it is bound. *)
Definition read_experiment_id : res Z := Raise (UnboundLocalError "experiment_id").

(** Reading [bcl], [bl] or [ps] inside [parse_einsim_output_line] and
    [combine_observation]: neither function nor the module binds them. *)
Definition read_bcl : res Z := Raise (NameError "bcl").
Definition read_bl : res Z := Raise (NameError "bl").
Definition read_ps : res Z := Raise (NameError "ps").

Definition parse_n_errors_per_burst (raw_data : string) : res observation :=
  let data := Hist.lazy_entries raw_data in
  h <- foldM (fun h entry => t <- Hist.unpack_triple entry ;; Hist.accumulate read_bcl read_bl h t)
             Hist.empty data ;;
  rber_calculated <- Hist.rber_calculated read_bcl read_ps (Hist.re_histogram h) ;;
  uber_calculated <- Hist.uber_calculated read_bl (Hist.ue_histogram h) ;;
  Ok (ObsNErrors rber_calculated uber_calculated
        (Hist.re_histogram h) (Hist.ue_histogram h) (Hist.raw_histogram h)).

(** [[int(i) for i in s.split(' ') if i]] *)
Definition int_list (s : string) : res (list Z) :=
  mapM PyStr.int (filter (fun i => i <> "") (PyStr.split " " s)).

Definition parse_per_bit_error_count (raw_data : string) : res observation :=
  match PyStr.split ":" raw_data with
  | [raw_pre; raw_post] =>
      bit_hist_databurst <- int_list raw_pre ;;
      bit_hist_codeburst <- int_list (PyStr.drop_last raw_post) ;;
      Ok (ObsPerBit bit_hist_databurst bit_hist_codeburst)
  | _ => Raise ValueError
  end.

Definition parse_einsim_output_line
    (line : string) (fields_to_combine : list string) (is_experimental : bool)
  : res (option run) :=
  if (6 <? String.length line)%nat
     && String.eqb (PyStr.take 6 line) "[DATA]"
     && PyStr.contains "[DATA]" line
  then
    match PyStr.split "[" (PyStr.strip (PyStr.drop 7 line)) with
    | [meta; raw_data] =>
        let meta_split := PyStr.split " " meta in
        metadata_extracted <- py_dict (map (PyStr.split1 ":") (removelast meta_split)) ;;
        m_uid <- meta_int metadata_extracted "uid" ;;
        m_nw <- meta_int metadata_extracted "nw" ;;
        m_bl <- meta_int metadata_extracted "bl" ;;
        m_bcl <- meta_int metadata_extracted "bcl" ;;
        m_ps <- meta_int metadata_extracted "ps" ;;
        let metadata :=
          mk_metadata m_uid m_nw m_bl m_bcl m_ps
            (meta_str metadata_extracted "em") (meta_str metadata_extracted "cd")
            (meta_str metadata_extracted "dp") (meta_str metadata_extracted "cdp")
            (meta_str metadata_extracted "obs") in
        match metadata_extracted !! "obs" with
        | None => Raise (AssertionError "No observational data for run")
        | Some obs =>
            let run_uid := run_uid_from_metadata metadata in
            let run_uid_ignoring_fields :=
              run_uid_from_metadata_ignoring_fields metadata fields_to_combine in
            ids <- (if is_experimental then
                      cur_experiment_id <- read_experiment_id ;;
                      Ok (Some cur_experiment_id,
                          run_uid ++ "_experiment_" ++ PyStr.str_int cur_experiment_id,
                          run_uid_ignoring_fields ++ "_experiment_"
                            ++ PyStr.str_int cur_experiment_id)
                    else Ok (None, run_uid, run_uid_ignoring_fields)) ;;
            let cur_experiment_id := fst (fst ids) in
            let run_uid := snd (fst ids) in
            let run_uid_ignoring_fields := snd ids in
            if negb (str_in obs OBSERVABLES) then Ok None
            else
              let parsed o :=
                mk_run metadata cur_experiment_id run_uid run_uid_ignoring_fields
                       {[ obs := o ]} in
              if String.eqb obs OBS_N_ERRORS_PER_BURST then
                o <- parse_n_errors_per_burst raw_data ;; Ok (Some (parsed o))
              else if String.eqb obs OBS_PER_BIT_ERROR_COUNT then
                o <- parse_per_bit_error_count raw_data ;; Ok (Some (parsed o))
              else Ok (Some (mk_run metadata cur_experiment_id run_uid
                               run_uid_ignoring_fields ∅))
        end
    | _ => Raise ValueError
    end
  else Ok None.

(** Unpacking an integer into [n_errs, re_count, ue_count]: iterating the
    dictionary [run_data['raw_data']] yields its integer keys, and an
    integer cannot be unpacked. *)
Definition unpack_key (key : Z) : res (Z * Z * Z) := Raise TypeError.

Definition obs_raw_data (o : observation) : res (gmap Z (Z * Z)) :=
  match o with
  | ObsNErrors _ _ _ _ raw => Ok raw
  | ObsPerBit _ _ => Raise KeyError
  end.

Definition obs_per_bit (o : observation) : res (list Z * list Z) :=
  match o with
  | ObsPerBit d c => Ok (d, c)
  | ObsNErrors _ _ _ _ _ => Raise KeyError
  end.

(** [run['observations'][observable]] *)
Definition run_observation (r : run) (observable : string) : res observation :=
  match observations r !! observable with
  | Some o => Ok o
  | None => Raise KeyError
  end.

Definition msg_lengths : string := "Cannot combine different lengths: ".

Definition combine_observation (observable : string) (runs : list run) : res observation :=
  if String.eqb observable OBS_N_ERRORS_PER_BURST then
    h <- foldM (fun h r =>
                  run_data <- run_observation r observable ;;
                  raw <- obs_raw_data run_data ;;
                  foldM (fun h key =>
                           t <- unpack_key key ;;
                           Hist.accumulate (Ok (md_bcl (run_metadata r)))
                                           (Ok (md_bl (run_metadata r))) h t)
                        h (map fst (map_to_list raw)))
               Hist.empty runs ;;
    rber_calculated <- Hist.rber_calculated read_bcl read_ps (Hist.re_histogram h) ;;
    uber_calculated <- Hist.uber_calculated read_bl (Hist.ue_histogram h) ;;
    Ok (ObsNErrors rber_calculated uber_calculated
          (Hist.re_histogram h) (Hist.ue_histogram h) (Hist.raw_histogram h))
  else if String.eqb observable OBS_PER_BIT_ERROR_COUNT then
    acc <- foldM (fun (acc : list Z * list Z) r =>
                    o <- run_observation r observable ;;
                    a <- obs_per_bit o ;;
                    let bit_hist_databurst := fst acc in
                    let bit_hist_codeburst := snd acc in
                    if negb (bool_decide (bit_hist_databurst = []))
                       || negb (bool_decide (bit_hist_codeburst = []))
                    then
                      py_assert (length bit_hist_databurst =? length (fst a))%nat msg_lengths ;;;
                      py_assert (length bit_hist_codeburst =? length (snd a))%nat msg_lengths ;;;
                      Ok (zip_with Z.add bit_hist_databurst (fst a),
                          zip_with Z.add bit_hist_codeburst (snd a))
                    else Ok (fst a, snd a))
                 ([], []) runs ;;
    Ok (ObsPerBit (fst acc) (snd acc))
  else Raise (AssertionError "Unimplemented observable:").

(** Reading [ifmixed] inside [combine_metadata_element]: never bound. *)
Definition read_ifmixed : res Z := Raise (NameError "ifmixed").

(** The nested function of [combine_runs].  [elem] is the integer index of
    the field, [field] reads that element of the metadata list, [of_int]
    stores the integer sentinel in a field of type [A].  The set
    [all_elem] is the list of the distinct values. *)
Definition combine_metadata_element {A : Type} `{EqDecision A} (of_int : Z -> A)
    (data : list run) (elem : Z) (field : metadata -> A)
    (mixed_pass mixed_warn mixed_error : option Z) : res A :=
  let all_elem := remove_dups (map (fun r => field (run_metadata r)) data) in
  if (1 <? length all_elem)%nat then
    match mixed_error, mixed_warn, mixed_pass with
    | Some _, _, _ =>
        (* print("[ERROR] trying to combinine different types of " + elem + ":", all_elem) *)
        _ <- py_add (VStr "[ERROR] trying to combinine different types of ") (VInt elem) ;;
        Raise (AssertionError "[ERROR] trying to combinine different types of ")
    | None, Some w, _ =>
        (* print("[WARN] combining different types of " + elem + " - ..." + str(ifmixed)) *)
        _ <- py_add (VStr "[WARN] combining different types of ") (VInt elem) ;;
        _ <- read_ifmixed ;;
        Ok (of_int w)
    | None, None, Some p => Ok (of_int p)
    | None, None, None =>
        Raise (AssertionError "Must define either warn, error, or pass on mixed")
    end
  else
    match all_elem with
    | x :: _ => Ok x
    | [] => Raise KeyError
    end.

Definition combine_runs (data : list run) (fields_to_combine : list string) : res run :=
  (* for run in data[1:]: assert data[0]['uid_ignoring_fields'] == run['uid_ignoring_fields'] *)
  run_var <- match data with
             | [] => Ok None
             | run0 :: rest =>
                 foldM (fun _ r =>
                          py_assert (String.eqb (uid_ignoring_fields run0) (uid_ignoring_fields r))
                                    (uid_ignoring_fields run0 ++ " != ") ;;;
                          Ok (Some r))
                       None rest
             end ;;
  c_uid <- combine_metadata_element id data MI_UID md_uid (Some (-1)) None None ;;
  let word_list := map (fun r => md_nw (run_metadata r)) data in
  let invalid_word_list := existsb (fun i => i =? -1) word_list in
  nw_run <- (if negb invalid_word_list then
               (* the loop [for run in data:] rebinds [run] *)
               Ok (foldr Z.add 0 word_list,
                   match last data with Some r => Some r | None => run_var end)
             else
               c_nw <- combine_metadata_element id data MI_NW md_nw (Some (-1)) None None ;;
               Ok (c_nw, run_var)) ;;
  let c_nw := fst nw_run in
  let run_var := snd nw_run in
  c_bl <- combine_metadata_element id data MI_BL md_bl None None (Some (-1)) ;;
  c_bcl <- combine_metadata_element id data MI_BCL md_bcl None (Some (-1)) None ;;
  c_ps <- combine_metadata_element id data MI_PS md_ps None (Some (-1)) None ;;
  c_em <- combine_metadata_element VInt data MI_EM md_em (Some (-1)) None None ;;
  c_cd <- combine_metadata_element VInt data MI_CD md_cd (Some (-1)) None None ;;
  c_dp <- combine_metadata_element VInt data MI_DP md_dp (Some (-1)) None None ;;
  c_cdp <- combine_metadata_element VInt data MI_CDP md_cdp (Some (-1)) None None ;;
  c_obs <- combine_metadata_element VInt data MI_OBS md_obs None None (Some (-1)) ;;
  let combined_metadata := mk_metadata c_uid c_nw c_bl c_bcl c_ps c_em c_cd c_dp c_cdp c_obs in
  let c_run_uid := run_uid_from_metadata combined_metadata in
  let c_run_uid_if :=
    run_uid_from_metadata_ignoring_fields combined_metadata fields_to_combine in
  (* observables = {observable for observable in run['observations']} *)
  r <- match run_var with
       | Some r => Ok r
       | None => Raise (UnboundLocalError "run")
       end ;;
  let observables := map fst (map_to_list (observations r)) in
  combined_observations <-
    foldM (fun (obs : gmap string observation) observable =>
             o <- combine_observation observable data ;;
             Ok (<[observable := o]> obs))
          ∅ observables ;;
  Ok (mk_run combined_metadata (Some (-1)) c_run_uid c_run_uid_if combined_observations).

(** Reading [val] inside [get_output_string]: never bound. *)
Definition read_val : res observation := Raise (NameError "val").

Definition nl : string := String (ascii_of_nat 10) "".

(** [for i in l: out_str += str(i) + ' '] *)
Definition ints_spaced (out_str : string) (l : list Z) : res string :=
  foldM (fun out_str i => s <- PyStr.str i ;; Ok (out_str ++ s ++ " ")) out_str l.

(** The counters are sums of what the lines held: they are written with
    [PyStr.str], which refuses an integer of too many digits.  The identity
    [raw_data['uid']] is text already. *)
Definition get_output_string (raw_data : run) : res string :=
  py_assert (negb (bool_decide (observations raw_data = ∅)))
            "Must have at least one observation in the data" ;;;
  foldM (fun out_str (kv : string * observation) =>
           let observable := fst kv in
           let out_str := out_str ++ uid raw_data in
           let out_str := out_str ++ " obs:" ++ observable in
           if String.eqb observable OBS_N_ERRORS_PER_BURST then
             let out_str := out_str ++ " [ " in
             val <- read_val ;;
             raw <- obs_raw_data val ;;
             pairs <- mapM (fun pair : Z * (Z * Z) =>
                              texts <- mapM PyStr.str [fst pair; fst (snd pair);
                                                       snd (snd pair)] ;;
                              Ok (PyStr.join ":" texts))
                           (map_to_list raw) ;;
             let out_str := out_str ++ PyStr.join " " pairs in
             Ok (out_str ++ " ]" ++ nl)
           else if String.eqb observable OBS_PER_BIT_ERROR_COUNT then
             a <- obs_per_bit (snd kv) ;;
             let out_str := out_str ++ " [ " in
             out_str <- ints_spaced out_str (fst a) ;;
             let out_str := out_str ++ ": " in
             out_str <- ints_spaced out_str (snd a) ;;
             Ok (out_str ++ "]" ++ nl)
           else Ok out_str)
        "" (map_to_list (observations raw_data)).

(** *** The streaming reducer

    A file is the list of the lines [readline] returns.  [callback] is the
    caller's reducer: it receives the parsed run, the [ecc_code] argument
    and the caller's data, and returns the caller's data or raises.  The
    progress line is not modelled. *)

Section Reducer.
Context `{PyJson} {S : Type}.
Variable callback : run -> option json -> S -> res S.

Record world : Type := mk_world {
  cb_state : S;                       (* what [callback_args] refer to *)
  ecc_codes : gmap string json;
  warnings : list (string * Z)        (* file and line of each logged warning *)
}.

(** One turn of [while line:], after [line_num += 1]: the world and
    [malformed_line] with which the next line is read, or the world and
    the exception that leaves the loop. *)
Definition read_line (infilename : string) (is_experimental : bool)
    (fields_to_combine : list string) (line : string)
    (line_num malformed_line : Z) (w : world) : (world * Z) + (world * exn) :=
  match parse_einsim_output_line line fields_to_combine is_experimental with
  | Raise KeyboardInterrupt => inr (w, KeyboardInterrupt)
  | outcome =>
      (* [except:] sets [parsed_data = None] and logs the first time *)
      let parsed_data := match outcome with Ok p => p | Raise _ => None end in
      let logs := negb (is_ok outcome) && (malformed_line =? -1) in
      let w := if logs
               then mk_world (cb_state w) (ecc_codes w)
                             (warnings w ++ [(infilename, line_num)])%list
               else w in
      let malformed_line := if logs then line_num else malformed_line in
      match parsed_data with
      | Some raw_data =>
          match callback raw_data None (cb_state w) with
          | Ok s => inl (mk_world s (ecc_codes w) (warnings w), malformed_line)
          | Raise e => inr (w, e)
          end
      | None =>
          if PyStr.startswith "[ECC]" line then
            match json_loads (PyStr.drop 6 line) with
            | Some code =>
                inl (mk_world (cb_state w) (<[infilename := code]> (ecc_codes w))
                              (warnings w),
                     malformed_line)
            | None => inr (w, JSONDecodeError)
            end
          else inl (w, malformed_line)
      end
  end.

(** The loop [while line:] over the lines of one file.  The result is
    the world after the last statement that ran, and the exception that
    left the loop, if any. *)
Fixpoint read_lines (infilename : string) (is_experimental : bool)
    (fields_to_combine : list string) (lines : list string)
    (line_num malformed_line : Z) (w : world) : world * option exn :=
  match lines with
  | [] => (w, None)
  | line :: rest =>
      if String.eqb line "" then (w, None)
      else
        let line_num := line_num + 1 in
        match read_line infilename is_experimental fields_to_combine line
                        line_num malformed_line w with
        | inl (w', malformed_line') =>
            read_lines infilename is_experimental fields_to_combine rest
                       line_num malformed_line' w'
        | inr (w', e) => (w', Some e)
        end
  end.

Fixpoint read_files (is_experimental : bool) (fields_to_combine : list string)
    (files : list (string * list string)) (w : world) : world * option exn :=
  match files with
  | [] => (w, None)
  | (infilename, lines) :: files' =>
      match read_lines infilename is_experimental fields_to_combine lines 0 (-1) w with
      | (w', None) => read_files is_experimental fields_to_combine files' w'
      | (w', Some e) => (w', Some e)
      end
  end.

(** [parse_files_incremental(infilenames, is_experimental, fields_to_combine,
    callback, *callback_args)]; the files are given with their lines. *)
Definition parse_files_incremental (files : list (string * list string))
    (is_experimental : bool) (fields_to_combine : list string) (args : S)
  : world * option exn :=
  read_files is_experimental fields_to_combine files (mk_world args ∅ []).
End Reducer.

End Utils.

(** ** [script/utils.py] *)

(** [float(s)] and [str(x)] for a float belong to Python: the type of floats
    read from a line, its reader and its printer are an interface. *)
Class PyFloat : Type := {
  pyfloat : Type;
  float_of_string : string -> option pyfloat;
  str_float : pyfloat -> string
}.

Module Legacy.

Section WithFloat.
Context `{PyFloat}.

(** [float(s)] *)
Definition py_float (s : string) : res pyfloat :=
  match float_of_string s with
  | Some x => Ok x
  | None => Raise ValueError
  end.

(** [[ecc_category, p, t, k, n, m, rber, bl, bcl, ps, ed, cd, dp]] *)
Record metadata : Type := mk_metadata {
  ecc_category : string;
  md_p : Z;
  md_t : Z;
  md_k : Z;
  md_n : Z;
  md_m : Z;
  md_rber : pyfloat;
  md_bl : Z;
  md_bcl : Z;
  md_ps : Z;
  md_ed : string;
  md_cd : string;
  md_dp : string
}.

(** [l[i]] *)
Definition item (l : list string) (i : nat) : res string :=
  match l !! i with
  | Some x => Ok x
  | None => Raise IndexError
  end.

(** [int(meta_split[i][skip:])] *)
Definition int_at (meta_split : list string) (i skip : nat) : res Z :=
  x <- item meta_split i ;; PyStr.int (PyStr.drop skip x).

(** The assignments of one category branch.  [read_m] gives [m] and the
    offset of the fields after it: [(-1, 0)] for REP and HSC, the sixth
    token and [1] for BCH, either of them for UNK. *)
Definition positional (ecc : string) (meta_split : list string)
    (read_m : res (Z * nat)) : res metadata :=
  p <- int_at meta_split 1 2 ;;
  t <- int_at meta_split 2 2 ;;
  k <- int_at meta_split 3 2 ;;
  n <- int_at meta_split 4 2 ;;
  m_off <- read_m ;;
  let m := fst m_off in
  let off := snd m_off in
  rber_s <- item meta_split (5 + off) ;;
  rber <- py_float (PyStr.drop 5 rber_s) ;;
  bl <- int_at meta_split (6 + off) 3 ;;
  bcl <- int_at meta_split (7 + off) 4 ;;
  ps <- int_at meta_split (8 + off) 3 ;;
  ed <- item meta_split (9 + off) ;;
  cd <- item meta_split (10 + off) ;;
  dp <- item meta_split (11 + off) ;;
  Ok (mk_metadata ecc p t k n m rber bl bcl ps
        (PyStr.drop 3 ed) (PyStr.drop 3 cd) (PyStr.drop 3 dp)).

(** Reading [line_num] inside [parse_einsim_output_line]: never bound. *)
Definition read_line_num : res Z := Raise (NameError "line_num").

(** The parsed line [[metadata, data]]; the entries of [data] are the
    lazy [map(int, ...)] objects, converted when they are iterated. *)
Definition parse_einsim_output_line (line : string)
  : res (option (metadata * list (list string))) :=
  if (6 <? String.length line)%nat
     && String.eqb (PyStr.take 6 line) "[DATA]"
     && PyStr.contains "[DATA]" line
  then
    match PyStr.split "[" (PyStr.strip (PyStr.drop 7 line)) with
    | [meta; raw_data] =>
        let meta_split := PyStr.split " " meta in
        ecc_tok <- item meta_split 0 ;;
        let ecc := PyStr.drop_last ecc_tok in
        md <- (if String.eqb ecc "REP" then
                 some (positional ecc meta_split (Ok (-1, 0%nat)))
               else if String.eqb ecc "HSC" then
                 some (positional ecc meta_split (Ok (-1, 0%nat)))
               else if String.eqb ecc "BCH" then
                 some (positional ecc meta_split (m <- int_at meta_split 5 2 ;; Ok (m, 1%nat)))
               else if String.eqb ecc "UNK" then
                 some (positional ecc meta_split
                   (tok <- item meta_split 5 ;;
                    match tok with
                    | "" => Raise IndexError
                    | String c _ =>
                        if Ascii.eqb c "m" then m <- int_at meta_split 5 2 ;; Ok (m, 1%nat)
                        else Ok (-1, 0%nat)
                    end))
               else
                 (* print("[WARNING] unhandled ECC category ..." + str(line_num) + ...) *)
                 _ <- read_line_num ;; Ok None) ;;
        match md with
        | Some metadata => Ok (Some (metadata, Hist.lazy_entries raw_data))
        | None => Ok None
        end
    | _ => Raise ValueError
    end
  else Ok None.

(** [parse_einsim_output_file]: a line that raises is skipped (the warning
    goes to standard output); only [KeyboardInterrupt] leaves the loop. *)
Fixpoint parse_einsim_output_file (lines : list string)
  : res (list (metadata * list (list string))) :=
  match lines with
  | [] => Ok []
  | line :: rest =>
      if String.eqb line "" then Ok []
      else
        match parse_einsim_output_line line with
        | Raise KeyboardInterrupt => Raise KeyboardInterrupt
        | Ok (Some parsed_line) =>
            dirty_data <- parse_einsim_output_file rest ;; Ok (parsed_line :: dirty_data)
        | _ => parse_einsim_output_file rest
        end
  end.

Definition run_uid_from_metadata (md : metadata) : string :=
  let run_uid := "[DATA]" in
  let common run_uid :=
    let run_uid := run_uid ++ " rber:" ++ str_float (md_rber md) in
    let run_uid := run_uid ++ " bl:" ++ PyStr.str_int (md_bl md) in
    let run_uid := run_uid ++ " bcl:" ++ PyStr.str_int (md_bcl md) in
    let run_uid := run_uid ++ " ps:" ++ PyStr.str_int (md_ps md) in
    let run_uid := run_uid ++ " ed:" ++ md_ed md in
    let run_uid := run_uid ++ " cd:" ++ md_cd md in
    let run_uid := run_uid ++ " dp:" ++ md_dp md in
    run_uid in
  let ptkn run_uid :=
    let run_uid := run_uid ++ " p:" ++ "-1" in
    let run_uid := run_uid ++ " t:" ++ PyStr.str_int (md_t md) in
    let run_uid := run_uid ++ " k:" ++ PyStr.str_int (md_k md) in
    let run_uid := run_uid ++ " n:" ++ PyStr.str_int (md_n md) in
    run_uid in
  if String.eqb (ecc_category md) "REP" then common (ptkn (run_uid ++ " REP:"))
  else if String.eqb (ecc_category md) "HSC" then common (ptkn (run_uid ++ " HSC:"))
  else if String.eqb (ecc_category md) "BCH" then
    common (ptkn (run_uid ++ " BCH:") ++ " m:" ++ PyStr.str_int (md_m md))
  else if String.eqb (ecc_category md) "UNK" then
    (run_uid ++ " UNK:") ++ " bl:" ++ PyStr.str_int (md_bl md)
  else run_uid.

(** [[ecc_category, t, k, n, m, rber, bl, bcl, ps, ed, cd, dp]]: the
    metadata without the permutation [p]. *)
Record metadata_no_p : Type := mk_metadata_no_p {
  ecc_category' : string;
  md_t' : Z;
  md_k' : Z;
  md_n' : Z;
  md_m' : Z;
  md_rber' : pyfloat;
  md_bl' : Z;
  md_bcl' : Z;
  md_ps' : Z;
  md_ed' : string;
  md_cd' : string;
  md_dp' : string
}.

Definition omit_p (md : metadata) : metadata_no_p :=
  mk_metadata_no_p (ecc_category md) (md_t md) (md_k md) (md_n md) (md_m md)
    (md_rber md) (md_bl md) (md_bcl md) (md_ps md) (md_ed md) (md_cd md) (md_dp md).

(** The dictionary stored under one run identity. *)
Record summary : Type := mk_summary {
  s_metadata : metadata_no_p;
  s_p : list Z;
  raw_data : gmap Z (Z * Z);
  rber : Q;
  uber : Q;
  re_data : gmap Z Z;
  ue_data : gmap Z Z
}.

(** The histogram loop over the runs of one identity, then the rates. *)
Definition summarize (md : metadata_no_p) (p : list Z)
    (data : list (list (list string))) : res summary :=
  let bl := md_bl' md in
  let bcl := md_bcl' md in
  let ps := md_ps' md in
  h <- foldM (fun h run =>
                foldM (fun h entry =>
                         t <- Hist.unpack_triple entry ;;
                         Hist.accumulate (Ok bcl) (Ok bl) h t)
                      h run)
             Hist.empty data ;;
  rber_calculated <- Hist.rber_calculated (Ok bcl) (Ok ps) (Hist.re_histogram h) ;;
  uber_calculated <- Hist.uber_calculated (Ok bl) (Hist.ue_histogram h) ;;
  Ok (mk_summary md p (Hist.raw_histogram h) rber_calculated uber_calculated
        (Hist.re_histogram h) (Hist.ue_histogram h)).

(** The value of [raw_data[run_uid]] while the files are read. *)
Record components : Type := mk_components {
  c_metadata : metadata_no_p;
  c_data : list (list (list string));
  c_p : list Z
}.

(** [if run_uid not in raw_data: raw_data[run_uid] = {...}] followed by the
    two [append]s; the dictionary keeps the order of insertion. *)
Fixpoint record_run (run_uid : string) (md : metadata_no_p)
    (data : list (list string)) (p : Z) (raw : list (string * components))
  : list (string * components) :=
  match raw with
  | [] => [(run_uid, mk_components md [data] [p])]
  | (key, c) :: raw' =>
      if String.eqb key run_uid
      then (key, mk_components (c_metadata c) (c_data c ++ [data]) (c_p c ++ [p])%list) :: raw'
      else (key, c) :: record_run run_uid md data p raw'
  end.

(** The first loop of [parse_all_files], over the parsed lines of the
    files, threading [raw_data] and [experiment_id]. *)
Definition gather_line (experimental : bool)
    (st : list (string * components) * Z) (parsed : metadata * list (list string))
  : list (string * components) * Z :=
  let raw := fst st in
  let experiment_id := snd st in
  let md := fst parsed in
  let run_uid := run_uid_from_metadata md in
  let run_uid := if experimental
                 then run_uid ++ "_experiment_" ++ PyStr.str_int experiment_id
                 else run_uid in
  let experiment_id := if experimental then experiment_id + 1 else experiment_id in
  (record_run run_uid (omit_p md) (snd parsed) (md_p md) raw, experiment_id).

Definition parse_all_files (files : list (string * list string)) (experimental : bool)
  : res (list (string * summary)) :=
  st <- foldM (fun st (file : string * list string) =>
                 dirty_data <- parse_einsim_output_file (snd file) ;;
                 Ok (foldl (gather_line experimental) st dirty_data))
              ([], 0) files ;;
  mapM (fun (kc : string * components) =>
          s <- summarize (c_metadata (snd kc)) (c_p (snd kc)) (c_data (snd kc)) ;;
          Ok (fst kc, s))
       (fst st).

(** [parse_files_incremental(infilenames, is_experimental, callback,
    *callback_args)]: [callback] receives the run identity, the summary
    of the line and the caller's data.  The state of the loop is the
    caller's data and [experiment_id]. *)
Section Incremental.
Context {S : Type}.
Variable callback : string -> summary -> S -> res S.

Fixpoint read_lines (is_experimental : bool) (lines : list string)
    (st : S * Z) : (S * Z) * option exn :=
  match lines with
  | [] => (st, None)
  | line :: rest =>
      if String.eqb line "" then (st, None)
      else
        match parse_einsim_output_line line with
        | Raise KeyboardInterrupt => (st, Some KeyboardInterrupt)
        | Ok (Some (md, data)) =>
            let experiment_id := snd st in
            let run_uid := run_uid_from_metadata md in
            let run_uid := if is_experimental
                           then run_uid ++ "_experiment_" ++ PyStr.str_int experiment_id
                           else run_uid in
            let experiment_id :=
              if is_experimental then experiment_id + 1 else experiment_id in
            match summarize (omit_p md) [md_p md] [data] with
            | Ok raw_data =>
                match callback run_uid raw_data (fst st) with
                | Ok s => read_lines is_experimental rest (s, experiment_id)
                | Raise e => ((fst st, experiment_id), Some e)
                end
            | Raise e => ((fst st, experiment_id), Some e)
            end
        | _ => read_lines is_experimental rest st
        end
  end.

Fixpoint parse_files_incremental_from (is_experimental : bool)
    (files : list (string * list string)) (st : S * Z) : (S * Z) * option exn :=
  match files with
  | [] => (st, None)
  | file :: files' =>
      match read_lines is_experimental (snd file) st with
      | (st', None) => parse_files_incremental_from is_experimental files' st'
      | (st', Some e) => (st', Some e)
      end
  end.

Definition parse_files_incremental (files : list (string * list string))
    (is_experimental : bool) (args : S) : S * option exn :=
  let out := parse_files_incremental_from is_experimental files (args, 0) in
  (fst (fst out), snd out).
End Incremental.
End WithFloat.

End Legacy.

(** ** [script/ein/ein.py] *)

(** The numerical part of [callback] (the label of the model and the list
    [log_probs] of multinomial log-likelihoods, one per bootstrap sample) is
    computed with NumPy and SciPy in floating point: it is an interface.
    A log-likelihood is a finite float and is kept as a rational; only the
    order of these numbers is used below. *)
Class Likelihood `{PyFloat} : Type := {
  s_xlabel : Legacy.summary -> string;
  log_probs_of : Legacy.summary -> Legacy.summary -> list (gmap Z Z) -> res (list Q)
}.

Module Ein.

Definition max_n_models_to_plot : nat := 20.

(** [a < b] on floats *)
Definition Qltb (a b : Q) : bool := negb (Qle_bool b a).

(** [x < y] on the tuples [(sim_max_logprob, sim_uid)]: the first items
    that differ decide. *)
Definition tuple_ltb (x y : Q * string) : bool :=
  if Qeq_bool (fst x) (fst y) then String.ltb (snd x) (snd y)
  else Qltb (fst x) (fst y).

(** [heapq] belongs to the Python library and is embedded by its contract:
    [heap[0]] is the smallest item, [heappop] removes and returns it,
    [heappush] adds an item.  The heap is represented by the ascending list
    of its items. *)
Fixpoint heappush (heap : list (Q * string)) (item : Q * string) : list (Q * string) :=
  match heap with
  | [] => [item]
  | h :: heap' => if tuple_ltb item h then item :: heap else h :: heappush heap' item
  end.

Definition heappop (heap : list (Q * string)) : res ((Q * string) * list (Q * string)) :=
  match heap with
  | [] => Raise IndexError
  | h :: heap' => Ok (h, heap')
  end.

(** [np.max(log_probs)] *)
Definition np_max (log_probs : list Q) : res Q :=
  match log_probs with
  | [] => Raise ValueError
  | x :: rest => Ok (foldl (fun m y => if Qle_bool m y then y else m) x rest)
  end.

Section WithLikelihood.
Context `{Likelihood}.

(** The three module-level dictionaries. *)
Record globals : Type := mk_globals {
  log_probabilities : gmap string (gmap string (list Q * string));
  top_n_models_heapq : gmap string (list (Q * string));
  top_n_models_data :
    gmap string (Legacy.summary * gmap string (list Q * string * Legacy.summary))
}.

Definition no_globals : globals := mk_globals ∅ ∅ ∅.

(** The statements of [callback] after [log_probabilities] is updated:
    "keep the plot details for the top 20 models". *)
Definition keep_top (sim_uid : string) (sim_data : Legacy.summary)
    (exp_uid : string) (exp_data : Legacy.summary) (log_probs : list Q)
    (g : globals) : globals * option exn :=
  let g :=
    match top_n_models_data g !! exp_uid with
    | None =>
        mk_globals (log_probabilities g)
                   (<[exp_uid := []]> (top_n_models_heapq g))
                   (<[exp_uid := (exp_data, ∅)]> (top_n_models_data g))
    | Some _ => g
    end in
  match np_max log_probs with
  | Raise e => (g, Some e)
  | Ok sim_max_logprob =>
      match top_n_models_heapq g !! exp_uid, top_n_models_data g !! exp_uid with
      | Some heap, Some (e_data, sims) =>
          if (length heap <? max_n_models_to_plot)%nat
             || match heap with
                | h :: _ => Qltb (fst h) sim_max_logprob
                | [] => false
                end
          then
            let popped :=
              if (length heap =? max_n_models_to_plot)%nat then
                match heappop heap with
                | Ok (heapitem, heap') =>
                    match sims !! snd heapitem with
                    | Some _ => Ok (heap', delete (snd heapitem) sims)
                    | None => Raise KeyError
                    end
                | Raise e => Raise e
                end
              else Ok (heap, sims) in
            match popped with
            | Raise e =>
                (* the item popped from the heap stays popped *)
                (mk_globals (log_probabilities g)
                            (<[exp_uid := tail heap]> (top_n_models_heapq g))
                            (top_n_models_data g),
                 Some e)
            | Ok (heap, sims) =>
                let heap := heappush heap (sim_max_logprob, sim_uid) in
                let sims := <[sim_uid := (log_probs, s_xlabel sim_data, sim_data)]> sims in
                (mk_globals (log_probabilities g)
                            (<[exp_uid := heap]> (top_n_models_heapq g))
                            (<[exp_uid := (e_data, sims)]> (top_n_models_data g)),
                 None)
            end
          else (g, None)
      | _, _ => (g, Some KeyError)
      end
  end.

(** [callback(sim_uid, sim_data, exp_uid, exp_data, o_sample_histograms)]:
    the globals after the call and the exception it raised, if any. *)
Definition callback (sim_uid : string) (sim_data : Legacy.summary)
    (exp_uid : string) (exp_data : Legacy.summary)
    (o_sample_histograms : list (gmap Z Z)) (g : globals) : globals * option exn :=
  let o_bl := Legacy.md_bl' (Legacy.s_metadata exp_data) in
  let s_bl := Legacy.md_bl' (Legacy.s_metadata sim_data) in
  if negb (o_bl =? s_bl) then (g, None)
  else
    match log_probs_of sim_data exp_data o_sample_histograms with
    | Raise e => (g, Some e)
    | Ok log_probs =>
        let for_exp := default ∅ (log_probabilities g !! exp_uid) in
        let g := mk_globals (<[exp_uid := for_exp]> (log_probabilities g))
                            (top_n_models_heapq g) (top_n_models_data g) in
        match for_exp !! sim_uid with
        | Some _ => (g, Some (AssertionError "Repeat simulation: "))
        | None =>
            let g :=
              mk_globals
                (<[exp_uid := <[sim_uid := (log_probs, s_xlabel sim_data)]> for_exp]>
                   (log_probabilities g))
                (top_n_models_heapq g) (top_n_models_data g) in
            keep_top sim_uid sim_data exp_uid exp_data log_probs g
        end
    end.

(** The loop of [evaluate_likelihoods] over the simulations, for one
    observation and its bootstrap samples. *)
Fixpoint evaluate_simulations (simulations : list (string * Legacy.summary))
    (exp_uid : string) (exp_data : Legacy.summary)
    (o_sample_histograms : list (gmap Z Z)) (g : globals) : globals * option exn :=
  match simulations with
  | [] => (g, None)
  | (sim_uid, sim_data) :: rest =>
      match callback sim_uid sim_data exp_uid exp_data o_sample_histograms g with
      | (g', None) => evaluate_simulations rest exp_uid exp_data o_sample_histograms g'
      | (g', Some e) => (g', Some e)
      end
  end.
End WithLikelihood.

End Ein.

Module Identity.
Import Utils.

Inductive field : Type :=
| F_uid | F_nw | F_bl | F_bcl | F_ps | F_em | F_cd | F_dp | F_cdp | F_obs.

Global Instance field_eq_dec : EqDecision field.
Proof. solve_decision. Defined.

Definition all_fields : list field :=
  [F_uid; F_nw; F_bl; F_bcl; F_ps; F_em; F_cd; F_dp; F_cdp; F_obs].

Definition field_key (f : field) : string :=
  match f with
  | F_uid => "uid" | F_nw => "nw" | F_bl => "bl" | F_bcl => "bcl" | F_ps => "ps"
  | F_em => "em" | F_cd => "cd" | F_dp => "dp" | F_cdp => "cdp" | F_obs => "obs"
  end.

Definition field_value (f : field) (m : metadata) : pyval :=
  match f with
  | F_uid => VInt (md_uid m) | F_nw => VInt (md_nw m) | F_bl => VInt (md_bl m)
  | F_bcl => VInt (md_bcl m) | F_ps => VInt (md_ps m)
  | F_em => md_em m | F_cd => md_cd m | F_dp => md_dp m | F_cdp => md_cdp m
  | F_obs => md_obs m
  end.

(** The two metadata lists hold the same values except, possibly, at [f]. *)
Definition agree_except (f : field) (m1 m2 : metadata) : Prop :=
  forall g, g <> f -> field_value g m1 = field_value g m2.

(** Both values are integers, or both are text. *)
Definition same_kind (v w : pyval) : Prop :=
  match v, w with
  | VInt _, VInt _ => True
  | VStr _, VStr _ => True
  | _, _ => False
  end.

(** The concatenation of a list of texts, and the text the identity holds
    for one field. *)
Definition flat (l : list string) : string := foldr String.append "" l.

Definition part (fields_to_combine : list string) (m : metadata) (f : field) : string :=
  uid_part (field_key f) (py_str (field_value f m)) fields_to_combine.
End Identity.

(** ** Sample runs *)

Module Samples.
Import Utils.

(** The run parsed from a [PER_BIT_ERROR_COUNT] line with the keys [nw],
    [bl], [bcl], [ps] and [obs]. *)
Definition per_bit_run (nw bl bcl ps : Z) (fields_to_combine : list string)
    (databurst codeburst : list Z) : run :=
  let m := mk_metadata (-1) nw bl bcl ps (VInt (-1)) (VInt (-1)) (VInt (-1)) (VInt (-1))
                       (VStr OBS_PER_BIT_ERROR_COUNT) in
  mk_run m None (run_uid_from_metadata m)
         (run_uid_from_metadata_ignoring_fields m fields_to_combine)
         {[ OBS_PER_BIT_ERROR_COUNT := ObsPerBit databurst codeburst ]}.

Definition per_bit_line_256 : string :=
  "[DATA] nw:1 bl:256 bcl:768 ps:0 obs:PER_BIT_ERROR_COUNT [ 1 0 2 : 0 0 1 ]" ++ nl.
Definition per_bit_line_512 : string :=
  "[DATA] nw:1 bl:512 bcl:768 ps:0 obs:PER_BIT_ERROR_COUNT [ 4 1 0 : 2 0 0 ]" ++ nl.
Definition per_bit_line_bcl : string :=
  "[DATA] nw:1 bl:256 bcl:1536 ps:0 obs:PER_BIT_ERROR_COUNT [ 4 1 0 : 2 0 0 ]" ++ nl.

(** A second line of the identity of [per_bit_line_256] when [nw] is
    masked, and the line written for the two runs combined. *)
Definition per_bit_line_256_more : string :=
  "[DATA] nw:3 bl:256 bcl:768 ps:0 obs:PER_BIT_ERROR_COUNT [ 4 1 0 : 2 0 0 ]" ++ nl.
Definition per_bit_line_combined : string :=
  "[DATA] uid:-1 nw:4 bl:256 bcl:768 ps:0 em:-1 cd:-1 dp:-1 cdp:-1 obs:PER_BIT_ERROR_COUNT obs:PER_BIT_ERROR_COUNT [ 5 1 2 : 2 0 1 ]" ++ nl.
End Samples.

(** A decoder that accepts the empty object only, and a reducer that
    collects the parsed runs. *)
Module ReducerSamples.
Import Utils.

Definition only_empty_object : PyJson :=
  {| json := unit;
     json_loads := fun s => if String.eqb (PyStr.strip s) "{}" then Some tt else None |}.

Definition collect (r : run) (ecc_code : option unit) (seen : list run) : res (list run) :=
  Ok (seen ++ [r])%list.

Definition bad_ecc_line : string := "[ECC] {" ++ nl.
End ReducerSamples.

(** The example line of the sources, and floats kept as the text read. *)
Module LegacySamples.

Definition example_line : string :=
  "[DATA] REP: p:584576191 t:1 k:4 n:12 rber:1e-06 bl:256 bcl:768 ps:0 ed:UNIFORM_RANDOM cd:ALL_TRUE_OR_ALL_ANTI dp:RANDOM [ 0:9998:10000 1:2:0 ]".

Definition example_uid (rber : string) : string :=
  "[DATA] REP: p:-1 t:1 k:4 n:12 rber:" ++ rber
  ++ " bl:256 bcl:768 ps:0 ed:UNIFORM_RANDOM cd:ALL_TRUE_OR_ALL_ANTI dp:RANDOM".

(** The same run without uncorrectable events. *)
Definition corrected_line : string :=
  "[DATA] REP: p:584576191 t:1 k:4 n:12 rber:1e-06 bl:256 bcl:768 ps:0 ed:UNIFORM_RANDOM cd:ALL_TRUE_OR_ALL_ANTI dp:RANDOM [ 0:9998:0 1:2:0 ]".

Definition float_as_text : PyFloat :=
  {| pyfloat := string; float_of_string := fun s => Some s; str_float := fun s => s |}.

Definition corrected_metadata : @Legacy.metadata_no_p float_as_text :=
  @Legacy.mk_metadata_no_p float_as_text "REP" 1 4 12 (-1) "1e-06" 256 768 0
    "UNIFORM_RANDOM" "ALL_TRUE_OR_ALL_ANTI" "RANDOM".


End LegacySamples.

(** Sample models whose log-likelihood is read from their field [t]. *)
Module EinSamples.
Import LegacySamples.

Definition model (t bl : Z) : @Legacy.summary float_as_text :=
  @Legacy.mk_summary float_as_text
    (@Legacy.mk_metadata_no_p float_as_text "REP" t 4 12 (-1) "1e-06" bl 768 0
       "UNIFORM_RANDOM" "ALL_TRUE_OR_ALL_ANTI" "RANDOM")
    [0] ∅ 0%Q 0%Q ∅ (<[0 := 1]> ∅).

Definition likelihood_by_t : @Likelihood float_as_text :=
  {| s_xlabel := fun _ => "model";
     log_probs_of := fun sim _ _ => Ok [inject_Z (Legacy.md_t' (Legacy.s_metadata sim))] |}.

(** Two log-likelihoods per model, the smaller one first: [-t] and [t]. *)
Definition likelihood_spread : @Likelihood float_as_text :=
  {| s_xlabel := fun _ => "model";
     log_probs_of := fun sim _ _ =>
       Ok [inject_Z (- Legacy.md_t' (Legacy.s_metadata sim));
           inject_Z (Legacy.md_t' (Legacy.s_metadata sim))] |}.

(** Twenty-two models of burst length 8 and one of burst length 16. *)
Definition models : list (string * @Legacy.summary float_as_text) :=
  List.app (map (fun t => ("m" ++ PyStr.str_int t, model t 8)) (seqZ 1 22))
           [("other", model 100 16)].

Definition observation : @Legacy.summary float_as_text := model 0 8.
End EinSamples.

(** ** Predicates and functions in which the properties are stated *)

Module UtilsSpec.
Import Utils.

(** The runs of [data] carry one masked identity. *)
Definition same_masked_identity (data : list run) : Prop :=
  forall r1 r2, r1 ∈ data -> r2 ∈ data -> uid_ignoring_fields r1 = uid_ignoring_fields r2.
End UtilsSpec.

Module TextSpec.

(** Every character of the text satisfies [P]. *)
Fixpoint all_chars (P : ascii -> bool) (s : string) : bool :=
  match s with
  | "" => true
  | String c s' => P c && all_chars P s'
  end.

(** The texts of [ts], each followed by one space. *)
Definition spaced (ts : list string) : string :=
  foldr (fun t out => t ++ " " ++ out) "" ts.

Definition not_space (c : ascii) : bool := negb (PyStr.isspace c).
Definition sign_or_digit (c : ascii) : bool := PyStr.isdigit c || Ascii.eqb c "-".
End TextSpec.

Module RoundTripSpec.
Import Utils.

(** Text with neither a space nor an opening bracket: what the parser keeps
    as the value of a metadata key. *)
Definition plain (s : string) : Prop :=
  PyStr.has_char " " s = false /\ PyStr.has_char "[" s = false.

Definition plain_metadata (m : metadata) : Prop :=
  plain (py_str (md_em m)) /\ plain (py_str (md_cd m)) /\ plain (py_str (md_dp m))
  /\ plain (py_str (md_cdp m)) /\ plain (py_str (md_obs m)).

(** The run is the result of parsing some line. *)
Definition parsed (r : run) : Prop :=
  exists line fields_to_combine,
    parse_einsim_output_line line fields_to_combine false = Ok (Some r).

(** The metadata read back from the line written for [m]: the text fields
    hold the text of their values, the observable is the one of the line. *)
Definition reread (m : metadata) (observable : string) : metadata :=
  mk_metadata (md_uid m) (md_nw m) (md_bl m) (md_bcl m) (md_ps m)
    (VStr (py_str (md_em m))) (VStr (py_str (md_cd m))) (VStr (py_str (md_dp m)))
    (VStr (py_str (md_cdp m))) (VStr observable).

(** The keys and values written on the line of [m] for [observable]. *)
Definition written (m : metadata) (observable : string) : list (string * string) :=
  [("uid", PyStr.str_int (md_uid m)); ("nw", PyStr.str_int (md_nw m));
   ("bl", PyStr.str_int (md_bl m)); ("bcl", PyStr.str_int (md_bcl m));
   ("ps", PyStr.str_int (md_ps m)); ("em", py_str (md_em m)); ("cd", py_str (md_cd m));
   ("dp", py_str (md_dp m)); ("cdp", py_str (md_cdp m)); ("obs", py_str (md_obs m));
   ("obs", observable)].

Definition token (kv : string * string) : string := fst kv ++ ":" ++ snd kv.

(** The line [get_output_string] writes for a record of metadata [m] that
    holds the per-bit lists [d] and [c]. *)
Definition per_bit_line (m : metadata) (d c : list Z) : string :=
  run_uid_from_metadata m ++ " obs:" ++ OBS_PER_BIT_ERROR_COUNT
  ++ " [ " ++ TextSpec.spaced (map PyStr.str_int d)
  ++ ": " ++ TextSpec.spaced (map PyStr.str_int c) ++ "]" ++ nl.
End RoundTripSpec.

Module LegacySpec.
Import Legacy.
Section WithFloat.
Context `{PyFloat}.

(** The identities given to the parsed lines of an experiment, in the order
    of the lines, when the counter stands at [experiment_id]. *)
Fixpoint experiment_uids (experiment_id : Z) (parsed : list (metadata * list (list string)))
  : list string :=
  match parsed with
  | [] => []
  | p :: rest =>
      (run_uid_from_metadata (fst p) ++ "_experiment_" ++ PyStr.str_int experiment_id)
        :: experiment_uids (experiment_id + 1) rest
  end.

(** The identity ends in [_experiment_<j>] for a [j] below [n]. *)
Definition numbered_below (n : Z) (run_uid : string) : Prop :=
  exists base j, run_uid = base ++ "_experiment_" ++ PyStr.str_int j /\ j < n.
End WithFloat.
End LegacySpec.

Module RateSpec.


End RateSpec.

Module TopSpec.
Import Ein.

(** The order of the scores of two heap items. *)
Definition score_le (x y : Q * string) : Prop := (fst x <= fst y)%Q.

(** What the statements of [keep_top] do to the heap. *)
Definition top_step (heap : list (Q * string)) (item : Q * string) : list (Q * string) :=
  if (length heap <? max_n_models_to_plot)%nat
     || match heap with
        | h :: _ => Qltb (fst h) (fst item)
        | [] => false
        end
  then heappush (if (length heap =? max_n_models_to_plot)%nat then tail heap else heap) item
  else heap.

Definition top_run (items : list (Q * string)) : list (Q * string) :=
  foldl top_step [] items.

(** The invariant of the heap after the items [items] have been offered. *)
Record top_inv (items heap : list (Q * string)) : Prop := {
  top_length : length heap = Nat.min (length items) max_n_models_to_plot;
  top_sorted : StronglySorted score_le heap;
  top_sub : heap ⊆+ items;
  top_bound : forall x, x ∈ items ->
                x ∈ heap
                \/ (length heap = max_n_models_to_plot
                    /\ forall y, y ∈ heap -> score_le x y)
}.
End TopSpec.

Module ObsSpec.
Import Legacy Ein TopSpec.

Section OneObservation.
Context `{Likelihood}.
Variable exp_uid : string.
Variable exp_data : summary.
Variable samples : list (gmap Z Z).

(** The score of a model: [np.max] of its log-likelihoods. *)
Definition score (d : summary) : Q :=
  match log_probs_of d exp_data samples with
  | Ok lp => match np_max lp with Ok s => s | Raise _ => 0%Q end
  | Raise _ => 0%Q
  end.

Definition item (p : string * summary) : Q * string := (score (snd p), fst p).

Definition payload (d : summary) (lp : list Q) : list Q * string * summary :=
  (lp, s_xlabel d, d).

(** The dictionary ["sims"] holds the models of the heap, with their data. *)
Definition kept_ok (kept : gmap string (list Q * string * summary))
    (done : list (string * summary)) : Prop :=
  forall u pl,
    kept !! u = Some pl <->
    exists d lp, (u, d) ∈ done /\ log_probs_of d exp_data samples = Ok lp
                 /\ pl = payload d lp /\ item (u, d) ∈ top_run (map item done).

(** What the statements of [keep_top] do to ["sims"]. *)
Definition kept_step (heap : list (Q * string))
    (kept : gmap string (list Q * string * summary))
    (x : Q * string) (pl : list Q * string * summary)
  : gmap string (list Q * string * summary) :=
  if (length heap <? max_n_models_to_plot)%nat
     || match heap with
        | h :: _ => Qltb (fst h) (fst x)
        | [] => false
        end
  then <[snd x := pl]>
         (if (length heap =? max_n_models_to_plot)%nat
          then match heap with h :: _ => delete (snd h) kept | [] => kept end
          else kept)
  else kept.

(** The models whose burst length is the one of the observation. *)
Definition accepted (simulations : list (string * summary)) : list (string * summary) :=
  filter (fun p => md_bl' (s_metadata exp_data) = md_bl' (s_metadata (snd p))) simulations.

(** The state of the globals for the observation after the models [done]
    have reached the statements that keep the best models. *)
Record obs_inv (g : globals) (done : list (string * summary)) : Prop := {
  inv_seen : forall seen u,
    log_probabilities g !! exp_uid = Some seen -> is_Some (seen !! u) ->
    u ∈ map fst done;
  inv_scored : forall u d,
    (u, d) ∈ done -> exists lp, log_probs_of d exp_data samples = Ok lp;
  inv_fresh : done = [] -> top_n_models_data g !! exp_uid = None;
  inv_top : done <> [] ->
    exists kept,
      top_n_models_heapq g !! exp_uid = Some (top_run (map item done))
      /\ top_n_models_data g !! exp_uid = Some (exp_data, kept)
      /\ kept_ok kept done
}.
End OneObservation.

End ObsSpec.

Module CombineSpec.
Import Utils.

(** The two lists a run holds under [PER_BIT_ERROR_COUNT]. *)
Definition databurst (r : run) : list Z :=
  match observations r !! OBS_PER_BIT_ERROR_COUNT with
  | Some (ObsPerBit d _) => d
  | _ => []
  end.

Definition codeburst (r : run) : list Z :=
  match observations r !! OBS_PER_BIT_ERROR_COUNT with
  | Some (ObsPerBit _ c) => c
  | _ => []
  end.

(** The run holds the per-bit observable only, with lists of [n] and [m]
    counters. *)
Definition per_bit_shape (n m : nat) (r : run) : Prop :=
  exists d c,
    observations r = {[ OBS_PER_BIT_ERROR_COUNT := ObsPerBit d c ]}
    /\ length d = n /\ length c = m.

(** The sum over the runs of the counter at position [i]. *)
Definition column_sum (hist : run -> list Z) (data : list run) (i : nat) : Z :=
  foldr Z.add 0 (map (fun r => default 0 (hist r !! i)) data).

(** The value the pass policy stores for a field: the value of the runs
    when they agree, the sentinel [-1] otherwise. *)
Definition pass_value {A : Type} `{EqDecision A} (of_int : Z -> A)
    (field : metadata -> A) (run0 : run) (rest : list run) : A :=
  if bool_decide (Forall (fun r => field (run_metadata r) = field (run_metadata run0)) rest)
  then field (run_metadata run0) else of_int (-1).

(** The metadata of the record [combine_runs] returns for the runs
    [run0 :: rest] when they agree on [bl], [bcl], [ps] and [obs]. *)
Definition combined_metadata (run0 : run) (rest : list run) : metadata :=
  let word_list := map (fun r => md_nw (run_metadata r)) (run0 :: rest) in
  mk_metadata
    (pass_value id md_uid run0 rest)
    (if existsb (fun i => i =? -1) word_list then pass_value id md_nw run0 rest
     else foldr Z.add 0 word_list)
    (md_bl (run_metadata run0)) (md_bcl (run_metadata run0)) (md_ps (run_metadata run0))
    (pass_value VInt md_em run0 rest) (pass_value VInt md_cd run0 rest)
    (pass_value VInt md_dp run0 rest) (pass_value VInt md_cdp run0 rest)
    (md_obs (run_metadata run0)).

(** The runs agree with [run0] on the fields that must not be mixed. *)
Definition agree_on_lengths (run0 : run) (rest : list run) : Prop :=
  Forall (fun r =>
            md_bl (run_metadata r) = md_bl (run_metadata run0)
            /\ md_bcl (run_metadata r) = md_bcl (run_metadata run0)
            /\ md_ps (run_metadata r) = md_ps (run_metadata run0)
            /\ md_obs (run_metadata r) = md_obs (run_metadata run0)) rest.
End CombineSpec.

Module LimitSpec.
Import Utils.

(** [str(v)] returns for a metadata value: text is returned as it is. *)
Definition value_within_limit (v : pyval) : bool :=
  match v with
  | VInt z => PyStr.within_limit z
  | VStr _ => true
  end.

(** [str] returns for every value the identity of [m] is built from. *)
Definition identity_within_limit (m : metadata) : Prop :=
  PyStr.within_limit (md_uid m) = true /\ PyStr.within_limit (md_nw m) = true
  /\ PyStr.within_limit (md_bl m) = true /\ PyStr.within_limit (md_bcl m) = true
  /\ PyStr.within_limit (md_ps m) = true
  /\ value_within_limit (md_em m) = true /\ value_within_limit (md_cd m) = true
  /\ value_within_limit (md_dp m) = true /\ value_within_limit (md_cdp m) = true
  /\ value_within_limit (md_obs m) = true.

(** [str] returns for every per-bit counter of the run. *)
Definition counters_within_limit (r : run) : Prop :=
  Forall (fun z => PyStr.within_limit z = true)
         (CombineSpec.databurst r ++ CombineSpec.codeburst r)%list.
End LimitSpec.

Module ReducerSpec.
Import Utils.

(** The exceptions the statements of the line parser can raise. *)
Definition parser_exception (e : exn) : Prop :=
  match e with
  | ValueError | AssertionError _ | NameError _ | UnboundLocalError _ => True
  | _ => False
  end.

(** The lines [readline] returns before the end of the file. *)
Fixpoint read_part (lines : list string) : list string :=
  match lines with
  | [] => []
  | line :: rest => if String.eqb line "" then [] else line :: read_part rest
  end.

(** The run a line is parsed into, if any. *)
Definition line_run (fields_to_combine : list string) (is_experimental : bool)
    (line : string) : option run :=
  match parse_einsim_output_line line fields_to_combine is_experimental with
  | Ok (Some r) => Some r
  | _ => None
  end.

Section WithJson.
Context `{PyJson}.

(** The code a side-channel line decodes to, if any. *)
Definition line_code (line : string) : option json :=
  if PyStr.startswith "[ECC]" line then json_loads (PyStr.drop 6 line) else None.

(** A side-channel line holds JSON. *)
Definition decodable (line : string) : Prop :=
  PyStr.startswith "[ECC]" line = true -> is_Some (json_loads (PyStr.drop 6 line)).

(** The codes after a file is read: each decoded line replaces the code of
    the file. *)
Definition codes_after (infilename : string) (lines : list string)
    (codes : gmap string json) : gmap string json :=
  foldl (fun codes line =>
           match line_code line with
           | Some code => <[infilename := code]> codes
           | None => codes
           end) codes (read_part lines).
End WithJson.
End ReducerSpec.

(** ** [script/utils/aggregate_output.py] *)

(** The expression [ecc_codes[code]['uid']] used as a dictionary key: what
    it gives depends on the decoded JSON, so its outcome is an interface. *)
Class PyJsonUid `{PyJson} : Type := {
  json_uid : json -> res unit
}.

Module Aggregate.
Import Utils.

(** The dictionary [raw_data]: the runs gathered under each masked
    identity, in the order in which the identities were first seen. *)
Definition store : Type := list (string * list run).

(** [if key not in raw_data: raw_data[key] = []] and
    [raw_data[key].append(data)] *)
Fixpoint append_run (key : string) (data : run) (raw_data : store) : store :=
  match raw_data with
  | [] => [(key, [data])]
  | (k, l) :: rest =>
      if String.eqb k key then (k, (l ++ [data])%list) :: rest
      else (k, l) :: append_run key data rest
  end.

Section WithJson.
Context `{PyJsonUid}.

Definition callback (data : run) (ecc_code : option json) (raw_data : store) : res store :=
  Ok (append_run (uid_ignoring_fields data) data raw_data).

(** The loop [for uid_if, data in raw_data.items()]: the texts written so
    far (to the file and to standard output) and the exception that left
    the loop, if any. *)
Fixpoint coalesce (raw_data : store) (fields_to_combine : list string)
  : list string * option exn :=
  match raw_data with
  | [] => ([], None)
  | (uid_if, data) :: rest =>
      match (combined_data <- combine_runs data fields_to_combine ;;
             get_output_string combined_data) with
      | Ok out_str =>
          let written := coalesce rest fields_to_combine in
          (out_str :: fst written, snd written)
      | Raise e => ([], Some e)
      end
  end.

(** [aggregate_einsim_results(infiles, outfile, fields_to_combine,
    print_stdout, graph, bootstrap)] when some output is requested, the
    output file does not exist yet, and neither a graph nor the bootstrap
    is asked for: the texts written and the exception raised, if any.
    The codes are visited in the order of [map_to_list], Python visits them
    in the order of insertion: when several codes raise, the exception
    returned here may be the one of another code than in Python. *)
Definition aggregate_einsim_results (infiles : list (string * list string))
    (fields_to_combine : list string) : list string * option exn :=
  match parse_files_incremental callback infiles false fields_to_combine [] with
  | (_, Some e) => ([], Some e)
  | (w, None) =>
      (* ecc_codes_by_uid = {ecc_codes[code]['uid'] : code for code in ecc_codes} *)
      match foldM (fun (_ : unit) (kv : string * json) => json_uid (snd kv)) tt
                  (map_to_list (ecc_codes w)) with
      | Raise e => ([], Some e)
      | Ok _ => coalesce (cb_state w) fields_to_combine
      end
  end.
End WithJson.
End Aggregate.

Module AggregateSpec.
Import Utils Aggregate.

(** The runs of [runs] that carry the masked identity [key], in order. *)
Definition group_of (key : string) (runs : list run) : list run :=
  filter (fun r => uid_ignoring_fields r = key) runs.

(** The store after the callback has received [runs]. *)
Definition gathered (runs : list run) : store :=
  foldl (fun s r => append_run (uid_ignoring_fields r) r s) [] runs.
End AggregateSpec.

Module AggregateSamples.
Import Utils.

Definition quote : string := String (ascii_of_nat 34) "".

(** The text of a code that carries a [uid]: an object with the key [uid]
    and the value [7]. *)
Definition code_with_uid : string := "{" ++ quote ++ "uid" ++ quote ++ ": 7}".

(** The white space JSON allows around a value: space, tab, line feed and
    carriage return. *)
Definition json_space (c : ascii) : bool :=
  let n := nat_of_ascii c in
  (n =? 32)%nat || (n =? 9)%nat || (n =? 10)%nat || (n =? 13)%nat.

Fixpoint json_lstrip (s : string) : string :=
  match s with
  | String c s' => if json_space c then json_lstrip s' else s
  | "" => ""
  end.

Definition json_strip (s : string) : string :=
  String.rev (json_lstrip (String.rev (json_lstrip s))).

(** What the two texts of the samples decode to. *)
Inductive sample_code : Type :=
| EmptyObject
| ObjectWithUid.

(** A decoder for the two texts: the empty object and [code_with_uid]. *)
Definition two_objects : PyJson :=
  {| json := sample_code;
     json_loads := fun s =>
       if String.eqb (json_strip s) "{}" then Some EmptyObject
       else if String.eqb (json_strip s) code_with_uid then Some ObjectWithUid
       else None |}.

(** [ecc_codes[code]['uid']]: the empty object has no such key. *)
Definition code_uid (code : sample_code) : res unit :=
  match code with
  | EmptyObject => Raise KeyError
  | ObjectWithUid => Ok tt
  end.

Definition uid_of_code : @PyJsonUid two_objects :=
  @Build_PyJsonUid two_objects code_uid.

Definition two_files : list (string * list string) :=
  [("a.txt", [Samples.per_bit_line_256; "[ECC] " ++ code_with_uid ++ nl]);
   ("b.txt", [Samples.per_bit_line_256_more])].

(** The same files with a code that has no [uid]. *)
Definition two_files_without_uid : list (string * list string) :=
  [("a.txt", [Samples.per_bit_line_256; "[ECC] {}" ++ nl]);
   ("b.txt", [Samples.per_bit_line_256_more])].
End AggregateSamples.

Module HistSpec.

(** The counters of one triple, added without the assertions. *)
Definition add (h : Hist.hists) (t : Z * Z * Z) : Hist.hists :=
  let n_errs := fst (fst t) in
  let re_count := snd (fst t) in
  let ue_count := snd t in
  Hist.mk_hists
    (Hist.add_raw (Hist.raw_histogram h) n_errs re_count ue_count)
    (if 0 <? re_count then Hist.add_count (Hist.re_histogram h) n_errs re_count
     else Hist.re_histogram h)
    (if 0 <? ue_count then Hist.add_count (Hist.ue_histogram h) n_errs ue_count
     else Hist.ue_histogram h).

(** The triple passes the two assertions of the loop. *)
Definition within (bcl bl : Z) (t : Z * Z * Z) : Prop :=
  (0 < snd (fst t) -> fst (fst t) <= bcl) /\ (0 < snd t -> fst (fst t) <= bl).

(** The loop of one identity over its runs. *)
Definition fold_runs (bcl bl : Z) (h : Hist.hists) (data : list (list (list string)))
  : res Hist.hists :=
  foldM (fun h run =>
           foldM (fun h entry =>
                    t <- Hist.unpack_triple entry ;;
                    Hist.accumulate (Ok bcl) (Ok bl) h t)
                 h run)
        h data.

Definition sumZ (l : list Z) : Z := foldr Z.add 0 l.

(** The triples of [ts] whose number of errors is [n]. *)
Definition at_errors (n : Z) (ts : list (Z * Z * Z)) : list (Z * Z * Z) :=
  filter (fun t => fst (fst t) = n) ts.

(** The value of the raw histogram under [n] after the triples [ts]: the
    sums of both counters over the triples of [n], when there is one. *)
Definition raw_of (n : Z) (ts : list (Z * Z * Z)) : option (Z * Z) :=
  match at_errors n ts with
  | [] => None
  | sel => Some (sumZ (map (fun t => snd (fst t)) sel), sumZ (map snd sel))
  end.

(** The value of a histogram of events under [n]: the sum of the positive
    counters [count t] over the triples of [n], when there is one. *)
Definition events_of (count : Z * Z * Z -> Z) (n : Z) (ts : list (Z * Z * Z)) : option Z :=
  match filter (fun t => 0 < count t) (at_errors n ts) with
  | [] => None
  | sel => Some (sumZ (map count sel))
  end.
End HistSpec.

Module SummarySamples.
Import LegacySamples.

Definition entry0 : list string := ["0"; "9998"; "10000"].
Definition entry1 : list string := ["1"; "2"; "0"].

(** The summary of the example run. *)
Definition example_summary (p : list Z) : @Legacy.summary float_as_text :=
  @Legacy.mk_summary float_as_text corrected_metadata p
    (<[0 := (9998, 10000)]> (<[1 := (2, 0)]> ∅)) (2 # 7680000) (0 # 2560000)
    (<[0 := 9998]> (<[1 := 2]> ∅)) (<[0 := 10000]> ∅).
End SummarySamples.

Module LegacyFileSpec.
Import Legacy.
Section WithFloat.
Context `{PyFloat}.

(** The exceptions the statements of the positional line parser can raise. *)
Definition line_exception (e : exn) : Prop :=
  match e with
  | ValueError | IndexError | NameError _ => True
  | _ => False
  end.

(** The parsed line, if the line parses. *)
Definition line_data (line : string) : option (metadata * list (list string)) :=
  match parse_einsim_output_line line with
  | Ok (Some parsed) => Some parsed
  | _ => None
  end.

(** The parsed lines of the files, in the order of the files and lines. *)
Definition parsed_lines (files : list (string * list string))
  : list (metadata * list (list string)) :=
  concat (map (fun file => omap line_data (ReducerSpec.read_part (snd file))) files).

(** The identity of a parsed line when the counter stands at [experiment_id]. *)
Definition line_uid (experimental : bool) (experiment_id : Z)
    (parsed : metadata * list (list string)) : string :=
  if experimental
  then run_uid_from_metadata (fst parsed) ++ "_experiment_" ++ PyStr.str_int experiment_id
  else run_uid_from_metadata (fst parsed).

(** The identities of the parsed lines, the counter advancing by one per
    line. *)
Fixpoint line_uids (experimental : bool) (experiment_id : Z)
    (parsed : list (metadata * list (list string))) : list string :=
  match parsed with
  | [] => []
  | p :: rest =>
      line_uid experimental experiment_id p :: line_uids experimental (experiment_id + 1) rest
  end.

(** The summary of one parsed line alone. *)
Definition line_summary (parsed : metadata * list (list string)) : res summary :=
  summarize (omit_p (fst parsed)) [md_p (fst parsed)] [snd parsed].

(** The parsed lines of one identity, in the order of the lines. *)
Definition uid_group (run_uid : string) (parsed : list (metadata * list (list string)))
  : list (metadata * list (list string)) :=
  filter (fun p => run_uid_from_metadata (fst p) = run_uid) parsed.

(** The summary of a group of parsed lines: the metadata of the first, the
    permutations and the histogram entries of all. *)
Definition group_summary (group : list (metadata * list (list string))) : res summary :=
  match group with
  | [] => Raise IndexError
  | first :: _ =>
      summarize (omit_p (fst first)) (map (fun p => md_p (fst p)) group) (map snd group)
  end.

(** The components gathered for a group. *)
Definition group_components (group : list (metadata * list (list string)))
  : option components :=
  match group with
  | [] => None
  | first :: _ =>
      Some (mk_components (omit_p (fst first)) (map snd group)
              (map (fun p => md_p (fst p)) group))
  end.

(** The loop of [parse_files_incremental] over the parsed lines: the
    summary of the line, then the callback; the first exception ends it. *)
Fixpoint deliver {S : Type} (callback : string -> summary -> S -> res S)
    (is_experimental : bool) (parsed : list (metadata * list (list string)))
    (st : S * Z) : (S * Z) * option exn :=
  match parsed with
  | [] => (st, None)
  | p :: rest =>
      let experiment_id :=
        if is_experimental then snd st + 1 else snd st in
      match line_summary p with
      | Ok raw_data =>
          match callback (line_uid is_experimental (snd st) p) raw_data (fst st) with
          | Ok s => deliver callback is_experimental rest (s, experiment_id)
          | Raise e => ((fst st, experiment_id), Some e)
          end
      | Raise e => ((fst st, experiment_id), Some e)
      end
  end.
End WithFloat.
End LegacyFileSpec.

Module LegacyFileSamples.
Import LegacySamples SummarySamples.

(** The summary of the example run read twice. *)
Definition doubled_summary : @Legacy.summary float_as_text :=
  @Legacy.mk_summary float_as_text corrected_metadata [584576191; 584576191]
    (<[0 := (19996, 20000)]> (<[1 := (4, 0)]> ∅)) (4 # 15360000) (0 # 5120000)
    (<[0 := 19996]> (<[1 := 4]> ∅)) (<[0 := 20000]> ∅).

Definition example_metadata : @Legacy.metadata float_as_text :=
  @Legacy.mk_metadata float_as_text "REP" 584576191 1 4 12 (-1) "1e-06" 256 768 0
    "UNIFORM_RANDOM" "ALL_TRUE_OR_ALL_ANTI" "RANDOM".

(** What the parser returns for the example line and for the line without
    uncorrectable events. *)
Definition example_parsed : @Legacy.metadata float_as_text * list (list string) :=
  (example_metadata, [entry0; entry1]).
Definition corrected_parsed : @Legacy.metadata float_as_text * list (list string) :=
  (example_metadata, [["0"; "9998"; "0"]; entry1]).

(** A callback that records the identities it is called with. *)
Definition record_uid (run_uid : string) (s : @Legacy.summary float_as_text)
    (seen : list string) : list string := run_uid :: seen.
End LegacyFileSamples.

Module LogSpec.
Import Legacy Ein ObsSpec.

Section OneObservation.
Context `{Likelihood}.
Variable exp_uid : string.
Variable exp_data : summary.
Variable samples : list (gmap Z Z).

(** [log_probabilities[exp_uid]] holds the models [done], each with its
    log-likelihoods and its label. *)
Definition seen_ok (g : globals) (done : list (string * summary)) : Prop :=
  (done <> [] -> is_Some (log_probabilities g !! exp_uid))
  /\ forall u pl,
       default ∅ (log_probabilities g !! exp_uid) !! u = Some pl <->
       exists d lp, (u, d) ∈ done /\ log_probs_of d exp_data samples = Ok lp
                    /\ pl = (lp, s_xlabel d).
End OneObservation.
End LogSpec.

Module FewSamples.
Import LegacySamples EinSamples.

(** Three models of burst length 8 and one of burst length 16. *)
Definition models : list (string * @Legacy.summary float_as_text) :=
  [("m1", model 1 8); ("m2", model 2 8); ("other", model 100 16); ("m3", model 3 8)].
End FewSamples.

(** ** [get_minimized_output_string] of [script/utils.py] *)

Module LegacyOutput.

(** [':'.join(map(str, [pair[0], pair[1][0], pair[1][1]]))] *)
Definition triple_text (pair : Z * (Z * Z)) : string :=
  PyStr.join ":" [PyStr.str_int (fst pair); PyStr.str_int (fst (snd pair));
                  PyStr.str_int (snd (snd pair))].

(** [get_minimized_output_string(raw_data)].  Of the dictionary only the
    keys and the items of the histogram ['raw_data'] of each value are read:
    the dictionary is given by them, in its order. *)
Definition get_minimized_output_string (raw_data : list (string * list (Z * (Z * Z))))
  : string :=
  foldl (fun out_str kv =>
           let out_str := out_str ++ fst kv in
           let out_str := out_str ++ " [ " in
           let out_str := out_str ++ PyStr.join " " (map triple_text (snd kv)) in
           out_str ++ " ]" ++ Utils.nl)
        "" raw_data.
End LegacyOutput.

Module LegacyOutputSpec.
Import Legacy LegacyOutput.
Section WithFloat.
Context `{PyFloat}.

(** The category is one whose identity carries all the metadata. *)
Definition known_category (md : metadata) : Prop :=
  ecc_category md = "REP" \/ ecc_category md = "HSC" \/ ecc_category md = "BCH".

(** The text fields and the text of [rber] hold neither a space nor an
    opening bracket. *)
Definition plain_fields (md : metadata) : Prop :=
  RoundTripSpec.plain (str_float (md_rber md)) /\ RoundTripSpec.plain (md_ed md)
  /\ RoundTripSpec.plain (md_cd md) /\ RoundTripSpec.plain (md_dp md).

(** The metadata read back from the identity of [md]: the permutation is
    [-1], [m] is kept for BCH only, [rber] is what [float] reads. *)
Definition read_back (md : metadata) (x : pyfloat) : metadata :=
  mk_metadata (ecc_category md) (-1) (md_t md) (md_k md) (md_n md)
    (if String.eqb (ecc_category md) "BCH" then md_m md else -1)
    x (md_bl md) (md_bcl md) (md_ps md) (md_ed md) (md_cd md) (md_dp md).

(** The pieces of the entry written for an item of the histogram. *)
Definition triple_pieces (pair : Z * (Z * Z)) : list string :=
  [PyStr.str_int (fst pair); PyStr.str_int (fst (snd pair)); PyStr.str_int (snd (snd pair))].

Definition triple_of (pair : Z * (Z * Z)) : Z * Z * Z :=
  (fst pair, fst (snd pair), snd (snd pair)).

(** The words of the identity after [[DATA]]. *)
Definition words (md : metadata) : list string :=
  List.app
    [ecc_category md ++ ":"; "p:-1"; "t:" ++ PyStr.str_int (md_t md);
     "k:" ++ PyStr.str_int (md_k md); "n:" ++ PyStr.str_int (md_n md)]
    (List.app
       (if String.eqb (ecc_category md) "BCH" then ["m:" ++ PyStr.str_int (md_m md)] else [])
       ["rber:" ++ str_float (md_rber md); "bl:" ++ PyStr.str_int (md_bl md);
        "bcl:" ++ PyStr.str_int (md_bcl md); "ps:" ++ PyStr.str_int (md_ps md);
        "ed:" ++ md_ed md; "cd:" ++ md_cd md; "dp:" ++ md_dp md]).
End WithFloat.
End LegacyOutputSpec.

Module OutputSamples.
Import LegacySamples.

(** The items of the raw histogram of the example summary. *)
Definition example_items : list (Z * (Z * Z)) := [(0, (9998, 10000)); (1, (2, 0))].

Definition unk_metadata : @Legacy.metadata float_as_text :=
  @Legacy.mk_metadata float_as_text "UNK" 7 1 4 12 (-1) "1e-06" 256 768 0
    "UNIFORM_RANDOM" "ALL_TRUE_OR_ALL_ANTI" "RANDOM".
End OutputSamples.

(** ** [parse_einsim_output_file] and [add_to_hist] of [script/utils/utils.py] *)

Module UtilsFile.
Import Utils.

Section WithJson.
Context `{PyJson}.

(** The loop [while line:] of [parse_einsim_output_file], from the values of
    [dirty_data] and [ecc_code].  Here the decoding of a side-channel line
    stands inside the [try]: [except:] passes over what it raises. *)
Fixpoint parse_einsim_output_file_from (lines : list string)
    (dirty_data : list run) (ecc_code : option json) : res (list run * option json) :=
  match lines with
  | [] => Ok (dirty_data, ecc_code)
  | line :: rest =>
      if String.eqb line "" then Ok (dirty_data, ecc_code)
      else
        match parse_einsim_output_line line [] false with
        | Raise KeyboardInterrupt => Raise KeyboardInterrupt
        | Ok (Some parsed_line) =>
            parse_einsim_output_file_from rest (dirty_data ++ [parsed_line])%list ecc_code
        | Ok None =>
            if PyStr.startswith "[ECC]" line then
              match json_loads (PyStr.drop 6 line) with
              | Some code => parse_einsim_output_file_from rest dirty_data (Some code)
              | None => parse_einsim_output_file_from rest dirty_data ecc_code
              end
            else parse_einsim_output_file_from rest dirty_data ecc_code
        | Raise _ => parse_einsim_output_file_from rest dirty_data ecc_code
        end
  end.

(** [parse_einsim_output_file(infilename)]; the file is given by its lines. *)
Definition parse_einsim_output_file (lines : list string) : res (list run * option json) :=
  parse_einsim_output_file_from lines [] None.
End WithJson.

(** [add_to_hist(base, addend)], the same in [script/utils.py]: [base] maps
    [before] to a dictionary from [after] to a count. *)
Section AddToHist.
Context {K : Type} `{Countable K}.

Definition add_to_hist_step (base : gmap K (gmap K Z)) (entry : K * K * Z)
  : gmap K (gmap K Z) :=
  let before := fst (fst entry) in
  let after := snd (fst entry) in
  let count := snd entry in
  let base := match base !! before with
              | None => <[before := ∅]> base
              | Some _ => base
              end in
  let row := default ∅ (base !! before) in
  let row := match row !! after with
             | None => <[after := 0]> row
             | Some _ => row
             end in
  <[before := <[after := default 0 (row !! after) + count]> row]> base.

Definition add_to_hist (base : gmap K (gmap K Z)) (addend : list (K * K * Z))
  : gmap K (gmap K Z) :=
  foldl add_to_hist_step base addend.
End AddToHist.
End UtilsFile.

Module UtilsFileSpec.
Import Utils.

Section WithJson.
Context `{PyJson}.

(** The last code decoded from the side-channel lines, if any. *)
Definition last_code (lines : list string) : option json :=
  foldl (fun code line =>
           match ReducerSpec.line_code line with
           | Some c => Some c
           | None => code
           end) None lines.
End WithJson.

Section AddToHist.
Context {K : Type} `{Countable K}.

(** The count [base[before][after]], [0] where a key is missing. *)
Definition cell (base : gmap K (gmap K Z)) (before after : K) : Z :=
  default 0 (default ∅ (base !! before) !! after).

(** The sum of the counts of the entries from [before] to [after]. *)
Definition added (addend : list (K * K * Z)) (before after : K) : Z :=
  foldr (fun entry acc =>
           if decide (fst (fst entry) = before /\ snd (fst entry) = after)
           then snd entry + acc else acc) 0 addend.

(** [base[before][after]] exists. *)
Definition has_cell (base : gmap K (gmap K Z)) (before after : K) : Prop :=
  exists row, base !! before = Some row /\ is_Some (row !! after).
End AddToHist.

(** The word the identity holds for a field. *)
Definition word (fields_to_combine : list string) (m : metadata) (f : Identity.field)
  : string :=
  Identity.field_key f ++ ":"
  ++ (if str_in (Identity.field_key f) fields_to_combine then "-1"
      else py_str (Identity.field_value f m)).
End UtilsFileSpec.

Module UtilsFileSamples.
Import Utils.

(** A file with a run, a text that is no JSON on the side channel, a line
    that raises, and a decodable code. *)
Definition mixed_lines : list string :=
  [Samples.per_bit_line_256; ReducerSamples.bad_ecc_line;
   "[DATA] nw:x obs:PER_BIT_ERROR_COUNT [ 1 : 1 ]" ++ nl; "[ECC] {}" ++ nl].

Definition transitions : list (Z * Z * Z) := [(0, 1, 2); (1, 1, 5); (0, 1, 3)].
End UtilsFileSamples.

Module RecordSpec.
Import Utils.


End RecordSpec.

Module LimitSamples.
Import Utils RoundTripSpec.




End LimitSamples.

(** * Properties *)

(** ** Facts about text *)

Module StrFacts.

Lemma app_nil_r (s : string) : s ++ "" = s.
Proof. induction s as [|c s IH]; [reflexivity|]. unfold String.append; fold String.append. by rewrite IH. Qed.

Lemma app_cons (c : ascii) (s t : string) : String c s ++ t = String c (s ++ t).
Proof. reflexivity. Qed.

Lemma app_assoc (s t u : string) : (s ++ t) ++ u = s ++ t ++ u.
Proof.
  induction s as [|c s IH]; [reflexivity|].
  rewrite !app_cons. by rewrite IH.
Qed.

Lemma length_app (s t : string) :
  String.length (s ++ t) = (String.length s + String.length t)%nat.
Proof.
  induction s as [|c s IH]; [reflexivity|].
  rewrite app_cons. simpl. by rewrite IH.
Qed.

Lemma app_inv_tail (s t u : string) : s ++ u = t ++ u -> s = t.
Proof.
  revert t. induction s as [|c s IH]; intros [|d t] E.
  - reflexivity.
  - apply (f_equal String.length) in E. change ("" ++ u) with u in E.
    rewrite app_cons in E. simpl in E. rewrite length_app in E. lia.
  - apply (f_equal String.length) in E. change ("" ++ u) with u in E.
    rewrite app_cons in E. simpl in E. rewrite length_app in E. lia.
  - rewrite !app_cons in E. injection E as -> E. f_equal. by apply IH.
Qed.

Lemma app_inv_head (s t u : string) : s ++ t = s ++ u -> t = u.
Proof. apply String.app_inj. Qed.

(** [str] of an integer determines the integer. *)
Lemma str_int_inj (a b : Z) : PyStr.str_int a = PyStr.str_int b -> a = b.
Proof.
  unfold PyStr.str_int. intros E.
  assert (Hnn : forall z, Z.to_int z <> Decimal.Pos Decimal.Nil
                          /\ Z.to_int z <> Decimal.Neg Decimal.Nil).
  { intros [|p|p]; simpl; split; try discriminate;
      intros [= Hp]; by apply Unsigned.to_uint_nonnil in Hp. }
  apply to_int_inj.
  apply (f_equal NilZero.int_of_string) in E.
  rewrite !NilZero.isi in E by apply Hnn.
  congruence.
Qed.

End StrFacts.

Module TextFacts.
Import PyStr TextSpec StrFacts.

Lemma has_char_app (c : ascii) (a b : string) :
  has_char c (a ++ b) = has_char c a || has_char c b.
Proof.
  induction a as [|x a IH]; [reflexivity|].
  rewrite app_cons. simpl. rewrite IH. by rewrite orb_assoc.
Qed.

Lemma all_chars_app (P : ascii -> bool) (a b : string) :
  all_chars P (a ++ b) = all_chars P a && all_chars P b.
Proof.
  induction a as [|x a IH]; [reflexivity|].
  rewrite app_cons. simpl. rewrite IH. by rewrite andb_assoc.
Qed.

Lemma all_chars_has_char (P : ascii -> bool) (c : ascii) (s : string) :
  all_chars P s = true -> P c = false -> has_char c s = false.
Proof.
  intros Hs Hc. induction s as [|x s IH]; [reflexivity|].
  simpl in *. apply andb_true_iff in Hs as [Hx Hs].
  rewrite IH by done. rewrite orb_false_r.
  destruct (Ascii.eqb_spec x c) as [->|]; [congruence|done].
Qed.

Lemma all_chars_weaken (P Q : ascii -> bool) (s : string) :
  (forall c, P c = true -> Q c = true) -> all_chars P s = true -> all_chars Q s = true.
Proof.
  intros HPQ. induction s as [|x s IH]; [done|].
  simpl. intros [Hx Hs]%andb_true_iff. rewrite HPQ by done. by apply IH.
Qed.

(** *** [split] *)

Lemma split_nonempty (sep : ascii) (s : string) : split sep s <> [].
Proof.
  destruct s as [|c s]; simpl; [done|].
  destruct (Ascii.eqb c sep); [done|]. by destruct (split sep s).
Qed.

Lemma split_none (sep : ascii) (s : string) :
  has_char sep s = false -> split sep s = [s].
Proof.
  induction s as [|c s IH]; [done|].
  simpl. intros [Hc Hs]%orb_false_iff. rewrite Hc. by rewrite IH.
Qed.

Lemma split_app (sep : ascii) (a b : string) :
  has_char sep a = false -> split sep (a ++ String sep b) = a :: split sep b.
Proof.
  induction a as [|c a IH].
  - intros _. change ("" ++ String sep b) with (String sep b). simpl.
    by rewrite Ascii.eqb_refl.
  - simpl. intros [Hc Hs]%orb_false_iff. rewrite Hc. by rewrite IH.
Qed.

Lemma split1_app (sep : ascii) (a b : string) :
  has_char sep a = false -> split1 sep (a ++ String sep b) = [a; b].
Proof.
  induction a as [|c a IH].
  - intros _. change ("" ++ String sep b) with (String sep b). simpl.
    by rewrite Ascii.eqb_refl.
  - simpl. intros [Hc Hs]%orb_false_iff. rewrite Hc. by rewrite IH.
Qed.

(** A piece holds characters of the text only, and never the separator. *)
Lemma split_pieces (c sep : ascii) (s p : string) :
  has_char c s = false -> p ∈ split sep s -> has_char c p = false.
Proof.
  revert p. induction s as [|x s IH]; intros p Hs Hp.
  - simpl in Hp. apply list_elem_of_singleton in Hp as ->. done.
  - simpl in Hs. apply orb_false_iff in Hs as [Hx Hs]. simpl in Hp.
    destruct (Ascii.eqb x sep).
    + apply elem_of_cons in Hp as [->|Hp]; [done|]. by apply IH.
    + destruct (split sep s) as [|q qs] eqn:E.
      * apply list_elem_of_singleton in Hp as ->. simpl. by rewrite Hx.
      * apply elem_of_cons in Hp as [->|Hp].
        -- simpl. rewrite Hx. apply IH; [done|]. apply list_elem_of_here.
        -- apply IH; [done|]. by apply list_elem_of_further.
Qed.

Lemma split_pieces_sep (sep : ascii) (s p : string) :
  p ∈ split sep s -> has_char sep p = false.
Proof.
  revert p. induction s as [|x s IH]; intros p Hp.
  - simpl in Hp. apply list_elem_of_singleton in Hp as ->. done.
  - simpl in Hp. destruct (Ascii.eqb x sep) eqn:Ex.
    + apply elem_of_cons in Hp as [->|Hp]; [done|]. by apply IH.
    + destruct (split sep s) as [|q qs] eqn:E.
      * by destruct (split_nonempty sep s).
      * apply elem_of_cons in Hp as [->|Hp].
        -- simpl. rewrite Ex. apply IH. apply list_elem_of_here.
        -- apply IH. by apply list_elem_of_further.
Qed.

Lemma split1_pieces (c sep : ascii) (s p : string) :
  has_char c s = false -> p ∈ split1 sep s -> has_char c p = false.
Proof.
  revert p. induction s as [|x s IH]; intros p Hs Hp.
  - simpl in Hp. apply list_elem_of_singleton in Hp as ->. done.
  - simpl in Hs. apply orb_false_iff in Hs as [Hx Hs]. simpl in Hp.
    destruct (Ascii.eqb x sep).
    + apply elem_of_cons in Hp as [->|Hp]; [done|].
      apply list_elem_of_singleton in Hp as ->. done.
    + destruct (split1 sep s) as [|q qs] eqn:E.
      * apply list_elem_of_singleton in Hp as ->. simpl. by rewrite Hx.
      * apply elem_of_cons in Hp as [->|Hp].
        -- simpl. rewrite Hx. apply IH; [done|]. apply list_elem_of_here.
        -- apply IH; [done|]. by apply list_elem_of_further.
Qed.

(** *** [strip] *)

Lemma rev_app_spec (s t : string) : String.rev_app s t = String.rev s ++ t.
Proof.
  unfold String.rev. revert t. induction s as [|c s IH]; intros t; [done|].
  simpl. rewrite IH. rewrite (IH (String c "")). by rewrite app_assoc.
Qed.

Lemma rev_cons (c : ascii) (s : string) : String.rev (String c s) = String.rev s ++ String c "".
Proof. unfold String.rev at 1. simpl. by rewrite rev_app_spec. Qed.

Lemma rev_app (a b : string) : String.rev (a ++ b) = String.rev b ++ String.rev a.
Proof.
  induction a as [|c a IH].
  - change ("" ++ b) with b. change (String.rev "") with "". by rewrite app_nil_r.
  - rewrite app_cons, !rev_cons, IH. by rewrite app_assoc.
Qed.

Lemma rev_involutive (s : string) : String.rev (String.rev s) = s.
Proof.
  induction s as [|c s IH]; [done|].
  rewrite rev_cons, rev_app, IH. reflexivity.
Qed.

Lemma lstrip_cons (c : ascii) (s : string) :
  isspace c = false -> lstrip (String c s) = String c s.
Proof. intros Hc. simpl. by rewrite Hc. Qed.

(** A trailing line feed after a character that is not white space. *)
Lemma rstrip_nl (c : ascii) (s : string) :
  isspace c = false -> rstrip (s ++ String c Utils.nl) = s ++ String c "".
Proof.
  intros Hc. unfold rstrip, Utils.nl.
  rewrite rev_app, !rev_cons.
  change (String.rev "") with "". change ("" ++ String (ascii_of_nat 10) "")
    with (String (ascii_of_nat 10) "").
  rewrite !app_cons. change ("" ++ String c "") with (String c "").
  change (lstrip (String (ascii_of_nat 10) (String c "" ++ String.rev s)))
    with (lstrip (String c "" ++ String.rev s)).
  rewrite app_cons. rewrite lstrip_cons by done.
  change ("" ++ String.rev s) with (String.rev s).
  rewrite rev_cons, rev_involutive. done.
Qed.

Lemma strip_plain (s : string) : all_chars not_space s = true -> strip s = s.
Proof.
  intros Hs. unfold strip.
  assert (Hl : forall t, all_chars not_space t = true -> lstrip t = t).
  { intros [|c t]; [done|]. simpl. intros [Hc _]%andb_true_iff.
    unfold not_space in Hc. apply negb_true_iff in Hc. by rewrite Hc. }
  rewrite Hl by done. unfold rstrip.
  rewrite Hl; [apply rev_involutive|].
  clear Hl. induction s as [|c s IH]; [done|].
  simpl in Hs. apply andb_true_iff in Hs as [Hc Hs].
  rewrite rev_cons, all_chars_app, IH by done. simpl. by rewrite Hc.
Qed.

(** [int] skips nothing in text without white space. *)
Lemma strip_int_plain (s : string) : all_chars not_space s = true -> strip_int s = s.
Proof.
  intros Hs. unfold strip_int.
  assert (Hc : forall c, not_space c = true -> isspace_int c = false).
  { intros c. destruct c as [[] [] [] [] [] [] [] []]; try done; discriminate. }
  assert (Hl : forall t, all_chars not_space t = true -> lstrip_int t = t).
  { intros [|c t]; [done|]. simpl. intros [Hx _]%andb_true_iff. by rewrite (Hc c Hx). }
  rewrite (Hl s) by done. rewrite Hl; [apply rev_involutive|].
  clear Hl. induction s as [|c s IH]; [done|].
  simpl in Hs. apply andb_true_iff in Hs as [Hx Hs].
  rewrite rev_cons, all_chars_app, IH by done. simpl. by rewrite Hx.
Qed.

(** *** [str] and [int] of an integer *)

Lemma string_of_uint_digits (u : Decimal.uint) :
  all_chars isdigit (NilEmpty.string_of_uint u) = true.
Proof. induction u; simpl; done. Qed.

Lemma str_int_pos (p : positive) :
  str_int (Z.pos p) = NilEmpty.string_of_uint (Pos.to_uint p).
Proof.
  unfold str_int. simpl. pose proof (Unsigned.to_uint_nonnil p) as Hn.
  by destruct (Pos.to_uint p).
Qed.

Lemma str_int_neg (p : positive) :
  str_int (Z.neg p) = String "-" (NilEmpty.string_of_uint (Pos.to_uint p)).
Proof.
  unfold str_int. simpl. pose proof (Unsigned.to_uint_nonnil p) as Hn.
  by destruct (Pos.to_uint p).
Qed.

Lemma str_int_chars (z : Z) : all_chars sign_or_digit (str_int z) = true.
Proof.
  assert (Hd : forall u, all_chars sign_or_digit (NilEmpty.string_of_uint u) = true).
  { intros u. apply (all_chars_weaken isdigit); [|apply string_of_uint_digits].
    intros c Hc. unfold sign_or_digit. by rewrite Hc. }
  destruct z as [|p|p]; [done| |].
  - rewrite str_int_pos. apply Hd.
  - rewrite str_int_neg. simpl. apply Hd.
Qed.

Lemma str_int_nonempty (z : Z) : str_int z <> "".
Proof.
  destruct z as [|p|p]; [done| |].
  - rewrite str_int_pos. pose proof (Unsigned.to_uint_nonnil p) as Hn.
    by destruct (Pos.to_uint p).
  - by rewrite str_int_neg.
Qed.

(** A character that is neither a digit nor the sign is not in [str(z)]. *)
Lemma str_int_has_char (c : ascii) (z : Z) :
  sign_or_digit c = false -> has_char c (str_int z) = false.
Proof. intros Hc. by apply (all_chars_has_char sign_or_digit); [apply str_int_chars|]. Qed.

Lemma digits_plain (s : string) : all_chars isdigit s = true -> all_chars not_space s = true.
Proof.
  apply all_chars_weaken. intros c Hc.
  destruct c as [[] [] [] [] [] [] [] []]; try done; discriminate Hc.
Qed.

Lemma digits_ok_digits (s : string) (prev : bool) :
  all_chars isdigit s = true -> (s <> "" \/ prev = true) -> digits_ok prev s = true.
Proof.
  revert prev. induction s as [|c s IH]; intros prev Hs Hne.
  - by destruct Hne.
  - simpl in *. apply andb_true_iff in Hs as [Hc Hs]. rewrite Hc.
    apply IH; [done|by right].
Qed.

Lemma remove_underscores_digits (s : string) :
  all_chars isdigit s = true -> remove_underscores s = s.
Proof.
  induction s as [|c s IH]; [done|].
  simpl. intros [Hc Hs]%andb_true_iff. rewrite IH by done.
  destruct (Ascii.eqb_spec c "_") as [->|]; [discriminate Hc|done].
Qed.

Lemma int_digits_uint (u : Decimal.uint) :
  u <> Decimal.Nil ->
  int_digits (NilEmpty.string_of_uint u) = Ok (Z.of_uint u).
Proof.
  intros Hu. unfold int_digits.
  rewrite digits_ok_digits; [|apply string_of_uint_digits|left; by destruct u].
  rewrite remove_underscores_digits by apply string_of_uint_digits.
  by rewrite NilEmpty.usu.
Qed.

(** Text that starts with a digit is read without a sign. *)
Lemma int_unsigned (s : string) :
  all_chars isdigit s = true -> int s = int_digits s.
Proof.
  intros Hs. unfold int. rewrite strip_int_plain by by apply digits_plain.
  destruct s as [|c s]; [done|].
  simpl in Hs. apply andb_true_iff in Hs as [Hc _].
  destruct c as [[] [] [] [] [] [] [] []]; try done; discriminate Hc.
Qed.

Lemma int_str_int (z : Z) : int (str_int z) = Ok z.
Proof.
  destruct z as [|p|p]; [done| |].
  - rewrite str_int_pos, int_unsigned by apply string_of_uint_digits.
    rewrite int_digits_uint by apply Unsigned.to_uint_nonnil.
    unfold Z.of_uint. by rewrite Unsigned.of_to.
  - rewrite str_int_neg. unfold int.
    rewrite strip_int_plain.
    + rewrite int_digits_uint by apply Unsigned.to_uint_nonnil.
      unfold Z.of_uint. by rewrite Unsigned.of_to.
    + simpl. apply digits_plain, string_of_uint_digits.
Qed.

Lemma mapM_int_str (l : list Z) : mapM int (map str_int l) = Ok l.
Proof.
  induction l as [|z l IH]; [done|].
  simpl. rewrite int_str_int. simpl. rewrite IH. done.
Qed.

(** *** Texts separated by spaces *)

Lemma split_spaced (ts : list string) :
  Forall (fun t => has_char " " t = false) ts ->
  split " " (spaced ts) = (ts ++ [""])%list.
Proof.
  induction 1 as [|t ts Ht Hts IH]; [done|].
  simpl. change (t ++ " " ++ spaced ts) with (t ++ String " " (spaced ts)).
  rewrite split_app by done. by rewrite IH.
Qed.

Lemma spaced_has_char (c : ascii) (ts : list string) :
  Ascii.eqb " " c = false ->
  Forall (fun t => has_char c t = false) ts -> has_char c (spaced ts) = false.
Proof.
  intros Hc. induction 1 as [|t ts Ht Hts IH]; [done|].
  change (spaced (t :: ts)) with (t ++ " " ++ spaced ts).
  rewrite !has_char_app, Ht, IH. cbn [has_char]. by rewrite Hc.
Qed.

(** The loop [for i in l: out_str += str(i) + ' '] returns exactly when every
    integer is within the limit of [str], and then appends their texts. *)
Lemma ints_spaced_spec (out : string) (l : list Z) :
  Forall (fun z => within_limit z = true) l ->
  Utils.ints_spaced out l = Ok (out ++ spaced (map str_int l)).
Proof.
  unfold Utils.ints_spaced. intros Hl. revert out.
  induction Hl as [|z l Hz Hl IH]; intros out; cbn [foldM map spaced foldr].
  - by rewrite app_nil_r.
  - unfold str at 1. rewrite Hz. cbn [bind]. rewrite IH. by rewrite !app_assoc.
Qed.

Lemma ints_spaced_ok (out : string) (l : list Z) (s : string) :
  Utils.ints_spaced out l = Ok s ->
  Forall (fun z => within_limit z = true) l /\ s = out ++ spaced (map str_int l).
Proof.
  unfold Utils.ints_spaced. revert out.
  induction l as [|z l IH]; intros out; cbn [foldM map spaced foldr].
  - intros [= <-]. split; [constructor|by rewrite app_nil_r].
  - unfold str at 1. destruct (within_limit z) eqn:Hz; cbn [bind]; [|discriminate].
    intros E. apply IH in E as [Hl ->]. split; [by constructor|by rewrite !app_assoc].
Qed.

Lemma ints_spaced_exception (out : string) (l : list Z) (e : exn) :
  Utils.ints_spaced out l = Raise e -> e = ValueError.
Proof.
  unfold Utils.ints_spaced. revert out.
  induction l as [|z l IH]; intros out; cbn [foldM]; [discriminate|].
  unfold str at 1. destruct (within_limit z); cbn [bind]; [apply IH|by intros [= <-]].
Qed.

Lemma beyond_limit (l : list Z) :
  ~ Forall (fun z => within_limit z = true) l ->
  Exists (fun z => within_limit z = false) l.
Proof.
  induction l as [|z l IH]; intros Hl; [by destruct Hl|].
  destruct (within_limit z) eqn:Hz.
  - apply Exists_cons_tl, IH. intros Hall. apply Hl. by constructor.
  - by apply Exists_cons_hd.
Qed.

Lemma ints_spaced_long (out : string) (l : list Z) :
  Exists (fun z => within_limit z = false) l ->
  Utils.ints_spaced out l = Raise ValueError.
Proof.
  intros Hl. destruct (Utils.ints_spaced out l) as [s|e] eqn:E.
  - apply ints_spaced_ok in E as [Hall _]. exfalso.
    apply Exists_exists in Hl as (z & Hz & Hlong).
    rewrite Forall_forall in Hall. specialize (Hall z Hz). congruence.
  - by apply ints_spaced_exception in E as ->.
Qed.

Lemma strs_no_char (c : ascii) (l : list Z) :
  sign_or_digit c = false ->
  Forall (fun t => has_char c t = false) (map str_int l).
Proof.
  intros Hc. apply Forall_map, Forall_forall. intros z _. by apply str_int_has_char.
Qed.

(** [[int(i) for i in s.split(' ') if i]] reads back what the loop
    [out_str += str(i) + ' '] wrote, also after a leading space. *)
Lemma int_list_spaced (l : list Z) : Utils.int_list (spaced (map str_int l)) = Ok l.
Proof.
  unfold Utils.int_list. rewrite split_spaced by by apply strs_no_char.
  rewrite filter_app.
  assert (Hf : filter (fun i : string => i <> "") (map str_int l) = map str_int l).
  { induction l as [|z l IH]; [done|]. simpl.
    rewrite filter_cons_True by apply str_int_nonempty. by rewrite IH. }
  rewrite Hf. rewrite filter_cons_False by (intros Hn; by apply Hn).
  rewrite filter_nil, List.app_nil_r. apply mapM_int_str.
Qed.

Lemma int_list_space_spaced (l : list Z) :
  Utils.int_list (" " ++ spaced (map str_int l)) = Ok l.
Proof.
  pose proof (int_list_spaced l) as H. unfold Utils.int_list in *.
  change (" " ++ spaced (map str_int l)) with (String " " (spaced (map str_int l))).
  simpl split. rewrite filter_cons_False by (intros Hn; by apply Hn). done.
Qed.

Lemma drop_last_snoc (s : string) (c : ascii) : drop_last (s ++ String c "") = s.
Proof.
  induction s as [|x s IH]; [done|].
  rewrite app_cons. simpl. rewrite IH.
  destruct s; done.
Qed.

End TextFacts.

Module IdentityFacts.
Import Utils Identity StrFacts.

Lemma flat_app (l k : list string) : flat (l ++ k)%list = flat l ++ flat k.
Proof.
  induction l as [|x l IH]; [reflexivity|].
  simpl. rewrite IH. by rewrite app_assoc.
Qed.

Lemma run_uid_flat (m : metadata) (F : list string) :
  run_uid_from_metadata_ignoring_fields m F = "[DATA]" ++ flat (map (part F m) all_fields).
Proof.
  unfold run_uid_from_metadata_ignoring_fields, all_fields, part. simpl.
  rewrite !app_assoc. rewrite app_nil_r. reflexivity.
Qed.

Lemma part_masked (F : list string) (m1 m2 : metadata) (f : field) :
  str_in (field_key f) F = true -> part F m1 f = part F m2 f.
Proof. intros E. unfold part, uid_part. by rewrite E. Qed.

Lemma part_unmasked (F : list string) (m1 m2 : metadata) (f : field) :
  str_in (field_key f) F = false ->
  part F m1 f = part F m2 f <->
  py_str (field_value f m1) = py_str (field_value f m2).
Proof.
  intros E. unfold part, uid_part. rewrite E. simpl. split.
  - intros Heq. by do 3 apply app_inv_head in Heq.
  - by intros ->.
Qed.

Lemma part_agree (F : list string) (m1 m2 : metadata) (f g : field) :
  agree_except f m1 m2 -> g <> f -> part F m1 g = part F m2 g.
Proof. intros A Hg. unfold part. by rewrite (A g Hg). Qed.

Lemma all_fields_split (f : field) :
  exists pre post, all_fields = (pre ++ (f :: post))%list /\ (f ∉ pre) /\ (f ∉ post).
Proof.
  assert (Hin : f ∈ all_fields)
    by (apply (bool_decide_unpack _); destruct f; vm_compute; exact I).
  assert (Hnd : NoDup all_fields) by (apply (bool_decide_unpack _); vm_compute; exact I).
  apply list_elem_of_split in Hin as (pre & post & E).
  exists pre, post. split; [done|].
  rewrite E in Hnd. apply NoDup_app in Hnd as (_ & Hpre & Hpost).
  apply NoDup_cons in Hpost as [Hpost _]. split; [|done].
  intros Hf. apply (Hpre f Hf). set_solver.
Qed.

Lemma map_part_agree (F : list string) (m1 m2 : metadata) (f : field) (l : list field) :
  agree_except f m1 m2 -> f ∉ l -> map (part F m1) l = map (part F m2) l.
Proof.
  intros A Hl. apply map_ext_in. intros g Hg. apply (part_agree F m1 m2 f g A).
  intros ->. apply Hl. by apply list_elem_of_In.
Qed.

(** Two identities of metadata that agree except at [f] are equal exactly
    when the parts written for [f] are. *)
Lemma run_uid_eq_iff (F : list string) (f : field) (m1 m2 : metadata) :
  agree_except f m1 m2 ->
  run_uid_from_metadata_ignoring_fields m1 F = run_uid_from_metadata_ignoring_fields m2 F
  <-> part F m1 f = part F m2 f.
Proof.
  intros A. rewrite !run_uid_flat.
  destruct (all_fields_split f) as (pre & post & -> & Hpre & Hpost).
  rewrite !map_app, !flat_app. simpl.
  rewrite (map_part_agree F m1 m2 f pre A Hpre), (map_part_agree F m1 m2 f post A Hpost).
  split.
  - intros E. do 2 apply app_inv_head in E. by apply app_inv_tail in E.
  - by intros ->.
Qed.

Lemma py_str_same_kind_inj (v w : pyval) : same_kind v w -> py_str v = py_str w -> v = w.
Proof.
  destruct v, w; simpl; try done.
  - intros _ E. f_equal. by apply str_int_inj.
  - by intros _ ->.
Qed.

End IdentityFacts.

Section C5.
Import Utils Identity IdentityFacts.

(** C5 (as stated): a single changed field outside the mask would always
    change the identity.  It does not: the integer [-1] stored for an absent
    [em] key and the text ["-1"] read from [em:-1] are different values
    that [str] renders alike. *)
Lemma C5_changed_field_same_identity :
  ~ (forall (f : field) (m1 m2 : metadata),
       str_in (field_key f) ["bl"] = false ->
       agree_except f m1 m2 ->
       field_value f m1 <> field_value f m2 ->
       run_uid_from_metadata_ignoring_fields m1 ["bl"]
       <> run_uid_from_metadata_ignoring_fields m2 ["bl"]).
Proof.
  intros Hall.
  set (m1 := mk_metadata (-1) 1 256 768 0 (VInt (-1)) (VInt (-1)) (VInt (-1)) (VInt (-1))
                         (VStr "PER_BIT_ERROR_COUNT")).
  set (m2 := mk_metadata (-1) 1 256 768 0 (VStr "-1") (VInt (-1)) (VInt (-1)) (VInt (-1))
                         (VStr "PER_BIT_ERROR_COUNT")).
  apply (Hall F_em m1 m2).
  - reflexivity.
  - intros g Hg. destruct g; try reflexivity. by destruct Hg.
  - discriminate.
  - reflexivity.
Qed.

(** C5 (amended): for metadata that differ at most in the field [f], the
    identity does not depend on [f] when the key of [f] is in the mask
    (for the mask [["bl"]]: when [f] is [bl]); when the key is not in the
    mask, two different values of [f] that are both integers or both text
    give different identities, and in general the identities are equal
    exactly when [str] renders the two values alike. *)
Theorem C5_identity_masking (F : list string) (f : field) (m1 m2 : metadata) :
  agree_except f m1 m2 ->
  (str_in (field_key f) F = true ->
   run_uid_from_metadata_ignoring_fields m1 F = run_uid_from_metadata_ignoring_fields m2 F)
  /\ (str_in (field_key f) F = false ->
      (run_uid_from_metadata_ignoring_fields m1 F = run_uid_from_metadata_ignoring_fields m2 F
       <-> py_str (field_value f m1) = py_str (field_value f m2))
      /\ (same_kind (field_value f m1) (field_value f m2) ->
          field_value f m1 <> field_value f m2 ->
          run_uid_from_metadata_ignoring_fields m1 F
          <> run_uid_from_metadata_ignoring_fields m2 F)).
Proof.
  intros A. split.
  - intros Hmask. apply (run_uid_eq_iff F f m1 m2 A). by apply part_masked.
  - intros Hmask.
    assert (Hiff : run_uid_from_metadata_ignoring_fields m1 F
                   = run_uid_from_metadata_ignoring_fields m2 F
                   <-> py_str (field_value f m1) = py_str (field_value f m2)).
    { rewrite (run_uid_eq_iff F f m1 m2 A). by apply part_unmasked. }
    split; [exact Hiff|].
    intros Hk Hne E. apply Hne. apply py_str_same_kind_inj; [done|]. by apply Hiff.
Qed.

Lemma C5_identity_masking_witness :
  let m1 := mk_metadata (-1) 1 256 768 0 (VStr "A") (VInt (-1)) (VInt (-1)) (VInt (-1))
                        (VStr "PER_BIT_ERROR_COUNT") in
  let m2 := mk_metadata (-1) 1 512 768 0 (VStr "A") (VInt (-1)) (VInt (-1)) (VInt (-1))
                        (VStr "PER_BIT_ERROR_COUNT") in
  agree_except F_bl m1 m2
  /\ run_uid_from_metadata_ignoring_fields m1 ["bl"]
     = run_uid_from_metadata_ignoring_fields m2 ["bl"]
  /\ run_uid_from_metadata_ignoring_fields m1 ["bcl"]
     <> run_uid_from_metadata_ignoring_fields m2 ["bcl"].
Proof.
  intros m1 m2.
  assert (A : agree_except F_bl m1 m2).
  { intros g Hg. destruct g; try reflexivity. by destruct Hg. }
  split; [exact A|]. split.
  - destruct (C5_identity_masking ["bl"] F_bl m1 m2 A) as [Hmasked _].
    apply Hmasked. reflexivity.
  - destruct (C5_identity_masking ["bcl"] F_bl m1 m2 A) as [_ Hunmasked].
    destruct (Hunmasked eq_refl) as [_ Hdiff].
    apply Hdiff; [exact I|discriminate].
Defined.
End C5.

(** ** Facts about results *)

Module ResFacts.

Lemma bind_ok {A B : Type} (m : res A) (k : A -> res B) (b : B) :
  bind m k = Ok b -> exists a, m = Ok a /\ k a = Ok b.
Proof. destruct m as [a|e]; simpl; [eauto|discriminate]. Qed.

Lemma bind_raise {A B : Type} (m : res A) (k : A -> res B) (e : exn) :
  m = Raise e -> bind m k = Raise e.
Proof. by intros ->. Qed.

Lemma Forall_elem {A : Type} (P : A -> Prop) (l : list A) (x : A) :
  Forall P l -> x ∈ l -> P x.
Proof.
  intros Hall Hx. apply list_elem_of_In in Hx.
  revert x Hx. by apply List.Forall_forall.
Qed.

Lemma elem_Forall {A : Type} (P : A -> Prop) (l : list A) :
  (forall x, x ∈ l -> P x) -> Forall P l.
Proof.
  intros Hall. apply List.Forall_forall. intros x Hx. apply Hall.
  by apply list_elem_of_In.
Qed.

Lemma foldM_app {A S : Type} (body : S -> A -> res S) (s : S) (l k : list A) :
  foldM body s (l ++ k) = bind (foldM body s l) (fun s' => foldM body s' k).
Proof.
  revert s. induction l as [|a l IH]; intros s; simpl; [reflexivity|].
  destruct (body s a); simpl; [apply IH|reflexivity].
Qed.

End ResFacts.

(** ** Facts about [combine_runs] *)

Module CombineFacts.
Import Utils UtilsSpec ResFacts.

Section Element.
Context {A : Type} `{EqDecision A}.
Variable of_int : Z -> A.
Variable field : metadata -> A.

Lemma remove_dups_mixed (l : list A) (x y : A) :
  x ∈ l -> y ∈ l -> x <> y -> (1 <? length (remove_dups l))%nat = true.
Proof.
  intros Hx Hy Hne. apply Nat.ltb_lt.
  apply elem_of_remove_dups in Hx. apply elem_of_remove_dups in Hy.
  destruct (remove_dups l) as [|a [|b k]]; simpl; [| |lia].
  - by apply elem_of_nil in Hx.
  - apply list_elem_of_singleton in Hx. apply list_elem_of_singleton in Hy. congruence.
Qed.

Lemma remove_dups_same (l : list A) (x : A) :
  l <> [] -> Forall (fun y => y = x) l -> remove_dups l = [x].
Proof.
  intros Hne Hall.
  assert (Hnd := NoDup_remove_dups l).
  assert (Hall' : forall y, y ∈ remove_dups l -> y = x).
  { intros y Hy. rewrite elem_of_remove_dups in Hy.
    exact (Forall_elem (fun y => y = x) l y Hall Hy). }
  destruct l as [|a l]; [done|].
  assert (Ha : a ∈ remove_dups (a :: l)) by (apply elem_of_remove_dups; apply list_elem_of_here).
  destruct (remove_dups (a :: l)) as [|b [|c k]].
  - by apply elem_of_nil in Ha.
  - f_equal. apply Hall'. apply list_elem_of_here.
  - exfalso. apply NoDup_cons in Hnd as [Hb _]. apply Hb.
    rewrite (Hall' b (list_elem_of_here _ _)).
    rewrite (Hall' c (list_elem_of_further _ _ _ (list_elem_of_here _ _))).
    apply list_elem_of_here.
Qed.

(** A field on which the runs agree is kept, whatever the policy. *)
Lemma combine_metadata_element_same (data : list run) (elem : Z) (x : A)
    (mixed_pass mixed_warn mixed_error : option Z) :
  data <> [] ->
  Forall (fun r => field (run_metadata r) = x) data ->
  combine_metadata_element of_int data elem field mixed_pass mixed_warn mixed_error = Ok x.
Proof.
  intros Hne Hall. unfold combine_metadata_element.
  rewrite (remove_dups_same _ x); [reflexivity| |].
  - destruct data; [done|discriminate].
  - apply Forall_map. exact Hall.
Qed.

(** The pass policy never raises on a non-empty list of runs. *)
Lemma combine_metadata_element_pass (data : list run) (elem p : Z) :
  data <> [] ->
  exists x, combine_metadata_element of_int data elem field (Some p) None None = Ok x.
Proof.
  intros Hne. unfold combine_metadata_element.
  destruct (1 <? length _)%nat; [eauto|].
  destruct (remove_dups _) as [|x k] eqn:E; [|eauto].
  exfalso. destruct data as [|r data]; [done|].
  assert (Hin : field (run_metadata r) ∈ remove_dups (map (fun r => field (run_metadata r)) (r :: data)))
    by (apply elem_of_remove_dups; apply list_elem_of_here).
  rewrite E in Hin. by apply elem_of_nil in Hin.
Qed.

(** The error policy on a field with two different values: the message of
    the [print] adds the integer [elem] to text. *)
Lemma combine_metadata_element_error (data : list run) (elem s : Z) (r1 r2 : run)
    (mixed_pass mixed_warn : option Z) :
  r1 ∈ data -> r2 ∈ data -> field (run_metadata r1) <> field (run_metadata r2) ->
  combine_metadata_element of_int data elem field mixed_pass mixed_warn (Some s)
  = Raise TypeError.
Proof.
  intros H1 H2 Hne. unfold combine_metadata_element.
  rewrite (remove_dups_mixed _ (field (run_metadata r1)) (field (run_metadata r2))).
  - reflexivity.
  - apply list_elem_of_fmap. eauto.
  - apply list_elem_of_fmap. eauto.
  - exact Hne.
Qed.

(** The warn policy on a field with two different values: the same. *)
Lemma combine_metadata_element_warn (data : list run) (elem w : Z) (r1 r2 : run)
    (mixed_pass : option Z) :
  r1 ∈ data -> r2 ∈ data -> field (run_metadata r1) <> field (run_metadata r2) ->
  combine_metadata_element of_int data elem field mixed_pass (Some w) None
  = Raise TypeError.
Proof.
  intros H1 H2 Hne. unfold combine_metadata_element.
  rewrite (remove_dups_mixed _ (field (run_metadata r1)) (field (run_metadata r2))).
  - reflexivity.
  - apply list_elem_of_fmap. eauto.
  - apply list_elem_of_fmap. eauto.
  - exact Hne.
Qed.
End Element.

Lemma identity_loop_ok (run0 : run) (rest : list run) (v : option run) :
  Forall (fun r => uid_ignoring_fields run0 = uid_ignoring_fields r) rest ->
  exists v',
    foldM (fun (_ : option run) r =>
             py_assert (String.eqb (uid_ignoring_fields run0) (uid_ignoring_fields r))
                       (uid_ignoring_fields run0 ++ " != ") ;;;
             Ok (Some r)) v rest = Ok v'.
Proof.
  revert v. induction rest as [|r rest IH]; intros v Hall; simpl; [eauto|].
  apply Forall_cons in Hall as [Hr Hall].
  rewrite <- Hr, String.eqb_refl. simpl. by apply IH.
Qed.

Lemma same_masked_identity_head (run0 : run) (rest : list run) :
  same_masked_identity (run0 :: rest) ->
  Forall (fun r => uid_ignoring_fields run0 = uid_ignoring_fields r) rest.
Proof.
  intros Hid. apply elem_Forall. intros r Hr.
  apply Hid; [apply list_elem_of_here|by apply list_elem_of_further].
Qed.

Ltac step_bind := cbn [bind fst snd].

(** The statements of [combine_runs] before the burst length is combined
    do not raise when the runs carry one masked identity. *)
Ltac combine_runs_to_bl run0 rest Hid :=
  unfold combine_runs;
  destruct (identity_loop_ok run0 rest None (same_masked_identity_head run0 rest Hid))
    as [run_var ->];
  step_bind;
  destruct (combine_metadata_element_pass id md_uid (run0 :: rest) MI_UID (-1)) as [c_uid ->];
  [discriminate|];
  step_bind;
  destruct (negb (existsb (fun i => i =? -1)
                          (map (fun r => md_nw (run_metadata r)) (run0 :: rest))));
  [|destruct (combine_metadata_element_pass id md_nw (run0 :: rest) MI_NW (-1)) as [c_nw ->];
    [discriminate|]];
  step_bind.

(** Runs of one masked identity with two different burst lengths: the
    error policy raises [TypeError] while it builds its message. *)
Lemma combine_runs_bl_mixed (data : list run) (F : list string) (r1 r2 : run) :
  same_masked_identity data ->
  r1 ∈ data -> r2 ∈ data ->
  md_bl (run_metadata r1) <> md_bl (run_metadata r2) ->
  combine_runs data F = Raise TypeError.
Proof.
  intros Hid H1 H2 Hne.
  destruct data as [|run0 rest]; [by apply elem_of_nil in H1|].
  combine_runs_to_bl run0 rest Hid;
    by rewrite (combine_metadata_element_error id md_bl _ MI_BL (-1) r1 r2).
Qed.

(** Runs of one masked identity and one burst length with two different
    codeword lengths: the warn policy raises [TypeError] as well. *)
Lemma combine_runs_bcl_mixed (data : list run) (F : list string) (r1 r2 : run) :
  same_masked_identity data ->
  (forall r r', r ∈ data -> r' ∈ data -> md_bl (run_metadata r) = md_bl (run_metadata r')) ->
  r1 ∈ data -> r2 ∈ data ->
  md_bcl (run_metadata r1) <> md_bcl (run_metadata r2) ->
  combine_runs data F = Raise TypeError.
Proof.
  intros Hid Hbl H1 H2 Hne.
  destruct data as [|run0 rest]; [by apply elem_of_nil in H1|].
  assert (Hsame : Forall (fun r => md_bl (run_metadata r) = md_bl (run_metadata run0))
                         (run0 :: rest)).
  { apply elem_Forall. intros r Hr. apply Hbl; [done|apply list_elem_of_here]. }
  assert (Hne0 : run0 :: rest <> []) by done.
  combine_runs_to_bl run0 rest Hid;
    rewrite (combine_metadata_element_same id md_bl (run0 :: rest) MI_BL _ _ _ _ Hne0 Hsame);
    step_bind;
    by rewrite (combine_metadata_element_warn id md_bcl _ MI_BCL (-1) r1 r2).
Qed.

End CombineFacts.

(** ** The combination of metadata (C4, C9) *)

Section MetadataPolicies.
Import Utils UtilsSpec CombineFacts Samples.

Example per_bit_line_256_parsed :
  parse_einsim_output_line per_bit_line_256 ["bl"] false
  = Ok (Some (per_bit_run 1 256 768 0 ["bl"] [1; 0; 2] [0; 0; 1])).
Proof. vm_compute. reflexivity. Qed.

Example per_bit_line_512_parsed :
  parse_einsim_output_line per_bit_line_512 ["bl"] false
  = Ok (Some (per_bit_run 1 512 768 0 ["bl"] [4; 1; 0] [2; 0; 0])).
Proof. vm_compute. reflexivity. Qed.

Example per_bit_line_bcl_parsed :
  parse_einsim_output_line per_bit_line_bcl ["bcl"] false
  = Ok (Some (per_bit_run 1 256 1536 0 ["bcl"] [4; 1; 0] [2; 0; 0])).
Proof. vm_compute. reflexivity. Qed.

Lemma same_masked_identity_pair (a b : run) :
  uid_ignoring_fields a = uid_ignoring_fields b -> same_masked_identity [a; b].
Proof.
  intros E r1 r2 H1 H2.
  apply elem_of_cons in H1 as [->|H1]; apply elem_of_cons in H2 as [->|H2];
    try apply list_elem_of_singleton in H1 as ->;
    try apply list_elem_of_singleton in H2 as ->; congruence.
Qed.

(** C9: runs of one masked identity with two different burst lengths make
    [combine_runs] raise, so that it returns no combined record.  The
    exception is the [TypeError] of the message [print] builds by adding the
    integer index of the field to text; the [assert False] that follows it
    in the source, and that would name the field, is not reached. *)
Theorem C9_bl_mismatch_raises (data : list run) (fields_to_combine : list string)
    (r1 r2 : run) :
  same_masked_identity data ->
  r1 ∈ data -> r2 ∈ data ->
  md_bl (run_metadata r1) <> md_bl (run_metadata r2) ->
  combine_runs data fields_to_combine = Raise TypeError.
Proof. apply combine_runs_bl_mixed. Qed.

Lemma C9_bl_mismatch_raises_witness :
  let a := per_bit_run 1 256 768 0 ["bl"] [1; 0; 2] [0; 0; 1] in
  let b := per_bit_run 1 512 768 0 ["bl"] [4; 1; 0] [2; 0; 0] in
  same_masked_identity [a; b]
  /\ md_bl (run_metadata a) <> md_bl (run_metadata b)
  /\ combine_runs [a; b] ["bl"] = Raise TypeError.
Proof.
  intros a b.
  assert (Hid : same_masked_identity [a; b]) by (by apply same_masked_identity_pair).
  assert (Hne : md_bl (run_metadata a) <> md_bl (run_metadata b)) by discriminate.
  split; [exact Hid|]. split; [exact Hne|].
  apply (C9_bl_mismatch_raises [a; b] ["bl"] a b Hid); [|apply list_elem_of_further, list_elem_of_here|exact Hne];
    apply list_elem_of_here.
Defined.

(** C4: runs of one masked identity and one burst length with two
    different codeword lengths make [combine_runs] raise [TypeError]: the
    warn policy builds its message by adding the integer index of the field
    to text, before the sentinel is returned. *)
Theorem C4_bcl_mismatch_raises (data : list run) (fields_to_combine : list string)
    (r1 r2 : run) :
  same_masked_identity data ->
  (forall r r', r ∈ data -> r' ∈ data ->
                md_bl (run_metadata r) = md_bl (run_metadata r')) ->
  r1 ∈ data -> r2 ∈ data ->
  md_bcl (run_metadata r1) <> md_bcl (run_metadata r2) ->
  combine_runs data fields_to_combine = Raise TypeError.
Proof. apply combine_runs_bcl_mixed. Qed.

Lemma C4_bcl_mismatch_raises_witness :
  let a := per_bit_run 1 256 768 0 ["bcl"] [1; 0; 2] [0; 0; 1] in
  let b := per_bit_run 1 256 1536 0 ["bcl"] [4; 1; 0] [2; 0; 0] in
  same_masked_identity [a; b]
  /\ md_bcl (run_metadata a) <> md_bcl (run_metadata b)
  /\ combine_runs [a; b] ["bcl"] = Raise TypeError.
Proof.
  intros a b.
  assert (Hid : same_masked_identity [a; b]) by (by apply same_masked_identity_pair).
  assert (Hne : md_bcl (run_metadata a) <> md_bcl (run_metadata b)) by discriminate.
  split; [exact Hid|]. split; [exact Hne|].
  apply (C4_bcl_mismatch_raises [a; b] ["bcl"] a b Hid); [| |apply list_elem_of_further, list_elem_of_here|exact Hne].
  - intros r r' Hr Hr'.
    apply elem_of_cons in Hr as [->|Hr]; apply elem_of_cons in Hr' as [->|Hr'];
      try apply list_elem_of_singleton in Hr as ->;
      try apply list_elem_of_singleton in Hr' as ->; reflexivity.
  - apply list_elem_of_here.
Defined.
End MetadataPolicies.

(** ** The observable [N_ERRORS_PER_BURST] in [script/utils/utils.py] *)

Module NErrorsFacts.
Import Utils ResFacts.

Lemma uber_unbound (ue : gmap Z Z) :
  Hist.uber_calculated read_bl ue = Raise (NameError "bl").
Proof. reflexivity. Qed.

(** [combine_observation] returns nothing for this observable: either the
    loop over the runs raises, or the rate computed after it reads the
    unbound [bcl], [ps] or [bl]. *)
Lemma combine_observation_n_errors (runs : list run) :
  exists e, combine_observation OBS_N_ERRORS_PER_BURST runs = Raise e.
Proof.
  unfold combine_observation.
  change (String.eqb OBS_N_ERRORS_PER_BURST OBS_N_ERRORS_PER_BURST) with true.
  cbv iota.
  destruct (foldM _ Hist.empty runs) as [h|e]; cbn [bind]; [|eauto].
  destruct (Hist.rber_calculated read_bcl read_ps (Hist.re_histogram h)) as [q|e];
    cbn [bind]; [|eauto].
  rewrite uber_unbound. cbn [bind]. eauto.
Qed.

Lemma foldM_raises_at {A S : Type} (body : S -> A -> res S) (x : A) (l : list A) (s : S) :
  x ∈ l -> (forall s', exists e, body s' x = Raise e) ->
  exists e, foldM body s l = Raise e.
Proof.
  intros Hx Hbody. revert s. induction l as [|a l IH]; intros s.
  - by apply elem_of_nil in Hx.
  - simpl. apply elem_of_cons in Hx as [<-|Hx].
    + destruct (Hbody s) as [e ->]. simpl. eauto.
    + destruct (body s a) as [s'|e]; simpl; [by apply IH|eauto].
Qed.

(** The loop of [combine_runs] over the observables of the last run. *)
Lemma combine_observables_n_errors (data : list run) (observables : list string)
    (obs : gmap string observation) :
  OBS_N_ERRORS_PER_BURST ∈ observables ->
  exists e,
    foldM (fun (obs : gmap string observation) observable =>
             o <- combine_observation observable data ;;
             Ok (<[observable := o]> obs))
          obs observables = Raise e.
Proof.
  intros Hin. apply (foldM_raises_at _ OBS_N_ERRORS_PER_BURST); [done|].
  intros s'. destruct (combine_observation_n_errors data) as [e ->]. simpl. eauto.
Qed.

Lemma identity_loop_last (run0 : run) (rest : list run) (v v' : option run) :
  foldM (fun (_ : option run) r =>
           py_assert (String.eqb (uid_ignoring_fields run0) (uid_ignoring_fields r))
                     (uid_ignoring_fields run0 ++ " != ") ;;;
           Ok (Some r)) v rest = Ok v' ->
  v' = match last rest with Some r => Some r | None => v end.
Proof.
  revert v. induction rest as [|r rest IH]; intros v E; simpl in E.
  - by injection E as <-.
  - destruct (py_assert _ _); simpl in E; [|discriminate].
    apply IH in E. rewrite E. rewrite last_cons. by destruct (last rest).
Qed.

(** When [combine_runs] reads [run] to list the observables, [run] is the
    last run of [data]. *)
Lemma combine_runs_ok_inv (data : list run) (F : list string) (out : run) :
  combine_runs data F = Ok out ->
  exists r obs,
    last data = Some r
    /\ foldM (fun (obs : gmap string observation) observable =>
                o <- combine_observation observable data ;;
                Ok (<[observable := o]> obs))
             ∅ (map fst (map_to_list (observations r))) = Ok obs
    /\ observations out = obs.
Proof.
  unfold combine_runs. intros E.
  apply bind_ok in E as (run_var & Hloop & E).
  apply bind_ok in E as (c_uid & _ & E).
  apply bind_ok in E as (nw_run & Hnw & E).
  do 8 (apply bind_ok in E as (? & _ & E)).
  apply bind_ok in E as (r & Hr & E).
  apply bind_ok in E as (obs & Hobs & E).
  injection E as <-. exists r, obs. split; [|done].
  destruct (snd nw_run) as [r'|] eqn:Hsnd; [|discriminate Hr]. injection Hr as ->.
  destruct data as [|run0 rest].
  - injection Hloop as <-. simpl in Hnw. injection Hnw as <-. discriminate Hsnd.
  - destruct (negb _) in Hnw.
    + injection Hnw as <-. simpl in Hsnd.
      destruct (last (run0 :: rest)) eqn:El; [done|].
      apply last_None in El. discriminate El.
    + apply bind_ok in Hnw as (c_nw & _ & Hnw). injection Hnw as <-.
      apply identity_loop_last in Hloop.
      simpl in Hsnd. rewrite Hsnd in Hloop. rewrite last_cons.
      destruct (last rest); [done|discriminate Hloop].
Qed.


(** Runs whose last one carries this observable are never combined. *)
Lemma combine_runs_n_errors (data : list run) (F : list string) (r : run) :
  last data = Some r ->
  is_Some (observations r !! OBS_N_ERRORS_PER_BURST) ->
  exists e, combine_runs data F = Raise e.
Proof.
  intros Hlast Hobs.
  destruct (combine_runs data F) as [out|e] eqn:E; [|eauto].
  exfalso. apply combine_runs_ok_inv in E as (r' & obs & Hlast' & Hfold & _).
  assert (r' = r) as -> by congruence.
  destruct (combine_observables_n_errors data (map fst (map_to_list (observations r))) ∅)
    as [e He]; [|congruence].
  destruct Hobs as [o Ho].
  apply list_elem_of_fmap. exists (OBS_N_ERRORS_PER_BURST, o). split; [done|].
  by apply elem_of_map_to_list.
Qed.

(** [get_output_string] returns nothing for a record that carries this
    observable: the branch written for it reads the unbound [val]. *)
Lemma get_output_string_n_errors (r : run) :
  is_Some (observations r !! OBS_N_ERRORS_PER_BURST) ->
  exists e, get_output_string r = Raise e.
Proof.
  intros [o Ho]. unfold get_output_string.
  destruct (py_assert _ _); cbn [bind]; [|eauto].
  apply (foldM_raises_at _ (OBS_N_ERRORS_PER_BURST, o)).
  - by apply elem_of_map_to_list.
  - intros s'. cbn [fst snd].
    change (String.eqb OBS_N_ERRORS_PER_BURST OBS_N_ERRORS_PER_BURST) with true.
    cbv iota. unfold read_val. cbn [bind]. eauto.
Qed.

End NErrorsFacts.


(** ** The round trip of [PER_BIT_ERROR_COUNT] records *)

Module RoundTripFacts.
Import Utils PyStr TextSpec StrFacts TextFacts RoundTripSpec ResFacts.

Lemma py_dict_tokens (kvs : list (string * string)) (d : gmap string string) :
  Forall (fun kv => has_char ":" (fst kv) = false) kvs ->
  foldM (fun d kv =>
           match kv with
           | [k; v] => Ok (<[k := v]> d)
           | _ => Raise ValueError
           end) d (map (split1 ":") (map token kvs))
  = Ok (foldl (fun d kv => <[fst kv := snd kv]> d) d kvs).
Proof.
  intros Hk. revert d. induction Hk as [|[k v] kvs Hkv Hk IH]; intros d; [done|].
  cbn [map foldM foldl]. unfold token at 1. cbn [fst snd] in *.
  change (k ++ ":" ++ v) with (k ++ String ":" v).
  rewrite split1_app by done. cbn [bind]. apply IH.
Qed.

Lemma per_bit_line_tokens (m : metadata) (d c : list Z) :
  per_bit_line m d c
  = "[DATA] " ++ (spaced (map token (written m OBS_PER_BIT_ERROR_COUNT))
                  ++ String "[" (" " ++ spaced (map str_int d)
                                 ++ String ":" (" " ++ spaced (map str_int c))))
    ++ String "]" nl.
Proof.
  unfold per_bit_line, run_uid_from_metadata, run_uid_from_metadata_ignoring_fields, uid_part.
  cbn [str_in existsb negb].
  unfold written. cbn [map]. unfold token. cbn [fst snd].
  unfold spaced, OBS_PER_BIT_ERROR_COUNT, nl. cbn [foldr].
  repeat first [rewrite app_assoc | rewrite app_cons | progress change ("" ++ ?x) with x].
  reflexivity.
Qed.

Lemma written_keys (m : metadata) (o : string) :
  Forall (fun kv => has_char ":" (fst kv) = false) (written m o).
Proof. unfold written. repeat constructor. Qed.

Lemma token_has_char (c : ascii) (k v : string) :
  has_char c k = false -> Ascii.eqb ":" c = false -> has_char c v = false ->
  has_char c (token (k, v)) = false.
Proof.
  intros Hk Hc Hv. unfold token. cbn [fst snd].
  rewrite !has_char_app, Hk, Hv. cbn [has_char]. by rewrite Hc.
Qed.

Lemma written_tokens (c : ascii) (m : metadata) (o : string) :
  c = " "%char \/ c = "["%char ->
  plain_metadata m -> has_char c o = false ->
  Forall (fun t => has_char c t = false) (map token (written m o)).
Proof.
  intros Hc (Hem & Hcd & Hdp & Hcdp & Hobs) Ho.
  assert (Hint : forall z, has_char c (str_int z) = false).
  { intros z. apply str_int_has_char. by destruct Hc as [-> | ->]. }
  assert (Hplain : forall s, plain s -> has_char c s = false).
  { intros s [H1 H2]. by destruct Hc as [-> | ->]. }
  unfold written. cbn [map].
  repeat (apply Forall_cons; split;
          [apply token_has_char;
           [by destruct Hc as [-> | ->] | by destruct Hc as [-> | ->] | auto]|]).
  apply Forall_nil. done.
Qed.

(** The dictionary [metadata_extracted] of the line of [m]. *)
Lemma written_lookup (m : metadata) (o : string) :
  let d := foldl (fun (d : gmap string string) kv => <[fst kv := snd kv]> d) ∅ (written m o) in
  d !! "uid" = Some (str_int (md_uid m)) /\ d !! "nw" = Some (str_int (md_nw m))
  /\ d !! "bl" = Some (str_int (md_bl m)) /\ d !! "bcl" = Some (str_int (md_bcl m))
  /\ d !! "ps" = Some (str_int (md_ps m)) /\ d !! "em" = Some (py_str (md_em m))
  /\ d !! "cd" = Some (py_str (md_cd m)) /\ d !! "dp" = Some (py_str (md_dp m))
  /\ d !! "cdp" = Some (py_str (md_cdp m)) /\ d !! "obs" = Some o.
Proof.
  unfold written. cbn [foldl fst snd].
  repeat split; repeat (rewrite lookup_insert_ne by done); by rewrite lookup_insert_eq.
Qed.

Lemma parse_per_bit_payload (d c : list Z) :
  parse_per_bit_error_count
    ((" " ++ spaced (map str_int d) ++ String ":" (" " ++ spaced (map str_int c))) ++ String "]" "")
  = Ok (ObsPerBit d c).
Proof.
  unfold parse_per_bit_error_count.
  assert (Hform : (" " ++ spaced (map str_int d) ++ String ":" (" " ++ spaced (map str_int c)))
                  ++ String "]" ""
                  = (" " ++ spaced (map str_int d))
                    ++ String ":" ((" " ++ spaced (map str_int c)) ++ String "]" "")).
  { repeat first [rewrite app_assoc | rewrite app_cons | progress change ("" ++ ?x) with x].
    reflexivity. }
  rewrite Hform. clear Hform.
  assert (Hsp : forall l, has_char ":" (" " ++ spaced (map str_int l)) = false).
  { intros l. rewrite has_char_app.
    rewrite (spaced_has_char ":") by (done || by apply strs_no_char). done. }
  rewrite split_app by apply Hsp.
  rewrite split_none by (rewrite has_char_app, Hsp; done).
  cbv iota beta. rewrite int_list_space_spaced. cbn [bind].
  rewrite drop_last_snoc, int_list_space_spaced. done.
Qed.

Lemma lstrip_app (c : ascii) (a b : string) :
  isspace c = false -> lstrip (String c a ++ b) = String c a ++ b.
Proof. intros Hc. rewrite app_cons. by apply lstrip_cons. Qed.

(** The parser reads the line of [m] back. *)
Lemma parse_per_bit_line (m : metadata) (d c : list Z) (F : list string) :
  plain_metadata m ->
  parse_einsim_output_line (per_bit_line m d c) F false
  = Ok (Some (mk_run (reread m OBS_PER_BIT_ERROR_COUNT) None
                (run_uid_from_metadata (reread m OBS_PER_BIT_ERROR_COUNT))
                (run_uid_from_metadata_ignoring_fields (reread m OBS_PER_BIT_ERROR_COUNT) F)
                {[ OBS_PER_BIT_ERROR_COUNT := ObsPerBit d c ]})).
Proof.
  intros Hm. rewrite per_bit_line_tokens.
  set (meta := spaced (map token (written m OBS_PER_BIT_ERROR_COUNT))).
  set (payload := " " ++ spaced (map str_int d) ++ String ":" (" " ++ spaced (map str_int c))).
  assert (Hsplit : split "[" (strip (drop 7 ("[DATA] " ++ (meta ++ String "[" payload)
                                           ++ String "]" nl)))
                   = [meta; payload ++ String "]" ""]).
  { change (drop 7 ("[DATA] " ++ ?x)) with x.
    unfold strip.
    assert (Hhead : exists a, meta = String "u" a) by (eexists; reflexivity).
    destruct Hhead as [a Ha].
    rewrite Ha at 1. rewrite !app_assoc. rewrite lstrip_app by done.
    rewrite <- Ha. rewrite <- (app_assoc meta).
    rewrite rstrip_nl by done.
    rewrite app_assoc, app_cons.
    rewrite split_app.
    2:{ apply spaced_has_char; [done|]. apply written_tokens; [by right|done|done]. }
    rewrite split_none; [done|].
    subst payload. rewrite !has_char_app. cbn [has_char].
    rewrite !has_char_app. cbn [has_char].
    rewrite !spaced_has_char by (done || by apply strs_no_char). done. }
  unfold parse_einsim_output_line.
  replace ((6 <? String.length ("[DATA] " ++ (meta ++ String "[" payload) ++ String "]" nl))%nat
           && String.eqb (take 6 ("[DATA] " ++ (meta ++ String "[" payload) ++ String "]" nl)) "[DATA]"
           && contains "[DATA]" ("[DATA] " ++ (meta ++ String "[" payload) ++ String "]" nl))
    with true by reflexivity.
  cbv iota. rewrite Hsplit. cbv iota beta zeta.
  subst meta. rewrite split_spaced by (apply written_tokens; [by left|done|done]).
  rewrite removelast_last.
  unfold py_dict. rewrite py_dict_tokens by apply written_keys. cbn [bind].
  destruct (written_lookup m OBS_PER_BIT_ERROR_COUNT)
    as (Huid & Hnw & Hbl & Hbcl & Hps & Hem & Hcd & Hdp & Hcdp & Hobs).
  unfold meta_int, meta_str.
  rewrite Huid, Hnw, Hbl, Hbcl, Hps, Hem, Hcd, Hdp, Hcdp, Hobs.
  rewrite !int_str_int. cbn [bind fst snd].
  change (negb (str_in OBS_PER_BIT_ERROR_COUNT OBSERVABLES)) with false.
  change (String.eqb OBS_PER_BIT_ERROR_COUNT OBS_N_ERRORS_PER_BURST) with false.
  change (String.eqb OBS_PER_BIT_ERROR_COUNT OBS_PER_BIT_ERROR_COUNT) with true.
  cbv iota. subst payload. rewrite parse_per_bit_payload. reflexivity.
Qed.

(** *** What the serializer writes *)

(** What [get_output_string] does with a record that holds the per-bit
    observable only. *)
Lemma get_output_string_unfold (rec : run) (d c : list Z) :
  observations rec = {[ OBS_PER_BIT_ERROR_COUNT := ObsPerBit d c ]} ->
  get_output_string rec
  = (out_str <- ints_spaced (uid rec ++ " obs:" ++ OBS_PER_BIT_ERROR_COUNT ++ " [ ") d ;;
     out_str <- ints_spaced (out_str ++ ": ") c ;;
     Ok (out_str ++ "]" ++ nl)).
Proof.
  intros Hobs. unfold get_output_string. rewrite Hobs.
  rewrite bool_decide_eq_false_2 by apply map_non_empty_singleton.
  cbn [negb py_assert bind]. rewrite map_to_list_singleton.
  cbn [foldM bind fst snd].
  change (String.eqb OBS_PER_BIT_ERROR_COUNT OBS_N_ERRORS_PER_BURST) with false.
  change (String.eqb OBS_PER_BIT_ERROR_COUNT OBS_PER_BIT_ERROR_COUNT) with true.
  cbv iota. cbn [obs_per_bit bind fst snd].
  change ("" ++ ?x) with x. rewrite !app_assoc.
  destruct (ints_spaced _ d) as [out1|e]; cbn [bind]; [|done].
  by destruct (ints_spaced _ c).
Qed.

Lemma get_output_string_per_bit (rec : run) (d c : list Z) :
  observations rec = {[ OBS_PER_BIT_ERROR_COUNT := ObsPerBit d c ]} ->
  uid rec = run_uid_from_metadata (run_metadata rec) ->
  Forall (fun z => within_limit z = true) (d ++ c)%list ->
  get_output_string rec = Ok (per_bit_line (run_metadata rec) d c).
Proof.
  intros Hobs Huid [Hd Hc]%Forall_app. rewrite (get_output_string_unfold rec d c Hobs).
  rewrite (ints_spaced_spec _ d Hd). cbn [bind].
  rewrite (ints_spaced_spec _ c Hc). cbn [bind]. rewrite Huid.
  unfold per_bit_line. f_equal. by rewrite !app_assoc.
Qed.

(** When it returns, every counter was within the limit of [str]. *)
Lemma get_output_string_per_bit_ok (rec : run) (d c : list Z) (out : string) :
  observations rec = {[ OBS_PER_BIT_ERROR_COUNT := ObsPerBit d c ]} ->
  get_output_string rec = Ok out ->
  Forall (fun z => within_limit z = true) (d ++ c)%list.
Proof.
  intros Hobs. rewrite (get_output_string_unfold rec d c Hobs). intros E.
  apply bind_ok in E as (out1 & H1 & E). apply bind_ok in E as (out2 & H2 & _).
  apply ints_spaced_ok in H1 as [Hd _]. apply ints_spaced_ok in H2 as [Hc _].
  apply Forall_app. by split.
Qed.

(** A counter beyond the limit of [str] is not written. *)
Lemma get_output_string_long (rec : run) (d c : list Z) :
  observations rec = {[ OBS_PER_BIT_ERROR_COUNT := ObsPerBit d c ]} ->
  Exists (fun z => within_limit z = false) (d ++ c)%list ->
  get_output_string rec = Raise ValueError.
Proof.
  intros Hobs Hlong. rewrite (get_output_string_unfold rec d c Hobs).
  apply Exists_app in Hlong.
  destruct (ints_spaced _ d) as [out1|e] eqn:H1; cbn [bind].
  - destruct Hlong as [Hlong|Hlong].
    + by rewrite (ints_spaced_long _ d Hlong) in H1.
    + by rewrite (ints_spaced_long _ c Hlong).
  - by apply ints_spaced_exception in H1 as ->.
Qed.

(** *** What the parser returns *)

Lemma parse_n_errors_raises (raw_data : string) :
  exists e, parse_n_errors_per_burst raw_data = Raise e.
Proof.
  unfold parse_n_errors_per_burst.
  destruct (foldM _ Hist.empty _) as [h|e]; cbn [bind]; [|eauto].
  destruct (Hist.rber_calculated read_bcl read_ps (Hist.re_histogram h)) as [q|e];
    cbn [bind]; eauto.
Qed.

Lemma parse_per_bit_shape (raw_data : string) (o : observation) :
  parse_per_bit_error_count raw_data = Ok o -> exists d c, o = ObsPerBit d c.
Proof.
  unfold parse_per_bit_error_count.
  destruct (split ":" raw_data) as [|a [|b [|]]]; try discriminate.
  intros E. apply bind_ok in E as (d & _ & E). apply bind_ok in E as (c & _ & E).
  injection E as <-. eauto.
Qed.

Lemma elem_of_removelast {A : Type} (x : A) (l : list A) : x ∈ removelast l -> x ∈ l.
Proof.
  induction l as [|a l IH]; [done|].
  simpl. destruct l as [|b l]; [by intros ?%elem_of_nil|].
  intros [->|Hx]%elem_of_cons; [apply list_elem_of_here|].
  apply list_elem_of_further. by apply IH.
Qed.

Lemma py_dict_values (P : string -> Prop) (pairs : list (list string)) (d0 d : gmap string string) :
  foldM (fun d kv =>
           match kv with
           | [k; v] => Ok (<[k := v]> d)
           | _ => Raise ValueError
           end) d0 pairs = Ok d ->
  (forall k v, d0 !! k = Some v -> P v) ->
  (forall kv x, kv ∈ pairs -> x ∈ kv -> P x) ->
  forall k v, d !! k = Some v -> P v.
Proof.
  revert d0. induction pairs as [|kv pairs IH]; intros d0 E H0 Hp.
  - by injection E as <-.
  - cbn [foldM] in E. apply bind_ok in E as (d1 & Hstep & E).
    apply (IH d1 E).
    + destruct kv as [|k1 [|v1 [|]]]; try discriminate Hstep. injection Hstep as <-.
      intros k v. destruct (decide (k = k1)) as [->|Hne].
      * rewrite lookup_insert_eq. intros [= <-].
        apply (Hp [k1; v1]); [apply list_elem_of_here|].
        apply list_elem_of_further, list_elem_of_here.
      * rewrite lookup_insert_ne by done. apply H0.
    + intros kv' x Hkv. apply Hp. by apply list_elem_of_further.
Qed.

Lemma plain_minus_one : plain (py_str (VInt (-1))).
Proof. by split. Qed.

Lemma meta_str_plain (d : gmap string string) (key : string) :
  (forall k v, d !! k = Some v -> plain v) -> plain (py_str (meta_str d key)).
Proof.
  intros Hd. unfold meta_str. destruct (d !! key) as [v|] eqn:E.
  - by apply (Hd key).
  - apply plain_minus_one.
Qed.

(** A parsed run: the values of its text fields hold neither a space nor a
    bracket, its observable is [PER_BIT_ERROR_COUNT] (the other one never
    parses), and the metadata names it. *)
Lemma parsed_inv (r : run) :
  parsed r ->
  plain_metadata (run_metadata r)
  /\ md_obs (run_metadata r) = VStr OBS_PER_BIT_ERROR_COUNT
  /\ exists d c, observations r = {[ OBS_PER_BIT_ERROR_COUNT := ObsPerBit d c ]}.
Proof.
  intros (line & F & E). unfold parse_einsim_output_line in E.
  destruct (_ && _ && _); [|discriminate E].
  destruct (split "[" (strip (drop 7 line))) as [|meta [|raw [|]]] eqn:Hs;
    try discriminate E.
  apply bind_ok in E as (dict & Hdict & E).
  do 5 (apply bind_ok in E as (? & _ & E)).
  assert (Hvals : forall k v, dict !! k = Some v -> plain v).
  { apply (py_dict_values plain _ ∅ dict Hdict); [intros k v; by rewrite lookup_empty|].
    intros kv piece Hkv Hx. apply list_elem_of_fmap in Hkv as (tok & -> & Htok).
    apply elem_of_removelast in Htok.
    split.
    - eapply split1_pieces; [|exact Hx]. by eapply split_pieces_sep.
    - eapply split1_pieces; [|exact Hx]. eapply split_pieces; [|exact Htok].
      apply (split_pieces_sep "[" (strip (drop 7 line))). rewrite Hs.
      apply list_elem_of_here. }
  destruct (dict !! "obs") as [obs|] eqn:Hobs; [|discriminate E].
  cbn [bind fst snd] in E.
  destruct (negb (str_in obs OBSERVABLES)) eqn:Hin; [discriminate E|].
  destruct (String.eqb obs OBS_N_ERRORS_PER_BURST) eqn:Hn.
  { destruct (parse_n_errors_raises raw) as [e He]. rewrite He in E. discriminate E. }
  destruct (String.eqb obs OBS_PER_BIT_ERROR_COUNT) eqn:Hp.
  - apply String.eqb_eq in Hp as ->.
    apply bind_ok in E as (o & Ho & E). injection E as <-. cbn [run_metadata observations].
    split; [repeat split; apply meta_str_plain, Hvals|].
    split; [unfold meta_str; by rewrite Hobs|].
    by apply parse_per_bit_shape in Ho as (d & c & ->); eauto.
  - unfold str_in, OBSERVABLES in Hin. cbn [existsb] in Hin.
    rewrite Hn, Hp in Hin. discriminate Hin.
Qed.


(** *** What [combine_runs] returns *)

Lemma combine_metadata_element_value {A : Type} `{EqDecision A} (of_int : Z -> A)
    (data : list run) (elem : Z) (field : metadata -> A)
    (mixed_pass mixed_warn mixed_error : option Z) (x : A) :
  combine_metadata_element of_int data elem field mixed_pass mixed_warn mixed_error = Ok x ->
  (exists p, mixed_pass = Some p /\ mixed_warn = None /\ mixed_error = None /\ x = of_int p)
  \/ (exists r, r ∈ data /\ x = field (run_metadata r)).
Proof.
  unfold combine_metadata_element.
  destruct (1 <? length _)%nat.
  - destruct mixed_error as [e|]; [discriminate|].
    destruct mixed_warn as [w|]; [discriminate|].
    destruct mixed_pass as [p|]; [|discriminate].
    intros [= <-]. left. eauto.
  - destruct (remove_dups _) as [|y l] eqn:E; [discriminate|].
    intros [= <-]. right.
    assert (Hy : y ∈ remove_dups (map (fun r => field (run_metadata r)) data))
      by (rewrite E; apply list_elem_of_here).
    rewrite elem_of_remove_dups in Hy.
    apply list_elem_of_fmap in Hy as (r & -> & Hr). eauto.
Qed.

Lemma combine_runs_metadata (data : list run) (F : list string) (rec : run) :
  combine_runs data F = Ok rec ->
  uid rec = run_uid_from_metadata (run_metadata rec)
  /\ (forall field : metadata -> pyval,
        field = md_em \/ field = md_cd \/ field = md_dp \/ field = md_cdp ->
        field (run_metadata rec) = VInt (-1)
        \/ exists r, r ∈ data /\ field (run_metadata rec) = field (run_metadata r))
  /\ exists r, r ∈ data /\ md_obs (run_metadata rec) = md_obs (run_metadata r).
Proof.
  unfold combine_runs. intros E.
  apply bind_ok in E as (run_var & _ & E).
  apply bind_ok in E as (c_uid & _ & E).
  apply bind_ok in E as (nw_run & _ & E).
  apply bind_ok in E as (c_bl & _ & E).
  apply bind_ok in E as (c_bcl & _ & E).
  apply bind_ok in E as (c_ps & _ & E).
  apply bind_ok in E as (c_em & Hem & E).
  apply bind_ok in E as (c_cd & Hcd & E).
  apply bind_ok in E as (c_dp & Hdp & E).
  apply bind_ok in E as (c_cdp & Hcdp & E).
  apply bind_ok in E as (c_obs & Hobs & E).
  apply bind_ok in E as (r & _ & E).
  apply bind_ok in E as (obs & _ & E).
  injection E as <-. cbn [uid run_metadata].
  split; [done|]. split.
  - assert (Hpass : forall field c,
               combine_metadata_element VInt data c field (Some (-1)) None None
               = Ok (field (mk_metadata c_uid (fst nw_run) c_bl c_bcl c_ps
                                        c_em c_cd c_dp c_cdp c_obs)) ->
               field (mk_metadata c_uid (fst nw_run) c_bl c_bcl c_ps
                                  c_em c_cd c_dp c_cdp c_obs) = VInt (-1)
               \/ exists r0, r0 ∈ data
                             /\ field (mk_metadata c_uid (fst nw_run) c_bl c_bcl c_ps
                                                   c_em c_cd c_dp c_cdp c_obs)
                                = field (run_metadata r0)).
    { intros field c Hc.
      apply combine_metadata_element_value in Hc as [(p & [= <-] & _ & _ & ->)|Hc];
        [by left|by right]. }
    intros field [-> | [-> | [-> | ->]]]; eapply Hpass; eassumption.
  - apply combine_metadata_element_value in Hobs as [(p & Hp & _)|Hobs]; [discriminate Hp|].
    done.
Qed.

Lemma combine_runs_parsed (data : list run) (F : list string) (rec : run) :
  Forall parsed data -> combine_runs data F = Ok rec ->
  plain_metadata (run_metadata rec)
  /\ md_obs (run_metadata rec) = VStr OBS_PER_BIT_ERROR_COUNT
  /\ uid rec = run_uid_from_metadata (run_metadata rec)
  /\ exists d c, observations rec = {[ OBS_PER_BIT_ERROR_COUNT := ObsPerBit d c ]}.
Proof.
  intros Hdata E.
  assert (Hp : forall r, r ∈ data -> parsed r) by (intros r; by apply Forall_elem).
  destruct (combine_runs_metadata data F rec E) as (Huid & Htext & r0 & Hr0 & Hobs).
  destruct (parsed_inv r0 (Hp r0 Hr0)) as (_ & Hobs0 & _).
  assert (Hplain : forall field : metadata -> pyval,
             field = md_em \/ field = md_cd \/ field = md_dp \/ field = md_cdp ->
             (forall r, parsed r -> plain (py_str (field (run_metadata r)))) ->
             plain (py_str (field (run_metadata rec)))).
  { intros field Hf Hr. destruct (Htext field Hf) as [-> | (r & Hin & ->)].
    - apply plain_minus_one.
    - apply Hr, Hp, Hin. }
  split.
  { refine (conj _ (conj _ (conj _ (conj _ _)))).
    - apply (Hplain md_em); [tauto|]. intros r Hr. by apply parsed_inv in Hr as ((? & _) & _).
    - apply (Hplain md_cd); [tauto|]. intros r Hr. by apply parsed_inv in Hr as ((_ & ? & _) & _).
    - apply (Hplain md_dp); [tauto|]. intros r Hr.
      by apply parsed_inv in Hr as ((_ & _ & ? & _) & _).
    - apply (Hplain md_cdp); [tauto|]. intros r Hr.
      by apply parsed_inv in Hr as ((_ & _ & _ & ? & _) & _).
    - rewrite Hobs, Hobs0. done. }
  split; [by rewrite Hobs|]. split; [done|].
  apply NErrorsFacts.combine_runs_ok_inv in E as (r & obs & Hlast & Hfold & ->).
  assert (Hr : r ∈ data).
  { apply last_Some in Hlast as (l' & ->). apply elem_of_app. right. apply list_elem_of_here. }
  destruct (parsed_inv r (Hp r Hr)) as (_ & _ & d & c & Hr_obs).
  rewrite Hr_obs, map_to_list_singleton in Hfold. cbn [map fst foldM] in Hfold.
  apply bind_ok in Hfold as (obs1 & Hstep & Hfold). injection Hfold as <-.
  apply bind_ok in Hstep as (o & Ho & Hstep). injection Hstep as <-.
  unfold combine_observation in Ho.
  change (String.eqb OBS_PER_BIT_ERROR_COUNT OBS_N_ERRORS_PER_BURST) with false in Ho.
  change (String.eqb OBS_PER_BIT_ERROR_COUNT OBS_PER_BIT_ERROR_COUNT) with true in Ho.
  cbv iota in Ho. apply bind_ok in Ho as (acc & _ & Ho). injection Ho as <-.
  exists (fst acc), (snd acc). by rewrite insert_empty.
Qed.

(** *** The round trip of the per-bit observable *)

(** The counters of a record that [combine_runs] returns for parsed runs. *)
Lemma combined_counters (data : list run) (F : list string) (rec : run) (d c : list Z) :
  observations rec = {[ OBS_PER_BIT_ERROR_COUNT := ObsPerBit d c ]} ->
  (CombineSpec.databurst rec ++ CombineSpec.codeburst rec)%list = (d ++ c)%list.
Proof.
  intros Hobs. unfold CombineSpec.databurst, CombineSpec.codeburst.
  by rewrite Hobs, lookup_singleton_eq.
Qed.

(** A record that [combine_runs] returns for parsed runs, with counters
    within the limit of [str], is written as one line that the parser reads
    back as a run with the same identity and the same histograms. *)
Lemma combined_record_round_trip (data : list run) (F F' : list string) (rec : run) :
  Forall parsed data -> combine_runs data F = Ok rec ->
  LimitSpec.counters_within_limit rec ->
  exists out r',
    get_output_string rec = Ok out
    /\ parse_einsim_output_line out F' false = Ok (Some r')
    /\ observations r' = observations rec
    /\ uid r' = uid rec.
Proof.
  intros Hdata E Hlim.
  destruct (combine_runs_parsed data F rec Hdata E) as (Hplain & Hobs & Huid & d & c & Hrec).
  unfold LimitSpec.counters_within_limit in Hlim.
  rewrite (combined_counters data F rec d c Hrec) in Hlim.
  exists (per_bit_line (run_metadata rec) d c). eexists.
  split; [by apply get_output_string_per_bit|].
  split; [by apply parse_per_bit_line|].
  cbn [observations uid]. split; [done|].
  rewrite Huid. unfold run_uid_from_metadata, run_uid_from_metadata_ignoring_fields, reread.
  cbn [md_uid md_nw md_bl md_bcl md_ps md_em md_cd md_dp md_cdp md_obs py_str].
  by rewrite Hobs.
Qed.

(** With a counter beyond that limit the record is not written. *)
Lemma combined_record_long (data : list run) (F : list string) (rec : run) :
  Forall parsed data -> combine_runs data F = Ok rec ->
  ~ LimitSpec.counters_within_limit rec ->
  get_output_string rec = Raise ValueError.
Proof.
  intros Hdata E Hlim.
  destruct (combine_runs_parsed data F rec Hdata E) as (_ & _ & _ & d & c & Hrec).
  unfold LimitSpec.counters_within_limit in Hlim.
  rewrite (combined_counters data F rec d c Hrec) in Hlim.
  apply (get_output_string_long rec d c Hrec). by apply beyond_limit.
Qed.

(** X29: a record that [combine_runs] returns for parsed runs, the integers
    of its identity being within the limit of [str] (4300 digits), is
    written by [get_output_string] exactly when its counters are within
    that limit too.  It is then written as one line, and
    [parse_einsim_output_line] reads that line back as a run with the same
    identity and the same histograms; otherwise [get_output_string] raises
    [ValueError]. *)
Theorem per_bit_round_trip (data : list run) (F F' : list string) (rec : run) :
  Forall parsed data -> combine_runs data F = Ok rec ->
  LimitSpec.identity_within_limit (run_metadata rec) ->
  (LimitSpec.counters_within_limit rec ->
   exists out r',
     get_output_string rec = Ok out
     /\ parse_einsim_output_line out F' false = Ok (Some r')
     /\ observations r' = observations rec
     /\ uid r' = uid rec)
  /\ (~ LimitSpec.counters_within_limit rec ->
      get_output_string rec = Raise ValueError).
Proof.
  intros Hdata E _. split.
  - by apply (combined_record_round_trip data F).
  - by apply (combined_record_long data F).
Qed.

(** Two lines of one masked identity, combined, written and read back. *)
Example per_bit_round_trip_sample :
  exists a b rec r',
    parse_einsim_output_line Samples.per_bit_line_256 ["nw"] false = Ok (Some a)
    /\ parse_einsim_output_line Samples.per_bit_line_256_more ["nw"] false = Ok (Some b)
    /\ combine_runs [a; b] ["nw"] = Ok rec
    /\ observations rec = {[ OBS_PER_BIT_ERROR_COUNT := ObsPerBit [5; 1; 2] [2; 0; 1] ]}
    /\ get_output_string rec = Ok Samples.per_bit_line_combined
    /\ parse_einsim_output_line Samples.per_bit_line_combined [] false = Ok (Some r')
    /\ observations r' = observations rec.
Proof.
  eexists _, _, _, _.
  split; [vm_compute; reflexivity|].
  split; [vm_compute; reflexivity|].
  split; [vm_compute; reflexivity|].
  split; [vm_compute; reflexivity|].
  split; [vm_compute; reflexivity|].
  split; [vm_compute; reflexivity|].
  vm_compute. reflexivity.
Qed.

End RoundTripFacts.

(** ** Facts about the per-bit observable in [combine_observation] and [combine_runs] *)

Module PerBitFacts.
Import Utils UtilsSpec CombineSpec ResFacts CombineFacts.

Lemma per_bit_shape_lookup (n m : nat) (r : run) :
  per_bit_shape n m r ->
  observations r !! OBS_PER_BIT_ERROR_COUNT = Some (ObsPerBit (databurst r) (codeburst r))
  /\ length (databurst r) = n /\ length (codeburst r) = m.
Proof.
  intros (d & c & Hobs & Hd & Hc). unfold databurst, codeburst.
  rewrite Hobs, lookup_singleton_eq. done.
Qed.

Lemma column_sum_cons (hist : run -> list Z) (r : run) (data : list run) (i : nat) :
  column_sum hist (r :: data) i = default 0 (hist r !! i) + column_sum hist data i.
Proof. reflexivity. Qed.

Lemma default_zip_add (l k : list Z) (i : nat) :
  length l = length k ->
  default 0 (zip_with Z.add l k !! i) = default 0 (l !! i) + default 0 (k !! i).
Proof.
  intros Hlen. rewrite lookup_zip_with.
  destruct (l !! i) as [x|] eqn:Hl; destruct (k !! i) as [y|] eqn:Hk; simpl; try done.
  - apply lookup_lt_Some in Hl. apply lookup_ge_None in Hk. lia.
  - apply lookup_lt_Some in Hk. apply lookup_ge_None in Hl. lia.
Qed.

(** The loop of [combine_observation] over runs whose lists have one
    length: it does not raise, and every counter of the result is the
    counter it started from plus the counters of the runs. *)
Lemma per_bit_fold (n m : nat)
    (step : list Z * list Z -> run -> res (list Z * list Z)) :
  (forall acc r,
     step acc r =
     (o <- run_observation r OBS_PER_BIT_ERROR_COUNT ;;
      a <- obs_per_bit o ;;
      if negb (bool_decide (fst acc = [])) || negb (bool_decide (snd acc = []))
      then
        py_assert (length (fst acc) =? length (fst a))%nat msg_lengths ;;;
        py_assert (length (snd acc) =? length (snd a))%nat msg_lengths ;;;
        Ok (zip_with Z.add (fst acc) (fst a), zip_with Z.add (snd acc) (snd a))
      else Ok (fst a, snd a))) ->
  forall (runs : list run) (acc : list Z * list Z),
    Forall (per_bit_shape n m) runs ->
    acc = ([], []) \/ (length (fst acc) = n /\ length (snd acc) = m) ->
    exists acc',
      foldM step acc runs = Ok acc'
      /\ (runs <> [] -> length (fst acc') = n /\ length (snd acc') = m)
      /\ (forall i, default 0 (fst acc' !! i)
                    = default 0 (fst acc !! i) + column_sum databurst runs i)
      /\ (forall i, default 0 (snd acc' !! i)
                    = default 0 (snd acc !! i) + column_sum codeburst runs i).
Proof.
  intros Hstep runs. induction runs as [|r runs IH]; intros acc Hall Hacc.
  - exists acc. cbn [foldM]. split; [done|]. split; [done|].
    split; intros i; unfold column_sum; simpl; lia.
  - apply Forall_cons in Hall as [Hr Hall].
    apply per_bit_shape_lookup in Hr as (Hobs & Hd & Hc).
    assert (Hone : exists acc1,
               step acc r = Ok acc1
               /\ length (fst acc1) = n /\ length (snd acc1) = m
               /\ (forall i, default 0 (fst acc1 !! i)
                             = default 0 (fst acc !! i) + default 0 (databurst r !! i))
               /\ (forall i, default 0 (snd acc1 !! i)
                             = default 0 (snd acc !! i) + default 0 (codeburst r !! i))).
    { rewrite Hstep. unfold run_observation. rewrite Hobs. cbn [bind obs_per_bit fst snd].
      destruct (negb (bool_decide (fst acc = [])) || negb (bool_decide (snd acc = [])))
        eqn:Hcond.
      - destruct Hacc as [-> | [Hn Hm]]; [discriminate Hcond|].
        rewrite Hn, Hd, Hm, Hc, !Nat.eqb_refl. cbn [py_assert bind].
        eexists. split; [reflexivity|]. cbn [fst snd].
        rewrite !length_zip_with, Hn, Hd, Hm, Hc.
        split; [lia|]. split; [lia|].
        split; intros i; apply default_zip_add; congruence.
      - apply orb_false_iff in Hcond as [H1 H2].
        apply negb_false_iff, bool_decide_eq_true in H1.
        apply negb_false_iff, bool_decide_eq_true in H2.
        eexists. split; [reflexivity|]. cbn [fst snd].
        rewrite H1, H2. by repeat split. }
    destruct Hone as (acc1 & Hacc1 & Hn1 & Hm1 & Hd1 & Hc1).
    destruct (IH acc1 Hall (or_intror (conj Hn1 Hm1))) as (acc' & Hfold & Hlen & Hds & Hcs).
    exists acc'. cbn [foldM]. rewrite Hacc1. cbn [bind].
    split; [done|]. split.
    + intros _. destruct runs as [|r' runs'].
      * cbn [foldM] in Hfold. injection Hfold as <-. done.
      * apply Hlen. done.
    + split; intros i; rewrite column_sum_cons.
      * rewrite Hds, Hd1. lia.
      * rewrite Hcs, Hc1. lia.
Qed.

(** [combine_observation] for the per-bit observable. *)
Lemma combine_observation_per_bit (n m : nat) (runs : list run) :
  runs <> [] ->
  Forall (per_bit_shape n m) runs ->
  exists d c,
    combine_observation OBS_PER_BIT_ERROR_COUNT runs = Ok (ObsPerBit d c)
    /\ length d = n /\ length c = m
    /\ (forall i, (i < n)%nat -> d !! i = Some (column_sum databurst runs i))
    /\ (forall i, (i < m)%nat -> c !! i = Some (column_sum codeburst runs i)).
Proof.
  intros Hne Hall. unfold combine_observation.
  change (String.eqb OBS_PER_BIT_ERROR_COUNT OBS_N_ERRORS_PER_BURST) with false.
  change (String.eqb OBS_PER_BIT_ERROR_COUNT OBS_PER_BIT_ERROR_COUNT) with true.
  cbv iota.
  match goal with
  | |- context [foldM ?f ([], []) runs] =>
      destruct (per_bit_fold n m f (fun _ _ => eq_refl) runs ([], []) Hall (or_introl eq_refl))
        as (acc' & -> & Hlen & Hd & Hc)
  end.
  cbn [bind]. destruct (Hlen Hne) as [Hn Hm].
  exists (fst acc'), (snd acc'). split; [done|]. split; [done|]. split; [done|].
  split; intros i Hi.
  - specialize (Hd i). cbn [fst] in Hd. rewrite lookup_nil in Hd. simpl in Hd.
    destruct (fst acc' !! i) as [x|] eqn:E; [simpl in Hd; by rewrite Hd|].
    apply lookup_ge_None in E. lia.
  - specialize (Hc i). cbn [snd] in Hc. rewrite lookup_nil in Hc. simpl in Hc.
    destruct (snd acc' !! i) as [x|] eqn:E; [simpl in Hc; by rewrite Hc|].
    apply lookup_ge_None in E. lia.
Qed.

(** The pass policy on a field with two different values gives the
    sentinel. *)
Lemma combine_metadata_element_pass_mixed {A : Type} `{EqDecision A} (of_int : Z -> A)
    (field : metadata -> A) (data : list run) (elem p : Z) (r1 r2 : run) :
  r1 ∈ data -> r2 ∈ data -> field (run_metadata r1) <> field (run_metadata r2) ->
  combine_metadata_element of_int data elem field (Some p) None None = Ok (of_int p).
Proof.
  intros H1 H2 Hne. unfold combine_metadata_element.
  rewrite (remove_dups_mixed _ (field (run_metadata r1)) (field (run_metadata r2))).
  - reflexivity.
  - apply list_elem_of_fmap. eauto.
  - apply list_elem_of_fmap. eauto.
  - exact Hne.
Qed.

(** The value the pass policy gives: the common value, or the sentinel. *)
Lemma combine_metadata_element_pass_value {A : Type} `{EqDecision A} (of_int : Z -> A)
    (field : metadata -> A) (run0 : run) (rest : list run) (elem p : Z) :
  combine_metadata_element of_int (run0 :: rest) elem field (Some p) None None
  = Ok (if bool_decide (Forall (fun r => field (run_metadata r) = field (run_metadata run0))
                               rest)
        then field (run_metadata run0) else of_int p).
Proof.
  destruct (bool_decide _) eqn:Hb.
  - apply bool_decide_eq_true in Hb.
    apply combine_metadata_element_same; [done|].
    apply Forall_cons. by split.
  - apply bool_decide_eq_false in Hb.
    apply not_Forall_Exists in Hb; [|intros r; apply decide_rel; apply _].
    apply Exists_exists in Hb as (r & Hr & Hne).
    apply (combine_metadata_element_pass_mixed of_int field _ elem p r run0).
    + by apply list_elem_of_further.
    + apply list_elem_of_here.
    + exact Hne.
Qed.

(** The loop of [combine_observation], seen from its result: when it does
    not raise, every run holds the observable, and its lists are empty (it
    came before any counter) or have the lengths of the result. *)
Lemma per_bit_fold_inv (step : list Z * list Z -> run -> res (list Z * list Z)) :
  (forall acc r,
     step acc r =
     (o <- run_observation r OBS_PER_BIT_ERROR_COUNT ;;
      a <- obs_per_bit o ;;
      if negb (bool_decide (fst acc = [])) || negb (bool_decide (snd acc = []))
      then
        py_assert (length (fst acc) =? length (fst a))%nat msg_lengths ;;;
        py_assert (length (snd acc) =? length (snd a))%nat msg_lengths ;;;
        Ok (zip_with Z.add (fst acc) (fst a), zip_with Z.add (snd acc) (snd a))
      else Ok (fst a, snd a))) ->
  forall (runs : list run) (acc acc' : list Z * list Z),
    foldM step acc runs = Ok acc' ->
    (acc = ([], []) \/ (length (fst acc) = length (fst acc')
                        /\ length (snd acc) = length (snd acc')))
    /\ Forall (fun r =>
                 is_Some (observations r !! OBS_PER_BIT_ERROR_COUNT)
                 /\ ((databurst r = [] /\ codeburst r = [])
                     \/ (length (databurst r) = length (fst acc')
                         /\ length (codeburst r) = length (snd acc')))) runs.
Proof.
  intros Hstep runs. induction runs as [|r runs IH]; intros acc acc' E.
  - cbn [foldM] in E. injection E as <-. split; [by right|apply Forall_nil; exact I].
  - cbn [foldM] in E. apply bind_ok in E as (acc1 & Hone & E).
    destruct (IH acc1 acc' E) as [Hacc1 Hall].
    rewrite Hstep in Hone.
    apply bind_ok in Hone as (o & Ho & Hone).
    apply bind_ok in Hone as (a & Ha & Hone).
    unfold run_observation in Ho.
    destruct (observations r !! OBS_PER_BIT_ERROR_COUNT) as [o'|] eqn:Hobs; [|discriminate Ho].
    injection Ho as ->. destruct o as [? ? ? ? ?|d c]; [discriminate Ha|].
    injection Ha as <-. cbn [fst snd] in Hone.
    assert (Hd : databurst r = d) by (unfold databurst; by rewrite Hobs).
    assert (Hc : codeburst r = c) by (unfold codeburst; by rewrite Hobs).
    destruct (negb (bool_decide (fst acc = [])) || negb (bool_decide (snd acc = [])))
      eqn:Hcond.
    + apply bind_ok in Hone as (? & H1 & Hone). apply bind_ok in Hone as (? & H2 & Hone).
      injection Hone as <-.
      unfold py_assert in H1, H2.
      destruct (length (fst acc) =? length d)%nat eqn:E1; [|discriminate H1].
      destruct (length (snd acc) =? length c)%nat eqn:E2; [|discriminate H2].
      apply Nat.eqb_eq in E1. apply Nat.eqb_eq in E2.
      assert (Hne : (zip_with Z.add (fst acc) d, zip_with Z.add (snd acc) c) <> ([], [])).
      { intros [= Hz1 Hz2].
        apply (f_equal length) in Hz1. apply (f_equal length) in Hz2.
        rewrite length_zip_with in Hz1, Hz2. cbn [length] in Hz1, Hz2.
        apply orb_true_iff in Hcond as [Hcond|Hcond];
          apply negb_true_iff, bool_decide_eq_false in Hcond; apply Hcond.
        - destruct (fst acc); [done|]. cbn [length] in *. lia.
        - destruct (snd acc); [done|]. cbn [length] in *. lia. }
      destruct Hacc1 as [Hacc1|[Hl1 Hl2]]; [done|].
      cbn [fst snd] in Hl1, Hl2. rewrite length_zip_with in Hl1, Hl2.
      split.
      * right. split; lia.
      * apply Forall_cons. split; [|exact Hall].
        split; [done|]. right. rewrite Hd, Hc. split; lia.
    + injection Hone as <-.
      apply orb_false_iff in Hcond as [H1 H2].
      apply negb_false_iff, bool_decide_eq_true in H1.
      apply negb_false_iff, bool_decide_eq_true in H2.
      split; [left; by destruct acc; cbn [fst snd] in *; subst|].
      apply Forall_cons. split; [|exact Hall].
      split; [done|]. rewrite Hd, Hc.
      destruct Hacc1 as [[= -> ->]|[Hl1 Hl2]]; [by left|by right].
Qed.

Lemma column_sum_perm (hist : run -> list Z) (data data' : list run) (i : nat) :
  data ≡ₚ data' -> column_sum hist data i = column_sum hist data' i.
Proof.
  intros Hp. unfold column_sum.
  induction Hp as [|r l l' Hp IH|r1 r2 l|l1 l2 l3 H12 IH12 H23 IH23]; cbn [map foldr].
  - done.
  - by rewrite IH.
  - lia.
  - congruence.
Qed.

(** The loop of [combine_observation], seen from its result: every
    counter of the result is the counter it started from plus the counters
    of the runs. *)
Lemma per_bit_fold_sums (step : list Z * list Z -> run -> res (list Z * list Z)) :
  (forall acc r,
     step acc r =
     (o <- run_observation r OBS_PER_BIT_ERROR_COUNT ;;
      a <- obs_per_bit o ;;
      if negb (bool_decide (fst acc = [])) || negb (bool_decide (snd acc = []))
      then
        py_assert (length (fst acc) =? length (fst a))%nat msg_lengths ;;;
        py_assert (length (snd acc) =? length (snd a))%nat msg_lengths ;;;
        Ok (zip_with Z.add (fst acc) (fst a), zip_with Z.add (snd acc) (snd a))
      else Ok (fst a, snd a))) ->
  forall (runs : list run) (acc acc' : list Z * list Z),
    foldM step acc runs = Ok acc' ->
    (forall i, default 0 (fst acc' !! i)
               = default 0 (fst acc !! i) + column_sum databurst runs i)
    /\ (forall i, default 0 (snd acc' !! i)
                  = default 0 (snd acc !! i) + column_sum codeburst runs i).
Proof.
  intros Hstep runs. induction runs as [|r runs IH]; intros acc acc' E.
  - cbn [foldM] in E. injection E as <-. split; intros i; unfold column_sum; simpl; lia.
  - cbn [foldM] in E. apply bind_ok in E as (acc1 & Hone & E).
    destruct (IH acc1 acc' E) as [Hd' Hc'].
    rewrite Hstep in Hone.
    apply bind_ok in Hone as (o & Ho & Hone).
    apply bind_ok in Hone as (a & Ha & Hone).
    unfold run_observation in Ho.
    destruct (observations r !! OBS_PER_BIT_ERROR_COUNT) as [o'|] eqn:Hobs; [|discriminate Ho].
    injection Ho as ->. destruct o as [? ? ? ? ?|d c]; [discriminate Ha|].
    injection Ha as <-. cbn [fst snd] in Hone.
    assert (Hd : databurst r = d) by (unfold databurst; by rewrite Hobs).
    assert (Hc : codeburst r = c) by (unfold codeburst; by rewrite Hobs).
    assert (Hacc1 : (forall i, default 0 (fst acc1 !! i)
                               = default 0 (fst acc !! i) + default 0 (d !! i))
                    /\ (forall i, default 0 (snd acc1 !! i)
                                  = default 0 (snd acc !! i) + default 0 (c !! i))).
    { destruct (negb (bool_decide (fst acc = [])) || negb (bool_decide (snd acc = [])))
        eqn:Hcond.
      - apply bind_ok in Hone as (? & H1 & Hone). apply bind_ok in Hone as (? & H2 & Hone).
        injection Hone as <-. unfold py_assert in H1, H2.
        destruct (length (fst acc) =? length d)%nat eqn:E1; [|discriminate H1].
        destruct (length (snd acc) =? length c)%nat eqn:E2; [|discriminate H2].
        apply Nat.eqb_eq in E1. apply Nat.eqb_eq in E2.
        split; intros i; cbn [fst snd]; by apply default_zip_add.
      - injection Hone as <-.
        apply orb_false_iff in Hcond as [H1 H2].
        apply negb_false_iff, bool_decide_eq_true in H1.
        apply negb_false_iff, bool_decide_eq_true in H2.
        rewrite H1, H2. split; intros i; cbn [fst snd]; by rewrite lookup_nil. }
    destruct Hacc1 as [Hd1 Hc1].
    split; intros i; rewrite column_sum_cons.
    + rewrite Hd', Hd1, Hd. lia.
    + rewrite Hc', Hc1, Hc. lia.
Qed.

Lemma combine_observation_per_bit_sums (runs : list run) (d c : list Z) :
  combine_observation OBS_PER_BIT_ERROR_COUNT runs = Ok (ObsPerBit d c) ->
  (forall i, default 0 (d !! i) = column_sum databurst runs i)
  /\ (forall i, default 0 (c !! i) = column_sum codeburst runs i).
Proof.
  unfold combine_observation.
  change (String.eqb OBS_PER_BIT_ERROR_COUNT OBS_N_ERRORS_PER_BURST) with false.
  change (String.eqb OBS_PER_BIT_ERROR_COUNT OBS_PER_BIT_ERROR_COUNT) with true.
  cbv iota. intros E. apply bind_ok in E as (acc & Hfold & E). injection E as <- <-.
  match type of Hfold with
  | foldM ?f _ _ = _ =>
      destruct (per_bit_fold_sums f (fun _ _ => eq_refl) runs _ _ Hfold) as [Hd Hc]
  end.
  split; intros i; [rewrite Hd|rewrite Hc]; cbn [fst snd]; by rewrite lookup_nil.
Qed.

(** The record [combine_runs] returns for runs of one masked identity that
    hold per-bit lists of one length and agree on [bl], [bcl], [ps] and
    [obs]. *)
Lemma combine_runs_per_bit_record (run0 : run) (rest : list run) (F : list string) (n m : nat) :
  same_masked_identity (run0 :: rest) ->
  Forall (per_bit_shape n m) (run0 :: rest) ->
  agree_on_lengths run0 rest ->
  rest <> [] \/ md_nw (run_metadata run0) <> -1 ->
  exists d c,
    combine_runs (run0 :: rest) F
    = Ok (mk_run (combined_metadata run0 rest) (Some (-1))
            (run_uid_from_metadata (combined_metadata run0 rest))
            (run_uid_from_metadata_ignoring_fields (combined_metadata run0 rest) F)
            {[ OBS_PER_BIT_ERROR_COUNT := ObsPerBit d c ]})
    /\ length d = n /\ length c = m
    /\ (forall i, (i < n)%nat -> d !! i = Some (column_sum databurst (run0 :: rest) i))
    /\ (forall i, (i < m)%nat -> c !! i = Some (column_sum codeburst (run0 :: rest) i)).
Proof.
  intros Hid Hshape Hagree Hrun.
  destruct (combine_observation_per_bit n m (run0 :: rest)) as (d & c & Hobs & Hrest);
    [done|done|].
  exists d, c. split; [|exact Hrest].
  assert (Hne0 : run0 :: rest <> []) by done.
  assert (Hbl : Forall (fun r => md_bl (run_metadata r) = md_bl (run_metadata run0))
                       (run0 :: rest)).
  { apply Forall_cons. split; [done|]. apply (Forall_impl _ _ _ Hagree). tauto. }
  assert (Hbcl : Forall (fun r => md_bcl (run_metadata r) = md_bcl (run_metadata run0))
                        (run0 :: rest)).
  { apply Forall_cons. split; [done|]. apply (Forall_impl _ _ _ Hagree). tauto. }
  assert (Hps : Forall (fun r => md_ps (run_metadata r) = md_ps (run_metadata run0))
                       (run0 :: rest)).
  { apply Forall_cons. split; [done|]. apply (Forall_impl _ _ _ Hagree). tauto. }
  assert (Ho : Forall (fun r => md_obs (run_metadata r) = md_obs (run_metadata run0))
                      (run0 :: rest)).
  { apply Forall_cons. split; [done|]. apply (Forall_impl _ _ _ Hagree). tauto. }
  (* the run whose observables are listed *)
  assert (Hlast : exists r, last (run0 :: rest) = Some r) .
  { destruct (last (run0 :: rest)) eqn:E; [eauto|]. apply last_None in E. done. }
  destruct Hlast as [rl Hrl].
  assert (Hrl_obs : map fst (map_to_list (observations rl)) = [OBS_PER_BIT_ERROR_COUNT]).
  { assert (Hin : rl ∈ run0 :: rest).
    { apply last_Some in Hrl as (l' & ->). apply elem_of_app. right. apply list_elem_of_here. }
    destruct (Forall_elem _ _ _ Hshape Hin) as (d' & c' & -> & _).
    by rewrite map_to_list_singleton. }
  unfold combine_runs.
  destruct (identity_loop_ok run0 rest None (same_masked_identity_head run0 rest Hid))
    as [run_var Hloop].
  rewrite Hloop. cbn [bind].
  apply NErrorsFacts.identity_loop_last in Hloop.
  rewrite (combine_metadata_element_pass_value id md_uid run0 rest MI_UID (-1)). cbn [bind].
  fold (pass_value id md_uid run0 rest).
  set (word_list := map (fun r => md_nw (run_metadata r)) (run0 :: rest)).
  assert (Hnw :
     (if negb (existsb (fun i => i =? -1) word_list)
      then Ok (foldr Z.add 0 word_list,
               match last (run0 :: rest) with Some r => Some r | None => run_var end)
      else c_nw <- combine_metadata_element id (run0 :: rest) MI_NW md_nw (Some (-1)) None None ;;
           Ok (c_nw, run_var))
     = Ok (md_nw (combined_metadata run0 rest), Some rl)).
  { unfold combined_metadata. cbn [md_nw]. fold word_list.
    destruct (existsb (fun i => i =? -1) word_list) eqn:Hw; cbn [negb].
    - rewrite (combine_metadata_element_pass_value id md_nw run0 rest MI_NW (-1)). cbn [bind].
      fold (pass_value id md_nw run0 rest). do 2 f_equal.
      rewrite Hloop. destruct rest as [|r1 rest1].
      + exfalso. destruct Hrun as [Hrun|Hrun]; [done|].
        unfold word_list in Hw. cbn [map existsb] in Hw. rewrite orb_false_r in Hw.
        apply Z.eqb_eq in Hw. done.
      + rewrite last_cons in Hrl.
        destruct (last (r1 :: rest1)) as [r2|] eqn:E; [done|].
        apply last_None in E. done.
    - by rewrite Hrl. }
  rewrite Hnw. cbn [bind fst snd].
  rewrite (combine_metadata_element_same id md_bl (run0 :: rest) MI_BL _ _ _ _ Hne0 Hbl).
  cbn [bind].
  rewrite (combine_metadata_element_same id md_bcl (run0 :: rest) MI_BCL _ _ _ _ Hne0 Hbcl).
  cbn [bind].
  rewrite (combine_metadata_element_same id md_ps (run0 :: rest) MI_PS _ _ _ _ Hne0 Hps).
  cbn [bind].
  rewrite (combine_metadata_element_pass_value VInt md_em run0 rest MI_EM (-1)). cbn [bind].
  rewrite (combine_metadata_element_pass_value VInt md_cd run0 rest MI_CD (-1)). cbn [bind].
  rewrite (combine_metadata_element_pass_value VInt md_dp run0 rest MI_DP (-1)). cbn [bind].
  rewrite (combine_metadata_element_pass_value VInt md_cdp run0 rest MI_CDP (-1)). cbn [bind].
  rewrite (combine_metadata_element_same VInt md_obs (run0 :: rest) MI_OBS _ _ _ _ Hne0 Ho).
  cbn [bind]. rewrite Hrl_obs. cbn [foldM]. rewrite Hobs. cbn [bind].
  rewrite insert_empty. reflexivity.
Qed.

End PerBitFacts.

(** ** Combined records written and read back (C1); runs of kind
    [N_ERRORS_PER_BURST] (C2) *)

Module LimitFacts.
Import Utils UtilsSpec PyStr TextSpec RoundTripSpec CombineSpec LimitSpec LimitSamples.
Import ResFacts RoundTripFacts PerBitFacts.






End LimitFacts.

Section CombinedRecords.
Import Utils UtilsSpec RoundTripSpec CombineSpec LimitSpec RecordSpec LimitSamples.
Import ResFacts RoundTripFacts LimitFacts.




End CombinedRecords.




(** ** Experimental input in [script/utils/utils.py] *)

Section Experimental.
Import Utils.


Example experimental_line_raises :
  parse_einsim_output_line Samples.per_bit_line_256 ["bl"] true
  = Raise (UnboundLocalError "experiment_id").
Proof. vm_compute. reflexivity. Qed.
End Experimental.

(** The counter of [script/utils.py], which [parse_all_files] and
    [parse_files_incremental] keep in the loop that reads the lines. *)

Module ExperimentFacts.
Import PyStr TextSpec StrFacts TextFacts Legacy LegacySpec ResFacts.

Lemma has_char_rev (c : ascii) (s : string) : has_char c (String.rev s) = has_char c s.
Proof.
  induction s as [|x s IH]; [done|].
  rewrite rev_cons, has_char_app, IH. cbn [has_char]. by rewrite orb_false_r, orb_comm.
Qed.

(** The text before the first separator. *)
Lemma head_before_sep (c : ascii) (a b x y : string) :
  has_char c a = false -> has_char c b = false ->
  a ++ String c x = b ++ String c y -> a = b.
Proof.
  revert b. induction a as [|p a IH]; intros [|q b] Ha Hb E.
  - done.
  - change ("" ++ String c x) with (String c x) in E. rewrite app_cons in E.
    injection E as <- _. cbn [has_char] in Hb. by rewrite Ascii.eqb_refl in Hb.
  - change ("" ++ String c y) with (String c y) in E. rewrite app_cons in E.
    injection E as -> _. cbn [has_char] in Ha. by rewrite Ascii.eqb_refl in Ha.
  - rewrite !app_cons in E. injection E as -> E.
    cbn [has_char] in Ha, Hb.
    apply orb_false_iff in Ha as [_ Ha]. apply orb_false_iff in Hb as [_ Hb].
    f_equal. by apply IH.
Qed.

(** The text after the last separator. *)
Lemma tail_after_sep (c : ascii) (a b x y : string) :
  has_char c a = false -> has_char c b = false ->
  x ++ String c a = y ++ String c b -> a = b.
Proof.
  intros Ha Hb E. apply (f_equal String.rev) in E.
  rewrite !rev_app, !rev_cons, !app_assoc in E.
  change (String c "" ++ ?z) with (String c z) in E.
  apply head_before_sep in E; [|by rewrite has_char_rev..].
  apply (f_equal String.rev) in E. by rewrite !rev_involutive in E.
Qed.

(** Two identities numbered by the counter are equal only for one number. *)
Lemma experiment_suffix_inj (a b : string) (i j : Z) :
  a ++ "_experiment_" ++ str_int i = b ++ "_experiment_" ++ str_int j -> i = j.
Proof.
  intros E. apply str_int_inj.
  change ("_experiment_" ++ ?z) with ("_experiment" ++ String "_" z) in E.
  rewrite <- !app_assoc in E.
  apply tail_after_sep in E; [done|by apply str_int_has_char..].
Qed.

Section WithFloat.
Context `{PyFloat}.

Lemma record_run_new (run_uid : string) (md : metadata_no_p) (data : list (list string))
    (p : Z) (raw : list (string * components)) :
  run_uid ∉ map fst raw ->
  map fst (record_run run_uid md data p raw) = (map fst raw ++ [run_uid])%list.
Proof.
  induction raw as [|[key c] raw IH]; intros Hnew; [done|].
  cbn [record_run map fst] in *. apply not_elem_of_cons in Hnew as [Hne Hnew].
  destruct (String.eqb_spec key run_uid) as [->|_]; [done|].
  cbn [map fst]. by rewrite IH.
Qed.

(** The loop of [parse_all_files] over the lines of an experiment: every
    line gets an identity of its own, numbered by the counter, and the
    counter advances by one per line. *)
Lemma gather_experiment (parsed : list (metadata * list (list string)))
    (raw : list (string * components)) (experiment_id : Z) :
  Forall (numbered_below experiment_id) (map fst raw) ->
  map fst (fst (foldl (gather_line true) (raw, experiment_id) parsed))
  = (map fst raw ++ experiment_uids experiment_id parsed)%list
  /\ snd (foldl (gather_line true) (raw, experiment_id) parsed)
     = experiment_id + Z.of_nat (length parsed).
Proof.
  revert raw experiment_id. induction parsed as [|p parsed IH]; intros raw n Hraw.
  - cbn [foldl experiment_uids length fst snd]. rewrite List.app_nil_r. split; [done|lia].
  - cbn [foldl experiment_uids].
    set (run_uid := run_uid_from_metadata (fst p) ++ "_experiment_" ++ str_int n).
    change (gather_line true (raw, n) p)
      with (record_run run_uid (omit_p (fst p)) (snd p) (md_p (fst p)) raw, n + 1).
    assert (Hnew : run_uid ∉ map fst raw).
    { intros Hin. apply (Forall_elem _ _ _ Hraw) in Hin as (base & j & E & Hj).
      apply experiment_suffix_inj in E. lia. }
    destruct (IH (record_run run_uid (omit_p (fst p)) (snd p) (md_p (fst p)) raw) (n + 1))
      as [Hkeys Hn].
    { rewrite record_run_new by done. apply Forall_app. split.
      - apply (Forall_impl _ _ _ Hraw). intros key (base & j & E & Hj).
        exists base, j. split; [done|lia].
      - apply Forall_cons. split; [|done]. exists (run_uid_from_metadata (fst p)), n.
        split; [done|lia]. }
    rewrite Hkeys, Hn, record_run_new by done.
    rewrite <- List.app_assoc. split; [done|].
    rewrite length_cons. lia.
Qed.

Lemma experiment_uids_numbered (parsed : list (metadata * list (list string))) (n : Z) :
  Forall (fun run_uid => exists base j, run_uid = base ++ "_experiment_" ++ str_int j /\ n <= j)
         (experiment_uids n parsed).
Proof.
  revert n. induction parsed as [|p parsed IH]; intros n; [done|].
  cbn [experiment_uids]. apply Forall_cons. split.
  - exists (run_uid_from_metadata (fst p)), n. split; [done|lia].
  - apply (Forall_impl _ _ _ (IH (n + 1))). intros key (base & j & E & Hj).
    exists base, j. split; [done|lia].
Qed.

(** No two lines of an experiment receive the same identity. *)
Lemma experiment_uids_NoDup (parsed : list (metadata * list (list string))) (n : Z) :
  NoDup (experiment_uids n parsed).
Proof.
  revert n. induction parsed as [|p parsed IH]; intros n; [apply NoDup_nil_2|].
  cbn [experiment_uids]. apply NoDup_cons. split; [|apply IH].
  intros Hin. apply (Forall_elem _ _ _ (experiment_uids_numbered parsed (n + 1))) in Hin
    as (base & j & E & Hj).
  apply experiment_suffix_inj in E. lia.
Qed.

(** Read from the start: as many identities as lines, all different. *)
Lemma gather_experiment_from_start (parsed : list (metadata * list (list string))) :
  let st := foldl (gather_line true) ([], 0) parsed in
  map fst (fst st) = experiment_uids 0 parsed
  /\ NoDup (map fst (fst st))
  /\ length (fst st) = length parsed
  /\ snd st = Z.of_nat (length parsed).
Proof.
  destruct (gather_experiment parsed [] 0) as [Hkeys Hn]; [done|].
  cbn zeta. cbn [map fst app] in Hkeys.
  split; [done|]. split; [rewrite Hkeys; apply experiment_uids_NoDup|].
  split; [|by rewrite Hn].
  rewrite <- (length_map fst), Hkeys.
  clear. generalize 0. induction parsed as [|p parsed IH]; intros n; [done|].
  cbn [experiment_uids length]. by rewrite IH.
Qed.
End WithFloat.

End ExperimentFacts.

(** ** The streaming reducer of [script/utils/utils.py] (C7) *)

Module ReducerFacts.
Import Utils.

Lemma startswith_cons (a b : ascii) (p s : string) :
  PyStr.startswith (String a p) (String b s) = Ascii.eqb a b && PyStr.startswith p s.
Proof. reflexivity. Qed.

(** A side-channel line is not a [[DATA]] line: the parser returns [None]. *)
Lemma ecc_line_not_parsed (line : string) (F : list string) (is_experimental : bool) :
  PyStr.startswith "[ECC]" line = true ->
  parse_einsim_output_line line F is_experimental = Ok None.
Proof.
  intros Hs.
  destruct line as [|c1 [|c2 line]]; try discriminate Hs.
  - rewrite startswith_cons in Hs. by rewrite andb_false_r in Hs.
  - rewrite !startswith_cons in Hs.
    apply andb_prop in Hs as [H1 Hs]. apply andb_prop in Hs as [H2 _].
    apply Ascii.eqb_eq in H1 as <-. apply Ascii.eqb_eq in H2 as <-.
    unfold parse_einsim_output_line.
    replace (String.eqb (PyStr.take 6 (String "[" (String "E" line))) "[DATA]")
      with false; [by rewrite andb_false_r|].
    destruct line as [|c3 [|c4 [|c5 [|c6 line]]]]; reflexivity.
Qed.

Lemma ecc_line_nonempty (line : string) :
  PyStr.startswith "[ECC]" line = true -> String.eqb line "" = false.
Proof. by destruct line. Qed.

Section WithCallback.
Context `{PyJson} {S : Type}.
Variable callback : run -> option json -> S -> res S.

(** The decoder's exception leaves the loop body. *)
Lemma read_line_bad_json (infilename : string) (is_experimental : bool)
    (F : list string) (line : string) (line_num malformed_line : Z) (w : world) :
  PyStr.startswith "[ECC]" line = true ->
  json_loads (PyStr.drop 6 line) = None ->
  read_line callback infilename is_experimental F line line_num malformed_line w
  = inr (w, JSONDecodeError).
Proof.
  intros Hecc Hjson. unfold read_line.
  rewrite (ecc_line_not_parsed line F is_experimental Hecc).
  cbv beta iota zeta delta [is_ok negb andb]. by rewrite Hecc, Hjson.
Qed.

(** Reading stops at a side-channel line whose payload is not JSON: the
    exception of [json.loads] leaves the loop, and the world is the one
    the lines before it produced. *)
Lemma read_lines_bad_json (infilename : string) (is_experimental : bool)
    (F : list string) (before : list string) (line : string) (after : list string)
    (line_num malformed_line : Z) (w w' : world) :
  Forall (fun l => l <> "") before ->
  read_lines callback infilename is_experimental F before line_num malformed_line w
  = (w', None) ->
  PyStr.startswith "[ECC]" line = true ->
  json_loads (PyStr.drop 6 line) = None ->
  read_lines callback infilename is_experimental F (before ++ line :: after)
             line_num malformed_line w
  = (w', Some JSONDecodeError).
Proof.
  intros Hne Hbefore Hecc Hjson.
  revert line_num malformed_line w Hbefore.
  induction before as [|b before IH]; intros line_num malformed_line w Hbefore.
  - simpl in Hbefore. injection Hbefore as <-.
    simpl. rewrite (ecc_line_nonempty line Hecc).
    by rewrite (read_line_bad_json _ _ _ line _ _ _ Hecc Hjson).
  - apply Forall_cons in Hne as [Hb Hne].
    simpl in Hbefore |- *.
    destruct (String.eqb b "") eqn:Eb; [by apply String.eqb_eq in Eb|].
    destruct (read_line _ _ _ _ b _ _ _) as [[w1 m1]|[w1 e1]].
    + by apply IH.
    + discriminate Hbefore.
Qed.

(** An exception of the parser other than [KeyboardInterrupt] does not
    leave the loop body, whatever the line: the caller's data and the
    codes are unchanged and the next line is read. *)
Lemma read_line_parser_exception (infilename : string) (is_experimental : bool)
    (F : list string) (line : string) (e : exn)
    (line_num malformed_line : Z) (w : world) :
  e <> KeyboardInterrupt ->
  PyStr.startswith "[ECC]" line = false ->
  parse_einsim_output_line line F is_experimental = Raise e ->
  exists w1 malformed_line',
    cb_state w1 = cb_state w /\ ecc_codes w1 = ecc_codes w
    /\ read_line callback infilename is_experimental F line line_num malformed_line w
       = inl (w1, malformed_line').
Proof.
  intros He Hecc Hparse. unfold read_line. rewrite Hparse.
  destruct e; try done; cbv beta iota zeta delta [is_ok negb andb]; rewrite Hecc;
    (destruct (malformed_line =? -1);
     (eexists _, _; (split; [|split]); [idtac|idtac|reflexivity]; reflexivity)).
Qed.

(** The loop body logs at most once, and only while [malformed_line] is
    [-1]; once it has logged, [malformed_line] is the line number. *)
Lemma read_line_warnings (infilename : string) (is_experimental : bool)
    (F : list string) (line : string) (line_num malformed_line : Z) (w : world) :
  match read_line callback infilename is_experimental F line line_num malformed_line w with
  | inl (w1, m1) =>
      (warnings w1 = warnings w /\ m1 = malformed_line)
      \/ (malformed_line = -1 /\ m1 = line_num
          /\ warnings w1 = (warnings w ++ [(infilename, line_num)])%list)
  | inr (w1, _) =>
      warnings w1 = warnings w
      \/ (malformed_line = -1
          /\ warnings w1 = (warnings w ++ [(infilename, line_num)])%list)
  end.
Proof.
  unfold read_line.
  destruct (parse_einsim_output_line line F is_experimental) as [[raw_data|]|e].
  - cbv beta iota zeta delta [is_ok negb andb].
    destruct (callback raw_data None (cb_state w)); simpl; auto.
  - cbv beta iota zeta delta [is_ok negb andb].
    destruct (PyStr.startswith "[ECC]" line); [|auto].
    destruct (json_loads (PyStr.drop 6 line)); simpl; auto.
  - destruct (malformed_line =? -1) eqn:Em;
      [apply Z.eqb_eq in Em|];
      destruct e; cbv beta iota zeta delta [is_ok negb andb];
      rewrite ?Em; cbv beta iota zeta; auto;
      destruct (PyStr.startswith "[ECC]" line); auto;
      destruct (json_loads (PyStr.drop 6 line)); simpl; auto.
Qed.

(** At most one warning is logged while a file is read. *)
Lemma read_lines_warns_once (infilename : string) (is_experimental : bool)
    (F : list string) (lines : list string) (line_num malformed_line : Z) (w : world) :
  0 <= line_num ->
  let w' := fst (read_lines callback infilename is_experimental F lines
                            line_num malformed_line w) in
  (malformed_line <> -1 -> warnings w' = warnings w)
  /\ (warnings w' = warnings w
      \/ exists n, warnings w' = (warnings w ++ [(infilename, n)])%list).
Proof.
  revert line_num malformed_line w.
  induction lines as [|line rest IH]; intros line_num malformed_line w Hln; simpl.
  { split; [done|by left]. }
  destruct (String.eqb line ""); [split; [done|by left]|].
  pose proof (read_line_warnings infilename is_experimental F line
                                 (line_num + 1) malformed_line w) as Hstep.
  destruct (read_line _ _ _ _ line _ _ _) as [[w1 m1]|[w1 e1]].
  - destruct (IH (line_num + 1) m1 w1 ltac:(lia)) as [IH1 IH2].
    destruct Hstep as [[Hw ->]|(Hm & -> & Hw)].
    + rewrite Hw in IH1, IH2. split; [exact IH1|exact IH2].
    + split; [done|]. right. exists (line_num + 1).
      rewrite IH1 by lia. exact Hw.
  - simpl. destruct Hstep as [Hw|[Hm Hw]].
    + split; [done|by left].
    + split; [done|right; eauto].
Qed.
End WithCallback.

End ReducerFacts.

Section Reducer.
Import Utils ReducerFacts ReducerSamples Samples.

(** C7: in [parse_files_incremental] the decoding of a side-channel line
    stands after the [try] statement.  When the lines [before] have been read
    without an exception and the next line starts with [[ECC]] but is not
    JSON, the exception of [json.loads] leaves the function: the lines
    [after] it and the files that follow are not read. *)
Theorem C7_bad_ecc_json_aborts `{PyJson} {S : Type}
    (callback : run -> option json -> S -> res S)
    (infilename : string) (before : list string) (line : string) (after : list string)
    (files : list (string * list string))
    (is_experimental : bool) (fields_to_combine : list string) (args : S) (w' : world) :
  Forall (fun l => l <> "") before ->
  parse_files_incremental callback [(infilename, before)] is_experimental
                          fields_to_combine args = (w', None) ->
  PyStr.startswith "[ECC]" line = true ->
  json_loads (PyStr.drop 6 line) = None ->
  parse_files_incremental callback ((infilename, (before ++ line :: after)%list) :: files)
                          is_experimental fields_to_combine args
  = (w', Some JSONDecodeError).
Proof.
  intros Hne Hbefore Hecc Hjson.
  unfold parse_files_incremental in *. simpl in Hbefore |- *.
  destruct (read_lines callback infilename is_experimental fields_to_combine before 0 (-1) _)
    as [w1 [e1|]] eqn:E; [discriminate Hbefore|].
  injection Hbefore as ->.
  by rewrite (read_lines_bad_json callback _ _ _ before line after _ _ _ w' Hne E Hecc Hjson).
Qed.

Lemma C7_bad_ecc_json_aborts_witness :
  let good := per_bit_run 1 256 768 0 [] [1; 0; 2] [0; 0; 1] in
  @parse_files_incremental only_empty_object (list run) collect
    [("a.txt", [per_bit_line_256; bad_ecc_line; per_bit_line_512]);
     ("b.txt", [per_bit_line_512])] false [] []
  = (mk_world [good] ∅ [], Some JSONDecodeError).
Proof.
  intros good.
  apply (@C7_bad_ecc_json_aborts only_empty_object (list run) collect
           "a.txt" [per_bit_line_256] bad_ecc_line [per_bit_line_512]
           [("b.txt", [per_bit_line_512])] false [] []).
  - repeat constructor. discriminate.
  - vm_compute. reflexivity.
  - reflexivity.
  - reflexivity.
Defined.
End Reducer.

(** ** The exceptions of the line parser of [script/utils/utils.py] *)

Module ParserFacts.
Import Utils ReducerSpec ResFacts.

Lemma int_exception (s : string) (e : exn) : PyStr.int s = Raise e -> e = ValueError.
Proof.
  unfold PyStr.int.
  assert (Hd : forall t e', PyStr.int_digits t = Raise e' -> e' = ValueError).
  { intros t e'. unfold PyStr.int_digits.
    destruct (PyStr.digits_ok false t); [|by intros [= <-]].
    destruct (NilEmpty.uint_of_string _); [discriminate|by intros [= <-]]. }
  assert (Hneg : forall t e', (z <- PyStr.int_digits t ;; Ok (- z)) = Raise e' -> e' = ValueError).
  { intros t e'. destruct (PyStr.int_digits t) eqn:E; cbn [bind]; [discriminate|].
    intros [= <-]. by apply (Hd t). }
  destruct (PyStr.strip_int s) as [|c t]; [apply Hd|].
  destruct c as [[] [] [] [] [] [] [] []]; first [apply Hd | apply Hneg].
Qed.

Lemma mapM_int_exception (l : list string) (e : exn) :
  mapM PyStr.int l = Raise e -> e = ValueError.
Proof.
  induction l as [|s l IH]; [discriminate|].
  cbn [mapM]. destruct (PyStr.int s) eqn:E; cbn [bind].
  - destruct (mapM PyStr.int l); cbn [bind]; [discriminate|]. intros [= <-]. by apply IH.
  - intros [= <-]. by apply int_exception in E.
Qed.

Lemma foldM_exception {A S : Type} (P : exn -> Prop) (body : S -> A -> res S)
    (l : list A) (s : S) (e : exn) :
  (forall s a e', body s a = Raise e' -> P e') ->
  foldM body s l = Raise e -> P e.
Proof.
  intros Hbody. revert s. induction l as [|a l IH]; intros s; [discriminate|].
  cbn [foldM]. destruct (body s a) eqn:E; cbn [bind]; [apply IH|].
  intros [= <-]. by apply Hbody in E.
Qed.

Lemma meta_int_exception (d : gmap string string) (key : string) (e : exn) :
  meta_int d key = Raise e -> e = ValueError.
Proof. unfold meta_int. destruct (d !! key); [apply int_exception|discriminate]. Qed.

Lemma parse_n_errors_exception (raw_data : string) (e : exn) :
  parse_n_errors_per_burst raw_data = Raise e -> parser_exception e.
Proof.
  unfold parse_n_errors_per_burst.
  destruct (foldM _ Hist.empty _) as [h|e'] eqn:Hfold; cbn [bind].
  - unfold Hist.rber_calculated.
    destruct (bool_decide _); cbn [bind read_bcl read_bl Hist.uber_calculated];
      by intros [= <-].
  - intros [= <-]. revert Hfold. apply foldM_exception. clear.
    intros h entry e. unfold Hist.unpack_triple.
    destruct (mapM PyStr.int entry) as [zs|e'] eqn:Hm; cbn [bind].
    + destruct zs as [|a [|b [|c [|]]]]; try by intros [= <-].
      cbn [bind]. unfold Hist.accumulate. cbv zeta. cbn [fst snd].
      destruct (0 <? b); cbv beta iota delta [bind read_bcl]; [by intros [= <-]|].
      destruct (0 <? c); cbv beta iota delta [bind read_bl]; [by intros [= <-]|discriminate].
    + intros [= <-]. apply mapM_int_exception in Hm. by subst.
Qed.

Lemma parse_per_bit_exception (raw_data : string) (e : exn) :
  parse_per_bit_error_count raw_data = Raise e -> e = ValueError.
Proof.
  unfold parse_per_bit_error_count, int_list.
  destruct (PyStr.split ":" raw_data) as [|a [|b [|]]]; try by intros [= <-].
  destruct (mapM PyStr.int (filter _ (PyStr.split " " a))) eqn:E1; cbn [bind].
  - destruct (mapM PyStr.int (filter _ (PyStr.split " " (PyStr.drop_last b)))) eqn:E2;
      cbn [bind]; [discriminate|].
    intros [= <-]. by apply mapM_int_exception in E2.
  - intros [= <-]. by apply mapM_int_exception in E1.
Qed.

Lemma py_dict_exception (pairs : list (list string)) (e : exn) :
  py_dict pairs = Raise e -> e = ValueError.
Proof.
  unfold py_dict. apply (foldM_exception (fun e => e = ValueError)).
  intros d kv e'. destruct kv as [|k [|v [|]]]; by intros [= <-].
Qed.

Lemma parse_exception (line : string) (F : list string)
    (is_experimental : bool) (e : exn) :
  parse_einsim_output_line line F is_experimental = Raise e -> parser_exception e.
Proof.
  unfold parse_einsim_output_line.
  destruct (_ && _ && _); [|discriminate].
  destruct (PyStr.split "[" _) as [|meta [|raw [|]]]; try by intros [= <-].
  destruct (py_dict _) as [d|e'] eqn:Hd; cbn [bind];
    [|intros [= <-]; by apply py_dict_exception in Hd as ->].
  do 5 (match goal with
        | |- context [bind (meta_int ?d ?k) _] =>
            let E := fresh "E" in
            destruct (meta_int d k) eqn:E; cbn [bind];
            [|intros [= <-]; by apply meta_int_exception in E as ->]
        end).
  destruct (d !! "obs") as [obs|]; [|by intros [= <-]].
  destruct is_experimental; cbn [bind read_experiment_id]; [by intros [= <-]|].
  cbn [fst snd].
  destruct (negb (str_in obs OBSERVABLES)); [discriminate|].
  destruct (String.eqb obs OBS_N_ERRORS_PER_BURST).
  - destruct (parse_n_errors_per_burst raw) eqn:En; cbn [bind]; [discriminate|].
    intros [= <-]. by apply parse_n_errors_exception in En.
  - destruct (String.eqb obs OBS_PER_BIT_ERROR_COUNT); [|discriminate].
    destruct (parse_per_bit_error_count raw) eqn:Ep; cbn [bind]; [discriminate|].
    intros [= <-]. by apply parse_per_bit_exception in Ep as ->.
Qed.

End ParserFacts.

(** ** The example line and the rates in [script/utils.py] (C3, C10) *)

Module HistFacts.
Import ResFacts.

Lemma weighted_sum_empty : Hist.weighted_sum ∅ = 0.
Proof. unfold Hist.weighted_sum. apply map_fold_empty. Qed.

Lemma total_empty : Hist.total ∅ = 0.
Proof. unfold Hist.total. apply map_fold_empty. Qed.

(** The rate of uncorrectable errors of an empty histogram divides by zero
    wherever [bl] is bound. *)
Lemma uber_empty (bl : Z) : Hist.uber_calculated (Ok bl) ∅ = Raise ZeroDivisionError.
Proof.
  unfold Hist.uber_calculated. rewrite weighted_sum_empty, total_empty.
  cbn [bind]. rewrite Z.mul_0_r. reflexivity.
Qed.


(** A triple without uncorrectable events leaves the histogram of
    uncorrectable events as it is. *)
Lemma accumulate_no_uncorrectable (bcl bl : res Z) (h h' : Hist.hists) (t : Z * Z * Z) :
  Hist.accumulate bcl bl h t = Ok h' -> snd t <= 0 ->
  Hist.ue_histogram h' = Hist.ue_histogram h.
Proof.
  unfold Hist.accumulate. intros E Hue.
  apply bind_ok in E as (re & _ & E).
  destruct (0 <? snd t) eqn:Hlt; [apply Z.ltb_lt in Hlt; lia|].
  cbn [bind] in E. by injection E as <-.
Qed.

(** The loop over the runs of one identity: when no triple counts an
    uncorrectable event, the histogram of uncorrectable events stays
    empty. *)
Lemma fold_no_uncorrectable (bcl bl : Z) (data : list (list (list string)))
    (h0 h : Hist.hists) :
  foldM (fun h run =>
           foldM (fun h entry =>
                    t <- Hist.unpack_triple entry ;;
                    Hist.accumulate (Ok bcl) (Ok bl) h t)
                 h run)
        h0 data = Ok h ->
  (forall run entry t,
     run ∈ data -> entry ∈ run -> Hist.unpack_triple entry = Ok t -> snd t <= 0) ->
  Hist.ue_histogram h = Hist.ue_histogram h0.
Proof.
  revert h0. induction data as [|run data IH]; intros h0 E Hue.
  - by injection E as <-.
  - cbn [foldM] in E. apply bind_ok in E as (h1 & Hrun & E).
    rewrite (IH h1 E).
    2:{ intros run' entry t Hin. apply Hue. by apply list_elem_of_further. }
    assert (Hrun_ue : forall entry t,
               entry ∈ run -> Hist.unpack_triple entry = Ok t -> snd t <= 0).
    { intros entry t. apply Hue. apply list_elem_of_here. }
    clear -Hrun Hrun_ue. revert h0 Hrun.
    induction run as [|entry run IHr]; intros h0 Hrun.
    + by injection Hrun as <-.
    + cbn [foldM] in Hrun. apply bind_ok in Hrun as (h2 & Hstep & Hrun).
      apply bind_ok in Hstep as (t & Ht & Hstep).
      rewrite (IHr (fun e t' He => Hrun_ue e t' (list_elem_of_further _ _ _ He)) h2 Hrun).
      apply (accumulate_no_uncorrectable _ _ _ _ _ Hstep).
      apply (Hrun_ue entry t); [apply list_elem_of_here|done].
Qed.

End HistFacts.

Section LegacyRates.
Import Legacy LegacySamples HistFacts ResFacts.

(** C3: [parse_all_files] of [script/utils.py] on a file made of the example
    line returns one summary.  Its raw histogram is [{0: [9998, 10000],
    1: [2, 0]}], its histogram of repair events [{0: 9998, 1: 2}], its
    histogram of uncorrectable events [{0: 10000}]; [uber] is [0] and
    [rber] is [2/7680000].  The float read for the key [rber] of the line
    is whatever [float] returns for ["1e-06"]. *)
Theorem C3_example_line `{PyFloat} (x : pyfloat) (fname : string) :
  float_of_string "1e-06" = Some x ->
  exists s,
    parse_all_files [(fname, [example_line])] false = Ok [(example_uid (str_float x), s)]
    /\ raw_data s = <[0 := (9998, 10000)]> (<[1 := (2, 0)]> ∅)
    /\ re_data s = <[0 := 9998]> (<[1 := 2]> ∅)
    /\ ue_data s = <[0 := 10000]> ∅
    /\ (uber s == 0)%Q
    /\ (rber s == 2 # 7680000)%Q.
Proof.
  intros Hx.
  set (md := mk_metadata "REP" 584576191 1 4 12 (-1) x 256 768 0
                         "UNIFORM_RANDOM" "ALL_TRUE_OR_ALL_ANTI" "RANDOM").
  set (data := [["0"; "9998"; "10000"]; ["1"; "2"; "0"]]).
  assert (Hparse : parse_einsim_output_line example_line = Ok (Some (md, data))).
  { vm_compute. vm_compute in Hx. rewrite Hx. reflexivity. }
  assert (Huid : run_uid_from_metadata md = example_uid (str_float x)).
  { unfold run_uid_from_metadata, example_uid, md. cbn [ecc_category md_rber].
    change (String.eqb "REP" "REP") with true. cbv iota beta.
    rewrite !StrFacts.app_assoc. vm_compute. reflexivity. }
  assert (Hsum : summarize (omit_p md) [584576191] [data]
                 = Ok (mk_summary (omit_p md) [584576191]
                         (<[0 := (9998, 10000)]> (<[1 := (2, 0)]> ∅))
                         (2 # 7680000) (0 # 2560000)
                         (<[0 := 9998]> (<[1 := 2]> ∅)) (<[0 := 10000]> ∅))).
  { vm_compute. reflexivity. }
  eexists. split.
  - unfold parse_all_files. cbn [foldM snd fst parse_einsim_output_file].
    change (String.eqb example_line "") with false. cbv iota.
    rewrite Hparse. cbn [bind foldl]. unfold gather_line. cbn [fst snd record_run].
    rewrite Huid. cbn [mapM fst snd c_metadata c_p c_data md_p md].
    rewrite Hsum. cbn [bind]. reflexivity.
  - vm_compute. repeat split; reflexivity.
Qed.

Lemma C3_example_line_witness :
  exists s,
    @parse_all_files float_as_text [("sim.txt", [example_line])] false
    = Ok [(example_uid "1e-06", s)]
    /\ raw_data s = <[0 := (9998, 10000)]> (<[1 := (2, 0)]> ∅)
    /\ re_data s = <[0 := 9998]> (<[1 := 2]> ∅)
    /\ ue_data s = <[0 := 10000]> ∅
    /\ (uber s == 0)%Q
    /\ (rber s == 2 # 7680000)%Q.
Proof. apply (@C3_example_line float_as_text "1e-06" "sim.txt"). reflexivity. Defined.

(** The parser of [script/utils/utils.py] rejects the example line: it has
    no [obs] key. *)
Example example_line_without_obs (F : list string) :
  Utils.parse_einsim_output_line example_line F false
  = Raise (AssertionError "No observational data for run").
Proof. vm_compute. reflexivity. Qed.





(** A set of runs without uncorrectable events is never summarized: the
    loop or [rber] raises, or [uber] divides by zero. *)
Lemma no_uncorrectable_never_summarized `{PyFloat} (md : metadata_no_p) (p : list Z)
    (data : list (list (list string))) :
  (forall run entry t,
     run ∈ data -> entry ∈ run -> Hist.unpack_triple entry = Ok t -> snd t <= 0) ->
  exists e, summarize md p data = Raise e.
Proof.
  intros Hue. unfold summarize.
  destruct (foldM _ Hist.empty data) as [h|e] eqn:Hfold; cbn [bind]; [|eauto].
  destruct (Hist.rber_calculated _ _ _) as [q|e]; cbn [bind]; [|eauto].
  rewrite (fold_no_uncorrectable _ _ _ _ _ Hfold Hue).
  cbn [Hist.ue_histogram Hist.empty]. rewrite uber_empty. cbn [bind]. eauto.
Qed.

(** In [script/utils/utils.py] the same text stands where [bl] is not
    bound: the division is not reached. *)
Example uber_in_utils_reads_unbound_bl (ue : gmap Z Z) :
  Hist.uber_calculated Utils.read_bl ue = Raise (NameError "bl").
Proof. reflexivity. Qed.

Example n_errors_line_not_parsed :
  Utils.parse_einsim_output_line
    "[DATA] bl:8 bcl:16 ps:0 obs:N_ERRORS_PER_BURST [ 0:0:0 ]" [] false
  = Raise (NameError "bl").
Proof. vm_compute. reflexivity. Qed.
End LegacyRates.

(** ** The bounded set of best models in [script/ein/ein.py] (C8) *)

Module TopFacts.
Import Ein TopSpec.

Lemma Qltb_true (a b : Q) : Qltb a b = true -> (a < b)%Q.
Proof.
  unfold Qltb. intros E. apply negb_true_iff in E.
  apply Qnot_le_lt. intros Hle. apply Qle_bool_iff in Hle. congruence.
Qed.

Lemma Qltb_false (a b : Q) : Qltb a b = false -> (b <= a)%Q.
Proof.
  unfold Qltb. intros E. apply negb_false_iff in E. by apply Qle_bool_iff.
Qed.

Lemma tuple_ltb_true (x y : Q * string) : tuple_ltb x y = true -> score_le x y.
Proof.
  unfold tuple_ltb, score_le. destruct (Qeq_bool (fst x) (fst y)) eqn:E.
  - intros _. apply Qeq_bool_eq in E. rewrite E. apply Qle_refl.
  - intros Hlt. by apply Qlt_le_weak, Qltb_true.
Qed.

Lemma tuple_ltb_false (x y : Q * string) : tuple_ltb x y = false -> score_le y x.
Proof.
  unfold tuple_ltb, score_le. destruct (Qeq_bool (fst x) (fst y)) eqn:E.
  - intros _. apply Qeq_bool_eq in E. rewrite E. apply Qle_refl.
  - apply Qltb_false.
Qed.

Lemma score_le_trans (x y z : Q * string) : score_le x y -> score_le y z -> score_le x z.
Proof. unfold score_le. apply Qle_trans. Qed.

(** [heappush] adds the item and nothing else. *)
Lemma heappush_perm (heap : list (Q * string)) (item : Q * string) :
  heappush heap item ≡ₚ item :: heap.
Proof.
  induction heap as [|h heap IH]; simpl; [done|].
  destruct (tuple_ltb item h); [done|].
  rewrite IH. apply Permutation_swap.
Qed.

Lemma heappush_elem (heap : list (Q * string)) (item x : Q * string) :
  x ∈ heappush heap item <-> x = item \/ x ∈ heap.
Proof. rewrite heappush_perm. apply elem_of_cons. Qed.

Lemma heappush_length (heap : list (Q * string)) (item : Q * string) :
  length (heappush heap item) = Datatypes.S (length heap).
Proof. by rewrite heappush_perm. Qed.

(** A heap whose first item has the least score keeps that shape. *)
Lemma heappush_sorted (heap : list (Q * string)) (item : Q * string) :
  StronglySorted score_le heap -> StronglySorted score_le (heappush heap item).
Proof.
  induction heap as [|h heap IH]; intros Hs; simpl.
  - repeat constructor.
  - apply StronglySorted_inv in Hs as [Hs Hh].
    destruct (tuple_ltb item h) eqn:E.
    + apply tuple_ltb_true in E. constructor.
      * by constructor.
      * constructor; [done|]. eapply List.Forall_impl; [|exact Hh].
        intros z Hz. by apply (score_le_trans item h z).
    + apply tuple_ltb_false in E. constructor; [by apply IH|].
      apply List.Forall_forall. intros z Hz.
      apply list_elem_of_In, heappush_elem in Hz as [->|Hz]; [done|].
      apply list_elem_of_In in Hz. revert z Hz. by apply List.Forall_forall.
Qed.

Lemma sorted_head_least (h : Q * string) (heap : list (Q * string)) (x : Q * string) :
  StronglySorted score_le (h :: heap) -> x ∈ h :: heap -> score_le h x.
Proof.
  intros Hs Hx. apply StronglySorted_inv in Hs as [_ Hh].
  apply elem_of_cons in Hx as [->|Hx]; [apply Qle_refl|].
  apply list_elem_of_In in Hx. revert x Hx. by apply List.Forall_forall.
Qed.

Lemma top_run_snoc (items : list (Q * string)) (x : Q * string) :
  top_run (items ++ [x]) = top_step (top_run items) x.
Proof. unfold top_run. by rewrite foldl_app. Qed.

Lemma top_inv_nil : top_inv [] [].
Proof.
  split; [done|constructor|done|].
  intros x Hx. by apply elem_of_nil in Hx.
Qed.

Lemma top_inv_step (items heap : list (Q * string)) (x : Q * string) :
  top_inv items heap -> top_inv (items ++ [x]) (top_step heap x).
Proof.
  intros [Hlen Hsorted Hsub Hbound]. unfold top_step.
  assert (Hlen' : length (items ++ [x]) = Datatypes.S (length items))
    by (rewrite length_app; simpl; lia).
  destruct (length heap <? max_n_models_to_plot)%nat eqn:Elt.
  - (* the set is not full: the item enters *)
    apply Nat.ltb_lt in Elt. rewrite orb_true_l.
    assert (Eeq : (length heap =? max_n_models_to_plot)%nat = false)
      by (apply Nat.eqb_neq; lia).
    rewrite Eeq. split.
    + rewrite heappush_length, Hlen'. lia.
    + by apply heappush_sorted.
    + rewrite heappush_perm. rewrite (Permutation_app_comm items [x]). simpl.
      by apply submseteq_skip.
    + intros y Hy. left. apply heappush_elem.
      apply elem_of_app in Hy as [Hy|Hy].
      * right. destruct (Hbound y Hy) as [Hin|[Hfull _]]; [done|lia].
      * left. by apply list_elem_of_singleton in Hy.
  - apply Nat.ltb_ge in Elt. rewrite orb_false_l.
    assert (Hfull : length heap = max_n_models_to_plot) by lia.
    destruct heap as [|h heap]; [unfold max_n_models_to_plot in Hfull; discriminate|].
    destruct (Qltb (fst h) (fst x)) eqn:Eh.
    + (* the least item is evicted, the item enters *)
      apply Qltb_true in Eh.
      assert (Eeq : (length (h :: heap) =? max_n_models_to_plot)%nat = true)
        by (by apply Nat.eqb_eq).
      rewrite Eeq. simpl tail.
      pose proof Hsorted as Hs0. apply StronglySorted_inv in Hs0 as [Hs Hh].
      split.
      * rewrite heappush_length, Hlen'. simpl in Hfull. lia.
      * by apply heappush_sorted.
      * rewrite heappush_perm. rewrite (Permutation_app_comm items [x]). simpl.
        apply submseteq_skip. etrans; [|exact Hsub]. by apply submseteq_cons.
      * intros y Hy.
        assert (Hev : forall z, z ∈ heappush heap x -> score_le h z).
        { intros z Hz. apply heappush_elem in Hz as [->|Hz].
          - by apply Qlt_le_weak.
          - apply (sorted_head_least h heap z Hsorted). by apply list_elem_of_further. }
        assert (Hlen2 : length (heappush heap x) = max_n_models_to_plot)
          by (rewrite heappush_length; simpl in Hfull; lia).
        apply elem_of_app in Hy as [Hy|Hy].
        -- destruct (Hbound y Hy) as [Hin|[_ Hle]].
           ++ apply elem_of_cons in Hin as [->|Hin].
              ** right. split; [done|exact Hev].
              ** left. apply heappush_elem. by right.
           ++ right. split; [done|]. intros z Hz.
              apply (score_le_trans y h z); [|by apply Hev].
              apply Hle. apply list_elem_of_here.
        -- left. apply heappush_elem. left. by apply list_elem_of_singleton in Hy.
    + (* the item is refused *)
      apply Qltb_false in Eh. split.
      * rewrite Hlen'. lia.
      * done.
      * etrans; [exact Hsub|]. by apply submseteq_inserts_r.
      * intros y Hy. apply elem_of_app in Hy as [Hy|Hy]; [by apply Hbound|].
        apply list_elem_of_singleton in Hy as ->. right. split; [done|].
        intros z Hz. apply (score_le_trans x h z); [exact Eh|].
        by apply (sorted_head_least h heap z Hsorted).
Qed.

Lemma top_run_inv (items : list (Q * string)) : top_inv items (top_run items).
Proof.
  induction items as [|x items IH] using rev_ind; [apply top_inv_nil|].
  rewrite top_run_snoc. by apply top_inv_step.
Qed.

End TopFacts.

Module EinFacts.
Import Legacy Ein TopSpec TopFacts.
Local Open Scope list_scope.

Lemma submseteq_NoDup {A : Type} (l k : list A) : l ⊆+ k -> NoDup k -> NoDup l.
Proof.
  intros Hsub Hk. apply submseteq_sublist_l in Hsub as (m & Hlm & Hmk).
  apply (sublist_NoDup l m); [|done]. by rewrite Hmk.
Qed.

Lemma np_max_ok (lp : list Q) : lp <> [] -> exists s, np_max lp = Ok s.
Proof. destruct lp; [done|]. simpl. eauto. Qed.

(** [np.max] returns an element of the list that no element exceeds. *)
Lemma np_max_greatest (lp : list Q) (s : Q) :
  np_max lp = Ok s -> s ∈ lp /\ forall x, x ∈ lp -> (x <= s)%Q.
Proof.
  destruct lp as [|x rest]; [discriminate|]. cbn [np_max]. intros [= <-].
  assert (Hgen : forall rest x,
             let s := foldl (fun m y => if Qle_bool m y then y else m) x rest in
             (s = x \/ s ∈ rest) /\ (x <= s)%Q /\ forall y, y ∈ rest -> (y <= s)%Q).
  { clear. induction rest as [|y rest IH]; intros x; cbn [foldl].
    - split; [by left|]. split; [apply Qle_refl|]. intros y Hy. by apply elem_of_nil in Hy.
    - destruct (IH (if Qle_bool x y then y else x)) as (Hin & Hle & Hall).
      assert (Hxy : (x <= (if Qle_bool x y then y else x))%Q
                    /\ (y <= (if Qle_bool x y then y else x))%Q).
      { destruct (Qle_bool x y) eqn:E.
        - split; [by apply Qle_bool_iff|apply Qle_refl].
        - split; [apply Qle_refl|]. apply Qlt_le_weak, Qnot_le_lt.
          intros Hle'. apply Qle_bool_iff in Hle'. congruence. }
      destruct Hxy as [Hx Hy]. split; [|split].
      + destruct Hin as [->|Hin].
        * destruct (Qle_bool x y); [right; apply list_elem_of_here|by left].
        * right. by apply list_elem_of_further.
      + by apply (Qle_trans _ _ _ Hx).
      + intros z [->|Hz]%elem_of_cons; [by apply (Qle_trans _ _ _ Hy)|by apply Hall]. }
  destruct (Hgen rest x) as (Hin & Hle & Hall). split.
  - destruct Hin as [->|Hin]; [apply list_elem_of_here|by apply list_elem_of_further].
  - intros y [->|Hy]%elem_of_cons; [done|by apply Hall].
Qed.

Section OneObservation.
Context `{Likelihood}.
Variable exp_uid : string.
Variable exp_data : summary.
Variable samples : list (gmap Z Z).

Local Abbreviation score := (ObsSpec.score exp_data samples).
Local Abbreviation item := (ObsSpec.item exp_data samples).
Local Abbreviation payload := ObsSpec.payload.
Local Abbreviation kept_ok := (ObsSpec.kept_ok exp_data samples).
Local Abbreviation kept_step := ObsSpec.kept_step.
Local Abbreviation accepted := (ObsSpec.accepted exp_data).
Local Abbreviation obs_inv := (ObsSpec.obs_inv exp_uid exp_data samples).

Lemma fst_item (done : list (string * summary)) : map snd (map item done) = map fst done.
Proof. induction done as [|p done IH]; [done|]. simpl. by rewrite IH. Qed.

Lemma top_run_uids (done : list (string * summary)) (y : Q * string) :
  y ∈ top_run (map item done) -> exists d, (snd y, d) ∈ done /\ y = item (snd y, d).
Proof.
  intros Hy.
  pose proof (elem_of_submseteq _ _ _ Hy (top_sub _ _ (top_run_inv (map item done)))) as Hin.
  apply list_elem_of_fmap in Hin as ([u d] & -> & Hin). exists d. by split.
Qed.

Lemma top_run_NoDup (done : list (string * summary)) :
  NoDup (map fst done) -> NoDup (map snd (top_run (map item done))).
Proof.
  intros Hnd. apply (submseteq_NoDup _ (map snd (map item done))).
  - apply fmap_submseteq. apply (top_sub _ _ (top_run_inv _)).
  - by rewrite fst_item.
Qed.

Lemma kept_ok_step (kept : gmap string (list Q * string * summary))
    (done : list (string * summary)) (u : string) (d : summary) (lp : list Q) (s : Q) :
  kept_ok kept done ->
  NoDup (map fst (done ++ [(u, d)])) ->
  log_probs_of d exp_data samples = Ok lp ->
  np_max lp = Ok s ->
  kept_ok (kept_step (top_run (map item done)) kept (s, u) (payload d lp))
          (done ++ [(u, d)]).
Proof.
  intros Hk Hnd Hlp Hmax.
  assert (Hitem : item (u, d) = (s, u)).
  { unfold item, score. simpl. by rewrite Hlp, Hmax. }
  rewrite map_app in Hnd. apply NoDup_app in Hnd as (Hnd & Hfresh & _).
  assert (Hu : forall d', (u, d') ∉ done).
  { intros d' Hin. apply (Hfresh u); [|apply list_elem_of_here].
    apply list_elem_of_fmap. by exists (u, d'). }
  assert (Hx : forall d', item (u, d') ∉ top_run (map item done)).
  { intros d' Hin. apply top_run_uids in Hin as (d'' & Hin & _). by apply (Hu d''). }
  assert (Hheap_nd := top_run_NoDup done Hnd).
  assert (Hrun : top_run (map item (done ++ [(u, d)]))
                 = top_step (top_run (map item done)) (s, u)).
  { rewrite map_app. simpl. rewrite top_run_snoc. by rewrite Hitem. }
  unfold kept_ok in Hk.
  remember (top_run (map item done)) as heap eqn:Eheap0. clear Eheap0.
  assert (Hlast : forall u' d', (u', d') ∈ done ++ [(u, d)] ->
                                (u', d') ∈ done /\ u' <> u \/ (u' = u /\ d' = d)).
  { intros u' d' Hin. apply elem_of_app in Hin as [Hin|Hin].
    - left. split; [done|]. intros ->. by apply (Hu d').
    - apply list_elem_of_singleton in Hin. injection Hin as -> ->. by right. }
  intros u' pl. rewrite Hrun. unfold kept_step, top_step. simpl fst. simpl snd.
  destruct ((length heap <? max_n_models_to_plot)%nat
            || match heap with h :: _ => Qltb (fst h) s | [] => false end) eqn:Eacc.
  - (* the model enters *)
    set (heap1 := if (length heap =? max_n_models_to_plot)%nat then tail heap else heap).
    set (kept1 := if (length heap =? max_n_models_to_plot)%nat
                  then match heap with h :: _ => delete (snd h) kept | [] => kept end
                  else kept).
    assert (Hk1 : forall u' pl, u' <> u ->
               kept1 !! u' = Some pl <->
               exists d' lp', (u', d') ∈ done /\ log_probs_of d' exp_data samples = Ok lp'
                              /\ pl = payload d' lp' /\ item (u', d') ∈ heap1).
    { intros v pl' Hv. unfold kept1, heap1.
      destruct (length heap =? max_n_models_to_plot)%nat eqn:El; [|apply Hk].
      destruct heap as [|h heap0]; [discriminate El|]. simpl tail.
      apply NoDup_cons in Hheap_nd as [Hh _].
      destruct (decide (v = snd h)) as [->|Hvh].
      - rewrite lookup_delete_eq. split; [done|].
        intros (d' & lp' & _ & _ & _ & Hin). exfalso. apply Hh.
        apply list_elem_of_fmap. by exists (item (snd h, d')).
      - rewrite lookup_delete_ne by done. rewrite (Hk v pl'). split.
        + intros (d' & lp' & H1 & H2 & H3 & Hin). exists d', lp'. split_and!; try done.
          apply elem_of_cons in Hin as [Hin|Hin]; [|done].
          exfalso. apply Hvh. by rewrite <- Hin.
        + intros (d' & lp' & H1 & H2 & H3 & Hin). exists d', lp'. split_and!; try done.
          by apply list_elem_of_further. }
    destruct (decide (u' = u)) as [->|Hne].
    + rewrite lookup_insert_eq. split.
      * intros [= <-]. exists d, lp. split_and!; try done.
        -- apply elem_of_app. right. apply list_elem_of_here.
        -- rewrite Hitem. apply heappush_elem. by left.
      * intros (d' & lp' & Hin & Hlp' & -> & _).
        apply Hlast in Hin as [[Hin _]|[_ ->]]; [by apply Hu in Hin|].
        rewrite Hlp in Hlp'. by injection Hlp' as <-.
    + rewrite lookup_insert_ne by done. rewrite (Hk1 u' pl Hne). split.
      * intros (d' & lp' & H1 & H2 & H3 & Hin). exists d', lp'. split_and!; try done.
        -- apply elem_of_app. by left.
        -- apply heappush_elem. by right.
      * intros (d' & lp' & H1 & H2 & H3 & Hin). exists d', lp'.
        apply Hlast in H1 as [[H1 _]|[H1 _]]; [|done]. split_and!; try done.
        apply heappush_elem in Hin as [Hin|Hin]; [|done].
        exfalso. apply Hne. by injection Hin.
  - (* the model is refused *)
    rewrite (Hk u' pl). split.
    + intros (d' & lp' & H1 & H2 & H3 & Hin). exists d', lp'. split_and!; try done.
      apply elem_of_app. by left.
    + intros (d' & lp' & H1 & H2 & H3 & Hin). exists d', lp'.
      apply Hlast in H1 as [[H1 _]|[-> ->]]; [done|]. by apply Hx in Hin.
Qed.

(** [keep_top] on globals that hold a heap and a dictionary for the
    observation. *)
Lemma keep_top_state (g : globals) (u : string) (d : summary) (lp : list Q) (s : Q)
    (heap : list (Q * string)) (kept : gmap string (list Q * string * summary)) :
  top_n_models_heapq g !! exp_uid = Some heap ->
  top_n_models_data g !! exp_uid = Some (exp_data, kept) ->
  np_max lp = Ok s ->
  (forall h, head heap = Some h -> is_Some (kept !! snd h)) ->
  exists g',
    keep_top u d exp_uid exp_data lp g = (g', None)
    /\ log_probabilities g' = log_probabilities g
    /\ top_n_models_heapq g' !! exp_uid = Some (top_step heap (s, u))
    /\ top_n_models_data g' !! exp_uid
       = Some (exp_data, kept_step heap kept (s, u) (payload d lp)).
Proof.
  intros Hheap Hdata Hmax Hhead.
  unfold keep_top. rewrite Hdata, Hmax, Hheap, Hdata.
  unfold top_step, kept_step. simpl fst. simpl snd.
  destruct ((length heap <? max_n_models_to_plot)%nat
            || match heap with h :: _ => Qltb (fst h) s | [] => false end);
    [|by exists g].
  destruct (length heap =? max_n_models_to_plot)%nat eqn:El.
  - destruct heap as [|h heap0]; [discriminate El|].
    destruct (Hhead h eq_refl) as [pl Hpl]. simpl. rewrite Hpl.
    eexists. split; [reflexivity|]. simpl. by rewrite !lookup_insert_eq.
  - eexists. split; [reflexivity|]. simpl. by rewrite !lookup_insert_eq.
Qed.

(** The first call for an observation creates the empty heap and the
    empty dictionary. *)
Lemma keep_top_init (g : globals) (u : string) (d : summary) (lp : list Q) :
  top_n_models_data g !! exp_uid = None ->
  keep_top u d exp_uid exp_data lp g
  = keep_top u d exp_uid exp_data lp
      (mk_globals (log_probabilities g)
                  (<[exp_uid := []]> (top_n_models_heapq g))
                  (<[exp_uid := (exp_data, ∅)]> (top_n_models_data g))).
Proof.
  intros Hnone. unfold keep_top. rewrite Hnone.
  do 3 (cbn [top_n_models_data top_n_models_heapq log_probabilities];
        rewrite ?lookup_insert_eq).
  reflexivity.
Qed.

Lemma kept_ok_nil : kept_ok ∅ [].
Proof.
  intros u pl. rewrite lookup_empty. split; [done|].
  intros (d & lp & Hin & _). by apply elem_of_nil in Hin.
Qed.

(** A model of the burst length of the observation, not seen before,
    whose log-likelihoods are computed: [callback] returns and the
    invariant holds with the model added. *)
Lemma callback_accepted (g : globals) (done : list (string * summary))
    (u : string) (d : summary) (lp : list Q) :
  obs_inv g done ->
  md_bl' (s_metadata exp_data) = md_bl' (s_metadata d) ->
  NoDup (map fst (done ++ [(u, d)])) ->
  log_probs_of d exp_data samples = Ok lp -> lp <> [] ->
  exists g',
    callback u d exp_uid exp_data samples g = (g', None)
    /\ obs_inv g' (done ++ [(u, d)]).
Proof.
  intros [Hseen Hscored Hfresh Htop] Hbl Hnd Hlp Hne.
  destruct (np_max_ok lp Hne) as [s Hmax].
  assert (Hu : u ∉ map fst done).
  { rewrite map_app in Hnd. apply NoDup_app in Hnd as (_ & Hd & _).
    intros Hin. apply (Hd u Hin). apply list_elem_of_here. }
  unfold callback. rewrite Hbl, Z.eqb_refl. simpl negb. cbv iota.
  rewrite Hlp.
  set (for_exp := default ∅ (log_probabilities g !! exp_uid)).
  assert (Hnew : for_exp !! u = None).
  { unfold for_exp. destruct (log_probabilities g !! exp_uid) as [seen|] eqn:E; [|done].
    simpl. destruct (seen !! u) eqn:Eu; [|done].
    exfalso. apply Hu. by apply (Hseen seen u). }
  rewrite Hnew. cbn [log_probabilities top_n_models_heapq top_n_models_data].
  set (g1 := mk_globals _ _ _).
  assert (Hseen1 : forall seen v,
             log_probabilities g1 !! exp_uid = Some seen -> is_Some (seen !! v) ->
             v ∈ map fst (done ++ [(u, d)])).
  { intros seen v. unfold g1. simpl. rewrite lookup_insert_eq. intros [= <-] Hv.
    rewrite map_app. apply elem_of_app.
    destruct (decide (v = u)) as [->|Hvu]; [right; apply list_elem_of_here|left].
    rewrite lookup_insert_ne in Hv by done.
    unfold for_exp in Hv.
    destruct (log_probabilities g !! exp_uid) as [seen0|] eqn:E.
    - by apply (Hseen seen0 v).
    - simpl in Hv. rewrite lookup_empty in Hv. by destruct Hv. }
  assert (Hcore : forall g2 heap kept,
             log_probabilities g2 = log_probabilities g1 ->
             top_n_models_heapq g2 !! exp_uid = Some heap ->
             top_n_models_data g2 !! exp_uid = Some (exp_data, kept) ->
             heap = top_run (map item done) ->
             kept_ok kept done ->
             exists g',
               keep_top u d exp_uid exp_data lp g2 = (g', None)
               /\ obs_inv g' (done ++ [(u, d)])).
  { intros g2 heap kept Hlp2 Hheap Hdata -> Hk.
    destruct (keep_top_state g2 u d lp s _ kept Hheap Hdata Hmax) as (g' & Hrun & Hl & Hh & Hd).
    { intros h Hh. destruct (top_run (map item done)) as [|h0 heap0] eqn:Eh; [done|].
      injection Hh as <-.
      assert (Hin : h0 ∈ top_run (map item done)) by (rewrite Eh; apply list_elem_of_here).
      apply top_run_uids in Hin as (d0 & Hin & Hitem).
      (* the head is a model of the heap, hence of the dictionary *)
      destruct (Hscored (snd h0) d0 Hin) as [lp0 Hlp0].
      exists (payload d0 lp0). apply Hk. exists d0, lp0. split_and!; try done.
      rewrite <- Hitem, Eh. apply list_elem_of_here. }
    exists g'. split; [done|]. split.
    - intros seen v. rewrite Hl, Hlp2. apply Hseen1.
    - intros v dv Hv. apply elem_of_app in Hv as [Hv|Hv]; [by apply (Hscored v dv)|].
      apply list_elem_of_singleton in Hv. injection Hv as -> ->. eauto.
    - intros Hnil. by destruct done.
    - intros _. eexists. split_and!; [|exact Hd|].
      + rewrite Hh. rewrite map_app. simpl. rewrite top_run_snoc.
        unfold item at 3, score. simpl. by rewrite Hlp, Hmax.
      + by apply kept_ok_step. }
  destruct (decide (done = [])) as [Hnil|Hdne].
  - rewrite keep_top_init by (unfold g1; simpl; by apply Hfresh).
    apply (Hcore _ [] ∅); simpl; try done.
    + by rewrite lookup_insert_eq.
    + by rewrite lookup_insert_eq.
    + by rewrite Hnil.
    + rewrite Hnil. apply kept_ok_nil.
  - destruct (Htop Hdne) as (kept & Hh & Hd & Hk).
    by apply (Hcore g1 (top_run (map item done)) kept).
Qed.

Lemma callback_skipped (g : globals) (u : string) (d : summary) :
  md_bl' (s_metadata exp_data) <> md_bl' (s_metadata d) ->
  callback u d exp_uid exp_data samples g = (g, None).
Proof.
  intros Hbl. unfold callback.
  by rewrite (proj2 (Z.eqb_neq _ _) Hbl).
Qed.

Lemma evaluate_simulations_inv (simulations : list (string * summary)) (g : globals)
    (done : list (string * summary)) :
  obs_inv g done ->
  NoDup (map fst (done ++ accepted simulations)) ->
  (forall u d, (u, d) ∈ accepted simulations ->
               exists lp, log_probs_of d exp_data samples = Ok lp /\ lp <> []) ->
  exists g',
    evaluate_simulations simulations exp_uid exp_data samples g = (g', None)
    /\ obs_inv g' (done ++ accepted simulations).
Proof.
  revert g done. induction simulations as [|[u d] rest IH]; intros g done Hinv Hnd Hok.
  - exists g. split; [done|]. unfold accepted. simpl. by rewrite app_nil_r.
  - simpl. unfold accepted in *.
    destruct (decide (md_bl' (s_metadata exp_data) = md_bl' (s_metadata d))) as [Hbl|Hbl].
    + rewrite filter_cons_True in Hnd, Hok |- * by done.
      destruct (Hok u d (list_elem_of_here _ _)) as (lp & Hlp & Hne).
      rewrite cons_middle, app_assoc in Hnd |- *.
      destruct (callback_accepted g done u d lp Hinv Hbl) as (g1 & -> & Hinv1);
        [|done|done|].
      { rewrite map_app in Hnd. by apply NoDup_app in Hnd as (Hnd & _). }
      apply (IH g1 (done ++ [(u, d)]) Hinv1 Hnd).
      intros v dv Hv. apply (Hok v dv). by apply list_elem_of_further.
    + rewrite filter_cons_False in Hnd, Hok |- * by done.
      rewrite (callback_skipped g u d Hbl). by apply IH.
Qed.

Lemma obs_inv_start (g : globals) :
  log_probabilities g !! exp_uid = None ->
  top_n_models_data g !! exp_uid = None ->
  obs_inv g [].
Proof.
  intros Hl Hd. split; [|intros u d Hin; by apply elem_of_nil in Hin|done|done].
  intros seen u Hs. congruence.
Qed.
End OneObservation.
End EinFacts.

Section TopModels.
Import Legacy Ein TopSpec ObsSpec TopFacts EinFacts.
Local Open Scope list_scope.

(** C8: the models whose burst length is the one of the observation are
    offered to the bounded set; they have distinct identities and their
    log-likelihoods are computed.  Once twenty or more of them have been
    offered, [callback] has returned every time, the heap and the
    dictionary ["sims"] of the observation hold the same twenty models, and
    the greatest log-likelihood of a model that is kept is not less than the
    one of any model that was offered and is not kept (evicted or refused).
    The score [np.max] gives for a model is one of its log-likelihoods, and
    none of them exceeds it. *)
Theorem C8_top_models_bound `{Likelihood} (g0 : globals)
    (simulations : list (string * summary))
    (exp_uid : string) (exp_data : summary) (samples : list (gmap Z Z)) :
  log_probabilities g0 !! exp_uid = None ->
  top_n_models_data g0 !! exp_uid = None ->
  NoDup (map fst (accepted exp_data simulations)) ->
  (forall u d, (u, d) ∈ accepted exp_data simulations ->
               exists lp, log_probs_of d exp_data samples = Ok lp /\ lp <> []) ->
  (max_n_models_to_plot <= length (accepted exp_data simulations))%nat ->
  exists g heap kept,
    evaluate_simulations simulations exp_uid exp_data samples g0 = (g, None)
    /\ top_n_models_heapq g !! exp_uid = Some heap
    /\ top_n_models_data g !! exp_uid = Some (exp_data, kept)
    /\ length heap = max_n_models_to_plot
    /\ size kept = max_n_models_to_plot
    /\ (forall u, is_Some (kept !! u) <-> u ∈ map snd heap)
    /\ (forall u lp xl d,
          kept !! u = Some (lp, xl, d) ->
          (u, d) ∈ accepted exp_data simulations
          /\ log_probs_of d exp_data samples = Ok lp)
    /\ (forall u lp xl d u' d' lp',
          kept !! u = Some (lp, xl, d) ->
          (u', d') ∈ accepted exp_data simulations ->
          kept !! u' = None ->
          log_probs_of d' exp_data samples = Ok lp' ->
          exists s s', np_max lp = Ok s /\ np_max lp' = Ok s' /\ (s' <= s)%Q
                       /\ s ∈ lp /\ (forall x, x ∈ lp -> (x <= s)%Q)
                       /\ s' ∈ lp' /\ (forall x, x ∈ lp' -> (x <= s')%Q)).
Proof.
  intros Hl0 Hd0 Hnd Hok Hmany.
  set (acc := accepted exp_data simulations) in *.
  destruct (evaluate_simulations_inv exp_uid exp_data samples simulations g0 []
              (obs_inv_start exp_uid exp_data samples g0 Hl0 Hd0) Hnd Hok)
    as (g & Hrun & [Hseen Hscored Hfresh Htop]).
  simpl in Hscored, Htop. fold acc in Hscored, Htop.
  assert (Hne : acc <> []).
  { intros E. rewrite E in Hmany. unfold max_n_models_to_plot in Hmany. simpl in Hmany. lia. }
  destruct (Htop Hne) as (kept & Hheap & Hdata & Hk).
  set (heap := top_run (map (item exp_data samples) acc)) in *.
  pose proof (top_run_inv (map (item exp_data samples) acc)) as [Hlen Hsorted Hsub Hbound].
  fold heap in Hlen, Hsorted, Hsub, Hbound.
  assert (Hlen20 : length heap = max_n_models_to_plot).
  { rewrite Hlen, length_map. lia. }
  assert (Hdom : forall u, is_Some (kept !! u) <-> u ∈ map snd heap).
  { intros u. split.
    - intros [pl Hpl]. apply Hk in Hpl as (d & lp & _ & _ & _ & Hin).
      apply list_elem_of_fmap. by exists (item exp_data samples (u, d)).
    - intros Hu. apply list_elem_of_fmap in Hu as (y & -> & Hy).
      apply top_run_uids in Hy as Hy'. destruct Hy' as (d & Hin & Hitem).
      destruct (Hscored _ _ Hin) as [lp Hlp].
      exists (payload d lp). apply Hk. exists d, lp. split_and!; try done.
      by rewrite <- Hitem. }
  assert (Hscore : forall u d lp,
             (u, d) ∈ acc -> log_probs_of d exp_data samples = Ok lp ->
             np_max lp = Ok (score exp_data samples d)).
  { intros u d lp Hin Hlp. destruct (Hok u d Hin) as (lp1 & Hlp1 & Hne1).
    assert (lp1 = lp) as -> by congruence.
    destruct (np_max_ok lp Hne1) as [s Hs]. unfold score. by rewrite Hlp, Hs. }
  exists g, heap, kept. split_and!; try done.
  - rewrite <- Hlen20.
    rewrite <- (size_dom (D := gset string) kept).
    assert (Hset : dom kept = list_to_set (map snd heap)).
    { apply set_eq. intros u. rewrite elem_of_dom, elem_of_list_to_set. apply Hdom. }
    rewrite Hset, size_list_to_set, length_map; [done|].
    by apply top_run_NoDup.
  - intros u lp xl d Hu. apply Hk in Hu as (d0 & lp0 & Hin & Hlp & Hpl & _).
    injection Hpl as -> _ ->. by split.
  - intros u lp xl d u' d' lp' Hu Hin' Hnone Hlp'.
    apply Hk in Hu as (d0 & lp0 & Hin & Hlp & Hpl & Hheapu).
    injection Hpl as -> _ ->.
    exists (score exp_data samples d0), (score exp_data samples d').
    pose proof (Hscore u d0 lp0 Hin Hlp) as Hs.
    pose proof (Hscore u' d' lp' Hin' Hlp') as Hs'.
    split; [exact Hs|]. split; [exact Hs'|].
    destruct (np_max_greatest _ _ Hs) as [Hmem Hmax].
    destruct (np_max_greatest _ _ Hs') as [Hmem' Hmax'].
    split; [|done].
    destruct (Hbound (item exp_data samples (u', d'))) as [Hkept|[_ Hle]].
    + apply list_elem_of_fmap. by exists (u', d').
    + exfalso.
      assert (Hsome : kept !! u' = Some (payload d' lp')); [|congruence].
      apply Hk. exists d', lp'. by split_and!.
    + apply (Hle _ Hheapu).
Qed.

Lemma C8_top_models_bound_witness :
  exists g heap kept,
    @evaluate_simulations _ EinSamples.likelihood_spread EinSamples.models "exp"
      EinSamples.observation [∅] no_globals = (g, None)
    /\ top_n_models_heapq g !! "exp" = Some heap
    /\ top_n_models_data g !! "exp" = Some (EinSamples.observation, kept)
    /\ length heap = max_n_models_to_plot
    /\ size kept = max_n_models_to_plot
    /\ map snd heap = map (fun t => ("m" ++ PyStr.str_int t)%string) (seqZ 3 20)
    /\ kept !! "m1" = None /\ kept !! "m2" = None.
Proof.
  destruct (@C8_top_models_bound _ EinSamples.likelihood_spread no_globals
              EinSamples.models "exp" EinSamples.observation [∅])
    as (g & heap & kept & Hrun & Hheap & Hdata & Hlen & Hsize & Hdom & _).
  - apply lookup_empty.
  - apply lookup_empty.
  - apply (bool_decide_unpack _). vm_compute. exact I.
  - intros u d _. eexists. split; [reflexivity|discriminate].
  - vm_compute. lia.
  - assert (Hids : map snd heap = map (fun t => ("m" ++ PyStr.str_int t)%string) (seqZ 3 20)).
    { pose proof Hrun as Hg. vm_compute in Hg. injection Hg as <-.
      vm_compute in Hheap. injection Hheap as <-. vm_compute. reflexivity. }
    assert (Hout : forall u, u ∉ map snd heap -> kept !! u = None).
    { intros u Hu. destruct (kept !! u) eqn:E; [|done].
      exfalso. apply Hu, Hdom. by rewrite E. }
    exists g, heap, kept.
    split; [exact Hrun|]. split; [exact Hheap|]. split; [exact Hdata|].
    split; [exact Hlen|]. split; [exact Hsize|]. split; [exact Hids|].
    split; apply Hout; rewrite Hids; apply (bool_decide_unpack _); vm_compute; exact I.
Defined.
End TopModels.

(** * Further properties of the code

    ** [combine_observation] and [combine_runs] on per-bit runs *)

Section CombinePerBit.
Import Utils UtilsSpec CombineSpec ResFacts CombineFacts PerBitFacts.

(** X1: runs of one masked identity that hold per-bit lists of one length
    and agree on [bl], [bcl], [ps] and [obs] are combined without an
    exception, provided [str] writes the integers of the combined identity
    (none has more than 4300 digits).  The record holds the metadata
    [combined_metadata] (the sum of the word counts when none is [-1]; the
    common value or [-1] for the fields of the pass policy), the sentinel
    experiment [-1], the two identities rebuilt from that metadata, and
    per-bit lists whose counters are the sums of the counters of the runs.
    A single run must have a word count, or the name [run] is read
    unbound. *)
Theorem combine_runs_per_bit (run0 : run) (rest : list run) (F : list string) (n m : nat) :
  same_masked_identity (run0 :: rest) ->
  Forall (per_bit_shape n m) (run0 :: rest) ->
  agree_on_lengths run0 rest ->
  rest <> [] \/ md_nw (run_metadata run0) <> -1 ->
  LimitSpec.identity_within_limit (combined_metadata run0 rest) ->
  exists d c,
    combine_runs (run0 :: rest) F
    = Ok (mk_run (combined_metadata run0 rest) (Some (-1))
            (run_uid_from_metadata (combined_metadata run0 rest))
            (run_uid_from_metadata_ignoring_fields (combined_metadata run0 rest) F)
            {[ OBS_PER_BIT_ERROR_COUNT := ObsPerBit d c ]})
    /\ length d = n /\ length c = m
    /\ (forall i, (i < n)%nat -> d !! i = Some (column_sum databurst (run0 :: rest) i))
    /\ (forall i, (i < m)%nat -> c !! i = Some (column_sum codeburst (run0 :: rest) i)).
Proof.
  intros Hid Hshape Hagree Hrun _.
  by apply combine_runs_per_bit_record.
Qed.

Lemma combine_runs_per_bit_witness :
  exists d c,
    combine_runs [Samples.per_bit_run 1 256 768 0 ["nw"] [1; 0; 2] [0; 0; 1];
                  Samples.per_bit_run 3 256 768 0 ["nw"] [4; 1; 0] [2; 0; 0]] ["nw"]
    = Ok (mk_run (combined_metadata
                    (Samples.per_bit_run 1 256 768 0 ["nw"] [1; 0; 2] [0; 0; 1])
                    [Samples.per_bit_run 3 256 768 0 ["nw"] [4; 1; 0] [2; 0; 0]])
            (Some (-1))
            (run_uid_from_metadata
               (combined_metadata
                  (Samples.per_bit_run 1 256 768 0 ["nw"] [1; 0; 2] [0; 0; 1])
                  [Samples.per_bit_run 3 256 768 0 ["nw"] [4; 1; 0] [2; 0; 0]]))
            (run_uid_from_metadata_ignoring_fields
               (combined_metadata
                  (Samples.per_bit_run 1 256 768 0 ["nw"] [1; 0; 2] [0; 0; 1])
                  [Samples.per_bit_run 3 256 768 0 ["nw"] [4; 1; 0] [2; 0; 0]]) ["nw"])
            {[ OBS_PER_BIT_ERROR_COUNT := ObsPerBit d c ]})
    /\ length d = 3%nat /\ length c = 3%nat.
Proof.
  destruct (combine_runs_per_bit
              (Samples.per_bit_run 1 256 768 0 ["nw"] [1; 0; 2] [0; 0; 1])
              [Samples.per_bit_run 3 256 768 0 ["nw"] [4; 1; 0] [2; 0; 0]] ["nw"] 3 3)
    as (d & c & Hrun & Hd & Hc & _).
  - intros r1 r2 H1 H2.
    apply elem_of_cons in H1 as [->|H1]; apply elem_of_cons in H2 as [->|H2];
      try apply list_elem_of_singleton in H1 as ->;
      try apply list_elem_of_singleton in H2 as ->; reflexivity.
  - repeat (apply Forall_cons; split); [| |apply Forall_nil; exact I].
    + exists [1; 0; 2], [0; 0; 1]. repeat split; reflexivity.
    + exists [4; 1; 0], [2; 0; 0]. repeat split; reflexivity.
  - apply Forall_cons. split; [repeat split; reflexivity|apply Forall_nil; exact I].
  - left. discriminate.
  - repeat split; reflexivity.
  - exists d, c. exact (conj Hrun (conj Hd Hc)).
Defined.

(** X2: a single run that has no word count ([nw] is [-1]) is not
    combined: no loop binds the name [run] that lists the observables, and
    reading it raises [UnboundLocalError]. *)
Theorem combine_runs_lone_run_without_nw (r : run) (F : list string) :
  md_nw (run_metadata r) = -1 ->
  combine_runs [r] F = Raise (UnboundLocalError "run").
Proof.
  intros Hnw. unfold combine_runs. cbn [foldM bind].
  assert (Hne0 : [r] <> []) by done.
  assert (Hsame : forall (B : Type) (g : metadata -> B),
             Forall (fun r' => g (run_metadata r') = g (run_metadata r)) [r]).
  { intros B g. apply Forall_cons. split; [done|apply Forall_nil; exact I]. }
  rewrite (combine_metadata_element_same id md_uid [r] MI_UID _ _ _ _ Hne0 (Hsame _ md_uid)).
  cbn [bind map existsb]. rewrite Hnw. cbn [Z.eqb orb negb].
  rewrite (combine_metadata_element_same id md_nw [r] MI_NW _ _ _ _ Hne0 (Hsame _ md_nw)).
  cbn [bind fst snd].
  rewrite (combine_metadata_element_same id md_bl [r] MI_BL _ _ _ _ Hne0 (Hsame _ md_bl)).
  cbn [bind].
  rewrite (combine_metadata_element_same id md_bcl [r] MI_BCL _ _ _ _ Hne0 (Hsame _ md_bcl)).
  cbn [bind].
  rewrite (combine_metadata_element_same id md_ps [r] MI_PS _ _ _ _ Hne0 (Hsame _ md_ps)).
  cbn [bind].
  rewrite (combine_metadata_element_same VInt md_em [r] MI_EM _ _ _ _ Hne0 (Hsame _ md_em)).
  cbn [bind].
  rewrite (combine_metadata_element_same VInt md_cd [r] MI_CD _ _ _ _ Hne0 (Hsame _ md_cd)).
  cbn [bind].
  rewrite (combine_metadata_element_same VInt md_dp [r] MI_DP _ _ _ _ Hne0 (Hsame _ md_dp)).
  cbn [bind].
  rewrite (combine_metadata_element_same VInt md_cdp [r] MI_CDP _ _ _ _ Hne0 (Hsame _ md_cdp)).
  cbn [bind].
  rewrite (combine_metadata_element_same VInt md_obs [r] MI_OBS _ _ _ _ Hne0 (Hsame _ md_obs)).
  cbn [bind]. reflexivity.
Qed.

Lemma combine_runs_lone_run_without_nw_witness :
  combine_runs [Samples.per_bit_run (-1) 256 768 0 [] [1; 0; 2] [0; 0; 1]] []
  = Raise (UnboundLocalError "run").
Proof. apply combine_runs_lone_run_without_nw. reflexivity. Defined.

(** X3: when [combine_observation] returns for the per-bit observable,
    every run holds that observable, the lists of each run have the
    lengths of the combined lists or are both empty (an empty run is
    accepted before the first counter only), and every counter of the
    combined lists is the sum of the counters of the runs at its position. *)
Theorem combine_observation_per_bit_lengths (runs : list run) (d c : list Z) :
  combine_observation OBS_PER_BIT_ERROR_COUNT runs = Ok (ObsPerBit d c) ->
  Forall (fun r =>
            is_Some (observations r !! OBS_PER_BIT_ERROR_COUNT)
            /\ ((databurst r = [] /\ codeburst r = [])
                \/ (length (databurst r) = length d /\ length (codeburst r) = length c)))
         runs
  /\ (forall i, default 0 (d !! i) = column_sum databurst runs i)
  /\ (forall i, default 0 (c !! i) = column_sum codeburst runs i).
Proof.
  intros E. split; [|by apply combine_observation_per_bit_sums]. revert E.
  unfold combine_observation.
  change (String.eqb OBS_PER_BIT_ERROR_COUNT OBS_N_ERRORS_PER_BURST) with false.
  change (String.eqb OBS_PER_BIT_ERROR_COUNT OBS_PER_BIT_ERROR_COUNT) with true.
  cbv iota. intros E. apply bind_ok in E as (acc & Hfold & E). injection E as <- <-.
  match type of Hfold with
  | foldM ?f _ _ = _ => exact (proj2 (per_bit_fold_inv f (fun _ _ => eq_refl) runs _ _ Hfold))
  end.
Qed.

Lemma combine_observation_per_bit_lengths_witness :
  Forall (fun r =>
            is_Some (observations r !! OBS_PER_BIT_ERROR_COUNT)
            /\ ((databurst r = [] /\ codeburst r = [])
                \/ (length (databurst r) = length [5; 1; 2]
                    /\ length (codeburst r) = length [2; 0; 1])))
         [Samples.per_bit_run 1 256 768 0 [] [1; 0; 2] [0; 0; 1];
          Samples.per_bit_run 3 256 768 0 [] [4; 1; 0] [2; 0; 0]].
Proof.
  apply (combine_observation_per_bit_lengths
           [Samples.per_bit_run 1 256 768 0 [] [1; 0; 2] [0; 0; 1];
            Samples.per_bit_run 3 256 768 0 [] [4; 1; 0] [2; 0; 0]] [5; 1; 2] [2; 0; 1]).
  reflexivity.
Defined.

(** X4: the per-bit lists of a combined record combine further: a run that
    holds the lists combined from [runs1], put in front of [runs2], gives
    what all the runs give at once. *)
Theorem combine_observation_per_bit_regroup (runs1 runs2 : list run) (r1 : run)
    (o1 : observation) :
  combine_observation OBS_PER_BIT_ERROR_COUNT runs1 = Ok o1 ->
  observations r1 !! OBS_PER_BIT_ERROR_COUNT = Some o1 ->
  combine_observation OBS_PER_BIT_ERROR_COUNT (r1 :: runs2)
  = combine_observation OBS_PER_BIT_ERROR_COUNT (runs1 ++ runs2)%list.
Proof.
  unfold combine_observation.
  change (String.eqb OBS_PER_BIT_ERROR_COUNT OBS_N_ERRORS_PER_BURST) with false.
  change (String.eqb OBS_PER_BIT_ERROR_COUNT OBS_PER_BIT_ERROR_COUNT) with true.
  cbv iota. intros E Hr1. apply bind_ok in E as (acc & Hfold & E). injection E as <-.
  rewrite foldM_app, Hfold. cbn [bind foldM].
  unfold run_observation at 1. rewrite Hr1. cbn [bind obs_per_bit fst snd].
  rewrite !bool_decide_eq_true_2 by done. cbn [negb orb]. cbn [bind].
  by destruct acc.
Qed.

Lemma combine_observation_per_bit_regroup_witness :
  combine_observation OBS_PER_BIT_ERROR_COUNT
    [Samples.per_bit_run 4 256 768 0 [] [5; 1; 2] [2; 0; 1];
     Samples.per_bit_run 1 256 768 0 [] [7; 7; 7] [1; 1; 1]]
  = combine_observation OBS_PER_BIT_ERROR_COUNT
      [Samples.per_bit_run 1 256 768 0 [] [1; 0; 2] [0; 0; 1];
       Samples.per_bit_run 3 256 768 0 [] [4; 1; 0] [2; 0; 0];
       Samples.per_bit_run 1 256 768 0 [] [7; 7; 7] [1; 1; 1]].
Proof.
  apply (combine_observation_per_bit_regroup
           [Samples.per_bit_run 1 256 768 0 [] [1; 0; 2] [0; 0; 1];
            Samples.per_bit_run 3 256 768 0 [] [4; 1; 0] [2; 0; 0]]
           [Samples.per_bit_run 1 256 768 0 [] [7; 7; 7] [1; 1; 1]]
           _ (ObsPerBit [5; 1; 2] [2; 0; 1])); reflexivity.
Defined.

(** X5: for runs whose per-bit lists have one length, the combined lists
    do not depend on the order of the runs. *)
Theorem combine_observation_per_bit_perm (n m : nat) (runs runs' : list run) :
  Forall (per_bit_shape n m) runs -> runs ≡ₚ runs' ->
  combine_observation OBS_PER_BIT_ERROR_COUNT runs
  = combine_observation OBS_PER_BIT_ERROR_COUNT runs'.
Proof.
  intros Hall Hp.
  destruct runs as [|r runs].
  { apply Permutation_nil_l in Hp as ->. reflexivity. }
  assert (Hall' : Forall (per_bit_shape n m) runs') by (by rewrite <- Hp).
  assert (Hne' : runs' <> []).
  { intros ->. by apply Permutation_nil_r in Hp. }
  destruct (combine_observation_per_bit n m (r :: runs)) as (d & c & -> & Hd & Hc & Hds & Hcs);
    [done|done|].
  destruct (combine_observation_per_bit n m runs') as (d' & c' & -> & Hd' & Hc' & Hds' & Hcs');
    [done|done|].
  do 2 f_equal.
  - apply list_eq. intros i. destruct (decide (i < n)%nat) as [Hi|Hi].
    + rewrite Hds, Hds' by done. f_equal. by apply column_sum_perm.
    + rewrite !lookup_ge_None_2 by lia. done.
  - apply list_eq. intros i. destruct (decide (i < m)%nat) as [Hi|Hi].
    + rewrite Hcs, Hcs' by done. f_equal. by apply column_sum_perm.
    + rewrite !lookup_ge_None_2 by lia. done.
Qed.

Lemma combine_observation_per_bit_perm_witness :
  combine_observation OBS_PER_BIT_ERROR_COUNT
    [Samples.per_bit_run 1 256 768 0 [] [1; 0; 2] [0; 0; 1];
     Samples.per_bit_run 3 256 768 0 [] [4; 1; 0] [2; 0; 0]]
  = combine_observation OBS_PER_BIT_ERROR_COUNT
      [Samples.per_bit_run 3 256 768 0 [] [4; 1; 0] [2; 0; 0];
       Samples.per_bit_run 1 256 768 0 [] [1; 0; 2] [0; 0; 1]].
Proof.
  apply (combine_observation_per_bit_perm 3 3).
  - repeat (apply Forall_cons; split); [| |apply Forall_nil; exact I].
    + exists [1; 0; 2], [0; 0; 1]. repeat split; reflexivity.
    + exists [4; 1; 0], [2; 0; 0]. repeat split; reflexivity.
  - apply perm_swap.
Defined.
End CombinePerBit.

(** ** The line parser and the streaming reducer of [script/utils/utils.py] *)

Section Parser.
Import Utils ReducerSpec ResFacts ParserFacts.

(** X6: the exceptions of the line parser.  Whatever the line, the mask
    and the flag, an exception of [parse_einsim_output_line] is a
    [ValueError] (the line does not split into metadata and payload, a token
    has no colon, a number does not read), the [AssertionError] of the
    missing [obs] key, or the [NameError] or [UnboundLocalError] of a name
    read unbound; it is never a [KeyError], an [IndexError] or a
    [ZeroDivisionError]. *)
Theorem parse_einsim_output_line_exceptions (line : string) (F : list string)
    (is_experimental : bool) (e : exn) :
  parse_einsim_output_line line F is_experimental = Raise e -> parser_exception e.
Proof. apply parse_exception. Qed.

Lemma parse_einsim_output_line_exceptions_witness :
  parser_exception (UnboundLocalError "experiment_id").
Proof.
  apply (parse_einsim_output_line_exceptions Samples.per_bit_line_256 ["bl"] true).
  reflexivity.
Defined.

(** X7: what a parsed run looks like.  When the parser returns a run, the
    flag [is_experimental] was not set, the run has no experiment number,
    its two identities are the ones of its metadata (the second one under
    the mask), its metadata names the per-bit observable, and the run
    holds that observable and no other. *)
Theorem parsed_run_shape (line : string) (F : list string) (is_experimental : bool)
    (r : run) :
  parse_einsim_output_line line F is_experimental = Ok (Some r) ->
  is_experimental = false
  /\ experiment_id r = None
  /\ uid r = run_uid_from_metadata (run_metadata r)
  /\ uid_ignoring_fields r = run_uid_from_metadata_ignoring_fields (run_metadata r) F
  /\ md_obs (run_metadata r) = VStr OBS_PER_BIT_ERROR_COUNT
  /\ exists d c, observations r = {[ OBS_PER_BIT_ERROR_COUNT := ObsPerBit d c ]}.
Proof.
  unfold parse_einsim_output_line. intros E.
  destruct (_ && _ && _); [|discriminate E].
  destruct (PyStr.split "[" _) as [|meta [|raw [|]]]; try discriminate E.
  apply bind_ok in E as (dict & _ & E).
  do 5 (apply bind_ok in E as (? & _ & E)).
  destruct (dict !! "obs") as [obs|] eqn:Hobs; [|discriminate E].
  destruct is_experimental; [discriminate E|].
  cbn [bind fst snd] in E.
  destruct (negb (str_in obs OBSERVABLES)) eqn:Hin; [discriminate E|].
  destruct (String.eqb obs OBS_N_ERRORS_PER_BURST) eqn:Hn.
  { destruct (RoundTripFacts.parse_n_errors_raises raw) as [e He].
    rewrite He in E. discriminate E. }
  destruct (String.eqb obs OBS_PER_BIT_ERROR_COUNT) eqn:Hp.
  - apply String.eqb_eq in Hp as ->.
    apply bind_ok in E as (o & Ho & E). injection E as <-.
    cbn [run_metadata observations experiment_id uid uid_ignoring_fields md_obs].
    repeat (split; [done|]). split; [unfold meta_str; by rewrite Hobs|].
    apply RoundTripFacts.parse_per_bit_shape in Ho as (d & c & ->). eauto.
  - unfold str_in, OBSERVABLES in Hin. cbn [existsb] in Hin.
    rewrite Hn, Hp in Hin. discriminate Hin.
Qed.

Lemma parsed_run_shape_witness :
  let r := Samples.per_bit_run 1 256 768 0 ["bl"] [1; 0; 2] [0; 0; 1] in
  uid r = run_uid_from_metadata (run_metadata r)
  /\ uid_ignoring_fields r = run_uid_from_metadata_ignoring_fields (run_metadata r) ["bl"].
Proof.
  intros r.
  destruct (parsed_run_shape Samples.per_bit_line_256 ["bl"] false r)
    as (_ & _ & Huid & Hif & _); [vm_compute; reflexivity|].
  exact (conj Huid Hif).
Defined.
End Parser.

Module DeliveryFacts.
Import Utils ReducerSpec ResFacts ParserFacts ReducerFacts.

Section WithCallback.
Context `{PyJson} {S : Type}.
Variable callback : run -> option json -> S -> res S.
Variable update : run -> S -> S.
Hypothesis callback_returns : forall r s, callback r None s = Ok (update r s).

(** One turn of the loop when the callback returns and a side-channel
    line, if the line is one, holds JSON. *)
Lemma read_line_delivers (infilename : string) (is_experimental : bool)
    (F : list string) (line : string) (line_num malformed_line : Z) (w : world) :
  decodable line ->
  exists w1 m1,
    read_line callback infilename is_experimental F line line_num malformed_line w
    = inl (w1, m1)
    /\ cb_state w1 = match line_run F is_experimental line with
                     | Some r => update r (cb_state w)
                     | None => cb_state w
                     end
    /\ ecc_codes w1 = match line_code line with
                      | Some code => <[infilename := code]> (ecc_codes w)
                      | None => ecc_codes w
                      end.
Proof.
  intros Hdec. unfold read_line, line_run, line_code.
  destruct (PyStr.startswith "[ECC]" line) eqn:Hecc.
  - rewrite (ecc_line_not_parsed line F is_experimental Hecc).
    cbv beta iota zeta delta [is_ok negb andb]. rewrite ?Hecc.
    destruct (Hdec Hecc) as [code ->]. eexists _, _. by split.
  - destruct (parse_einsim_output_line line F is_experimental) as [[r|]|e] eqn:Hparse.
    + cbv beta iota zeta delta [is_ok negb andb]. rewrite callback_returns.
      eexists _, _. by split.
    + cbv beta iota zeta delta [is_ok negb andb]. rewrite ?Hecc. eexists _, _. by split.
    + apply parse_exception in Hparse.
      destruct e; try done; cbv beta iota zeta delta [is_ok negb andb]; rewrite ?Hecc;
        (destruct (malformed_line =? -1); eexists _, _; by split).
Qed.

Lemma read_lines_delivers (infilename : string) (is_experimental : bool)
    (F : list string) (lines : list string) (line_num malformed_line : Z) (w : world) :
  Forall decodable (read_part lines) ->
  exists w',
    read_lines callback infilename is_experimental F lines line_num malformed_line w
    = (w', None)
    /\ cb_state w' = foldl (fun s r => update r s) (cb_state w)
                           (omap (line_run F is_experimental) (read_part lines))
    /\ ecc_codes w' = codes_after infilename lines (ecc_codes w).
Proof.
  unfold codes_after.
  revert line_num malformed_line w.
  induction lines as [|line rest IH]; intros line_num malformed_line w Hdec;
    cbn [read_lines read_part].
  - exists w. by split.
  - destruct (String.eqb line "") eqn:Eline; [exists w; by split|].
    cbn [read_part] in Hdec. rewrite Eline in Hdec.
    apply Forall_cons in Hdec as [Hline Hdec].
    destruct (read_line_delivers infilename is_experimental F line (line_num + 1)
                malformed_line w Hline) as (w1 & m1 & -> & Hs & Hc).
    destruct (IH (line_num + 1) m1 w1 Hdec) as (w' & -> & Hs' & Hc').
    exists w'. split; [done|].
    change (omap (line_run F is_experimental) (line :: read_part rest))
      with (match line_run F is_experimental line with
            | Some r => r :: omap (line_run F is_experimental) (read_part rest)
            | None => omap (line_run F is_experimental) (read_part rest)
            end).
    rewrite Hs', Hs, Hc', Hc. split.
    + destruct (line_run F is_experimental line); reflexivity.
    + reflexivity.
Qed.

Lemma read_files_delivers (is_experimental : bool) (F : list string)
    (files : list (string * list string)) (w : world) :
  Forall (fun file => Forall decodable (read_part (snd file))) files ->
  exists w',
    read_files callback is_experimental F files w = (w', None)
    /\ cb_state w' = foldl (fun s r => update r s) (cb_state w)
                       (concat (map (fun file => omap (line_run F is_experimental)
                                                      (read_part (snd file))) files))
    /\ ecc_codes w' = foldl (fun codes file => codes_after (fst file) (snd file) codes)
                            (ecc_codes w) files.
Proof.
  revert w. induction files as [|[name lines] files IH]; intros w Hdec; cbn [read_files].
  - exists w. by split.
  - apply Forall_cons in Hdec as [Hlines Hdec]. cbn [snd] in Hlines.
    destruct (read_lines_delivers name is_experimental F lines 0 (-1) w Hlines)
      as (w1 & -> & Hs & Hc).
    destruct (IH w1 Hdec) as (w' & -> & Hs' & Hc').
    exists w'. split; [done|]. cbn [map concat foldl fst snd].
    rewrite foldl_app, Hs', Hs, Hc', Hc. done.
Qed.

(** At most one warning per file is logged: what is logged while the
    files are read names files of the list, in order, each occurrence at
    most once. *)
Lemma read_files_warnings (is_experimental : bool) (F : list string)
    (files : list (string * list string)) (w : world) :
  exists logged,
    warnings (fst (read_files callback is_experimental F files w))
    = (warnings w ++ logged)%list
    /\ map fst logged `sublist_of` map fst files.
Proof.
  revert w. induction files as [|[name lines] files IH]; intros w; cbn [read_files].
  - exists []. cbn [fst]. by rewrite List.app_nil_r.
  - pose proof (read_lines_warns_once callback name is_experimental F lines 0 (-1) w
                  ltac:(lia)) as [_ Hw].
    cbn zeta in Hw.
    destruct (read_lines callback name is_experimental F lines 0 (-1) w) as [w1 [e|]].
    + cbn [fst] in *. destruct Hw as [-> | [n ->]].
      * exists []. split; [by rewrite List.app_nil_r|apply sublist_nil_l].
      * exists [(name, n)]. split; [done|]. cbn [map fst].
        apply sublist_skip, sublist_nil_l.
    + destruct (IH w1) as (logged & -> & Hsub). cbn [fst] in Hw.
      destruct Hw as [-> | [n ->]].
      * exists logged. split; [done|]. cbn [map fst]. by apply sublist_cons.
      * exists ((name, n) :: logged). split; [by rewrite <- List.app_assoc|].
        cbn [map fst]. by apply sublist_skip.
Qed.
End WithCallback.

End DeliveryFacts.

Section ReducerDelivers.
Import Utils ReducerSpec ReducerSamples DeliveryFacts.

(** X8: the streaming reducer with a callback that returns.  When every
    side-channel line holds JSON, [parse_files_incremental] reads all the
    files without an exception: the callback has received, in the order of
    the lines, the runs of the lines that parse (the other lines are
    skipped), and the codes hold, per file name, the last side-channel line
    of the file. *)
Theorem parse_files_incremental_delivers `{PyJson} {S : Type}
    (callback : run -> option json -> S -> res S) (update : run -> S -> S)
    (files : list (string * list string)) (is_experimental : bool)
    (fields_to_combine : list string) (args : S) :
  (forall r s, callback r None s = Ok (update r s)) ->
  Forall (fun file => Forall decodable (read_part (snd file))) files ->
  exists w,
    parse_files_incremental callback files is_experimental fields_to_combine args
    = (w, None)
    /\ cb_state w
       = foldl (fun s r => update r s) args
           (concat (map (fun file => omap (line_run fields_to_combine is_experimental)
                                          (read_part (snd file))) files))
    /\ ecc_codes w
       = foldl (fun codes file => codes_after (fst file) (snd file) codes) ∅ files.
Proof.
  intros Hcb Hdec. unfold parse_files_incremental.
  apply (read_files_delivers callback update Hcb is_experimental fields_to_combine files
           (mk_world args ∅ []) Hdec).
Qed.

Lemma parse_files_incremental_delivers_witness :
  exists w,
    @parse_files_incremental only_empty_object (list run) collect
      [("a.txt", [Samples.per_bit_line_256; "not a record" ++ nl; "[ECC] {}" ++ nl;
                  Samples.per_bit_line_512]);
       ("b.txt", [Samples.per_bit_line_512])] false [] []
    = (w, None)
    /\ cb_state w = [Samples.per_bit_run 1 256 768 0 [] [1; 0; 2] [0; 0; 1];
                     Samples.per_bit_run 1 512 768 0 [] [4; 1; 0] [2; 0; 0];
                     Samples.per_bit_run 1 512 768 0 [] [4; 1; 0] [2; 0; 0]]
    /\ ecc_codes w = {[ "a.txt" := tt ]}.
Proof.
  destruct (@parse_files_incremental_delivers only_empty_object (list run) collect
              (fun r seen => (seen ++ [r])%list)
              [("a.txt", [Samples.per_bit_line_256; "not a record" ++ nl; "[ECC] {}" ++ nl;
                          Samples.per_bit_line_512]);
               ("b.txt", [Samples.per_bit_line_512])] false [] [])
    as (w & Hrun & Hs & Hc).
  - reflexivity.
  - repeat (apply Forall_cons; split); try (apply Forall_nil; exact I);
      intros Hecc; try discriminate Hecc. by exists tt.
  - exists w. split; [exact Hrun|]. split.
    + rewrite Hs. vm_compute. reflexivity.
    + rewrite Hc. vm_compute. reflexivity.
Defined.

(** X9: the reducer logs at most one warning per file, whatever the lines
    and the callback do: the warnings, in the order in which they were
    logged, name files of the list in the order of the list, each occurrence
    of a file in the list at most once.  So there are at most as many
    warnings as files. *)
Theorem parse_files_incremental_warns_once_per_file `{PyJson} {S : Type}
    (callback : run -> option json -> S -> res S)
    (files : list (string * list string)) (is_experimental : bool)
    (fields_to_combine : list string) (args : S) :
  map fst (warnings (fst (parse_files_incremental callback files is_experimental
                                                  fields_to_combine args)))
  `sublist_of` map fst files
  /\ (length (warnings (fst (parse_files_incremental callback files is_experimental
                                                     fields_to_combine args)))
      <= length files)%nat.
Proof.
  unfold parse_files_incremental.
  destruct (read_files_warnings callback is_experimental fields_to_combine files
              (mk_world args ∅ [])) as (logged & -> & Hsub).
  cbn [warnings app]. split; [exact Hsub|].
  apply sublist_length in Hsub. by rewrite !length_map in Hsub.
Qed.
End ReducerDelivers.

(** ** [script/utils/aggregate_output.py]: grouping and output *)

Module AggregateFacts.
Import Utils UtilsSpec Aggregate AggregateSpec CombineSpec ResFacts PerBitFacts.

Lemma append_run_keys_new (key : string) (data : run) (s : store) :
  key ∉ map fst s -> map fst (append_run key data s) = (map fst s ++ [key])%list.
Proof.
  induction s as [|[k l] s IH]; intros Hnew; [done|].
  cbn [append_run map fst] in *. apply not_elem_of_cons in Hnew as [Hne Hnew].
  destruct (String.eqb_spec k key) as [->|_]; [done|].
  cbn [map fst]. by rewrite IH.
Qed.

Lemma append_run_keys_old (key : string) (data : run) (s : store) :
  key ∈ map fst s -> map fst (append_run key data s) = map fst s.
Proof.
  induction s as [|[k l] s IH]; intros Hin; [by apply elem_of_nil in Hin|].
  cbn [append_run map fst] in *.
  destruct (String.eqb_spec k key) as [->|Hne]; [done|].
  cbn [map fst]. rewrite IH; [done|].
  apply elem_of_cons in Hin as [Hin|Hin]; [congruence|done].
Qed.

(** What [append_run] does to the group of each key. *)
Lemma append_run_lookup (key : string) (data : run) (s : store) (k : string)
    (group : list run) :
  NoDup (map fst s) ->
  (k, group) ∈ append_run key data s <->
  (k <> key /\ (k, group) ∈ s)
  \/ (k = key /\ (((key ∉ map fst s) /\ group = [data])
                  \/ exists old, (key, old) ∈ s /\ group = (old ++ [data])%list)).
Proof.
  induction s as [|[k0 l0] s IH]; intros Hnd.
  - cbn [append_run map]. rewrite list_elem_of_singleton. split.
    + intros [= -> ->]. right. split; [done|]. left. split; [apply not_elem_of_nil|done].
    + intros [[_ Hin]|[-> [[_ ->]|(old & Hin & _)]]]; try done; by apply elem_of_nil in Hin.
  - cbn [map fst] in Hnd. apply NoDup_cons in Hnd as [Hk0 Hnd].
    cbn [append_run]. destruct (String.eqb_spec k0 key) as [->|Hne].
    + rewrite elem_of_cons. split.
      * intros [[= -> ->]|Hin].
        -- right. split; [done|]. right. exists l0. split; [apply list_elem_of_here|done].
        -- left. split; [|by apply list_elem_of_further].
           intros ->. apply Hk0. apply list_elem_of_fmap. by exists (key, group).
      * intros [[Hk Hin]|[-> [[Hnew _]|(old & Hin & ->)]]].
        -- apply elem_of_cons in Hin as [[= -> ->]|Hin]; [done|by right].
        -- exfalso. apply Hnew. cbn [map fst]. apply list_elem_of_here.
        -- apply elem_of_cons in Hin as [[= ->]|Hin]; [by left|].
           exfalso. apply Hk0. apply list_elem_of_fmap. by exists (key, old).
    + rewrite elem_of_cons, (IH Hnd). cbn [map fst]. split.
      * intros [[= -> ->]|[[Hk Hin]|[-> [[Hnew ->]|(old & Hin & ->)]]]].
        -- left. split; [done|apply list_elem_of_here].
        -- left. split; [done|by apply list_elem_of_further].
        -- right. split; [done|]. left. split; [|done].
           apply not_elem_of_cons. by split.
        -- right. split; [done|]. right. exists old. split; [by apply list_elem_of_further|done].
      * intros [[Hk Hin]|[-> [[Hnew ->]|(old & Hin & ->)]]].
        -- apply elem_of_cons in Hin as [[= -> ->]|Hin]; [by left|]. right. left. by split.
        -- apply not_elem_of_cons in Hnew as [_ Hnew]. right. right. split; [done|].
           left. by split.
        -- apply elem_of_cons in Hin as [[= -> ->]|Hin]; [done|].
           right. right. split; [done|]. right. by exists old.
Qed.

Lemma append_run_NoDup (key : string) (data : run) (s : store) :
  NoDup (map fst s) -> NoDup (map fst (append_run key data s)).
Proof.
  intros Hnd. destruct (decide (key ∈ map fst s)) as [Hin|Hnew].
  - by rewrite append_run_keys_old.
  - rewrite append_run_keys_new by done. apply NoDup_app. split; [done|]. split.
    + intros x Hx ->%list_elem_of_singleton. done.
    + apply NoDup_singleton.
Qed.

(** The store gathered from [runs], from any store that groups [seen]. *)
Lemma gathered_groups (runs seen : list run) (s : store) :
  NoDup (map fst s) ->
  (forall k group, (k, group) ∈ s <-> group <> [] /\ group = group_of k seen) ->
  let s' := foldl (fun s r => append_run (uid_ignoring_fields r) r s) s runs in
  NoDup (map fst s')
  /\ forall k group,
       (k, group) ∈ s' <-> group <> [] /\ group = group_of k (seen ++ runs)%list.
Proof.
  revert seen s. induction runs as [|r runs IH]; intros seen s Hnd Hs; cbn [foldl].
  - rewrite List.app_nil_r. by split.
  - replace (seen ++ r :: runs)%list with ((seen ++ [r]) ++ runs)%list
      by (by rewrite <- List.app_assoc).
    apply IH; [by apply append_run_NoDup|].
    intros k group. rewrite (append_run_lookup _ _ _ _ _ Hnd).
    unfold group_of. rewrite filter_app.
    destruct (decide (k = uid_ignoring_fields r)) as [->|Hk].
    + rewrite filter_cons_True, filter_nil by done. split.
      * intros [[Hne _]|[_ [[Hnew ->]|(old & Hold & ->)]]]; [done| |].
        -- split; [done|]. 
           destruct (filter (fun r0 => uid_ignoring_fields r0 = uid_ignoring_fields r) seen)
             as [|x l] eqn:E; [done|].
           exfalso. apply Hnew. apply list_elem_of_fmap.
           exists (uid_ignoring_fields r, x :: l). split; [done|].
           apply Hs. split; [done|]. unfold group_of. by rewrite E.
        -- apply Hs in Hold as [_ ->]. split; [|done].
           intros Happ. by apply app_eq_nil in Happ as [_ ?].
      * intros [_ ->]. right. split; [done|].
        destruct (filter (fun r0 => uid_ignoring_fields r0 = uid_ignoring_fields r) seen)
          as [|x l] eqn:E.
        -- left. split; [|done]. intros Hin.
           apply list_elem_of_fmap in Hin as ([k' g'] & Hk' & Hin). cbn [fst] in Hk'. subst k'.
           apply Hs in Hin as [Hne Hg]. unfold group_of in Hg. rewrite E in Hg. done.
        -- right. exists (x :: l). split; [|done].
           apply Hs. split; [done|]. unfold group_of. by rewrite E.
    + rewrite filter_cons_False, filter_nil, List.app_nil_r by (intros E; by apply Hk).
      rewrite Hs. unfold group_of. split.
      * intros [[_ H1]|[-> _]]; done.
      * intros H1. by left.
Qed.

(** What [combine_runs] returns for parsed runs holds the lists that
    [combine_observation] computes. *)
Lemma combine_runs_parsed_obs (data : list run) (F : list string) (rec : run) :
  Forall RoundTripSpec.parsed data -> combine_runs data F = Ok rec ->
  exists d c,
    observations rec = {[ OBS_PER_BIT_ERROR_COUNT := ObsPerBit d c ]}
    /\ combine_observation OBS_PER_BIT_ERROR_COUNT data = Ok (ObsPerBit d c).
Proof.
  intros Hdata E.
  destruct (RoundTripFacts.combine_runs_parsed data F rec Hdata E)
    as (_ & _ & _ & d & c & Hrec).
  exists d, c. split; [done|].
  apply NErrorsFacts.combine_runs_ok_inv in E as (r & obs & Hlast & Hfold & Hobs).
  assert (Hr : r ∈ data).
  { apply last_Some in Hlast as (l' & ->). apply elem_of_app. right. apply list_elem_of_here. }
  destruct (RoundTripFacts.parsed_inv r (Forall_elem _ _ _ Hdata Hr)) as (_ & _ & d' & c' & Hr_obs).
  rewrite Hr_obs, map_to_list_singleton in Hfold. cbn [map fst foldM] in Hfold.
  apply bind_ok in Hfold as (obs1 & Hstep & Hfold). injection Hfold as <-.
  apply bind_ok in Hstep as (o & Ho & Hstep). injection Hstep as <-.
  rewrite Ho. f_equal.
  rewrite Hrec, insert_empty in Hobs.
  apply (f_equal (fun m => m !! OBS_PER_BIT_ERROR_COUNT)) in Hobs.
  rewrite !lookup_singleton_eq in Hobs. by injection Hobs as ->.
Qed.

Section Reading.
Context `{PyJsonUid}.

(** One turn of the reducer with the callback of the script, when the
    turn does not raise. *)
Lemma read_line_gathers (infilename : string) (F : list string) (line : string)
    (line_num malformed_line m1 : Z) (w w1 : world) :
  read_line callback infilename false F line line_num malformed_line w = inl (w1, m1) ->
  cb_state w1 = match ReducerSpec.line_run F false line with
                | Some r => append_run (uid_ignoring_fields r) r (cb_state w)
                | None => cb_state w
                end.
Proof.
  unfold read_line, ReducerSpec.line_run.
  destruct (parse_einsim_output_line line F false) as [[r|]|e] eqn:Hparse.
  - cbv beta iota zeta delta [is_ok negb andb callback]. by intros [= <- _].
  - cbv beta iota zeta delta [is_ok negb andb].
    destruct (PyStr.startswith "[ECC]" line); [|by intros [= <- _]].
    destruct (json_loads (PyStr.drop 6 line)); [by intros [= <- _]|discriminate].
  - apply ParserFacts.parse_exception in Hparse.
    destruct e; try done; cbv beta iota zeta delta [is_ok negb andb];
      (destruct (malformed_line =? -1);
       (destruct (PyStr.startswith "[ECC]" line); [|by intros [= <- _]]);
       (destruct (json_loads (PyStr.drop 6 line)); [by intros [= <- _]|discriminate])).
Qed.

Lemma read_lines_gathers (infilename : string) (F : list string) (lines : list string)
    (line_num malformed_line : Z) (w w' : world) :
  read_lines callback infilename false F lines line_num malformed_line w = (w', None) ->
  cb_state w'
  = foldl (fun s r => append_run (uid_ignoring_fields r) r s) (cb_state w)
          (omap (ReducerSpec.line_run F false) (ReducerSpec.read_part lines)).
Proof.
  revert line_num malformed_line w.
  induction lines as [|line rest IH]; intros line_num malformed_line w;
    cbn [read_lines ReducerSpec.read_part].
  - by intros [= <-].
  - destruct (String.eqb line "") eqn:Eline; [by intros [= <-]|].
    destruct (read_line callback infilename false F line (line_num + 1) malformed_line w)
      as [[w1 m1]|[w1 e1]] eqn:Hstep; [|discriminate].
    intros E. apply IH in E. apply read_line_gathers in Hstep.
    change (omap (ReducerSpec.line_run F false) (line :: ReducerSpec.read_part rest))
      with (match ReducerSpec.line_run F false line with
            | Some r => r :: omap (ReducerSpec.line_run F false) (ReducerSpec.read_part rest)
            | None => omap (ReducerSpec.line_run F false) (ReducerSpec.read_part rest)
            end).
    rewrite E, Hstep. by destruct (ReducerSpec.line_run F false line).
Qed.

Lemma read_files_gathers (F : list string) (files : list (string * list string))
    (w w' : world) :
  read_files callback false F files w = (w', None) ->
  cb_state w'
  = foldl (fun s r => append_run (uid_ignoring_fields r) r s) (cb_state w)
      (concat (map (fun file => omap (ReducerSpec.line_run F false)
                                     (ReducerSpec.read_part (snd file))) files)).
Proof.
  revert w. induction files as [|[name lines] files IH]; intros w; cbn [read_files].
  - by intros [= <-].
  - destruct (read_lines callback name false F lines 0 (-1) w) as [w1 [e|]] eqn:Hlines;
      [discriminate|].
    intros E. apply IH in E. apply read_lines_gathers in Hlines.
    cbn [map concat snd]. by rewrite foldl_app, E, Hlines.
Qed.

(** The texts [coalesce] writes when it does not raise. *)
Lemma coalesce_written (s : store) (F : list string) (outs : list string) :
  coalesce s F = (outs, None) ->
  Forall2 (fun out (kg : string * list run) =>
             exists rec, combine_runs (snd kg) F = Ok rec /\ get_output_string rec = Ok out)
          outs s.
Proof.
  revert outs. induction s as [|[k group] s IH]; intros outs; cbn [coalesce].
  - intros [= <-]. apply Forall2_nil. done.
  - destruct (combine_runs group F) as [rec|e] eqn:Hc; cbn [bind]; [|discriminate].
    destruct (get_output_string rec) as [out|e] eqn:Ho; [|discriminate].
    destruct (coalesce s F) as [outs' e'] eqn:Hs. cbn [fst snd].
    intros [= <- ->]. apply Forall2_cons. split; [|by apply IH].
    exists rec. by split.
Qed.
End Reading.

End AggregateFacts.

Section AggregateOutput.
Import Utils UtilsSpec Aggregate AggregateSpec AggregateSamples CombineSpec ReducerSpec.
Import ResFacts PerBitFacts AggregateFacts.

(** X10: the callback of the script groups the runs by masked identity.
    After it has received [runs] it holds one group per identity, each
    group is the list of the runs of that identity in the order received
    and is not empty; so the runs of a group carry one masked identity,
    which is what [combine_runs] first asserts. *)
Theorem callback_groups_by_identity `{PyJsonUid} (runs : list run) :
  foldM (fun s r => callback r None s) [] runs = Ok (gathered runs)
  /\ NoDup (map fst (gathered runs))
  /\ (forall k group,
        (k, group) ∈ gathered runs <-> group <> [] /\ group = group_of k runs)
  /\ (forall k group, (k, group) ∈ gathered runs -> same_masked_identity group).
Proof.
  assert (Hfold : forall s, foldM (fun s r => callback r None s) s runs
                            = Ok (foldl (fun s r => append_run (uid_ignoring_fields r) r s)
                                        s runs)).
  { induction runs as [|r runs IH]; intros s; [done|]. cbn [foldM foldl callback bind].
    apply IH. }
  destruct (gathered_groups runs [] []) as [Hnd Hgroups].
  - apply NoDup_nil_2.
  - intros k group. unfold group_of. rewrite filter_nil. split.
    + by intros ?%elem_of_nil.
    + by intros [? ->].
  - cbn [app] in Hgroups. split; [apply Hfold|]. split; [exact Hnd|]. split; [exact Hgroups|].
    intros k group Hin r1 r2 H1 H2. apply Hgroups in Hin as [_ ->].
    unfold group_of in H1, H2.
    apply list_elem_of_filter in H1 as [H1 _]. apply list_elem_of_filter in H2 as [H2 _].
    congruence.
Qed.

(** X11: what the script writes when it ends without an exception.  It has
    written one text per masked identity of the runs parsed from the files,
    in the order in which the identities were first seen; each text is one
    line that the parser reads back, and every per-bit counter read back is
    the sum of the counters of the runs of that identity. *)
Theorem aggregate_einsim_results_output `{PyJsonUid}
    (infiles : list (string * list string)) (fields_to_combine F' : list string)
    (outs : list string) :
  aggregate_einsim_results infiles fields_to_combine = (outs, None) ->
  Forall2 (fun out (kg : string * list run) =>
             exists r',
               parse_einsim_output_line out F' false = Ok (Some r')
               /\ (forall i, default 0 (databurst r' !! i) = column_sum databurst (snd kg) i)
               /\ (forall i, default 0 (codeburst r' !! i) = column_sum codeburst (snd kg) i))
          outs
          (gathered (concat (map (fun file => omap (line_run fields_to_combine false)
                                                   (read_part (snd file))) infiles))).
Proof.
  unfold aggregate_einsim_results, parse_files_incremental.
  match goal with
  | |- context [read_files ?cb ?e ?F ?fs ?w0] =>
      destruct (read_files cb e F fs w0) as [w [e'|]] eqn:Hread
  end; [intros E; discriminate E|].
  destruct (foldM _ tt _); [|intros E; discriminate E].
  intros Hco. apply read_files_gathers in Hread. cbn [cb_state] in Hread.
  set (runs := concat _) in *. fold (gathered runs) in Hread. rewrite Hread in Hco.
  apply coalesce_written in Hco.
  destruct (callback_groups_by_identity runs) as (_ & _ & Hgroups & _).
  assert (Hparsed : forall r, r ∈ runs -> RoundTripSpec.parsed r).
  { intros r Hr. unfold runs in Hr. apply list_elem_of_In, in_concat in Hr as (l & Hl & Hr).
    apply list_elem_of_In, list_elem_of_fmap in Hl as (file & -> & _).
    apply list_elem_of_In, list_elem_of_omap in Hr as (line & _ & Hline).
    unfold line_run in Hline.
    destruct (parse_einsim_output_line line fields_to_combine false) as [[r0|]|] eqn:Hp;
      try discriminate Hline.
    injection Hline as ->. by exists line, fields_to_combine. }
  assert (Hin : forall kg, kg ∈ gathered runs -> Forall RoundTripSpec.parsed (snd kg)).
  { intros [k group] Hkg. apply Hgroups in Hkg as [_ ->]. cbn [snd].
    apply elem_Forall. intros r Hr. apply Hparsed.
    unfold group_of in Hr. by apply list_elem_of_filter in Hr as [_ Hr]. }
  revert Hco Hin. generalize (gathered runs). intros st Hco Hin.
  induction Hco as [|out kg outs' st' (rec & Hrec & Hout) Hco IH]; [apply Forall2_nil; done|].
  apply Forall2_cons. split.
  - assert (Hkg : Forall RoundTripSpec.parsed (snd kg)) by (apply Hin, list_elem_of_here).
    destruct (RoundTripFacts.combine_runs_parsed _ _ _ Hkg Hrec)
      as (Hplain & _ & Huid & d0 & c0 & Hobs0).
    destruct (combine_runs_parsed_obs _ _ _ Hkg Hrec) as (d & c & Hobs & Hcomb).
    pose proof (RoundTripFacts.get_output_string_per_bit_ok rec d c out Hobs Hout) as Hlim.
    rewrite (RoundTripFacts.get_output_string_per_bit rec d c Hobs Huid Hlim) in Hout.
    injection Hout as <-.
    eexists. split; [by apply RoundTripFacts.parse_per_bit_line|].
    unfold databurst, codeburst. cbn [observations]. rewrite lookup_singleton_eq.
    by apply combine_observation_per_bit_sums.
  - apply IH. intros kg' Hkg'. apply Hin. by apply list_elem_of_further.
Qed.

Lemma aggregate_einsim_results_output_witness :
  @aggregate_einsim_results _ uid_of_code two_files ["nw"]
  = ([Samples.per_bit_line_combined], None)
  /\ exists r',
       parse_einsim_output_line Samples.per_bit_line_combined [] false = Ok (Some r')
       /\ forall i, default 0 (databurst r' !! i)
                    = column_sum databurst
                        [Samples.per_bit_run 1 256 768 0 ["nw"] [1; 0; 2] [0; 0; 1];
                         Samples.per_bit_run 3 256 768 0 ["nw"] [4; 1; 0] [2; 0; 0]] i.
Proof.
  assert (Hrun : @aggregate_einsim_results _ uid_of_code two_files ["nw"]
                 = ([Samples.per_bit_line_combined], None)) by (vm_compute; reflexivity).
  split; [exact Hrun|].
  pose proof (@aggregate_einsim_results_output _ uid_of_code two_files ["nw"] [] _ Hrun) as Hall.
  apply Forall2_cons_inv_l in Hall as (kg & s & (r' & Hparse & Hd & _) & _ & Hs).
  assert (Hkg : kg = ("[DATA] uid:-1 nw:-1 bl:256 bcl:768 ps:0 em:-1 cd:-1 dp:-1 cdp:-1 obs:PER_BIT_ERROR_COUNT",
                      [Samples.per_bit_run 1 256 768 0 ["nw"] [1; 0; 2] [0; 0; 1];
                       Samples.per_bit_run 3 256 768 0 ["nw"] [4; 1; 0] [2; 0; 0]])).
  { vm_compute in Hs. by injection Hs as <- _. }
  subst kg. exists r'. split; [exact Hparse|exact Hd].
Defined.

(** A code without [uid] ends the script before anything is written: the
    dictionary of the codes by [uid] raises [KeyError]. *)
Example aggregate_without_uid_raises :
  @aggregate_einsim_results _ uid_of_code two_files_without_uid ["nw"]
  = ([], Some KeyError).
Proof. vm_compute. reflexivity. Qed.
End AggregateOutput.

(** ** The summaries of [script/utils.py] *)

Module HistOrderFacts.
Import HistSpec ResFacts.

Lemma accumulate_within (bcl bl : Z) (h : Hist.hists) (t : Z * Z * Z) :
  within bcl bl t -> Hist.accumulate (Ok bcl) (Ok bl) h t = Ok (add h t).
Proof.
  intros [Hre Hue]. unfold Hist.accumulate, add. cbv zeta.
  destruct (0 <? snd (fst t)) eqn:E1; cbn [bind].
  - apply Z.ltb_lt in E1. apply Hre in E1. apply Z.leb_le in E1. rewrite E1.
    cbn [py_assert bind].
    destruct (0 <? snd t) eqn:E2; cbn [bind]; [|done].
    apply Z.ltb_lt in E2. apply Hue in E2. apply Z.leb_le in E2. rewrite E2. done.
  - destruct (0 <? snd t) eqn:E2; cbn [bind]; [|done].
    apply Z.ltb_lt in E2. apply Hue in E2. apply Z.leb_le in E2. rewrite E2. done.
Qed.

Lemma accumulate_ok (bcl bl : Z) (h h' : Hist.hists) (t : Z * Z * Z) :
  Hist.accumulate (Ok bcl) (Ok bl) h t = Ok h' -> within bcl bl t /\ h' = add h t.
Proof.
  unfold Hist.accumulate, add, within. cbv zeta.
  destruct (0 <? snd (fst t)) eqn:E1; cbn [bind].
  - destruct (fst (fst t) <=? bcl) eqn:L1; cbn [py_assert bind]; [|discriminate].
    apply Z.leb_le in L1.
    destruct (0 <? snd t) eqn:E2; cbn [bind].
    + destruct (fst (fst t) <=? bl) eqn:L2; cbn [py_assert bind]; [|discriminate].
      apply Z.leb_le in L2. intros [= <-]. done.
    + apply Z.ltb_ge in E2. intros [= <-]. split; [split; [done|lia]|done].
  - apply Z.ltb_ge in E1.
    destruct (0 <? snd t) eqn:E2; cbn [bind].
    + destruct (fst (fst t) <=? bl) eqn:L2; cbn [py_assert bind]; [|discriminate].
      apply Z.leb_le in L2. intros [= <-]. split; [split; [lia|done]|done].
    + apply Z.ltb_ge in E2. intros [= <-]. split; [split; lia|done].
Qed.

(** The nested loop is the loop over the entries of all runs. *)
Lemma fold_runs_concat (bcl bl : Z) (h : Hist.hists) (data : list (list (list string))) :
  fold_runs bcl bl h data
  = foldM (fun h entry =>
             t <- Hist.unpack_triple entry ;; Hist.accumulate (Ok bcl) (Ok bl) h t)
          h (concat data).
Proof.
  unfold fold_runs. revert h. induction data as [|run data IH]; intros h; [done|].
  cbn [foldM concat]. rewrite foldM_app.
  destruct (foldM _ h run); cbn [bind]; [apply IH|done].
Qed.

(** The loop returns when every entry converts to a triple that passes the
    assertions, and then it has added the triples. *)
Lemma fold_entries_ok (bcl bl : Z) (entries : list (list string)) (h h' : Hist.hists) :
  foldM (fun h entry =>
           t <- Hist.unpack_triple entry ;; Hist.accumulate (Ok bcl) (Ok bl) h t)
        h entries = Ok h'
  <-> exists ts, mapM Hist.unpack_triple entries = Ok ts
                 /\ Forall (within bcl bl) ts /\ h' = foldl add h ts.
Proof.
  revert h. induction entries as [|entry entries IH]; intros h.
  - cbn [foldM mapM]. split.
    + intros [= <-]. by exists [].
    + intros (ts & [= <-] & _ & ->). done.
  - cbn [foldM mapM]. split.
    + intros E. apply bind_ok in E as (h1 & E1 & E).
      apply bind_ok in E1 as (t & Ht & Hacc).
      apply accumulate_ok in Hacc as [Hw ->].
      apply IH in E as (ts & Hts & Hall & ->).
      exists (t :: ts). rewrite Ht, Hts. cbn [bind]. split; [done|]. split; [by constructor|done].
    + intros (ts & E & Hall & ->).
      apply bind_ok in E as (t & Ht & E). apply bind_ok in E as (ts' & Hts & [= <-]).
      apply Forall_cons in Hall as [Hw Hall].
      rewrite Ht. cbn [bind]. rewrite accumulate_within by done. cbn [bind].
      apply IH. by exists ts'.
Qed.

Lemma mapM_perm {A B : Type} (f : A -> res B) (l l' : list A) (ys : list B) :
  l ≡ₚ l' -> mapM f l = Ok ys -> exists ys', mapM f l' = Ok ys' /\ ys ≡ₚ ys'.
Proof.
  intros Hp. revert ys. induction Hp as [|x l l' Hp IH|x y l|l l' l'' Hp1 IH1 Hp2 IH2]; intros ys E.
  - injection E as <-. by exists [].
  - cbn [mapM] in *. apply bind_ok in E as (b & Hb & E).
    apply bind_ok in E as (bs & Hbs & [= <-]).
    destruct (IH _ Hbs) as (bs' & -> & Hperm). rewrite Hb. cbn [bind].
    exists (b :: bs'). by split; [|constructor].
  - cbn [mapM] in *. apply bind_ok in E as (b & Hb & E).
    apply bind_ok in E as (bs & E & [= <-]).
    apply bind_ok in E as (c & Hc & E). apply bind_ok in E as (cs & Hcs & [= <-]).
    rewrite Hc, Hb, Hcs. cbn [bind]. exists (c :: b :: cs). split; [done|constructor].
  - destruct (IH1 _ E) as (ys' & E' & Hp'). destruct (IH2 _ E') as (ys'' & E'' & Hp'').
    exists ys''. split; [done|by etrans].
Qed.

Lemma add_raw_comm (h : gmap Z (Z * Z)) (n1 a1 b1 n2 a2 b2 : Z) :
  Hist.add_raw (Hist.add_raw h n1 a1 b1) n2 a2 b2
  = Hist.add_raw (Hist.add_raw h n2 a2 b2) n1 a1 b1.
Proof.
  unfold Hist.add_raw. cbv zeta. destruct (decide (n1 = n2)) as [->|Hne].
  - rewrite !lookup_insert_eq. cbn [default id fst snd]. rewrite !insert_insert_eq.
    destruct (default (0, 0) (h !! n2)) as [x y]. cbn [fst snd].
    replace (x + a1 + a2) with (x + a2 + a1) by lia.
    by replace (y + b1 + b2) with (y + b2 + b1) by lia.
  - rewrite !lookup_insert_ne by done. by rewrite insert_insert_ne.
Qed.

Lemma add_count_comm (h : gmap Z Z) (n1 c1 n2 c2 : Z) :
  Hist.add_count (Hist.add_count h n1 c1) n2 c2
  = Hist.add_count (Hist.add_count h n2 c2) n1 c1.
Proof.
  unfold Hist.add_count. destruct (decide (n1 = n2)) as [->|Hne].
  - rewrite !lookup_insert_eq. cbn [default id]. rewrite !insert_insert_eq.
    by replace (default 0 (h !! n2) + c1 + c2) with (default 0 (h !! n2) + c2 + c1) by lia.
  - rewrite !lookup_insert_ne by done. by rewrite insert_insert_ne.
Qed.

Lemma add_comm (h : Hist.hists) (t1 t2 : Z * Z * Z) : add (add h t1) t2 = add (add h t2) t1.
Proof.
  unfold add. cbv zeta. cbn [Hist.raw_histogram Hist.re_histogram Hist.ue_histogram].
  f_equal.
  - apply add_raw_comm.
  - destruct (0 <? snd (fst t1)), (0 <? snd (fst t2)); try done. apply add_count_comm.
  - destruct (0 <? snd t1), (0 <? snd t2); try done. apply add_count_comm.
Qed.

Lemma foldl_add_perm (ts ts' : list (Z * Z * Z)) (h : Hist.hists) :
  ts ≡ₚ ts' -> foldl add h ts = foldl add h ts'.
Proof.
  intros Hp. revert h. induction Hp as [|x l l' Hp IH|x y l|l l' l'' Hp1 IH1 Hp2 IH2]; intros h.
  - done.
  - cbn [foldl]. apply IH.
  - cbn [foldl]. by rewrite add_comm.
  - by rewrite IH1.
Qed.

(** The histograms do not depend on the order of the entries, nor on how
    they are grouped into runs. *)
Lemma fold_runs_perm (bcl bl : Z) (h h' : Hist.hists) (data data' : list (list (list string))) :
  concat data ≡ₚ concat data' ->
  fold_runs bcl bl h data = Ok h' -> fold_runs bcl bl h data' = Ok h'.
Proof.
  intros Hp. rewrite !fold_runs_concat. intros E.
  apply fold_entries_ok in E as (ts & Hts & Hall & ->).
  destruct (mapM_perm _ _ _ _ Hp Hts) as (ts' & Hts' & Hperm).
  apply fold_entries_ok. exists ts'. split; [done|]. split.
  - by rewrite <- Hperm.
  - by apply foldl_add_perm.
Qed.

End HistOrderFacts.

Module HistBoundFacts.
Import HistSpec HistOrderFacts ResFacts.

Lemma lookup_add_raw (h : gmap Z (Z * Z)) (n k re ue : Z) :
  Hist.add_raw h k re ue !! n
  = if decide (k = n)
    then Some (fst (default (0, 0) (h !! n)) + re, snd (default (0, 0) (h !! n)) + ue)
    else h !! n.
Proof.
  unfold Hist.add_raw. cbv zeta. destruct (decide (k = n)) as [->|Hne].
  - by rewrite lookup_insert_eq.
  - by rewrite lookup_insert_ne.
Qed.

Lemma lookup_add_count (h : gmap Z Z) (n k c : Z) :
  Hist.add_count h k c !! n
  = if decide (k = n) then Some (default 0 (h !! n) + c) else h !! n.
Proof.
  unfold Hist.add_count. destruct (decide (k = n)) as [->|Hne].
  - by rewrite lookup_insert_eq.
  - by rewrite lookup_insert_ne.
Qed.

(** The raw histogram after the triples [ts], started from [h]. *)
Lemma foldl_add_raw (ts : list (Z * Z * Z)) (h : Hist.hists) (n : Z) :
  Hist.raw_histogram (foldl add h ts) !! n
  = match at_errors n ts with
    | [] => Hist.raw_histogram h !! n
    | sel => Some (fst (default (0, 0) (Hist.raw_histogram h !! n))
                   + sumZ (map (fun t => snd (fst t)) sel),
                   snd (default (0, 0) (Hist.raw_histogram h !! n)) + sumZ (map snd sel))
    end.
Proof.
  revert h. induction ts as [|t ts IH]; intros h; [done|].
  cbn [foldl]. rewrite IH. unfold at_errors. rewrite filter_cons.
  unfold add at 1 2 3. cbv zeta. cbn [Hist.raw_histogram].
  rewrite lookup_add_raw.
  destruct (decide (fst (fst t) = n)) as [E|E].
  - cbn [default fst snd map sumZ foldr].
    destruct (filter _ ts) as [|t' sel]; cbn [map sumZ foldr].
    + by rewrite !Z.add_0_r.
    + by rewrite !Z.add_assoc.
  - done.
Qed.

(** A histogram of events after the triples [ts], started from [h]. *)
Lemma foldl_add_events (count : Z * Z * Z -> Z) (proj : Hist.hists -> gmap Z Z)
    (ts : list (Z * Z * Z)) (h : Hist.hists) (n : Z) :
  (forall h t, proj (add h t)
               = if 0 <? count t then Hist.add_count (proj h) (fst (fst t)) (count t)
                 else proj h) ->
  proj (foldl add h ts) !! n
  = match filter (fun t => 0 < count t) (at_errors n ts) with
    | [] => proj h !! n
    | sel => Some (default 0 (proj h !! n) + sumZ (map count sel))
    end.
Proof.
  intros Hproj. revert h. induction ts as [|t ts IH]; intros h; [done|].
  cbn [foldl]. rewrite IH, Hproj. unfold at_errors. rewrite filter_cons.
  destruct (decide (fst (fst t) = n)) as [E|E].
  - rewrite filter_cons. destruct (decide (0 < count t)) as [Hc|Hc].
    + apply Z.ltb_lt in Hc. rewrite Hc. rewrite lookup_add_count.
      rewrite decide_True by done. cbn [default map sumZ foldr].
      destruct (filter _ (filter _ ts)) as [|t' sel]; cbn [map sumZ foldr].
      * by rewrite Z.add_0_r.
      * by rewrite !Z.add_assoc.
    + apply Z.ltb_nlt in Hc. by rewrite Hc.
  - destruct (0 <? count t); [|done]. rewrite lookup_add_count.
    by rewrite decide_False by done.
Qed.

Lemma sumZ_positive (l : list Z) : l <> [] -> Forall (fun c => 0 < c) l -> 0 < sumZ l.
Proof.
  intros Hne Hall. destruct l as [|c l]; [done|].
  apply Forall_cons in Hall as [Hc Hall]. cbn [sumZ foldr].
  assert (0 <= foldr Z.add 0 l); [|lia].
  clear -Hall. induction Hall as [|x l Hx Hall IH]; cbn [foldr]; lia.
Qed.

Lemma weighted_sum_insert (h : gmap Z Z) (n c : Z) :
  h !! n = None -> Hist.weighted_sum (<[n := c]> h) = n * c + Hist.weighted_sum h.
Proof.
  intros Hn. unfold Hist.weighted_sum. rewrite map_fold_insert_L; [done| |done].
  intros. lia.
Qed.

Lemma total_insert (h : gmap Z Z) (n c : Z) :
  h !! n = None -> Hist.total (<[n := c]> h) = c + Hist.total h.
Proof.
  intros Hn. unfold Hist.total. rewrite map_fold_insert_L; [done| |done].
  intros. lia.
Qed.

(** In a histogram of positive counters over keys up to [b], the weighted
    sum is at most [b] times the total, and the total is positive unless
    the histogram is empty. *)
Lemma weighted_sum_bound (b : Z) (h : gmap Z Z) :
  (forall n c, h !! n = Some c -> 0 < c /\ n <= b) ->
  Hist.weighted_sum h <= b * Hist.total h /\ 0 <= Hist.total h
  /\ (h <> ∅ -> 0 < Hist.total h).
Proof.
  induction h as [|n c h Hn IH] using map_ind; intros Hall.
  - rewrite HistFacts.weighted_sum_empty, HistFacts.total_empty. split; [lia|]. split; [lia|done].
  - rewrite weighted_sum_insert, total_insert by done.
    destruct IH as (Hw & Ht & _).
    { intros k x Hk. apply Hall. rewrite lookup_insert_ne; [done|]. intros ->. congruence. }
    destruct (Hall n c) as [Hc Hb]; [by rewrite lookup_insert_eq|].
    split; [nia|]. split; [lia|]. intros _. lia.
Qed.

Lemma float_of_int_ok (z : Z) (q : Q) : Hist.float_of_int z = Ok q -> q = inject_Z z.
Proof. unfold Hist.float_of_int. destruct (_ <? _); [by intros [= <-]|discriminate]. Qed.

Lemma truediv_ok (num : Z) (den q : Q) :
  Hist.truediv num den = Ok q -> ~ (den == 0)%Q /\ q = (inject_Z num / den)%Q.
Proof.
  unfold Hist.truediv. intros E. apply bind_ok in E as (x & Hx & E).
  apply float_of_int_ok in Hx as ->.
  destruct (Qeq_bool den 0) eqn:Hd; [discriminate|]. injection E as <-.
  split; [|done]. intros Hz. apply Qeq_bool_iff in Hz. congruence.
Qed.

Lemma quotient_bound (num den b : Z) : 0 < den -> num <= b * den ->
  (inject_Z num / inject_Z den <= inject_Z b)%Q.
Proof.
  intros Hd Hn. apply Qle_shift_div_r.
  - change 0%Q with (inject_Z 0). by rewrite <- Zlt_Qlt.
  - rewrite <- inject_Z_mult. by rewrite <- Zle_Qle.
Qed.

End HistBoundFacts.

Section LegacySummary.
Import Legacy HistSpec HistOrderFacts HistBoundFacts ResFacts LegacySamples.
Context `{PyFloat}.

Lemma summarize_ok (md : metadata_no_p) (p : list Z) (data : list (list (list string)))
    (s : summary) :
  summarize md p data = Ok s ->
  exists ts r u,
    mapM Hist.unpack_triple (concat data) = Ok ts
    /\ Forall (within (md_bcl' md) (md_bl' md)) ts
    /\ Hist.rber_calculated (Ok (md_bcl' md)) (Ok (md_ps' md))
         (Hist.re_histogram (foldl add Hist.empty ts)) = Ok r
    /\ Hist.uber_calculated (Ok (md_bl' md)) (Hist.ue_histogram (foldl add Hist.empty ts)) = Ok u
    /\ s = mk_summary md p (Hist.raw_histogram (foldl add Hist.empty ts)) r u
             (Hist.re_histogram (foldl add Hist.empty ts))
             (Hist.ue_histogram (foldl add Hist.empty ts)).
Proof.
  intros E. unfold summarize in E. cbv zeta in E.
  apply bind_ok in E as (h & Hfold & E).
  change (fold_runs (md_bcl' md) (md_bl' md) Hist.empty data = Ok h) in Hfold.
  rewrite fold_runs_concat in Hfold. apply fold_entries_ok in Hfold as (ts & Hts & Hall & ->).
  apply bind_ok in E as (r & Hr & E). apply bind_ok in E as (u & Hu & [= <-]).
  by exists ts, r, u.
Qed.

(** The histograms of events after the triples [ts]. *)
Lemma folded_events (ts : list (Z * Z * Z)) (n : Z) :
  Hist.re_histogram (foldl add Hist.empty ts) !! n = events_of (fun t => snd (fst t)) n ts
  /\ Hist.ue_histogram (foldl add Hist.empty ts) !! n = events_of snd n ts.
Proof.
  split.
  - rewrite (foldl_add_events (fun t => snd (fst t)) Hist.re_histogram) by done.
    unfold events_of. cbn [Hist.re_histogram Hist.empty]. rewrite lookup_empty.
    cbn [default]. by destruct (filter _ (at_errors n ts)).
  - rewrite (foldl_add_events snd Hist.ue_histogram) by done.
    unfold events_of. cbn [Hist.ue_histogram Hist.empty]. rewrite lookup_empty.
    cbn [default]. by destruct (filter _ (at_errors n ts)).
Qed.

(** X12: the histograms of a summary, entry by entry.  Every entry of the runs
    converts to a triple [(n_errs, re_count, ue_count)] that passes the two
    assertions; [raw_data] holds under [n] the sums of both counters over
    the triples of [n]; [re_data] and [ue_data] hold the sum of the positive
    counters only; a number of errors without such a triple is no key. *)
Theorem summarize_histograms (md : metadata_no_p) (p : list Z)
    (data : list (list (list string))) (s : summary) :
  summarize md p data = Ok s ->
  exists ts,
    mapM Hist.unpack_triple (concat data) = Ok ts
    /\ Forall (within (md_bcl' md) (md_bl' md)) ts
    /\ s_metadata s = md /\ s_p s = p
    /\ forall n,
         raw_data s !! n = raw_of n ts
         /\ re_data s !! n = events_of (fun t => snd (fst t)) n ts
         /\ ue_data s !! n = events_of snd n ts.
Proof.
  intros E. apply summarize_ok in E as (ts & r & u & Hts & Hall & _ & _ & ->).
  exists ts. split; [done|]. split; [done|]. split; [done|]. split; [done|].
  intros n. cbn [raw_data re_data ue_data]. split; [|apply folded_events].
  rewrite foldl_add_raw. unfold raw_of. cbn [Hist.raw_histogram Hist.empty].
  rewrite lookup_empty. cbn [default fst snd]. by destruct (at_errors n ts).
Qed.

Lemma events_of_bound (count : Z * Z * Z -> Z) (b n c : Z) (ts : list (Z * Z * Z)) :
  Forall (fun t => 0 < count t -> fst (fst t) <= b) ts ->
  events_of count n ts = Some c -> 0 < c /\ n <= b.
Proof.
  intros Hall. unfold events_of.
  destruct (filter _ (at_errors n ts)) as [|t sel] eqn:Hsel; [discriminate|].
  intros [= <-]. split.
  - apply (sumZ_positive (map count (t :: sel))); [done|]. apply Forall_fmap. rewrite <- Hsel.
    apply Forall_forall. intros x Hx. by apply list_elem_of_filter in Hx as [Hx _].
  - assert (Ht : t ∈ filter (fun t => 0 < count t) (at_errors n ts))
      by (rewrite Hsel; apply list_elem_of_here).
    apply list_elem_of_filter in Ht as [Hc Ht]. unfold at_errors in Ht.
    apply list_elem_of_filter in Ht as [<- Ht].
    by apply (Forall_elem _ _ _ Hall).
Qed.

(** X13: what holds of every summary.  The counters of [re_data] and
    [ue_data] are positive, their keys are at most [bcl] and [bl]; some
    uncorrectable event was counted; the numerator of [uber] is at most [bl]
    times the number of events it is divided by, so that [uber], the
    quotient taken exactly, is at most [1] for a positive [bl]. *)
Theorem summarize_bounds (md : metadata_no_p) (p : list Z)
    (data : list (list (list string))) (s : summary) :
  summarize md p data = Ok s ->
  (forall n c, re_data s !! n = Some c -> 0 < c /\ n <= md_bcl' md)
  /\ (forall n c, ue_data s !! n = Some c -> 0 < c /\ n <= md_bl' md)
  /\ ue_data s <> ∅ /\ md_bl' md <> 0
  /\ Hist.weighted_sum (ue_data s) <= md_bl' md * Hist.total (ue_data s)
  /\ Hist.weighted_sum (re_data s) <= md_bcl' md * Hist.total (re_data s)
  /\ (0 < md_bl' md -> (uber s <= 1)%Q).
Proof.
  intros E. apply summarize_ok in E as (ts' & r & u & _ & Hall & _ & Hu & ->).
  cbn [re_data ue_data uber] in *.
  assert (Hre : forall n c, Hist.re_histogram (foldl add Hist.empty ts') !! n = Some c ->
                            0 < c /\ n <= md_bcl' md).
  { intros n c. rewrite (proj1 (folded_events ts' n)). apply events_of_bound.
    apply (Forall_impl _ _ _ Hall). by intros t [Ht _]. }
  assert (Hue : forall n c, Hist.ue_histogram (foldl add Hist.empty ts') !! n = Some c ->
                            0 < c /\ n <= md_bl' md).
  { intros n c. rewrite (proj2 (folded_events ts' n)). apply events_of_bound.
    apply (Forall_impl _ _ _ Hall). by intros t [_ Ht]. }
  destruct (weighted_sum_bound _ _ Hre) as (Hwre & _ & _).
  destruct (weighted_sum_bound _ _ Hue) as (Hwue & Htue & Hpos).
  unfold Hist.uber_calculated in Hu. cbn [bind] in Hu.
  apply bind_ok in Hu as (den & Hden & Hu). apply float_of_int_ok in Hden as ->.
  apply truediv_ok in Hu as [Hnz ->].
  assert (Hprod : md_bl' md * Hist.total (Hist.ue_histogram (foldl add Hist.empty ts')) <> 0).
  { intros Hz. apply Hnz. by rewrite Hz. }
  split; [done|]. split; [done|]. split.
  { intros Hempty. apply Hprod. rewrite Hempty, HistFacts.total_empty. lia. }
  split; [lia|]. split; [done|]. split; [done|].
  intros Hbl. change 1%Q with (inject_Z 1). apply quotient_bound; [nia|lia].
Qed.
End LegacySummary.

Lemma summarize_histograms_witness :
  exists ts,
    mapM Hist.unpack_triple [SummarySamples.entry0; SummarySamples.entry1] = Ok ts
    /\ Forall (HistSpec.within 768 256) ts
    /\ Legacy.s_metadata (SummarySamples.example_summary [7]) = LegacySamples.corrected_metadata
    /\ Legacy.s_p (SummarySamples.example_summary [7]) = [7]
    /\ forall n,
         Legacy.raw_data (SummarySamples.example_summary [7]) !! n = HistSpec.raw_of n ts
         /\ Legacy.re_data (SummarySamples.example_summary [7]) !! n
            = HistSpec.events_of (fun t => snd (fst t)) n ts
         /\ Legacy.ue_data (SummarySamples.example_summary [7]) !! n
            = HistSpec.events_of snd n ts.
Proof.
  apply (@summarize_histograms LegacySamples.float_as_text LegacySamples.corrected_metadata
           [7] [[SummarySamples.entry0; SummarySamples.entry1]]).
  vm_compute. reflexivity.
Defined.

Lemma summarize_bounds_witness :
  Legacy.ue_data (SummarySamples.example_summary [7]) <> ∅
  /\ (Legacy.uber (SummarySamples.example_summary [7%Z]) <= 1)%Q.
Proof.
  destruct (@summarize_bounds LegacySamples.float_as_text LegacySamples.corrected_metadata
              [7] [[SummarySamples.entry0; SummarySamples.entry1]]
              (SummarySamples.example_summary [7]))
    as (_ & _ & Hne & _ & _ & _ & Hu).
  - vm_compute. reflexivity.
  - split; [exact Hne|]. apply Hu. reflexivity.
Defined.

Section LegacyOrder.
Import Legacy HistSpec HistOrderFacts ResFacts LegacySamples.

(** X14: the summary [parse_all_files] builds for an identity depends on the
    multiset of histogram entries of its runs only: listing the entries in
    another order, or grouped into runs in another way, gives the same
    histograms and the same rates. *)
Theorem summarize_order_independent `{PyFloat} (md : metadata_no_p) (p p' : list Z)
    (data data' : list (list (list string))) (s : summary) :
  concat data ≡ₚ concat data' ->
  summarize md p data = Ok s ->
  summarize md p' data'
  = Ok (mk_summary md p' (raw_data s) (rber s) (uber s) (re_data s) (ue_data s)).
Proof.
  intros Hp E. unfold summarize in *. cbv zeta in *.
  apply bind_ok in E as (h & Hfold & E).
  apply (fold_runs_perm _ _ _ _ _ _ Hp) in Hfold. unfold fold_runs in Hfold.
  rewrite Hfold. cbn [bind].
  apply bind_ok in E as (r & -> & E). apply bind_ok in E as (u & -> & [= <-]).
  done.
Qed.
End LegacyOrder.

Lemma summarize_order_independent_witness :
  @Legacy.summarize LegacySamples.float_as_text LegacySamples.corrected_metadata [8; 7]
    [[SummarySamples.entry1]; [SummarySamples.entry0]]
  = Ok (SummarySamples.example_summary [8; 7]).
Proof.
  apply (@summarize_order_independent LegacySamples.float_as_text
           LegacySamples.corrected_metadata [7] [8; 7]
           [[SummarySamples.entry0; SummarySamples.entry1]]
           [[SummarySamples.entry1]; [SummarySamples.entry0]]
           (SummarySamples.example_summary [7])).
  - apply perm_swap.
  - vm_compute. reflexivity.
Defined.

(** ** [script/utils.py]: reading files *)

Module LegacyFileFacts.
Import Legacy LegacySpec LegacyFileSpec ReducerSpec ResFacts ParserFacts.

Section WithFloat.
Context `{PyFloat}.

Lemma item_exception (l : list string) (i : nat) (e : exn) :
  item l i = Raise e -> e = IndexError.
Proof. unfold item. destruct (l !! i); [discriminate|by intros [= <-]]. Qed.

Lemma int_at_exception (l : list string) (i skip : nat) (e : exn) :
  int_at l i skip = Raise e -> line_exception e.
Proof.
  unfold int_at. destruct (item l i) eqn:E; cbn [bind].
  - intros He. by apply int_exception in He as ->.
  - intros [= <-]. by apply item_exception in E as ->.
Qed.

Lemma py_float_exception (s : string) (e : exn) : py_float s = Raise e -> e = ValueError.
Proof. unfold py_float. destruct (float_of_string s); [discriminate|by intros [= <-]]. Qed.

Lemma positional_exception (ecc : string) (meta_split : list string)
    (read_m : res (Z * nat)) (e : exn) :
  (forall e', read_m = Raise e' -> line_exception e') ->
  positional ecc meta_split read_m = Raise e -> line_exception e.
Proof.
  intros Hm. unfold positional.
  repeat (match goal with
          | |- context [bind (int_at ?l ?i ?k) _] =>
              let E := fresh "E" in
              destruct (int_at l i k) eqn:E; cbn [bind];
              [|intros [= <-]; by apply int_at_exception in E]
          | |- context [bind read_m _] =>
              let E := fresh "E" in
              destruct read_m eqn:E; cbn [bind]; [|intros [= <-]; by apply Hm]
          | |- context [bind (item ?l ?i) _] =>
              let E := fresh "E" in
              destruct (item l i) eqn:E; cbn [bind];
              [|intros [= <-]; by apply item_exception in E as ->]
          | |- context [bind (py_float ?s) _] =>
              let E := fresh "E" in
              destruct (py_float s) eqn:E; cbn [bind];
              [|intros [= <-]; by apply py_float_exception in E as ->]
          end).
  discriminate.
Qed.

Lemma legacy_parse_exception (line : string) (e : exn) :
  parse_einsim_output_line line = Raise e -> line_exception e.
Proof.
  unfold parse_einsim_output_line.
  destruct (_ && _ && _); [|discriminate].
  destruct (PyStr.split "[" _) as [|meta [|raw [|]]]; try by intros [= <-].
  destruct (item (PyStr.split " " meta) 0) as [ecc_tok|e'] eqn:E0; cbn [bind];
    [|intros [= <-]; by apply item_exception in E0 as ->].
  assert (Hsome : forall (m : res metadata) e', some m = Raise e' -> m = Raise e').
  { intros m e'. unfold some. destruct m; cbn [bind]; [discriminate|by intros [= <-]]. }
  assert (Hfin : forall (md : res (option metadata)),
             (forall e', md = Raise e' -> line_exception e') ->
             (m <- md ;; match m with
                         | Some metadata => Ok (Some (metadata, Hist.lazy_entries raw))
                         | None => Ok None
                         end) = Raise e -> line_exception e).
  { intros md Hmd. destruct md as [[m|]|e'] eqn:Emd; cbn [bind]; try discriminate.
    intros [= <-]. by apply Hmd. }
  apply Hfin. intros e'.
  destruct (String.eqb _ "REP").
  { intros He%Hsome. revert He. apply positional_exception. discriminate. }
  destruct (String.eqb _ "HSC").
  { intros He%Hsome. revert He. apply positional_exception. discriminate. }
  destruct (String.eqb _ "BCH").
  { intros He%Hsome. revert He. apply positional_exception.
    intros e''. destruct (int_at (PyStr.split " " meta) 5 2) eqn:E; cbn [bind]; [discriminate|].
    intros [= <-]. by apply int_at_exception in E. }
  destruct (String.eqb _ "UNK").
  { intros He%Hsome. revert He. apply positional_exception.
    intros e''. destruct (item (PyStr.split " " meta) 5) as [tok|] eqn:E; cbn [bind].
    - destruct tok as [|c tok]; [by intros [= <-]|].
      destruct (Ascii.eqb c "m"); [|discriminate].
      destruct (int_at (PyStr.split " " meta) 5 2) eqn:E5; cbn [bind]; [discriminate|].
      intros [= <-]. by apply int_at_exception in E5.
    - intros [= <-]. by apply item_exception in E as ->. }
  cbn [bind read_line_num]. by intros [= <-].
Qed.

(** [parse_einsim_output_file] returns the lines that parse. *)
Lemma parse_einsim_output_file_lines (lines : list string) :
  parse_einsim_output_file lines = Ok (omap line_data (read_part lines)).
Proof.
  induction lines as [|line rest IH]; [done|].
  cbn [parse_einsim_output_file read_part].
  destruct (String.eqb line ""); [done|].
  change (omap line_data (line :: read_part rest))
    with (match line_data line with
          | Some d => d :: omap line_data (read_part rest)
          | None => omap line_data (read_part rest)
          end).
  unfold line_data at 1.
  destruct (parse_einsim_output_line line) as [[parsed|]|e] eqn:Hp.
  - rewrite IH. done.
  - exact IH.
  - apply legacy_parse_exception in Hp. destruct e; try done; exact IH.
Qed.

Lemma mapM_Forall2 {A B : Type} (f : A -> res B) (l : list A) (ys : list B) :
  mapM f l = Ok ys -> Forall2 (fun x y => f x = Ok y) l ys.
Proof.
  revert ys. induction l as [|x l IH]; intros ys E.
  - injection E as <-. constructor.
  - cbn [mapM] in E. apply bind_ok in E as (y & Hy & E).
    apply bind_ok in E as (ys' & Hys & [= <-]). constructor; [done|by apply IH].
Qed.

(** The first loop of [parse_all_files] is one loop over the parsed lines
    of all the files. *)
Lemma gather_files (experimental : bool) (files : list (string * list string))
    (st : list (string * components) * Z) :
  foldM (fun st (file : string * list string) =>
           dirty_data <- parse_einsim_output_file (snd file) ;;
           Ok (foldl (gather_line experimental) st dirty_data))
        st files
  = Ok (foldl (gather_line experimental) st (parsed_lines files)).
Proof.
  revert st. induction files as [|file files IH]; intros st; [done|].
  cbn [foldM]. rewrite parse_einsim_output_file_lines. cbn [bind]. rewrite IH.
  unfold parsed_lines. cbn [map concat]. by rewrite foldl_app.
Qed.

Lemma parse_all_files_ok (files : list (string * list string)) (experimental : bool)
    (out : list (string * summary)) :
  parse_all_files files experimental = Ok out ->
  Forall2 (fun (kc : string * components) (o : string * summary) =>
             fst o = fst kc
             /\ summarize (c_metadata (snd kc)) (c_p (snd kc)) (c_data (snd kc)) = Ok (snd o))
          (fst (foldl (gather_line experimental) ([], 0) (parsed_lines files))) out.
Proof.
  unfold parse_all_files. rewrite gather_files. cbn [bind]. intros E.
  apply mapM_Forall2 in E. apply (Forall2_impl _ _ _ _ E).
  intros kc o Ho. apply bind_ok in Ho as (s & Hs & [= <-]). done.
Qed.

Lemma record_run_entry_new (run_uid : string) (md : metadata_no_p)
    (data : list (list string)) (p : Z) (raw : list (string * components)) :
  run_uid ∉ map fst raw ->
  record_run run_uid md data p raw = (raw ++ [(run_uid, mk_components md [data] [p])])%list.
Proof.
  induction raw as [|[key c] raw IH]; intros Hnew; [done|].
  cbn [record_run map fst] in *. apply not_elem_of_cons in Hnew as [Hne Hnew].
  destruct (String.eqb_spec key run_uid) as [->|_]; [done|].
  by rewrite IH.
Qed.

(** In an experiment every line adds an entry of its own. *)
Lemma gather_experiment_entries (parsed : list (metadata * list (list string)))
    (raw : list (string * components)) (experiment_id : Z) :
  Forall (numbered_below experiment_id) (map fst raw) ->
  fst (foldl (gather_line true) (raw, experiment_id) parsed)
  = (raw ++ zip_with (fun run_uid p =>
                        (run_uid, mk_components (omit_p (fst p)) [snd p] [md_p (fst p)]))
                     (experiment_uids experiment_id parsed) parsed)%list.
Proof.
  revert raw experiment_id. induction parsed as [|p parsed IH]; intros raw n Hraw.
  - cbn [foldl experiment_uids zip_with fst]. by rewrite List.app_nil_r.
  - cbn [foldl experiment_uids zip_with].
    set (run_uid := run_uid_from_metadata (fst p) ++ "_experiment_" ++ PyStr.str_int n).
    change (gather_line true (raw, n) p)
      with (record_run run_uid (omit_p (fst p)) (snd p) (md_p (fst p)) raw, n + 1).
    assert (Hnew : run_uid ∉ map fst raw).
    { intros Hin. apply (Forall_elem _ _ _ Hraw) in Hin as (base & j & E & Hj).
      apply ExperimentFacts.experiment_suffix_inj in E. lia. }
    rewrite record_run_entry_new by done. rewrite IH.
    + by rewrite <- List.app_assoc.
    + rewrite List.map_app. apply Forall_app. split.
      * apply (Forall_impl _ _ _ Hraw). intros key (base & j & E & Hj).
        exists base, j. split; [done|lia].
      * apply Forall_cons. split; [|done]. exists (run_uid_from_metadata (fst p)), n.
        split; [done|lia].
Qed.

Lemma record_run_keys_old (run_uid : string) (md : metadata_no_p)
    (data : list (list string)) (p : Z) (raw : list (string * components)) :
  run_uid ∈ map fst raw -> map fst (record_run run_uid md data p raw) = map fst raw.
Proof.
  induction raw as [|[k c] raw IH]; intros Hin; [by apply elem_of_nil in Hin|].
  cbn [record_run map fst] in *.
  destruct (String.eqb_spec k run_uid) as [->|Hne]; [done|].
  cbn [map fst]. rewrite IH; [done|].
  apply elem_of_cons in Hin as [Hin|Hin]; [congruence|done].
Qed.

Lemma record_run_NoDup (run_uid : string) (md : metadata_no_p)
    (data : list (list string)) (p : Z) (raw : list (string * components)) :
  NoDup (map fst raw) -> NoDup (map fst (record_run run_uid md data p raw)).
Proof.
  intros Hnd. destruct (decide (run_uid ∈ map fst raw)) as [Hin|Hnew].
  - by rewrite record_run_keys_old.
  - rewrite ExperimentFacts.record_run_new by done. apply NoDup_app. split; [done|]. split.
    + intros x Hx ->%list_elem_of_singleton. done.
    + apply NoDup_singleton.
Qed.

(** What [record_run] does to the entry of each identity. *)
Lemma record_run_lookup (run_uid : string) (md : metadata_no_p)
    (data : list (list string)) (p : Z) (raw : list (string * components))
    (k : string) (c : components) :
  NoDup (map fst raw) ->
  (k, c) ∈ record_run run_uid md data p raw <->
  (k <> run_uid /\ (k, c) ∈ raw)
  \/ (k = run_uid
      /\ (((run_uid ∉ map fst raw) /\ c = mk_components md [data] [p])
          \/ exists old, (run_uid, old) ∈ raw
                         /\ c = mk_components (c_metadata old) (c_data old ++ [data])
                                  (c_p old ++ [p])%list)).
Proof.
  induction raw as [|[k0 c0] raw IH]; intros Hnd.
  - cbn [record_run map]. rewrite list_elem_of_singleton. split.
    + intros [= -> ->]. right. split; [done|]. left. split; [apply not_elem_of_nil|done].
    + intros [[_ Hin]|[-> [[_ ->]|(old & Hin & _)]]]; try done; by apply elem_of_nil in Hin.
  - cbn [map fst] in Hnd. apply NoDup_cons in Hnd as [Hk0 Hnd].
    cbn [record_run]. destruct (String.eqb_spec k0 run_uid) as [->|Hne].
    + rewrite elem_of_cons. split.
      * intros [[= -> ->]|Hin].
        -- right. split; [done|]. right. exists c0. split; [apply list_elem_of_here|done].
        -- left. split; [|by apply list_elem_of_further].
           intros ->. apply Hk0. apply list_elem_of_fmap. by exists (run_uid, c).
      * intros [[Hk Hin]|[-> [[Hnew _]|(old & Hin & ->)]]].
        -- apply elem_of_cons in Hin as [[= -> ->]|Hin]; [done|by right].
        -- exfalso. apply Hnew. cbn [map fst]. apply list_elem_of_here.
        -- apply elem_of_cons in Hin as [[= ->]|Hin]; [by left|].
           exfalso. apply Hk0. apply list_elem_of_fmap. by exists (run_uid, old).
    + rewrite elem_of_cons, (IH Hnd). cbn [map fst]. split.
      * intros [[= -> ->]|[[Hk Hin]|[-> [[Hnew ->]|(old & Hin & ->)]]]].
        -- left. split; [done|apply list_elem_of_here].
        -- left. split; [done|by apply list_elem_of_further].
        -- right. split; [done|]. left. split; [|done].
           apply not_elem_of_cons. by split.
        -- right. split; [done|]. right. exists old. split; [by apply list_elem_of_further|done].
      * intros [[Hk Hin]|[-> [[Hnew ->]|(old & Hin & ->)]]].
        -- apply elem_of_cons in Hin as [[= -> ->]|Hin]; [by left|]. right. left. by split.
        -- apply not_elem_of_cons in Hnew as [_ Hnew]. right. right. split; [done|].
           left. by split.
        -- apply elem_of_cons in Hin as [[= -> ->]|Hin]; [done|].
           right. right. split; [done|]. right. by exists old.
Qed.

Lemma group_components_snoc (group : list (metadata * list (list string)))
    (p : metadata * list (list string)) (old : components) :
  group_components group = Some old ->
  group_components (group ++ [p])
  = Some (mk_components (c_metadata old) (c_data old ++ [snd p])
            (c_p old ++ [md_p (fst p)])%list).
Proof.
  destruct group as [|first group]; [discriminate|]. intros [= <-].
  cbn [app group_components c_metadata c_data c_p map]. by rewrite !List.map_app.
Qed.

(** Outside an experiment the entries are the groups of the lines read. *)
Lemma gather_groups (parsed seen : list (metadata * list (list string)))
    (raw : list (string * components)) (n : Z) :
  NoDup (map fst raw) ->
  (forall k c, (k, c) ∈ raw <-> group_components (uid_group k seen) = Some c) ->
  let raw' := fst (foldl (gather_line false) (raw, n) parsed) in
  NoDup (map fst raw')
  /\ forall k c, (k, c) ∈ raw' <-> group_components (uid_group k (seen ++ parsed)%list) = Some c.
Proof.
  revert seen raw. induction parsed as [|p parsed IH]; intros seen raw Hnd Hraw; cbn [foldl].
  - rewrite List.app_nil_r. by split.
  - replace (seen ++ p :: parsed)%list with ((seen ++ [p]) ++ parsed)%list
      by (by rewrite <- List.app_assoc).
    change (gather_line false (raw, n) p)
      with (record_run (run_uid_from_metadata (fst p)) (omit_p (fst p)) (snd p)
              (md_p (fst p)) raw, n).
    apply IH; [by apply record_run_NoDup|].
    intros k c. rewrite (record_run_lookup _ _ _ _ _ _ _ Hnd).
    unfold uid_group. rewrite filter_app.
    destruct (decide (k = run_uid_from_metadata (fst p))) as [->|Hk].
    + rewrite filter_cons_True, filter_nil by done.
      fold (uid_group (run_uid_from_metadata (fst p)) seen).
      destruct (group_components (uid_group (run_uid_from_metadata (fst p)) seen))
        as [old|] eqn:Hold.
      * rewrite (group_components_snoc _ _ _ Hold). split.
        -- intros [[Hne _]|[_ [[Hnew _]|(old' & Hold' & ->)]]]; [done| |].
           ++ exfalso. apply Hnew. apply list_elem_of_fmap.
              exists (run_uid_from_metadata (fst p), old). split; [done|]. by apply Hraw.
           ++ apply Hraw in Hold'. rewrite Hold in Hold'. by injection Hold' as <-.
        -- intros [= <-]. right. split; [done|]. right. exists old. split; [|done].
           by apply Hraw.
      * assert (Hnil : uid_group (run_uid_from_metadata (fst p)) seen = []).
        { by destruct (uid_group (run_uid_from_metadata (fst p)) seen). }
        rewrite Hnil. cbn [app group_components map]. split.
        -- intros [[Hne _]|[_ [[Hnew ->]|(old' & Hold' & ->)]]]; [done|done|].
           apply Hraw in Hold'. congruence.
        -- intros [= <-]. right. split; [done|]. left. split; [|done].
           intros Hin. apply list_elem_of_fmap in Hin as ([k' c'] & Hk' & Hin).
           cbn [fst] in Hk'. subst k'. apply Hraw in Hin. congruence.
    + rewrite filter_cons_False, filter_nil, List.app_nil_r by (intros E; by apply Hk).
      rewrite Hraw. unfold uid_group. split.
      * intros [[_ H1]|[-> _]]; done.
      * intros H1. by left.
Qed.

Section Incremental.
Context {S : Type}.
Variable callback : string -> summary -> S -> res S.

Lemma deliver_app (is_experimental : bool)
    (a b : list (metadata * list (list string))) (st : S * Z) :
  deliver callback is_experimental (a ++ b)%list st
  = match deliver callback is_experimental a st with
    | (st', None) => deliver callback is_experimental b st'
    | (st', Some e) => (st', Some e)
    end.
Proof.
  revert st. induction a as [|p a IH]; intros st.
  - cbn [app deliver]. by destruct st.
  - cbn [app deliver]. destruct (line_summary p); [|done].
    destruct (callback _ _ _); [apply IH|done].
Qed.

Lemma read_lines_deliver (is_experimental : bool) (lines : list string) (st : S * Z) :
  read_lines callback is_experimental lines st
  = deliver callback is_experimental (omap line_data (read_part lines)) st.
Proof.
  revert st. induction lines as [|line rest IH]; intros st; [done|].
  cbn [read_lines read_part]. destruct (String.eqb line ""); [done|].
  change (omap line_data (line :: read_part rest))
    with (match line_data line with
          | Some d => d :: omap line_data (read_part rest)
          | None => omap line_data (read_part rest)
          end).
  unfold line_data at 1.
  destruct (parse_einsim_output_line line) as [[[md data]|]|e] eqn:Hp.
  - cbn [deliver]. unfold line_summary, line_uid. cbn [fst snd].
    destruct (summarize _ _ _); [|done].
    destruct is_experimental; (destruct (callback _ _ _); [apply IH|done]).
  - apply IH.
  - apply legacy_parse_exception in Hp. destruct e; try done; apply IH.
Qed.

Lemma parse_files_incremental_deliver (is_experimental : bool)
    (files : list (string * list string)) (st : S * Z) :
  parse_files_incremental_from callback is_experimental files st
  = deliver callback is_experimental (parsed_lines files) st.
Proof.
  revert st. induction files as [|file files IH]; intros st; [done|].
  cbn [parse_files_incremental_from]. unfold parsed_lines. cbn [map concat].
  rewrite deliver_app, read_lines_deliver.
  destruct (deliver callback is_experimental _ st) as [st' [e|]]; [done|apply IH].
Qed.

Lemma line_uids_false (n m : Z) (parsed : list (metadata * list (list string))) :
  line_uids false n parsed = line_uids false m parsed.
Proof.
  revert n m. induction parsed as [|p parsed IH]; intros n m; [done|].
  cbn [line_uids]. by rewrite (IH (n + 1) (m + 1)).
Qed.

Lemma deliver_prefix (update : string -> summary -> S -> S) (is_experimental : bool)
    (pre rest : list (metadata * list (list string))) (sums : list summary) (st : S * Z) :
  (forall run_uid s a, callback run_uid s a = Ok (update run_uid s a)) ->
  Forall2 (fun p s => line_summary p = Ok s) pre sums ->
  exists n,
    deliver callback is_experimental (pre ++ rest)%list st
    = deliver callback is_experimental rest
        (foldl (fun a us => update (fst us) (snd us) a) (fst st)
               (zip (line_uids is_experimental (snd st) pre) sums), n).
Proof.
  intros Hcb Hall. revert st. induction Hall as [|p s pre sums Hs Hall IH]; intros st.
  - exists (snd st). cbn [app line_uids zip zip_with foldl]. by destruct st.
  - cbn [app deliver]. rewrite Hs, Hcb.
    destruct (IH (update (line_uid is_experimental (snd st) p) s (fst st),
                  if is_experimental then snd st + 1 else snd st)) as [n ->].
    exists n. cbn [fst snd line_uids zip zip_with foldl].
    destruct is_experimental; [done|].
    by rewrite (line_uids_false (snd st) (snd st + 1)).
Qed.
End Incremental.

End WithFloat.
End LegacyFileFacts.

(** ** The identities of an experiment (C6) *)

Module CounterFacts.
Import PyStr Legacy LegacySpec LegacyFileSpec ExperimentFacts.

Section WithFloat.
Context `{PyFloat}.


End WithFloat.
End CounterFacts.

Section ExperimentalIdentities.
Import Legacy LegacySpec LegacyFileSpec LegacyFileFacts ExperimentFacts CounterFacts.
Context `{PyFloat} {S : Type}.

End ExperimentalIdentities.



Section LegacyFiles.
Import Legacy LegacySpec LegacyFileSpec LegacyFileFacts ResFacts.
Context `{PyFloat}.

(** X15: [parse_all_files] with [experimental=True] never merges lines.
    Whatever the files hold, when it returns, its dictionary has one entry
    per line that parses, in the order of the lines; the keys are the line's
    identity followed by [_experiment_0], [_experiment_1], ..., all
    different; each value is the summary of that line alone. *)
Theorem parse_all_files_experimental (files : list (string * list string))
    (out : list (string * summary)) :
  parse_all_files files true = Ok out ->
  map fst out = experiment_uids 0 (parsed_lines files)
  /\ NoDup (map fst out)
  /\ Forall2 (fun p o => line_summary p = Ok (snd o)) (parsed_lines files) out.
Proof.
  intros E. apply parse_all_files_ok in E.
  rewrite gather_experiment_entries in E by done. cbn [app] in E.
  assert (Hgen : forall n parsed out,
             Forall2 (fun (kc : string * components) (o : string * summary) =>
                        fst o = fst kc
                        /\ summarize (c_metadata (snd kc)) (c_p (snd kc)) (c_data (snd kc))
                           = Ok (snd o))
                     (zip_with (fun run_uid p =>
                                  (run_uid, mk_components (omit_p (fst p)) [snd p] [md_p (fst p)]))
                               (experiment_uids n parsed) parsed) out ->
             map fst out = experiment_uids n parsed
             /\ Forall2 (fun p o => line_summary p = Ok (snd o)) parsed out).
  { clear. intros n parsed. revert n. induction parsed as [|p parsed IH]; intros n out E.
    - cbn [experiment_uids zip_with] in E. apply Forall2_nil_inv_l in E as ->.
      split; [done|constructor].
    - cbn [experiment_uids zip_with] in E.
      apply Forall2_cons_inv_l in E as (o & out' & [Hk Hs] & E & ->).
      destruct (IH _ _ E) as [Hkeys Hall]. cbn [map experiment_uids].
      cbn [fst snd c_metadata c_p c_data] in *. rewrite Hk, Hkeys.
      split; [done|]. by constructor. }
  destruct (Hgen _ _ _ E) as [Hkeys Hall].
  split; [done|]. split; [|done].
  rewrite Hkeys. apply ExperimentFacts.experiment_uids_NoDup.
Qed.

(** X16: [parse_all_files] with [experimental=False] merges the lines of one
    identity.  When it returns, no identity occurs twice in its dictionary,
    and an identity is mapped to a summary exactly when some parsed line has
    that identity; the summary is then the one of all the parsed lines of
    the identity, in the order of the files and lines: the metadata of the
    first of them, the permutations of all, the histograms of all their
    entries. *)
Theorem parse_all_files_groups (files : list (string * list string))
    (out : list (string * summary)) :
  parse_all_files files false = Ok out ->
  NoDup (map fst out)
  /\ forall k s,
       (k, s) ∈ out
       <-> uid_group k (parsed_lines files) <> []
           /\ group_summary (uid_group k (parsed_lines files)) = Ok s.
Proof.
  intros E. apply parse_all_files_ok in E.
  destruct (gather_groups (parsed_lines files) [] [] 0) as [Hnd Hraw].
  { apply NoDup_nil_2. }
  { intros k c. cbn [uid_group filter group_components]. split; [|done].
    intros Hin. by apply elem_of_nil in Hin. }
  cbn [app] in Hraw.
  set (raw := fst (foldl (gather_line false) ([], 0) (parsed_lines files))) in *.
  assert (Hkeys : map fst out = map fst raw).
  { clear -E. induction E as [|kc o raw out [Hk _] _ IH]; [done|].
    cbn [map]. by rewrite Hk, IH. }
  split; [by rewrite Hkeys|].
  assert (Hcomp : forall group c, group_components group = Some c ->
             group <> []
             /\ group_summary group = summarize (c_metadata c) (c_p c) (c_data c)).
  { intros [|first group] c; [discriminate|]. by intros [= <-]. }
  intros k s. split.
  - intros Hin. apply list_elem_of_lookup in Hin as [i Hi].
    destruct (Forall2_lookup_r _ _ _ _ _ E Hi) as ([k' c] & Hc & Hk & Hs).
    cbn [fst snd] in Hk, Hs. subst k'.
    apply list_elem_of_lookup_2 in Hc. apply Hraw in Hc.
    destruct (Hcomp _ _ Hc) as [Hne ->]. done.
  - intros [Hne Hs].
    destruct (group_components (uid_group k (parsed_lines files))) as [c|] eqn:Hc.
    2:{ by destruct (uid_group k (parsed_lines files)). }
    destruct (Hcomp _ _ Hc) as [_ Hsum]. rewrite Hsum in Hs.
    apply Hraw in Hc. apply list_elem_of_lookup in Hc as [i Hi].
    destruct (Forall2_lookup_l _ _ _ _ _ E Hi) as ([k' s'] & Ho & Hk & Hs').
    cbn [fst snd] in Hk, Hs'. subst k'. rewrite Hs in Hs'. injection Hs' as <-.
    by apply list_elem_of_lookup_2 in Ho.
Qed.
End LegacyFiles.

Section LegacyIncremental.
Import Legacy LegacySpec LegacyFileSpec LegacyFileFacts ResFacts.
Context `{PyFloat} {S : Type}.

(** X17: [parse_files_incremental] of [script/utils.py] with a callback that
    never raises, on files whose parsed lines all have a summary: it reads
    all the files, and the callback has been called once per parsed line,
    in the order of the files and lines, with the identity of the line
    (numbered from [_experiment_0] in an experiment) and the summary of that
    line alone.  Lines that do not parse are passed over. *)
Theorem legacy_incremental_delivers (callback : string -> summary -> S -> res S)
    (update : string -> summary -> S -> S) (files : list (string * list string))
    (is_experimental : bool) (args : S) (sums : list summary) :
  (forall run_uid s a, callback run_uid s a = Ok (update run_uid s a)) ->
  Forall2 (fun p s => line_summary p = Ok s) (parsed_lines files) sums ->
  parse_files_incremental callback files is_experimental args
  = (foldl (fun a us => update (fst us) (snd us) a) args
           (zip (line_uids is_experimental 0 (parsed_lines files)) sums), None).
Proof.
  intros Hcb Hall. unfold parse_files_incremental. cbv zeta.
  rewrite parse_files_incremental_deliver.
  destruct (deliver_prefix callback update is_experimental (parsed_lines files) [] sums
              (args, 0) Hcb Hall) as [n E].
  rewrite List.app_nil_r in E. rewrite E. done.
Qed.

(** X18: a parsed line without a summary ends [parse_files_incremental] of
    [script/utils.py].  When the summary of a parsed line raises (a piece of
    its histogram that is no integer, an assertion on the number of errors,
    the division by zero of [uber]), that exception leaves the function:
    the callback has been called for the parsed lines before it only, and
    neither the rest of the file nor the later files are read. *)
Theorem legacy_incremental_stops (callback : string -> summary -> S -> res S)
    (update : string -> summary -> S -> S) (files : list (string * list string))
    (is_experimental : bool) (args : S)
    (pre post : list (metadata * list (list string))) (bad : metadata * list (list string))
    (sums : list summary) (e : exn) :
  (forall run_uid s a, callback run_uid s a = Ok (update run_uid s a)) ->
  parsed_lines files = (pre ++ bad :: post)%list ->
  Forall2 (fun p s => line_summary p = Ok s) pre sums ->
  line_summary bad = Raise e ->
  parse_files_incremental callback files is_experimental args
  = (foldl (fun a us => update (fst us) (snd us) a) args
           (zip (line_uids is_experimental 0 pre) sums), Some e).
Proof.
  intros Hcb Hfiles Hall Hbad. unfold parse_files_incremental. cbv zeta.
  rewrite parse_files_incremental_deliver, Hfiles.
  destruct (deliver_prefix callback update is_experimental pre (bad :: post) sums
              (args, 0) Hcb Hall) as [n E].
  rewrite E. cbn [deliver]. by rewrite Hbad.
Qed.
End LegacyIncremental.

Lemma parse_all_files_experimental_witness :
  let files := [("sim.txt", [LegacySamples.example_line; LegacySamples.example_line])] in
  let out := [(LegacySamples.example_uid "1e-06" ++ "_experiment_0",
               SummarySamples.example_summary [584576191]);
              (LegacySamples.example_uid "1e-06" ++ "_experiment_1",
               SummarySamples.example_summary [584576191])] in
  map fst out
  = @LegacySpec.experiment_uids LegacySamples.float_as_text 0
      (@LegacyFileSpec.parsed_lines LegacySamples.float_as_text files)
  /\ NoDup (map fst out)
  /\ Forall2 (fun p o => @LegacyFileSpec.line_summary LegacySamples.float_as_text p = Ok (snd o))
       (@LegacyFileSpec.parsed_lines LegacySamples.float_as_text files) out.
Proof.
  apply (@parse_all_files_experimental LegacySamples.float_as_text).
  vm_compute. reflexivity.
Defined.

Lemma parse_all_files_groups_witness :
  let files := [("a.txt", [LegacySamples.example_line]);
                ("b.txt", [LegacySamples.example_line])] in
  let out := [(LegacySamples.example_uid "1e-06", LegacyFileSamples.doubled_summary)] in
  NoDup (map fst out)
  /\ forall k s,
       (k, s) ∈ out
       <-> @LegacyFileSpec.uid_group LegacySamples.float_as_text k
             (@LegacyFileSpec.parsed_lines LegacySamples.float_as_text files) <> []
           /\ @LegacyFileSpec.group_summary LegacySamples.float_as_text
                (@LegacyFileSpec.uid_group LegacySamples.float_as_text k
                   (@LegacyFileSpec.parsed_lines LegacySamples.float_as_text files)) = Ok s.
Proof.
  apply (@parse_all_files_groups LegacySamples.float_as_text).
  vm_compute. reflexivity.
Defined.

Lemma legacy_incremental_delivers_witness :
  let files := [("sim.txt", [LegacySamples.example_line; LegacySamples.example_line])] in
  @Legacy.parse_files_incremental LegacySamples.float_as_text (list string)
    (fun run_uid s seen => Ok (LegacyFileSamples.record_uid run_uid s seen)) files true []
  = (foldl (fun a us => LegacyFileSamples.record_uid (fst us) (snd us) a) []
       (zip (@LegacyFileSpec.line_uids LegacySamples.float_as_text true 0
               (@LegacyFileSpec.parsed_lines LegacySamples.float_as_text files))
            [SummarySamples.example_summary [584576191];
             SummarySamples.example_summary [584576191]]), None).
Proof.
  apply (@legacy_incremental_delivers LegacySamples.float_as_text (list string)).
  - reflexivity.
  - replace (@LegacyFileSpec.parsed_lines LegacySamples.float_as_text
               [("sim.txt", [LegacySamples.example_line; LegacySamples.example_line])])
      with [LegacyFileSamples.example_parsed; LegacyFileSamples.example_parsed]
      by (vm_compute; reflexivity).
    constructor; [vm_compute; reflexivity|].
    constructor; [vm_compute; reflexivity|constructor].
Defined.

Lemma legacy_incremental_stops_witness :
  let files := [("a.txt", [LegacySamples.example_line; LegacySamples.corrected_line]);
                ("b.txt", [LegacySamples.example_line])] in
  @Legacy.parse_files_incremental LegacySamples.float_as_text (list string)
    (fun run_uid s seen => Ok (LegacyFileSamples.record_uid run_uid s seen)) files false []
  = (foldl (fun a us => LegacyFileSamples.record_uid (fst us) (snd us) a) []
       (zip (@LegacyFileSpec.line_uids LegacySamples.float_as_text false 0
               [LegacyFileSamples.example_parsed])
            [SummarySamples.example_summary [584576191]]), Some ZeroDivisionError).
Proof.
  apply (@legacy_incremental_stops LegacySamples.float_as_text (list string) _ _ _ _ _
           [LegacyFileSamples.example_parsed] [LegacyFileSamples.example_parsed]
           LegacyFileSamples.corrected_parsed).
  - reflexivity.
  - vm_compute. reflexivity.
  - constructor; [vm_compute; reflexivity|constructor].
  - vm_compute. reflexivity.
Defined.

(** ** All the models of an observation in [script/ein/ein.py] *)

Module LogFacts.
Import Legacy Ein TopSpec ObsSpec LogSpec TopFacts EinFacts.
Local Open Scope list_scope.

Section OneObservation.
Context `{Likelihood}.
Variable exp_uid : string.
Variable exp_data : summary.
Variable samples : list (gmap Z Z).

Local Abbreviation accepted := (ObsSpec.accepted exp_data).
Local Abbreviation obs_inv := (ObsSpec.obs_inv exp_uid exp_data samples).
Local Abbreviation seen_ok := (LogSpec.seen_ok exp_uid exp_data samples).

(** The statements that keep the best models leave [log_probabilities]
    alone. *)
Lemma keep_top_log (u : string) (d : summary) (lp : list Q) (g : globals) :
  log_probabilities (fst (keep_top u d exp_uid exp_data lp g)) = log_probabilities g.
Proof.
  unfold keep_top.
  destruct (top_n_models_data g !! exp_uid) as [[e0 k0]|];
    cbn [top_n_models_data top_n_models_heapq log_probabilities];
    (destruct (np_max lp); [|done]);
    repeat (case_match; cbn [fst log_probabilities]; try done).
Qed.

(** A model of the burst length of the observation, not recorded yet, is
    recorded with its log-likelihoods and its label. *)
Lemma callback_records (g : globals) (u : string) (d : summary) (lp : list Q) :
  md_bl' (s_metadata exp_data) = md_bl' (s_metadata d) ->
  log_probs_of d exp_data samples = Ok lp ->
  default ∅ (log_probabilities g !! exp_uid) !! u = None ->
  log_probabilities (fst (callback u d exp_uid exp_data samples g))
  = <[exp_uid := <[u := (lp, s_xlabel d)]> (default ∅ (log_probabilities g !! exp_uid))]>
      (log_probabilities g).
Proof.
  intros Hbl Hlp Hnew. unfold callback. rewrite Hbl, Z.eqb_refl. cbn [negb].
  rewrite Hlp, Hnew. rewrite keep_top_log. cbn [log_probabilities].
  by rewrite insert_insert_eq.
Qed.


Lemma seen_ok_step (g : globals) (done : list (string * summary))
    (u : string) (d : summary) (lp : list Q) :
  seen_ok g done ->
  NoDup (map fst (done ++ [(u, d)])) ->
  md_bl' (s_metadata exp_data) = md_bl' (s_metadata d) ->
  log_probs_of d exp_data samples = Ok lp ->
  seen_ok (fst (callback u d exp_uid exp_data samples g)) (done ++ [(u, d)]).
Proof.
  intros [_ Hseen] Hnd Hbl Hlp.
  assert (Hu : forall d', (u, d') ∉ done).
  { rewrite map_app in Hnd. apply NoDup_app in Hnd as (_ & Hfresh & _).
    intros d' Hin. apply (Hfresh u); [|apply list_elem_of_here].
    apply list_elem_of_fmap. by exists (u, d'). }
  assert (Hnew : default ∅ (log_probabilities g !! exp_uid) !! u = None).
  { destruct (default ∅ (log_probabilities g !! exp_uid) !! u) as [pl|] eqn:E; [|done].
    apply Hseen in E as (d' & _ & Hin & _). by apply Hu in Hin. }
  unfold LogSpec.seen_ok. rewrite (callback_records g u d lp Hbl Hlp Hnew).
  rewrite (lookup_insert_eq (log_probabilities g) exp_uid). split; [by eauto|]. cbn [default id].
  intros v pl. destruct (decide (v = u)) as [->|Hv].
  - rewrite lookup_insert_eq. split.
    + intros [= <-]. exists d, lp. split; [|done]. apply elem_of_app. right.
      apply list_elem_of_here.
    + intros (d' & lp' & Hin & Hlp' & ->).
      apply elem_of_app in Hin as [Hin|Hin]; [by apply Hu in Hin|].
      apply list_elem_of_singleton in Hin. injection Hin as ->. congruence.
  - rewrite lookup_insert_ne by done. rewrite Hseen. split.
    + intros (d' & lp' & Hin & Hrest). exists d', lp'. split; [|done].
      apply elem_of_app. by left.
    + intros (d' & lp' & Hin & Hrest). exists d', lp'. split; [|done].
      apply elem_of_app in Hin as [Hin|Hin]; [done|].
      apply list_elem_of_singleton in Hin. by injection Hin as -> _.
Qed.

(** The loop over the simulations keeps both invariants. *)
Lemma evaluate_simulations_log (simulations : list (string * summary)) (g : globals)
    (done : list (string * summary)) :
  obs_inv g done -> seen_ok g done ->
  NoDup (map fst (done ++ accepted simulations)) ->
  (forall u d, (u, d) ∈ accepted simulations ->
               exists lp, log_probs_of d exp_data samples = Ok lp /\ lp <> []) ->
  exists g',
    evaluate_simulations simulations exp_uid exp_data samples g = (g', None)
    /\ obs_inv g' (done ++ accepted simulations)
    /\ seen_ok g' (done ++ accepted simulations).
Proof.
  revert g done. induction simulations as [|[u d] rest IH]; intros g done Hinv Hseen Hnd Hok.
  - exists g. unfold ObsSpec.accepted. cbn [filter evaluate_simulations].
    rewrite app_nil_r. done.
  - cbn [evaluate_simulations]. unfold ObsSpec.accepted in *.
    destruct (decide (md_bl' (s_metadata exp_data) = md_bl' (s_metadata d))) as [Hbl|Hbl].
    + rewrite filter_cons_True in Hnd, Hok |- * by done.
      destruct (Hok u d (list_elem_of_here _ _)) as (lp & Hlp & Hne).
      rewrite cons_middle, app_assoc in Hnd |- *.
      assert (Hnd1 : NoDup (map fst (done ++ [(u, d)]))).
      { rewrite map_app in Hnd. by apply NoDup_app in Hnd as (Hnd & _). }
      pose proof (seen_ok_step g done u d lp Hseen Hnd1 Hbl Hlp) as Hseen1.
      destruct (callback_accepted exp_uid exp_data samples g done u d lp Hinv Hbl Hnd1 Hlp Hne)
        as (g1 & Hcb & Hinv1).
      rewrite Hcb in Hseen1 |- *. cbn [fst] in Hseen1.
      apply (IH g1 (done ++ [(u, d)]) Hinv1 Hseen1 Hnd).
      intros v dv Hv. apply (Hok v dv). by apply list_elem_of_further.
    + rewrite filter_cons_False in Hnd, Hok |- * by done.
      rewrite (callback_skipped exp_uid exp_data samples g u d Hbl). by apply IH.
Qed.

Lemma seen_ok_start (g : globals) :
  log_probabilities g !! exp_uid = None -> seen_ok g [].
Proof.
  intros Hl. split; [done|]. intros u pl. rewrite Hl. cbn [default id].
  rewrite lookup_empty. split; [done|].
  intros (d & lp & Hin & _). by apply elem_of_nil in Hin.
Qed.


End OneObservation.
End LogFacts.

Section AllModels.
Import Legacy Ein TopSpec ObsSpec LogSpec TopFacts EinFacts LogFacts.
Local Open Scope list_scope.
Context `{Likelihood}.

(** X19: with at most twenty models of the burst length of the observation
    (and at least one), distinct and with computed log-likelihoods, none is
    evicted: [callback] returns every time, and the heap and the dictionary
    ["sims"] of the observation hold every one of these models, the
    dictionary with the model's log-likelihoods, label and data. *)
Theorem few_models_all_kept (g0 : globals) (simulations : list (string * summary))
    (exp_uid : string) (exp_data : summary) (samples : list (gmap Z Z)) :
  log_probabilities g0 !! exp_uid = None ->
  top_n_models_data g0 !! exp_uid = None ->
  NoDup (map fst (accepted exp_data simulations)) ->
  (forall u d, (u, d) ∈ accepted exp_data simulations ->
               exists lp, log_probs_of d exp_data samples = Ok lp /\ lp <> []) ->
  accepted exp_data simulations <> [] ->
  (length (accepted exp_data simulations) <= max_n_models_to_plot)%nat ->
  exists g heap kept,
    evaluate_simulations simulations exp_uid exp_data samples g0 = (g, None)
    /\ top_n_models_heapq g !! exp_uid = Some heap
    /\ top_n_models_data g !! exp_uid = Some (exp_data, kept)
    /\ length heap = length (accepted exp_data simulations)
    /\ size kept = length (accepted exp_data simulations)
    /\ (forall u d, (u, d) ∈ accepted exp_data simulations ->
          u ∈ map snd heap
          /\ exists lp, log_probs_of d exp_data samples = Ok lp
                        /\ kept !! u = Some (lp, s_xlabel d, d)).
Proof.
  intros Hl0 Hd0 Hnd Hok Hne Hfew.
  set (acc := accepted exp_data simulations) in *.
  destruct (evaluate_simulations_inv exp_uid exp_data samples simulations g0 []
              (obs_inv_start exp_uid exp_data samples g0 Hl0 Hd0) Hnd Hok)
    as (g & Hrun & [Hseen Hscored Hfresh Htop]).
  cbn [app] in Hscored, Htop. fold acc in Hscored, Htop.
  destruct (Htop Hne) as (kept & Hheap & Hdata & Hk).
  set (heap := top_run (map (item exp_data samples) acc)) in *.
  pose proof (top_run_inv (map (item exp_data samples) acc)) as [Hlen Hsorted Hsub Hbound].
  fold heap in Hlen, Hsorted, Hsub, Hbound.
  assert (Hlen' : length heap = length acc).
  { rewrite Hlen, length_map. lia. }
  assert (Hperm : heap ≡ₚ map (item exp_data samples) acc).
  { apply submseteq_length_Permutation; [done|]. rewrite length_map. lia. }
  assert (Hall : forall u d, (u, d) ∈ acc -> item exp_data samples (u, d) ∈ heap).
  { intros u d Hin. rewrite Hperm. apply list_elem_of_fmap. by exists (u, d). }
  assert (Hdom : forall u, is_Some (kept !! u) <-> u ∈ map snd heap).
  { intros u. split.
    - intros [pl Hpl]. apply Hk in Hpl as (d & lp & _ & _ & _ & Hin).
      apply list_elem_of_fmap. by exists (item exp_data samples (u, d)).
    - intros Hu. apply list_elem_of_fmap in Hu as (y & -> & Hy).
      apply (top_run_uids exp_data samples) in Hy as Hy'. destruct Hy' as (d & Hin & Hitem).
      destruct (Hscored _ _ Hin) as [lp Hlp].
      exists (payload d lp). apply Hk. exists d, lp. split_and!; try done.
      by rewrite <- Hitem. }
  exists g, heap, kept. split_and!; try done.
  - rewrite <- Hlen'.
    rewrite <- (size_dom (D := gset string) kept).
    assert (Hset : dom kept = list_to_set (map snd heap)).
    { apply set_eq. intros u. rewrite elem_of_dom, elem_of_list_to_set. apply Hdom. }
    rewrite Hset, size_list_to_set, length_map; [done|].
    by apply top_run_NoDup.
  - intros u d Hin. split.
    + apply list_elem_of_fmap. exists (item exp_data samples (u, d)). split; [done|].
      by apply Hall.
    + destruct (Hscored _ _ Hin) as [lp Hlp]. exists lp. split; [done|].
      apply Hk. exists d, lp. split_and!; try done. by apply Hall.
Qed.

(** X20: [log_probabilities] keeps every model, not only the best twenty.
    After the models of an observation have been evaluated (those of its
    burst length are distinct and have computed log-likelihoods, there is at
    least one), [log_probabilities[exp_uid]] maps an identity to a pair
    exactly when a model of that identity and of the burst length of the
    observation was offered, and the pair holds its log-likelihoods and its
    label; a model of another burst length is not recorded. *)
Theorem log_probabilities_complete (g0 : globals) (simulations : list (string * summary))
    (exp_uid : string) (exp_data : summary) (samples : list (gmap Z Z)) :
  log_probabilities g0 !! exp_uid = None ->
  top_n_models_data g0 !! exp_uid = None ->
  NoDup (map fst (accepted exp_data simulations)) ->
  (forall u d, (u, d) ∈ accepted exp_data simulations ->
               exists lp, log_probs_of d exp_data samples = Ok lp /\ lp <> []) ->
  accepted exp_data simulations <> [] ->
  exists g seen,
    evaluate_simulations simulations exp_uid exp_data samples g0 = (g, None)
    /\ log_probabilities g !! exp_uid = Some seen
    /\ size seen = length (accepted exp_data simulations)
    /\ forall u lp xl,
         seen !! u = Some (lp, xl) <->
         exists d, (u, d) ∈ accepted exp_data simulations
                   /\ log_probs_of d exp_data samples = Ok lp /\ xl = s_xlabel d.
Proof.
  intros Hl0 Hd0 Hnd Hok Hne.
  destruct (evaluate_simulations_log exp_uid exp_data samples simulations g0 []
              (obs_inv_start exp_uid exp_data samples g0 Hl0 Hd0)
              (seen_ok_start exp_uid exp_data samples g0 Hl0) Hnd Hok)
    as (g & Hrun & _ & [Hsome Hseen]).
  cbn [app] in Hsome, Hseen.
  destruct (Hsome Hne) as [seen Hs]. rewrite Hs in Hseen. cbn [default id] in Hseen.
  exists g, seen. split; [done|]. split; [done|]. split.
  - rewrite <- (length_map fst (accepted exp_data simulations)).
    rewrite <- (size_dom (D := gset string) seen).
    assert (Hset : dom seen = list_to_set (map fst (accepted exp_data simulations))).
    { apply set_eq. intros u. rewrite elem_of_dom, elem_of_list_to_set. split.
      - intros [pl Hpl]. apply Hseen in Hpl as (d & lp & Hin & _).
        apply list_elem_of_fmap. by exists (u, d).
      - intros Hu. apply list_elem_of_fmap in Hu as ([u' d] & -> & Hin).
        destruct (Hok _ _ Hin) as (lp & Hlp & _).
        exists (lp, s_xlabel d). apply Hseen. by exists d, lp. }
    by rewrite Hset, size_list_to_set.
  - intros u lp xl. rewrite Hseen. split.
    + intros (d & lp' & Hin & Hlp & [= -> ->]). by exists d.
    + intros (d & Hin & Hlp & ->). by exists d, lp.
Qed.

End AllModels.

Lemma few_models_all_kept_witness :
  exists g heap kept,
    @Ein.evaluate_simulations _ EinSamples.likelihood_by_t FewSamples.models "exp"
      EinSamples.observation [∅] Ein.no_globals = (g, None)
    /\ Ein.top_n_models_heapq g !! "exp" = Some heap
    /\ Ein.top_n_models_data g !! "exp" = Some (EinSamples.observation, kept)
    /\ length heap = 3%nat
    /\ size kept = 3%nat.
Proof.
  destruct (@few_models_all_kept _ EinSamples.likelihood_by_t Ein.no_globals
              FewSamples.models "exp" EinSamples.observation [∅])
    as (g & heap & kept & Hrun & Hheap & Hdata & Hlen & Hsize & _).
  - apply lookup_empty.
  - apply lookup_empty.
  - apply (bool_decide_unpack _). vm_compute. exact I.
  - intros u d _. exists [inject_Z (Legacy.md_t' (Legacy.s_metadata d))].
    split; [reflexivity|discriminate].
  - vm_compute. discriminate.
  - vm_compute. lia.
  - exists g, heap, kept.
    exact (conj Hrun (conj Hheap (conj Hdata (conj Hlen Hsize)))).
Defined.

Lemma log_probabilities_complete_witness :
  exists g seen,
    @Ein.evaluate_simulations _ EinSamples.likelihood_by_t EinSamples.models "exp"
      EinSamples.observation [∅] Ein.no_globals = (g, None)
    /\ Ein.log_probabilities g !! "exp" = Some seen
    /\ size seen = 22%nat.
Proof.
  destruct (@log_probabilities_complete _ EinSamples.likelihood_by_t Ein.no_globals
              EinSamples.models "exp" EinSamples.observation [∅])
    as (g & seen & Hrun & Hseen & Hsize & _).
  - apply lookup_empty.
  - apply lookup_empty.
  - apply (bool_decide_unpack _). vm_compute. exact I.
  - intros u d _. exists [inject_Z (Legacy.md_t' (Legacy.s_metadata d))].
    split; [reflexivity|discriminate].
  - vm_compute. discriminate.
  - exists g, seen. exact (conj Hrun (conj Hseen Hsize)).
Defined.


(** ** The aggregated output of [script/utils.py] read back *)

Module LegacyOutputFacts.
Import Legacy LegacyOutput LegacyOutputSpec PyStr TextSpec StrFacts TextFacts ResFacts.
Import RoundTripSpec.

Lemma drop2 (a b : ascii) (s : string) : drop 2 (String a (String b "") ++ s) = s.
Proof. reflexivity. Qed.
Lemma drop3 (a b c : ascii) (s : string) :
  drop 3 (String a (String b (String c "")) ++ s) = s.
Proof. reflexivity. Qed.
Lemma drop4 (a b c d : ascii) (s : string) :
  drop 4 (String a (String b (String c (String d ""))) ++ s) = s.
Proof. reflexivity. Qed.
Lemma drop5 (a b c d e : ascii) (s : string) :
  drop 5 (String a (String b (String c (String d (String e "")))) ++ s) = s.
Proof. reflexivity. Qed.

Lemma triple_text_spec (pair : Z * (Z * Z)) :
  triple_text pair
  = str_int (fst pair) ++ String ":" (str_int (fst (snd pair))
                                      ++ String ":" (str_int (snd (snd pair)))).
Proof. reflexivity. Qed.

Lemma triple_text_split (pair : Z * (Z * Z)) :
  split ":" (triple_text pair) = triple_pieces pair.
Proof.
  rewrite triple_text_spec.
  rewrite split_app by by apply str_int_has_char.
  rewrite split_app by by apply str_int_has_char.
  rewrite split_none by by apply str_int_has_char.
  reflexivity.
Qed.

Lemma triple_text_colon (pair : Z * (Z * Z)) : has_char ":" (triple_text pair) = true.
Proof.
  rewrite triple_text_spec, has_char_app. cbn [has_char].
  change (Ascii.eqb ":" ":") with true. cbn [orb]. apply orb_true_r.
Qed.

Lemma triple_text_no_char (c : ascii) (pair : Z * (Z * Z)) :
  sign_or_digit c = false -> Ascii.eqb ":" c = false ->
  has_char c (triple_text pair) = false.
Proof.
  intros Hc Hcolon. rewrite triple_text_spec.
  rewrite !has_char_app. cbn [has_char]. rewrite !has_char_app. cbn [has_char].
  rewrite !str_int_has_char by done. by rewrite Hcolon.
Qed.

(** The payload between the brackets, split at the spaces. *)
Lemma split_join (ts : list string) :
  Forall (fun t => has_char " " t = false) ts -> ts <> [] ->
  split " " (join " " ts ++ " ]") = (ts ++ ["]"])%list.
Proof.
  induction 1 as [|t ts Ht Hts IH]; intros Hne; [done|].
  destruct ts as [|t' ts].
  - cbn [join app]. change (t ++ " ]") with (t ++ String " " "]").
    by rewrite split_app.
  - change (join " " (t :: t' :: ts)) with (t ++ " " ++ join " " (t' :: ts)).
    rewrite !app_assoc.
    change (" " ++ join " " (t' :: ts) ++ " ]")
      with (String " " (join " " (t' :: ts) ++ " ]")).
    rewrite split_app by done. by rewrite IH.
Qed.

Lemma lazy_entries_payload (items : list (Z * (Z * Z))) :
  Hist.lazy_entries (" " ++ join " " (map triple_text items) ++ " ]")
  = map triple_pieces items.
Proof.
  unfold Hist.lazy_entries.
  change (" " ++ join " " (map triple_text items) ++ " ]")
    with (String " " (join " " (map triple_text items) ++ " ]")).
  cbn [split]. change (Ascii.eqb " " " ") with true. cbv iota.
  rewrite filter_cons_False by done.
  destruct items as [|it items]; [reflexivity|].
  rewrite split_join; [|apply Forall_map, Forall_forall; intros x _;
                         by apply triple_text_no_char|done].
  rewrite filter_app, (filter_cons_False _ "]"), filter_nil, List.app_nil_r by done.
  generalize (it :: items). intros l. induction l as [|x l IH]; [done|].
  cbn [map]. rewrite filter_cons_True by apply triple_text_colon.
  cbn [map]. by rewrite triple_text_split, IH.
Qed.

Lemma unpack_pieces (items : list (Z * (Z * Z))) :
  mapM Hist.unpack_triple (map triple_pieces items) = Ok (map triple_of items).
Proof.
  induction items as [|it items IH]; [done|].
  cbn [map mapM]. unfold Hist.unpack_triple at 1. unfold triple_pieces at 1.
  cbn [mapM]. rewrite !int_str_int. cbn [bind]. by rewrite IH.
Qed.
Section WithFloat.
Context `{PyFloat}.

Ltac normalize_app :=
  repeat first [rewrite app_assoc | rewrite app_cons | progress change ("" ++ ?x) with x].

(** The line written for the identity of [md], word by word. *)
Lemma minimized_line_words (md : metadata) (items : list (Z * (Z * Z))) :
  known_category md ->
  get_minimized_output_string [(run_uid_from_metadata md, items)]
  = "[DATA] " ++ (spaced (words md)
                  ++ String "[" (" " ++ join " " (map triple_text items) ++ " "))
    ++ String "]" Utils.nl.
Proof.
  intros Hcat. unfold get_minimized_output_string, run_uid_from_metadata, words.
  cbn [foldl fst snd].
  destruct Hcat as [E|[E|E]]; rewrite E;
    cbn [String.eqb Ascii.eqb Bool.eqb andb]; cbv iota beta zeta;
    unfold spaced, Utils.nl; cbn [List.app foldr];
    normalize_app; reflexivity.
Qed.

Lemma words_no_char (c : ascii) (md : metadata) :
  c = " "%char \/ c = "["%char ->
  known_category md -> plain_fields md ->
  Forall (fun t => has_char c t = false) (words md).
Proof.
  intros Hc Hcat (Hr & Hed & Hcd & Hdp).
  assert (Hint : forall z, has_char c (str_int z) = false).
  { intros z. apply str_int_has_char. by destruct Hc as [-> | ->]. }
  assert (Hplain : forall s, plain s -> has_char c s = false).
  { intros s [H1 H2]. by destruct Hc as [-> | ->]. }
  assert (Htok : forall k v, has_char c k = false -> has_char c v = false ->
                             has_char c (k ++ v) = false).
  { intros k v Hk Hv. by rewrite has_char_app, Hk, Hv. }
  unfold words.
  destruct Hcat as [E|[E|E]]; rewrite E; cbn [String.eqb Ascii.eqb Bool.eqb andb List.app];
    repeat (apply Forall_cons; split;
            [first [by destruct Hc as [-> | ->]
                   | apply Htok; [by destruct Hc as [-> | ->]|auto]]|]);
    by apply Forall_nil.
Qed.

Lemma int_at_word (l : list string) (i skip : nat) (w : string) (z : Z) :
  l !! i = Some w -> drop skip w = str_int z -> int_at l i skip = Ok z.
Proof.
  intros Hl Hd. unfold int_at, item. rewrite Hl. cbn [bind]. rewrite Hd.
  apply int_str_int.
Qed.

Lemma item_word (l : list string) (i : nat) (w : string) :
  l !! i = Some w -> item l i = Ok w.
Proof. intros Hl. unfold item. by rewrite Hl. Qed.

(** The parser of [script/utils.py] reads the line back. *)
Lemma parse_minimized_line (md : metadata) (items : list (Z * (Z * Z))) (x : pyfloat) :
  known_category md -> plain_fields md ->
  float_of_string (str_float (md_rber md)) = Some x ->
  parse_einsim_output_line (get_minimized_output_string [(run_uid_from_metadata md, items)])
  = Ok (Some (read_back md x, map triple_pieces items)).
Proof.
  intros Hcat Hplain Hx. rewrite minimized_line_words by done.
  set (meta := spaced (words md)).
  set (payload := " " ++ join " " (map triple_text items) ++ " ").
  assert (Hpayload : payload ++ String "]" "" = " " ++ join " " (map triple_text items) ++ " ]").
  { subst payload. normalize_app. reflexivity. }
  assert (Hsplit : split "[" (strip (drop 7 ("[DATA] " ++ (meta ++ String "[" payload)
                                           ++ String "]" Utils.nl)))
                   = [meta; payload ++ String "]" ""]).
  { change (drop 7 ("[DATA] " ++ ?y)) with y.
    unfold strip.
    assert (Hhead : exists a b, meta = String a b /\ isspace a = false).
    { subst meta. unfold words. destruct Hcat as [E|[E|E]]; rewrite E;
        eexists _, _; (split; [reflexivity|reflexivity]). }
    destruct Hhead as (a & b & Ha & Hspace).
    rewrite Ha at 1. rewrite !app_assoc. rewrite RoundTripFacts.lstrip_app by done.
    rewrite <- Ha. rewrite <- (app_assoc meta).
    rewrite rstrip_nl by done.
    rewrite app_assoc, app_cons.
    rewrite split_app.
    2:{ apply spaced_has_char; [done|]. by apply words_no_char; [right| |]. }
    rewrite split_none; [done|].
    subst payload. rewrite !has_char_app. cbn [has_char].
    rewrite ?has_char_app. cbn [has_char].
    assert (Hj : has_char "[" (join " " (map triple_text items)) = false).
    { clear. induction items as [|it items IH]; [done|].
      cbn [map]. destruct items as [|it' items].
      - cbn [map join]. by apply triple_text_no_char.
      - change (join " " (triple_text it :: map triple_text (it' :: items)))
          with (triple_text it ++ " " ++ join " " (map triple_text (it' :: items))).
        rewrite !has_char_app, IH. rewrite triple_text_no_char by done. done. }
    rewrite Hj. done. }
  unfold parse_einsim_output_line.
  replace ((6 <? String.length ("[DATA] " ++ (meta ++ String "[" payload) ++ String "]" Utils.nl))%nat
           && String.eqb (take 6 ("[DATA] " ++ (meta ++ String "[" payload) ++ String "]" Utils.nl)) "[DATA]"
           && contains "[DATA]" ("[DATA] " ++ (meta ++ String "[" payload) ++ String "]" Utils.nl))
    with true by reflexivity.
  cbv iota. rewrite Hsplit. cbv iota beta zeta.
  rewrite Hpayload, lazy_entries_payload.
  subst meta. rewrite split_spaced by (by apply words_no_char; [left| |]).
  destruct Hplain as (Hr & Hed & Hcd & Hdp).
  unfold words, read_back.
  destruct Hcat as [E|[E|E]]; rewrite E;
    cbn [String.eqb Ascii.eqb Bool.eqb andb List.app];
    (erewrite item_word; [|reflexivity]); cbn [bind];
    rewrite drop_last_snoc;
    cbn [String.eqb Ascii.eqb Bool.eqb andb some];
    unfold positional;
    repeat first
      [ match goal with
        | |- context [int_at ?l 1 2] =>
            rewrite (int_at_word l 1 2 "p:-1" (-1) eq_refl eq_refl)
        end
      | erewrite int_at_word; [|reflexivity|reflexivity]
      | erewrite item_word; [|reflexivity]
      | progress cbn [bind fst snd Nat.add]
      | rewrite drop5
      | rewrite drop3
      | progress (unfold py_float; rewrite Hx) ];
    reflexivity.
Qed.


Lemma int_colon (z : Z) : int (String ":" (str_int z)) = Raise ValueError.
Proof.
  unfold int. rewrite strip_int_plain.
  - reflexivity.
  - cbn [all_chars]. apply andb_true_iff. split; [done|].
    apply (all_chars_weaken sign_or_digit); [|apply str_int_chars].
    intros c Hc. destruct c as [[] [] [] [] [] [] [] []]; try done; discriminate Hc.
Qed.

(** The line of an identity of the category UNK is refused. *)
Lemma parse_minimized_line_unk (md : metadata) (items : list (Z * (Z * Z))) :
  ecc_category md = "UNK" ->
  parse_einsim_output_line (get_minimized_output_string [(run_uid_from_metadata md, items)])
  = Raise ValueError.
Proof.
  intros E.
  set (payload := " " ++ join " " (map triple_text items) ++ " ").
  set (meta := spaced ["UNK:"; "bl:" ++ str_int (md_bl md)]).
  assert (Hline : get_minimized_output_string [(run_uid_from_metadata md, items)]
                  = "[DATA] " ++ (meta ++ String "[" payload) ++ String "]" Utils.nl).
  { unfold get_minimized_output_string, run_uid_from_metadata. cbn [foldl fst snd].
    rewrite E. cbn [String.eqb Ascii.eqb Bool.eqb andb]. cbv iota beta zeta.
    subst meta payload. unfold spaced, Utils.nl. cbn [foldr].
    normalize_app. reflexivity. }
  rewrite Hline.
  assert (Hj : has_char "[" (join " " (map triple_text items)) = false).
  { clear. induction items as [|it items IH]; [done|].
    cbn [map]. destruct items as [|it' items].
    - cbn [map join]. by apply triple_text_no_char.
    - change (join " " (triple_text it :: map triple_text (it' :: items)))
        with (triple_text it ++ " " ++ join " " (map triple_text (it' :: items))).
      rewrite !has_char_app, IH. rewrite triple_text_no_char by done. done. }
  assert (Hsplit : split "[" (strip (drop 7 ("[DATA] " ++ (meta ++ String "[" payload)
                                           ++ String "]" Utils.nl)))
                   = [meta; payload ++ String "]" ""]).
  { change (drop 7 ("[DATA] " ++ ?y)) with y.
    unfold strip.
    assert (Hhead : meta = String "U" ("NK: " ++ "bl:" ++ str_int (md_bl md) ++ " ")).
    { subst meta. unfold spaced. cbn [foldr]. normalize_app. reflexivity. }
    rewrite Hhead at 1. rewrite !app_assoc. rewrite RoundTripFacts.lstrip_app by done.
    rewrite <- Hhead. rewrite <- (app_assoc meta).
    rewrite rstrip_nl by done.
    rewrite app_assoc, app_cons.
    rewrite split_app.
    2:{ apply spaced_has_char; [done|].
        repeat (apply Forall_cons; split; [|]); [done| |by apply Forall_nil].
        rewrite has_char_app. by rewrite str_int_has_char. }
    rewrite split_none; [done|].
    subst payload. rewrite !has_char_app. cbn [has_char].
    rewrite ?has_char_app. cbn [has_char]. by rewrite Hj. }
  unfold parse_einsim_output_line.
  replace ((6 <? String.length ("[DATA] " ++ (meta ++ String "[" payload) ++ String "]" Utils.nl))%nat
           && String.eqb (take 6 ("[DATA] " ++ (meta ++ String "[" payload) ++ String "]" Utils.nl)) "[DATA]"
           && contains "[DATA]" ("[DATA] " ++ (meta ++ String "[" payload) ++ String "]" Utils.nl))
    with true by reflexivity.
  cbv iota. rewrite Hsplit. cbv iota beta zeta.
  subst meta. rewrite split_spaced.
  2:{ repeat (apply Forall_cons; split; [|]); [done| |by apply Forall_nil].
      rewrite has_char_app. by rewrite str_int_has_char. }
  cbn [List.app]. (erewrite item_word; [|reflexivity]). cbn [bind].
  change (drop_last "UNK:") with "UNK".
  cbn [String.eqb Ascii.eqb Bool.eqb andb]. unfold positional, int_at.
  (erewrite item_word; [|reflexivity]). cbn [bind].
  change (drop 2 ("bl:" ++ str_int (md_bl md))) with (String ":" (str_int (md_bl md))).
  rewrite int_colon. reflexivity.
Qed.

(** The line of an identity of any other category is refused as well: the
    identity is the bare [[DATA]]. *)
Lemma parse_minimized_line_other (md : metadata) (items : list (Z * (Z * Z))) :
  ~ known_category md -> ecc_category md <> "UNK" ->
  parse_einsim_output_line (get_minimized_output_string [(run_uid_from_metadata md, items)])
  = Raise (NameError "line_num").
Proof.
  intros Hcat Hunk.
  set (payload := " " ++ join " " (map triple_text items) ++ " ").
  assert (Hline : get_minimized_output_string [(run_uid_from_metadata md, items)]
                  = "[DATA] " ++ String "[" payload ++ String "]" Utils.nl).
  { unfold get_minimized_output_string, run_uid_from_metadata. cbn [foldl fst snd].
    destruct (String.eqb_spec (ecc_category md) "REP") as [E|_]; [destruct Hcat; by left|].
    destruct (String.eqb_spec (ecc_category md) "HSC") as [E|_];
      [destruct Hcat; right; by left|].
    destruct (String.eqb_spec (ecc_category md) "BCH") as [E|_];
      [destruct Hcat; right; by right|].
    destruct (String.eqb_spec (ecc_category md) "UNK") as [E|_]; [done|].
    subst payload. unfold Utils.nl. normalize_app. reflexivity. }
  rewrite Hline.
  assert (Hj : has_char "[" (join " " (map triple_text items)) = false).
  { clear. induction items as [|it items IH]; [done|].
    cbn [map]. destruct items as [|it' items].
    - cbn [map join]. by apply triple_text_no_char.
    - change (join " " (triple_text it :: map triple_text (it' :: items)))
        with (triple_text it ++ " " ++ join " " (map triple_text (it' :: items))).
      rewrite !has_char_app, IH. rewrite triple_text_no_char by done. done. }
  assert (Hsplit : split "[" (strip (drop 7 ("[DATA] " ++ String "[" payload
                                           ++ String "]" Utils.nl)))
                   = [""; payload ++ String "]" ""]).
  { change (drop 7 ("[DATA] " ++ ?y)) with y.
    unfold strip. rewrite RoundTripFacts.lstrip_app by done.
    rewrite (rstrip_nl "]" (String "[" payload)) by done.
    rewrite app_cons. cbn [split]. change (Ascii.eqb "[" "[") with true. cbv iota.
    rewrite split_none; [done|].
    subst payload. rewrite !has_char_app. cbn [has_char].
    rewrite ?has_char_app. cbn [has_char]. by rewrite Hj. }
  unfold parse_einsim_output_line.
  replace ((6 <? String.length ("[DATA] " ++ String "[" payload ++ String "]" Utils.nl))%nat
           && String.eqb (take 6 ("[DATA] " ++ String "[" payload ++ String "]" Utils.nl)) "[DATA]"
           && contains "[DATA]" ("[DATA] " ++ String "[" payload ++ String "]" Utils.nl))
    with true by reflexivity.
  cbv iota. rewrite Hsplit. cbv iota beta zeta. reflexivity.
Qed.

(** *** The histograms of the line read back *)

Lemma sumZ_nonneg (l : list Z) : Forall (fun c => 0 <= c) l -> 0 <= HistSpec.sumZ l.
Proof. unfold HistSpec.sumZ. induction 1 as [|c l Hc Hl IH]; cbn [foldr]; lia. Qed.

Lemma Forall_filter_keep {A : Type} (P Q : A -> Prop) `{forall x, Decision (Q x)}
    (l : list A) :
  Forall P l -> Forall P (filter Q l).
Proof.
  intros Hl. apply Forall_forall. intros x Hx.
  apply list_elem_of_filter in Hx as [_ Hx]. by apply (Forall_elem _ _ _ Hl).
Qed.

(** With counters that are not negative, a histogram of events holds under
    [n] the sum of the counters of [n], when it is positive. *)
Lemma events_of_total (count : Z * Z * Z -> Z) (n : Z) (ts : list (Z * Z * Z)) :
  Forall (fun t => 0 <= count t) ts ->
  HistSpec.events_of count n ts
  = if decide (0 < HistSpec.sumZ (map count (HistSpec.at_errors n ts)))
    then Some (HistSpec.sumZ (map count (HistSpec.at_errors n ts)))
    else None.
Proof.
  intros Hall. unfold HistSpec.events_of.
  assert (Hsel : Forall (fun t => 0 <= count t) (HistSpec.at_errors n ts)).
  { unfold HistSpec.at_errors. by apply Forall_filter_keep. }
  unfold HistSpec.sumZ.
  induction Hsel as [|t sel Ht Hsel IH].
  - cbn [filter map foldr]. by rewrite decide_False by lia.
  - pose proof (sumZ_nonneg (map count sel) (proj2 (Forall_fmap _ _ _) Hsel)) as Hsum.
    unfold HistSpec.sumZ in Hsum.
    cbn [map foldr]. rewrite filter_cons.
    destruct (decide (0 < count t)) as [Hpos|Hzero].
    + rewrite decide_True by lia. f_equal. cbn [map foldr].
      destruct (decide (0 < foldr Z.add 0 (map count sel))) as [Hs|Hs].
      * destruct (filter _ sel) as [|t' sel'] eqn:Hf; [discriminate IH|].
        injection IH as IH. cbn [map foldr] in *. lia.
      * destruct (filter _ sel) as [|t' sel'] eqn:Hf; [|discriminate IH].
        cbn [map foldr]. lia.
    + assert (count t = 0) as -> by lia. rewrite Z.add_0_l. apply IH.
Qed.

Lemma at_errors_fresh (n : Z) (items : list (Z * (Z * Z))) :
  n ∉ map fst items -> HistSpec.at_errors n (map triple_of items) = [].
Proof.
  induction items as [|[k v] items IH]; intros Hn; [done|].
  cbn [map fst] in Hn. apply not_elem_of_cons in Hn as [Hk Hn].
  cbn [map]. unfold HistSpec.at_errors. rewrite filter_cons_False by (cbn; congruence).
  by apply IH.
Qed.

(** The triples of [n] among the items of a dictionary. *)
Lemma at_errors_items (n : Z) (items : list (Z * (Z * Z))) :
  NoDup (map fst items) ->
  HistSpec.at_errors n (map triple_of items)
  = match (list_to_map items : gmap Z (Z * Z)) !! n with
    | Some v => [(n, fst v, snd v)]
    | None => []
    end.
Proof.
  induction items as [|[k v] items IH]; intros Hnd; [done|].
  cbn [map fst] in Hnd. apply NoDup_cons in Hnd as [Hk Hnd].
  cbn [map list_to_map foldr]. unfold HistSpec.at_errors.
  destruct (decide (k = n)) as [->|Hne].
  - rewrite filter_cons_True by done. rewrite lookup_insert_eq.
    fold (HistSpec.at_errors n (map triple_of items)).
    by rewrite at_errors_fresh.
  - rewrite filter_cons_False by (cbn; congruence). rewrite lookup_insert_ne by done.
    by apply IH.
Qed.

End WithFloat.

Section Reaggregate.
Context `{PyFloat}.
Import HistSpec HistOrderFacts HistBoundFacts.

(** The histograms built from the items of the raw histogram of a summary
    are the histograms of the summary. *)
Lemma histograms_of_items (ts : list (Z * Z * Z)) (items : list (Z * (Z * Z))) :
  Forall (fun t => 0 <= snd (fst t) /\ 0 <= snd t) ts ->
  items ≡ₚ map_to_list (Hist.raw_histogram (foldl add Hist.empty ts)) ->
  foldl add Hist.empty (map triple_of items) = foldl add Hist.empty ts.
Proof.
  intros Hnn Hperm.
  set (h := foldl add Hist.empty ts) in *.
  assert (Hnd : NoDup (map fst items)).
  { rewrite Hperm. apply NoDup_fst_map_to_list. }
  assert (Hmap : (list_to_map items : gmap Z (Z * Z)) = Hist.raw_histogram h).
  { rewrite (list_to_map_proper _ _ Hnd Hperm). apply list_to_map_to_list. }
  assert (Hraw : forall n, Hist.raw_histogram h !! n
                           = match at_errors n ts with
                             | [] => None
                             | sel => Some (sumZ (map (fun t => snd (fst t)) sel),
                                            sumZ (map snd sel))
                             end).
  { intros n. unfold h. rewrite foldl_add_raw. cbn [Hist.raw_histogram Hist.empty].
    rewrite lookup_empty. cbn [default id fst snd]. by destruct (at_errors n ts). }
  assert (Htot : forall n,
             sumZ (map (fun t => snd (fst t)) (at_errors n (map triple_of items)))
             = sumZ (map (fun t => snd (fst t)) (at_errors n ts))
             /\ sumZ (map snd (at_errors n (map triple_of items)))
                = sumZ (map snd (at_errors n ts))).
  { intros n. rewrite (at_errors_items n items Hnd), Hmap, Hraw.
    destruct (at_errors n ts) as [|t sel]; [done|].
    cbn [map sumZ foldr fst snd]. lia. }
  assert (Hitems_nn : Forall (fun t => 0 <= snd (fst t) /\ 0 <= snd t) (map triple_of items)).
  { apply Forall_forall. intros t Ht.
    apply list_elem_of_fmap in Ht as ([n [a b]] & -> & Hin).
    rewrite Hperm in Hin. apply elem_of_map_to_list in Hin. rewrite Hraw in Hin.
    destruct (at_errors n ts) as [|t sel] eqn:Hsel; [discriminate|].
    injection Hin as <- <-. cbn [triple_of fst snd].
    assert (Hsub : Forall (fun t => 0 <= snd (fst t) /\ 0 <= snd t) (t :: sel)).
    { rewrite <- Hsel. unfold at_errors. by apply Forall_filter_keep. }
    split.
    - apply (sumZ_nonneg (map (fun t => snd (fst t)) (t :: sel))).
      apply Forall_fmap. apply (Forall_impl _ _ _ Hsub). by intros ? [].
    - apply (sumZ_nonneg (map snd (t :: sel))).
      apply Forall_fmap. apply (Forall_impl _ _ _ Hsub). by intros ? []. }
  assert (Hevents : forall count,
             (forall t, 0 <= snd (fst t) /\ 0 <= snd t -> 0 <= count t) ->
             (forall n, sumZ (map count (at_errors n (map triple_of items)))
                        = sumZ (map count (at_errors n ts))) ->
             forall n, events_of count n (map triple_of items) = events_of count n ts).
  { intros count Hc Hsum n.
    rewrite !events_of_total, Hsum; [done| |].
    - apply (Forall_impl _ _ _ Hnn). intros t. apply Hc.
    - apply (Forall_impl _ _ _ Hitems_nn). intros t. apply Hc. }
  assert (Heq : forall h1 h2 : Hist.hists,
             Hist.raw_histogram h1 = Hist.raw_histogram h2 ->
             Hist.re_histogram h1 = Hist.re_histogram h2 ->
             Hist.ue_histogram h1 = Hist.ue_histogram h2 -> h1 = h2).
  { intros [] []. cbn. by intros -> -> ->. }
  apply Heq; apply map_eq; intros n.
  - rewrite foldl_add_raw. cbn [Hist.raw_histogram Hist.empty].
    rewrite lookup_empty. cbn [default id fst snd].
    rewrite (at_errors_items n items Hnd), Hmap.
    destruct (Hist.raw_histogram h !! n) as [[a b]|]; [|done].
    cbn [map sumZ foldr fst snd]. by rewrite !Z.add_0_r.
  - unfold h.
    rewrite !(foldl_add_events (fun t => snd (fst t)) Hist.re_histogram) by done.
    cbn [Hist.re_histogram Hist.empty]. rewrite !lookup_empty. cbn [default id].
    pose proof (Hevents (fun t => snd (fst t)) (fun t Ht => proj1 Ht)
                  (fun n => proj1 (Htot n)) n) as He.
    unfold events_of in He.
    destruct (filter _ (at_errors n (map triple_of items)));
      destruct (filter _ (at_errors n ts)); done.
  - unfold h.
    rewrite !(foldl_add_events snd Hist.ue_histogram) by done.
    cbn [Hist.ue_histogram Hist.empty]. rewrite !lookup_empty. cbn [default id].
    pose proof (Hevents snd (fun t Ht => proj2 Ht) (fun n => proj2 (Htot n)) n) as He.
    unfold events_of in He.
    destruct (filter _ (at_errors n (map triple_of items)));
      destruct (filter _ (at_errors n ts)); done.
Qed.
End Reaggregate.

End LegacyOutputFacts.

Section LegacyRoundTrip.
Import Legacy LegacyOutput LegacyOutputSpec LegacyOutputFacts LegacyFileSpec.
Import HistSpec HistOrderFacts HistBoundFacts ResFacts.
Context `{PyFloat}.


Lemma sumZ_positive_elem (l : list Z) : 0 < sumZ l -> exists x, x ∈ l /\ 0 < x.
Proof.
  unfold sumZ. induction l as [|x l IH]; cbn [foldr]; [lia|]. intros Hs.
  destruct (decide (0 < x)) as [Hx|Hx].
  - exists x. split; [apply list_elem_of_here|done].
  - destruct IH as (y & Hy & Hpos); [lia|]. exists y. split; [by apply list_elem_of_further|done].
Qed.

(** X23: aggregating the aggregated output changes nothing.  Take a summary
    built by [script/utils.py] from entries whose counters are not negative,
    for metadata as in the round trip, and write its line with
    [get_minimized_output_string] (the items of [raw_data] in any order).
    The line parses, keeps its identity, and the summary of the parsed line
    has the same [raw_data], [re_data], [ue_data], [rber] and [uber]; its
    list of permutations is [[-1]]. *)
Theorem reaggregation_keeps_summary (md : metadata) (p : list Z)
    (data : list (list (list string))) (s : summary) (items : list (Z * (Z * Z))) :
  known_category md -> plain_fields md ->
  float_of_string (str_float (md_rber md)) = Some (md_rber md) ->
  summarize (omit_p md) p data = Ok s ->
  (forall entry t, entry ∈ concat data -> Hist.unpack_triple entry = Ok t ->
                   0 <= snd (fst t) /\ 0 <= snd t) ->
  items ≡ₚ map_to_list (raw_data s) ->
  exists parsed s',
    parse_einsim_output_line (get_minimized_output_string [(run_uid_from_metadata md, items)])
    = Ok (Some parsed)
    /\ run_uid_from_metadata (fst parsed) = run_uid_from_metadata md
    /\ line_summary parsed = Ok s'
    /\ s_p s' = [-1]
    /\ raw_data s' = raw_data s /\ re_data s' = re_data s /\ ue_data s' = ue_data s
    /\ rber s' = rber s /\ uber s' = uber s.
Proof.
  intros Hcat Hplain Hx Hs Hnn Hperm.
  apply summarize_ok in Hs as (ts & r & u & Hts & Hall & Hr & Hu & ->).
  cbn [raw_data re_data ue_data rber uber] in *.
  cbn [omit_p md_bcl' md_bl' md_ps'] in Hall, Hr, Hu.
  assert (Hts_nn : Forall (fun t => 0 <= snd (fst t) /\ 0 <= snd t) ts).
  { apply LegacyFileFacts.mapM_Forall2 in Hts. apply Forall_forall. intros t Ht.
    apply list_elem_of_lookup in Ht as [i Hi].
    destruct (Forall2_lookup_r _ _ _ _ _ Hts Hi) as (entry & Hentry & Hun).
    apply (Hnn entry t); [by apply list_elem_of_lookup_2 in Hentry|done]. }
  pose proof (histograms_of_items ts items Hts_nn Hperm) as Hh.
  assert (Hwithin : Forall (within (md_bcl md) (md_bl md)) (map triple_of items)).
  { apply Forall_forall. intros t Ht.
    apply list_elem_of_fmap in Ht as ([n [a b]] & -> & Hin).
    rewrite Hperm in Hin. apply elem_of_map_to_list in Hin.
    rewrite foldl_add_raw in Hin. cbn [Hist.raw_histogram Hist.empty] in Hin.
    rewrite lookup_empty in Hin. cbn [default id fst snd] in Hin.
    destruct (at_errors n ts) as [|t0 sel] eqn:Hsel; [discriminate|].
    injection Hin as <- <-. unfold within, triple_of. cbn [fst snd].
    assert (Hin_ts : forall t, t ∈ t0 :: sel -> t ∈ ts /\ fst (fst t) = n).
    { intros t. rewrite <- Hsel. unfold at_errors. rewrite list_elem_of_filter. tauto. }
    split; intros Hpos.
    - assert (Hp : 0 < sumZ (map (fun t => snd (fst t)) (t0 :: sel)))
        by (unfold sumZ in *; cbn [map foldr] in *; lia).
      apply sumZ_positive_elem in Hp as (x & Hx' & Hxpos).
      apply list_elem_of_fmap in Hx' as (t & -> & Ht).
      destruct (Hin_ts t Ht) as [Hmem <-].
      destruct (Forall_elem _ _ _ Hall Hmem) as [Hre Hue]. auto.
    - assert (Hp : 0 < sumZ (map snd (t0 :: sel)))
        by (unfold sumZ in *; cbn [map foldr] in *; lia).
      apply sumZ_positive_elem in Hp as (x & Hx' & Hxpos).
      apply list_elem_of_fmap in Hx' as (t & -> & Ht).
      destruct (Hin_ts t Ht) as [Hmem <-].
      destruct (Forall_elem _ _ _ Hall Hmem) as [Hre Hue]. auto. }
  exists (read_back md (md_rber md), map triple_pieces items).
  eexists. split; [by apply parse_minimized_line|]. split.
  { unfold run_uid_from_metadata, read_back.
    cbn [fst ecc_category md_t md_k md_n md_m md_rber md_bl md_bcl md_ps md_ed md_cd md_dp].
    destruct Hcat as [E|[E|E]]; rewrite E; reflexivity. }
  split.
  { unfold line_summary, summarize. cbn [fst snd]. cbv zeta.
    change (md_bl' (omit_p (read_back md (md_rber md)))) with (md_bl md).
    change (md_bcl' (omit_p (read_back md (md_rber md)))) with (md_bcl md).
    change (md_ps' (omit_p (read_back md (md_rber md)))) with (md_ps md).
    pose proof (fold_runs_concat (md_bcl md) (md_bl md) Hist.empty
                  [map triple_pieces items]) as Hfold.
    unfold fold_runs in Hfold. rewrite Hfold. clear Hfold.
    cbn [concat]. rewrite List.app_nil_r.
    assert (Hok : foldM (fun h entry =>
                           t <- Hist.unpack_triple entry ;;
                           Hist.accumulate (Ok (md_bcl md)) (Ok (md_bl md)) h t)
                        Hist.empty (map triple_pieces items)
                  = Ok (foldl add Hist.empty ts)).
    { apply fold_entries_ok. exists (map triple_of items).
      split; [apply unpack_pieces|]. by split. }
    rewrite Hok. cbn [bind]. rewrite Hr. cbn [bind]. rewrite Hu. cbn [bind].
    reflexivity. }
  cbn [s_p raw_data re_data ue_data rber uber read_back md_p]. done.
Qed.

(** X24: the identities of the category UNK, and of any category the code
    does not handle, are written in a form the parser refuses: the line
    written for such an identity raises [ValueError] (UNK: the word after
    the category is [bl:...], read as the permutation) or [NameError] (the
    identity is the bare [[DATA]], the warning about the category reads the
    unbound [line_num]). *)
Theorem minimized_output_refused (md : metadata) (items : list (Z * (Z * Z))) :
  ~ known_category md ->
  parse_einsim_output_line (get_minimized_output_string [(run_uid_from_metadata md, items)])
  = Raise (if String.eqb (ecc_category md) "UNK" then ValueError else NameError "line_num").
Proof.
  intros Hcat. destruct (String.eqb_spec (ecc_category md) "UNK") as [E|E].
  - by apply parse_minimized_line_unk.
  - by apply parse_minimized_line_other.
Qed.
End LegacyRoundTrip.


Lemma reaggregation_keeps_summary_witness :
  exists parsed s',
    @Legacy.parse_einsim_output_line LegacySamples.float_as_text
      (LegacyOutput.get_minimized_output_string
         [(@Legacy.run_uid_from_metadata LegacySamples.float_as_text
             LegacyFileSamples.example_metadata, OutputSamples.example_items)])
    = Ok (Some parsed)
    /\ @LegacyFileSpec.line_summary LegacySamples.float_as_text parsed = Ok s'
    /\ Legacy.raw_data s' = Legacy.raw_data (SummarySamples.example_summary [584576191])
    /\ Legacy.uber s' = Legacy.uber (SummarySamples.example_summary [584576191]).
Proof.
  destruct (@reaggregation_keeps_summary LegacySamples.float_as_text
              LegacyFileSamples.example_metadata [584576191]
              [[SummarySamples.entry0; SummarySamples.entry1]]
              (SummarySamples.example_summary [584576191]) OutputSamples.example_items)
    as (parsed & s' & Hparse & _ & Hsum & _ & Hraw & _ & _ & _ & Hu).
  - left. reflexivity.
  - repeat split; reflexivity.
  - reflexivity.
  - vm_compute. reflexivity.
  - intros entry t Hin Ht. cbn [concat app] in Hin.
    apply elem_of_cons in Hin as [->|Hin].
    { vm_compute in Ht. injection Ht as <-. split; discriminate. }
    apply list_elem_of_singleton in Hin as ->.
    vm_compute in Ht. injection Ht as <-. split; discriminate.
  - vm_compute. first [reflexivity | apply perm_swap].
  - exists parsed, s'. exact (conj Hparse (conj Hsum (conj Hraw Hu))).
Defined.

Lemma minimized_output_refused_witness :
  @Legacy.parse_einsim_output_line LegacySamples.float_as_text
    (LegacyOutput.get_minimized_output_string
       [(@Legacy.run_uid_from_metadata LegacySamples.float_as_text
           OutputSamples.unk_metadata, OutputSamples.example_items)])
  = Raise ValueError.
Proof.
  apply (@minimized_output_refused LegacySamples.float_as_text
           OutputSamples.unk_metadata OutputSamples.example_items).
  intros [E|[E|E]]; discriminate E.
Defined.

(** ** More on [script/utils/utils.py]: identities, files, [add_to_hist] *)

Module UtilsFileFacts.
Import Utils UtilsFile UtilsFileSpec ReducerSpec ResFacts Identity IdentityFacts.
Import PyStr TextSpec StrFacts TextFacts RoundTripSpec.

Section WithJson.
Context `{PyJson}.

Lemma parse_einsim_output_file_from_spec (lines : list string) (dirty_data : list run)
    (ecc_code : option json) :
  parse_einsim_output_file_from lines dirty_data ecc_code
  = Ok ((dirty_data ++ omap (line_run [] false) (read_part lines))%list,
        foldl (fun code line =>
                 match line_code line with
                 | Some c => Some c
                 | None => code
                 end) ecc_code (read_part lines)).
Proof.
  revert dirty_data ecc_code. induction lines as [|line rest IH]; intros dirty_data ecc_code.
  - cbn [parse_einsim_output_file_from read_part omap foldl]. by rewrite List.app_nil_r.
  - cbn [parse_einsim_output_file_from read_part].
    destruct (String.eqb line ""); [cbn; by rewrite List.app_nil_r|].
    change (omap (line_run [] false) (line :: read_part rest))
      with (match line_run [] false line with
            | Some r => r :: omap (line_run [] false) (read_part rest)
            | None => omap (line_run [] false) (read_part rest)
            end).
    cbn [foldl]. unfold line_run at 1.
    assert (Hcode : line_code line
                    = if startswith "[ECC]" line then json_loads (drop 6 line) else None)
      by reflexivity.
    destruct (parse_einsim_output_line line [] false) as [[r|]|e] eqn:Hp.
    + rewrite IH. rewrite <- List.app_assoc. cbn [app].
      destruct (startswith "[ECC]" line) eqn:Hs.
      { rewrite (ReducerFacts.ecc_line_not_parsed line [] false Hs) in Hp. discriminate Hp. }
      by rewrite Hcode.
    + rewrite Hcode. destruct (startswith "[ECC]" line); [|apply IH].
      destruct (json_loads (drop 6 line)); apply IH.
    + destruct (startswith "[ECC]" line) eqn:Hs.
      { rewrite (ReducerFacts.ecc_line_not_parsed line [] false Hs) in Hp. discriminate Hp. }
      rewrite Hcode.
      apply ParserFacts.parse_exception in Hp. destruct e; try done; apply IH.
Qed.
End WithJson.

Section AddToHist.
Context {K : Type} `{Countable K}.

Lemma cell_step (base : gmap K (gmap K Z)) (entry : K * K * Z) (before after : K) :
  cell (add_to_hist_step base entry) before after
  = cell base before after
    + (if decide (fst (fst entry) = before /\ snd (fst entry) = after)
       then snd entry else 0).
Proof.
  destruct entry as [[b a] c]. unfold cell, add_to_hist_step. cbn [fst snd].
  set (base1 := match base !! b with None => <[b := ∅]> base | Some _ => base end).
  assert (Hrow : default ∅ (base1 !! b) = default ∅ (base !! b)).
  { unfold base1. destruct (base !! b) eqn:E; [by rewrite E|]. by rewrite lookup_insert_eq. }
  rewrite Hrow.
  set (row := default ∅ (base !! b)).
  set (row1 := match row !! a with None => <[a := 0]> row | Some _ => row end).
  assert (Hcell : default 0 (row1 !! a) = default 0 (row !! a)).
  { unfold row1. destruct (row !! a) eqn:E; [by rewrite E|]. by rewrite lookup_insert_eq. }
  assert (Hother : forall a', a' <> a -> row1 !! a' = row !! a').
  { intros a' Ha. unfold row1. destruct (row !! a); [done|]. by rewrite lookup_insert_ne. }
  rewrite Hcell.
  destruct (decide (b = before)) as [->|Hb].
  - rewrite lookup_insert_eq. cbn [default id]. fold row.
    destruct (decide (a = after)) as [->|Ha].
    + rewrite lookup_insert_eq. cbn [default id]. by rewrite decide_True.
    + rewrite lookup_insert_ne by done. rewrite Hother by done.
      rewrite decide_False by tauto. lia.
  - rewrite lookup_insert_ne by done.
    assert (Hb1 : base1 !! before = base !! before).
    { unfold base1. destruct (base !! b); [done|]. by rewrite lookup_insert_ne. }
    rewrite Hb1. rewrite decide_False by tauto. lia.
Qed.

Lemma has_cell_step (base : gmap K (gmap K Z)) (entry : K * K * Z) (before after : K) :
  has_cell (add_to_hist_step base entry) before after
  <-> has_cell base before after
      \/ (fst (fst entry) = before /\ snd (fst entry) = after).
Proof.
  destruct entry as [[b a] c]. unfold has_cell, add_to_hist_step. cbn [fst snd].
  set (base1 := match base !! b with None => <[b := ∅]> base | Some _ => base end).
  assert (Hrow : default ∅ (base1 !! b) = default ∅ (base !! b)).
  { unfold base1. destruct (base !! b) eqn:E; [by rewrite E|]. by rewrite lookup_insert_eq. }
  rewrite Hrow.
  set (row := default ∅ (base !! b)).
  set (row1 := match row !! a with None => <[a := 0]> row | Some _ => row end).
  assert (Hother : forall a', a' <> a -> row1 !! a' = row !! a').
  { intros a' Ha. unfold row1. destruct (row !! a); [done|]. by rewrite lookup_insert_ne. }
  destruct (decide (b = before)) as [->|Hb].
  - rewrite lookup_insert_eq. destruct (decide (a = after)) as [->|Ha].
    + split; [intros _; by right|]. intros _. eexists. split; [done|].
      rewrite lookup_insert_eq. by eexists.
    + split.
      * intros (r & [= <-] & Hr). rewrite lookup_insert_ne, Hother in Hr by done.
        left. unfold row in Hr. destruct (base !! before) as [r0|] eqn:E.
        -- exists r0. by split.
        -- cbn [default id] in Hr. rewrite lookup_empty in Hr. by destruct Hr.
      * intros [(r & Hr & Ha')|[_ ?]]; [|done]. eexists. split; [done|].
        rewrite lookup_insert_ne, Hother by done. unfold row. by rewrite Hr.
  - rewrite lookup_insert_ne by done.
    assert (Hb1 : base1 !! before = base !! before).
    { unfold base1. destruct (base !! b); [done|]. by rewrite lookup_insert_ne. }
    rewrite Hb1. split; [by left|]. intros [?|[? _]]; done.
Qed.
End AddToHist.

(** *** The words of a masked identity *)

Lemma part_word (F : list string) (m : metadata) (f : field) :
  part F m f = " " ++ word F m f.
Proof.
  unfold part, uid_part, word. destruct (str_in (field_key f) F); reflexivity.
Qed.

Lemma flat_words (w : field -> string) (l : list field) (h : string) :
  h ++ flat (map (fun f => " " ++ w f) l) ++ " " = spaced (h :: map w l).
Proof.
  revert h. induction l as [|f l IH]; intros h.
  - cbn [map flat foldr spaced]. reflexivity.
  - cbn [map flat foldr]. change (foldr String.append "" ?x) with (flat x).
    rewrite (app_assoc " " (w f)). rewrite (app_assoc " " (w f ++ _)).
    rewrite (app_assoc (w f)). rewrite IH. reflexivity.
Qed.

Lemma word_no_space (F : list string) (m : metadata) (f : field) :
  plain_metadata m -> has_char " " (word F m f) = false.
Proof.
  intros (Hem & Hcd & Hdp & Hcdp & Hobs). unfold word.
  rewrite !has_char_app.
  assert (Hkey : has_char " " (field_key f) = false) by by destruct f.
  rewrite Hkey. cbn [has_char orb].
  destruct (str_in (field_key f) F); [done|].
  destruct f; cbn [field_value py_str];
    first [by apply str_int_has_char | by apply Hem | by apply Hcd | by apply Hdp
          | by apply Hcdp | by apply Hobs].
Qed.

Lemma run_uid_words (F : list string) (m : metadata) :
  plain_metadata m ->
  split " " (run_uid_from_metadata_ignoring_fields m F ++ " ")
  = ("[DATA]" :: map (word F m) all_fields ++ [""])%list.
Proof.
  intros Hm. rewrite run_uid_flat.
  rewrite (map_ext _ (fun f => " " ++ word F m f)) by (intros f; apply part_word).
  rewrite app_assoc, flat_words. rewrite split_spaced; [done|].
  apply Forall_cons. split; [done|]. apply Forall_map, Forall_forall.
  intros f _. by apply word_no_space.
Qed.
End UtilsFileFacts.

Section UtilsFileTheorems.
Import Utils UtilsFile UtilsFileSpec UtilsFileFacts ReducerSpec Identity IdentityFacts.
Import RoundTripSpec.

(** X25: [parse_einsim_output_file] of [script/utils/utils.py] never raises,
    whatever the lines hold.  It returns the runs of the lines that parse
    and the code of the last side-channel line that decodes: a line on which
    the parser raises and a side-channel line that is no JSON are passed
    over, the decoding standing inside the [try] here. *)
Theorem parse_einsim_output_file_total `{PyJson} (lines : list string) :
  parse_einsim_output_file lines
  = Ok (omap (line_run [] false) (read_part lines), last_code (read_part lines)).
Proof. unfold parse_einsim_output_file. by rewrite parse_einsim_output_file_from_spec. Qed.

(** X26: [add_to_hist] adds up the counts.  After [add_to_hist(base, addend)]
    the count under [before] and [after] is the one of [base] (or [0]) plus
    the counts of all entries of [addend] from [before] to [after], in
    whatever order they come; and the count exists exactly when it existed
    in [base] or [addend] holds such an entry. *)
Theorem add_to_hist_cells {K : Type} `{Countable K} (base : gmap K (gmap K Z))
    (addend : list (K * K * Z)) (before after : K) :
  cell (add_to_hist base addend) before after
  = cell base before after + added addend before after
  /\ (has_cell (add_to_hist base addend) before after
      <-> has_cell base before after \/ exists count, (before, after, count) ∈ addend).
Proof.
  unfold add_to_hist, added. revert base.
  induction addend as [|entry addend IH]; intros base.
  - cbn [foldl foldr]. split; [lia|]. split; [by left|].
    intros [?|[c Hc]]; [done|]. by apply elem_of_nil in Hc.
  - cbn [foldl foldr]. destruct (IH (add_to_hist_step base entry)) as [Hcell Hhas].
    rewrite Hcell, Hhas, cell_step, has_cell_step. split.
    + destruct (decide _); lia.
    + destruct entry as [[b a] c]. cbn [fst snd]. split.
      * intros [[?|[-> ->]]|[c' Hc']]; [by left| |].
        -- right. exists c. apply list_elem_of_here.
        -- right. exists c'. by apply list_elem_of_further.
      * intros [?|[c' Hc']]; [by left; left|].
        apply elem_of_cons in Hc' as [[= -> -> ->]|Hc']; [left; by right|].
        right. by exists c'.
Qed.

(** X27: on metadata whose texts hold neither a space nor an opening bracket
    (as the metadata of every parsed run do), the masked identity tells the
    metadata apart exactly by the fields outside the mask: two identities
    are equal if and only if every field that is not masked has the same
    text in both. *)
Theorem masked_identity_injective (F : list string) (m1 m2 : metadata) :
  plain_metadata m1 -> plain_metadata m2 ->
  run_uid_from_metadata_ignoring_fields m1 F = run_uid_from_metadata_ignoring_fields m2 F
  <-> forall f, str_in (field_key f) F = false ->
                py_str (field_value f m1) = py_str (field_value f m2).
Proof.
  intros H1 H2. split.
  - intros E f Hf.
    pose proof (run_uid_words F m1 H1) as W1. pose proof (run_uid_words F m2 H2) as W2.
    rewrite E in W1. rewrite W1 in W2. apply (f_equal tail) in W2. cbn [tail] in W2.
    apply List.app_inv_tail in W2. rename W2 into W.
    assert (Hw : word F m1 f = word F m2 f).
    { assert (Hin : f ∈ all_fields)
        by (apply (bool_decide_unpack _); destruct f; vm_compute; exact I).
      apply list_elem_of_lookup in Hin as [i Hi].
      assert (Hi1 : map (word F m1) all_fields !! i = Some (word F m1 f))
        by (by rewrite list_lookup_fmap, Hi).
      rewrite W, list_lookup_fmap, Hi in Hi1. by injection Hi1. }
    unfold word in Hw. rewrite Hf in Hw.
    by do 2 apply StrFacts.app_inv_head in Hw.
  - intros Hall. rewrite !run_uid_flat. f_equal. f_equal.
    apply map_ext. intros f. destruct (str_in (field_key f) F) eqn:Hf.
    + by apply part_masked.
    + apply part_unmasked; [done|]. by apply Hall.
Qed.
End UtilsFileTheorems.

(** A file with a run, an undecodable code, a malformed line and a code. *)
Example parse_einsim_output_file_mixed :
  @UtilsFile.parse_einsim_output_file ReducerSamples.only_empty_object
    UtilsFileSamples.mixed_lines
  = Ok ([Samples.per_bit_run 1 256 768 0 [] [1; 0; 2] [0; 0; 1]], Some tt).
Proof. vm_compute. reflexivity. Qed.

Example add_to_hist_transitions :
  UtilsFile.add_to_hist ∅ UtilsFileSamples.transitions
  = <[0 := <[1 := 5]> ∅]> (<[1 := <[1 := 5]> ∅]> ∅).
Proof. vm_compute. reflexivity. Qed.

Lemma masked_identity_injective_witness :
  Utils.run_uid_from_metadata_ignoring_fields
    (Utils.run_metadata (Samples.per_bit_run 1 256 768 0 ["nw"] [1; 0; 2] [0; 0; 1])) ["nw"]
  = Utils.run_uid_from_metadata_ignoring_fields
      (Utils.run_metadata (Samples.per_bit_run 3 256 768 0 ["nw"] [4; 1; 0] [2; 0; 0])) ["nw"].
Proof.
  apply (masked_identity_injective ["nw"]).
  - repeat split; reflexivity.
  - repeat split; reflexivity.
  - intros f Hf. destruct f; try reflexivity. discriminate Hf.
Defined.

Section LegacyIdentity.
Import Legacy LegacyOutput LegacyOutputSpec LegacyOutputFacts.
Context `{PyFloat}.

Lemma uid_read_back (md : metadata) :
  known_category md ->
  run_uid_from_metadata (read_back md (md_rber md)) = run_uid_from_metadata md.
Proof.
  intros Hcat. unfold run_uid_from_metadata, read_back.
  cbn [ecc_category md_t md_k md_n md_m md_rber md_bl md_bcl md_ps md_ed md_cd md_dp].
  destruct Hcat as [E|[E|E]]; rewrite E; reflexivity.
Qed.

(** X28: in [script/utils.py] the identity of a run of the category REP, HSC
    or BCH determines its metadata up to the permutation.  For two such
    metadata, written without space and opening bracket and with an [rber]
    that is read back from its text, the identities are equal if and only
    if the metadata agree on the category, [t], [k], [n], [rber], [bl],
    [bcl], [ps], [ed], [cd], [dp], and on [m] for BCH. *)
Theorem legacy_identity_injective (md1 md2 : metadata) :
  known_category md1 -> known_category md2 ->
  plain_fields md1 -> plain_fields md2 ->
  float_of_string (str_float (md_rber md1)) = Some (md_rber md1) ->
  float_of_string (str_float (md_rber md2)) = Some (md_rber md2) ->
  run_uid_from_metadata md1 = run_uid_from_metadata md2
  <-> read_back md1 (md_rber md1) = read_back md2 (md_rber md2).
Proof.
  intros Hc1 Hc2 Hp1 Hp2 Hx1 Hx2. split.
  - intros E.
    pose proof (parse_minimized_line md1 [] _ Hc1 Hp1 Hx1) as P1.
    pose proof (parse_minimized_line md2 [] _ Hc2 Hp2 Hx2) as P2.
    rewrite E, P2 in P1. congruence.
  - intros E. rewrite <- (uid_read_back md1 Hc1), <- (uid_read_back md2 Hc2). by rewrite E.
Qed.
End LegacyIdentity.

Lemma legacy_identity_injective_witness :
  @Legacy.run_uid_from_metadata LegacySamples.float_as_text LegacyFileSamples.example_metadata
  = @Legacy.run_uid_from_metadata LegacySamples.float_as_text
      (@Legacy.mk_metadata LegacySamples.float_as_text "REP" 11 1 4 12 (-1) "1e-06" 256 768 0
         "UNIFORM_RANDOM" "ALL_TRUE_OR_ALL_ANTI" "RANDOM").
Proof.
  apply (@legacy_identity_injective LegacySamples.float_as_text).
  - left. reflexivity.
  - left. reflexivity.
  - repeat split; reflexivity.
  - repeat split; reflexivity.
  - reflexivity.
  - reflexivity.
  - reflexivity.
Defined.

Lemma per_bit_round_trip_witness :
  let a := Samples.per_bit_run 1 256 768 0 ["nw"] [1; 0; 2] [0; 0; 1] in
  let b := Samples.per_bit_run 3 256 768 0 ["nw"] [4; 1; 0] [2; 0; 0] in
  exists rec out r',
    Utils.combine_runs [a; b] ["nw"] = Ok rec
    /\ LimitSpec.identity_within_limit (Utils.run_metadata rec)
    /\ LimitSpec.counters_within_limit rec
    /\ Utils.get_output_string rec = Ok out
    /\ Utils.parse_einsim_output_line out [] false = Ok (Some r')
    /\ Utils.observations r' = Utils.observations rec
    /\ Utils.uid r' = Utils.uid rec.
Proof.
  intros a b.
  destruct (Utils.combine_runs [a; b] ["nw"]) as [rec|e] eqn:Hc;
    [|vm_compute in Hc; discriminate Hc].
  assert (Hlim : LimitSpec.identity_within_limit (Utils.run_metadata rec)
                 /\ LimitSpec.counters_within_limit rec).
  { pose proof Hc as Hrec. vm_compute in Hrec. injection Hrec as <-.
    split; [repeat split; reflexivity|repeat constructor]. }
  destruct Hlim as [Hid Hcnt].
  destruct (RoundTripFacts.per_bit_round_trip [a; b] ["nw"] [] rec) as [Hwritten _].
  - apply Forall_cons. split.
    + exists Samples.per_bit_line_256, ["nw"]. vm_compute. reflexivity.
    + apply Forall_cons. split; [|apply Forall_nil; exact I].
      exists Samples.per_bit_line_256_more, ["nw"]. vm_compute. reflexivity.
  - exact Hc.
  - exact Hid.
  - destruct (Hwritten Hcnt) as (out & r' & Hout & Hparse & Hobs & Huid).
    exists rec, out, r'.
    exact (conj eq_refl (conj Hid (conj Hcnt (conj Hout (conj Hparse (conj Hobs Huid)))))).
Defined.
